(** * Well-plan scheduling core: shallow embedding and verified properties

    The development models the plan-construction engine of the [wellplan]
    package: the data model ([core/]), the team manager and the travel-time
    models ([services/team_manager.py]), the NPV cost function
    ([services/cost.py]), the constraint manager ([services/constraint.py]),
    the plan builder ([builder.py]), the whole-plan annealing step
    ([services/optimization.py]), and the linear production profile and the
    oil constraint with the calendar they read ([services/production.py],
    [services/constraint.py]).

    Conventions of the embedding:
    - a Python [float] is a binary64 primitive float; [math.exp], [**] with a
      float exponent and [timedelta(days=x)] belong to the Python runtime and
      are taken as operations of the class [PyLib]; a float division whose
      divisor can be zero raises ZeroDivisionError ([float_div]);
    - a [datetime] is the number of microseconds since 0001-01-01T00:00 and a
      [timedelta] a number of microseconds, both in [Z]; the range of the
      library (the years MINYEAR to MAXYEAR) is checked where the plan
      builder and the team manager build a date ([datetime_jan1],
      [datetime_add]), and is not represented in the production profiles,
      the monthly production dates of a plan and the whole-plan annealing
      step;
    - the process-wide pseudo-random source of module [random] is an explicit
      state threaded through every function that draws from it;
    - a raised exception is the [Raise] outcome of the [result] monad; a loop
      whose model runs on fuel ends in [OutOfFuel] when the fuel is spent; an
      operation of the runtime or a travel-time model, which always ends, has
      an [outcome]: a value or an exception;
    - a [dict] is a [gmap], a [set] a [gset]; where the insertion order of a
      dict is observed the dict is an association list. *)

From Stdlib Require Import ZArith List Floats Lia Bool String Ascii.
From stdpp Require Import gmap strings list sorting.
Import ListNotations.

Set Warnings "-inexact-float".
Local Open Scope Z_scope.

(** ** The Python runtime *)

Module Py.

(** The exceptions the modelled code can raise. *)
Inductive exn : Set :=
| ValueError
| TypeError
| KeyError
| IndexError
| FrozenInstanceError
| ZeroDivisionError
| OverflowError.

(** Outcome of a call: a value, a raised exception, or fuel exhaustion of a
    loop whose model is bounded by fuel. *)
Inductive result (A : Type) : Type :=
| Ok (a : A)
| Raise (e : exn)
| OutOfFuel.

Arguments Ok {A} a.
Arguments Raise {A} e.
Arguments OutOfFuel {A}.

#[global] Instance result_ret : MRet result := fun A a => Ok a.

#[global] Instance result_bind : MBind result := fun A B f m =>
  match m with
  | Ok a => f a
  | Raise e => Raise e
  | OutOfFuel => OutOfFuel
  end.

Definition is_Ok {A} (r : result A) : bool :=
  match r with Ok _ => true | _ => false end.

(** Outcome of a call that cannot run on (an operation of the runtime, a
    travel-time model): a value or a raised exception. *)
Inductive outcome (A : Type) : Type :=
| Val (a : A)
| Exn (e : exn).

Arguments Val {A} a.
Arguments Exn {A} e.

#[global] Instance outcome_ret : MRet outcome := fun A a => Val a.

#[global] Instance outcome_bind : MBind outcome := fun A B f m =>
  match m with
  | Val a => f a
  | Exn e => Exn e
  end.

(** Such a call as a step of a function that may run on. *)
Definition call {A} (o : outcome A) : result A :=
  match o with
  | Val a => Ok a
  | Exn e => Raise e
  end.

(** [for x in l: acc = body(acc, x)] where the body may raise. *)
Fixpoint for_each {A S : Type} (body : S -> A -> result S) (l : list A) (s : S) : result S :=
  match l with
  | [] => Ok s
  | x :: l' => s' ← body s x; for_each body l' s'
  end.

(** [[f(x) for x in l]] where [f] may raise. *)
Fixpoint map_result {A B : Type} (f : A -> result B) (l : list A) : result (list B) :=
  match l with
  | [] => Ok []
  | x :: l' => y ← f x; ys ← map_result f l'; Ok (y :: ys)
  end.

(** *** Floats *)

(** [float(z)] for a Python [int]: round to nearest, ties to even. *)
Definition float_of_Z (z : Z) : float :=
  SF2Prim (SpecFloat.binary_normalize prec emax z 0 false).

Definition is_nan (x : float) : bool := negb (PrimFloat.eqb x x).

Definition is_infinite (x : float) : bool := PrimFloat.eqb (PrimFloat.abs x) infinity.

(** [float(z)] where an [int] meets a float in arithmetic: OverflowError
    for an [int] too large for a float. *)
Definition float_of_int (z : Z) : outcome float :=
  let x := float_of_Z z in
  if is_infinite x then Exn OverflowError else Val x.

(** [x / y] on floats: ZeroDivisionError for a zero divisor. *)
Definition float_div (x y : float) : outcome float :=
  if PrimFloat.eqb y 0 then Exn ZeroDivisionError else Val (PrimFloat.div x y).

(** [math.sqrt(x)]: ValueError for a negative [x]. *)
Definition math_sqrt (x : float) : outcome float :=
  if PrimFloat.ltb x 0 then Exn ValueError else Val (PrimFloat.sqrt x).

(** [x == y] as containers evaluate it ([list.remove], tuple comparison):
    the identity test comes first, so a value always equals itself. *)
Definition float_eq (x y : float) : bool :=
  PrimFloat.eqb x y || (is_nan x && is_nan y).

(** [sum(l)]: the items are added from left to right, starting from [0]
    (the plain loop of [sum]; the compensated summation of floats that
    CPython has from version 3.12 on is not modelled). *)
Definition py_sum (l : list float) : float := fold_left PrimFloat.add l 0%float.

(** [max(a, b)] and [min(a, b)] on floats: the first argument wins ties and
    unordered comparisons. *)
Definition fmax (a b : float) : float := if PrimFloat.ltb a b then b else a.
Definition fmin (a b : float) : float := if PrimFloat.ltb b a then b else a.

(** *** [min] and [max] with a key *)

(** [min(l, key=...)] keeps the first item whose key is minimal: a later
    item replaces the current one only when its key is strictly smaller.
    [lt x y] is the comparison [key(x) < key(y)]. *)
Fixpoint min_from {A : Type} (lt : A -> A -> bool) (best : A) (l : list A) : A :=
  match l with
  | [] => best
  | x :: l' => min_from lt (if lt x best then x else best) l'
  end.

Definition min_by {A : Type} (lt : A -> A -> bool) (l : list A) : result A :=
  match l with
  | [] => Raise ValueError
  | x :: l' => Ok (min_from lt x l')
  end.

(** [max(l, key=...)]: a later item replaces the current one only when its
    key is strictly greater, so [max] is [min] for the converse order. *)
Definition max_by {A : Type} (gt : A -> A -> bool) (l : list A) : result A :=
  min_by gt l.

(** *** The module [random] *)

(** The generator state and its two primitive draws: [random.random()], a
    float in [0, 1), and [_randbelow(n)], an integer below [n]. *)
Class RandomSource (G : Type) := {
  random : G -> float * G;
  _randbelow : nat -> G -> nat * G;
}.

Section Random.
Context {G : Type} `{RandomSource G}.

(** [random.uniform(a, b)] is [a + (b - a) * random()]. *)
Definition uniform (a b : float) (g : G) : float * G :=
  let '(u, g') := random g in
  (PrimFloat.add a (PrimFloat.mul (PrimFloat.sub b a) u), g').

(** [random.choice(seq)]: [seq[_randbelow(len(seq))]]; an empty sequence
    raises IndexError. *)
Definition choice {A : Type} (l : list A) (g : G) : result (A * G) :=
  match l with
  | [] => Raise IndexError
  | x :: _ =>
      let '(k, g') := _randbelow (length l) g in
      Ok (nth (k mod length l)%nat l x, g')
  end.

(** [random.choice(seq)] together with the position of the chosen item, for
    a caller that goes on to mutate the item in place. *)
Definition choice_pos {A : Type} (l : list A) (g : G) : result (nat * A * G) :=
  match l with
  | [] => Raise IndexError
  | x :: _ =>
      let '(k, g') := _randbelow (length l) g in
      Ok ((k mod length l)%nat, nth (k mod length l)%nat l x, g')
  end.

(** [random.randint(a, b)]: [a + _randbelow(b - a + 1)]; an empty range
    raises ValueError. *)
Definition randint (a b : Z) (g : G) : result (Z * G) :=
  let width := b - a + 1 in
  if width <=? 0 then Raise ValueError
  else
    let '(k, g') := _randbelow (Z.to_nat width) g in
    Ok (a + Z.of_nat (k mod Z.to_nat width)%nat, g').

(** [random.sample(range(n), 2)]: two distinct positions, drawn from a pool
    from which the first pick is replaced by the last element. *)
Definition sample2 (n : nat) (g : G) : result ((nat * nat) * G) :=
  if (n <? 2)%nat then Raise ValueError
  else
    let '(j1, g1) := _randbelow n g in
    let j1 := (j1 mod n)%nat in
    let '(j2, g2) := _randbelow (n - 1) g1 in
    let j2 := (j2 mod (n - 1))%nat in
    Ok ((j1, if (j2 =? j1)%nat then (n - 1)%nat else j2), g2).

End Random.

End Py.

(** ** [datetime] and [timedelta] *)

Module Datetime.

(** Microseconds since 0001-01-01T00:00:00 ([datetime.min] is [0]). *)
Definition datetime : Type := Z.
(** A signed number of microseconds. *)
Definition timedelta : Type := Z.

Definition us_per_day : Z := 86400000000.

Definition datetime_min : datetime := 0.

(** [timedelta(days=n)] for an integer [n]. *)
Definition days (n : Z) : timedelta := n * us_per_day.

(** [td.days]: the whole days of a normalised timedelta (floor). *)
Definition td_days (td : timedelta) : Z := td / us_per_day.

(** The proleptic Gregorian calendar of the library ([_days_before_year],
    [_ord2ymd]); only the year is needed here. *)
Definition _days_before_year (year : Z) : Z :=
  let y := year - 1 in y * 365 + y / 4 - y / 100 + y / 400.

Definition _DI400Y : Z := 146097.
Definition _DI100Y : Z := 36524.
Definition _DI4Y : Z := 1461.

Definition _ord2year (n : Z) : Z :=
  let n := n - 1 in
  let n400 := n / _DI400Y in
  let n := n mod _DI400Y in
  let year := n400 * 400 + 1 in
  let n100 := n / _DI100Y in
  let n := n mod _DI100Y in
  let n4 := n / _DI4Y in
  let n := n mod _DI4Y in
  let n1 := n / 365 in
  let year := year + n100 * 100 + n4 * 4 + n1 in
  if (n1 =? 4) || (n100 =? 4) then year - 1 else year.

(** [dt.toordinal()] and [dt.year]. *)
Definition toordinal (dt : datetime) : Z := dt / us_per_day + 1.
Definition year (dt : datetime) : Z := _ord2year (toordinal dt).

(** January 1 of the year [y], at midnight. *)
Definition jan1 (y : Z) : datetime := _days_before_year y * us_per_day.

Definition MINYEAR : Z := 1.
Definition MAXYEAR : Z := 9999.

(** [datetime(y, 1, 1)]: ValueError for a year outside
    [MINYEAR .. MAXYEAR]. *)
Definition datetime_jan1 (y : Z) : Py.result datetime :=
  if (MINYEAR <=? y) && (y <=? MAXYEAR) then Py.Ok (jan1 y) else Py.Raise Py.ValueError.

(** The dates of the library: [datetime.min] up to [datetime.max], the last
    microsecond of the year [MAXYEAR]. *)
Definition in_range (dt : datetime) : bool := (0 <=? dt) && (dt <? jan1 (MAXYEAR + 1)).

(** [dt + td]: OverflowError when the sum is no date of the library. *)
Definition datetime_add (dt : datetime) (td : timedelta) : Py.result datetime :=
  let sum := dt + td in
  if in_range sum then Py.Ok sum else Py.Raise Py.OverflowError.

(** [x or datetime.min] for an optional date (a datetime is always truthy). *)
Definition or_min (d : option datetime) : datetime := default datetime_min d.

End Datetime.

Export Py Datetime.

(** The operations of the Python runtime that are not modelled: [x ** y]
    on floats, over the C library's [pow] (its value, ZeroDivisionError for
    zero to a negative power, OverflowError for a result out of range; a
    negative [x] with a non-integral [y], where Python gives a complex
    number, is outside the model), the [exp] behind [math.exp], and
    [timedelta(days=x)] (the rounding to whole microseconds, ValueError for
    a NaN, OverflowError for an infinite [x] or more than 999999999
    days). *)
Class PyLib := {
  float_pow : float -> float -> outcome float;
  math_exp : float -> float;
  timedelta_of_days : float -> outcome timedelta;
}.

(** ** Strings: the few [str] methods the task codes go through *)

Module Str.

Definition is_space (c : ascii) : bool :=
  let n := nat_of_ascii c in
  ((9 <=? n) && (n <=? 13))%nat || (n =? 32)%nat.

Fixpoint lstrip (s : string) : string :=
  match s with
  | String c s' => if is_space c then lstrip s' else s
  | EmptyString => EmptyString
  end.

Fixpoint rstrip (s : string) : string :=
  match s with
  | String c s' =>
      match rstrip s' with
      | EmptyString => if is_space c then EmptyString else String c EmptyString
      | r => String c r
      end
  | EmptyString => EmptyString
  end.

(** [s.strip()] (ASCII white space). *)
Definition strip (s : string) : string := rstrip (lstrip s).

(** [s.split(sep)] for a one-character separator. *)
Fixpoint split (sep : ascii) (s : string) : list string :=
  match s with
  | EmptyString => [EmptyString]
  | String c s' =>
      if Ascii.eqb c sep then EmptyString :: split sep s'
      else
        match split sep s' with
        | w :: ws => String c w :: ws
        | [] => [String c EmptyString]
        end
  end.

(** [s.upper()] on UTF-8 bytes: ASCII letters and the Russian alphabet
    (а-п are D0 B0..BF, р-я are D1 80..8F, ё is D1 91); other characters
    are left as they are. *)
Fixpoint upper_bytes (l : list nat) : list nat :=
  match l with
  | [] => []
  | 208%nat :: b :: l' =>
      if ((176 <=? b) && (b <=? 191))%nat then 208%nat :: (b - 32)%nat :: upper_bytes l'
      else 208%nat :: b :: upper_bytes l'
  | 209%nat :: b :: l' =>
      if ((128 <=? b) && (b <=? 143))%nat then 208%nat :: (b + 32)%nat :: upper_bytes l'
      else if (b =? 145)%nat then 208%nat :: 129%nat :: upper_bytes l'
      else 209%nat :: b :: upper_bytes l'
  | b :: l' =>
      (if ((97 <=? b) && (b <=? 122))%nat then (b - 32)%nat else b) :: upper_bytes l'
  end.

Definition upper (s : string) : string :=
  string_of_list_ascii
    (map ascii_of_nat (upper_bytes (map nat_of_ascii (list_ascii_of_string s)))).

(** [needle in hay] for two strings. *)
Fixpoint contains (needle hay : string) : bool :=
  String.prefix needle hay ||
  match hay with
  | EmptyString => false
  | String _ hay' => contains needle hay'
  end.

End Str.

(** ** core/task.py *)

Module Task.

Inductive t : Set := DRILLING | GTM.

#[global] Instance eq_dec : EqDecision t.
Proof. solve_decision. Defined.

#[global] Instance countable : Countable t.
Proof.
  refine (inj_countable' (fun x => match x with DRILLING => false | GTM => true end)
            (fun b : bool => if b then GTM else DRILLING) _).
  by intros [].
Defined.

Definition eqb (a b : t) : bool := bool_decide (a = b).

(** The members in definition order, as iterating the enumeration gives them. *)
Definition members : list t := [DRILLING; GTM].

Definition name (x : t) : string :=
  match x with DRILLING => "DRILLING" | GTM => "GTM" end.

Definition duration (x : t) : timedelta :=
  match x with DRILLING => days 30 | GTM => days 20 end.

(** [code in task.aliases]: the aliases of DRILLING are a tuple of three
    codes; those of GTM are the string ["ГРП"] itself (the parentheses make
    no tuple), so the test is a substring test. *)
Definition in_aliases (code : string) (x : t) : bool :=
  match x with
  | DRILLING =>
      bool_decide (code ∈ ["ГС"; "ННС"; "МЗС"])
  | GTM => Str.contains code "ГРП"
  end.

Definition from_code (code : string) : result t :=
  let code := Str.upper code in
  match List.find (fun task => String.eqb code (name task) || in_aliases code task) members with
  | Some task => Ok task
  | None => Raise ValueError
  end.

End Task.

(** ** core/team.py *)

Module Team.

(** A team: its identifier (a UUID, here a number) and the tasks it can
    perform.  Teams are compared by value. *)
Record t : Type := mk { id : N; supported_tasks : gset Task.t }.

#[global] Instance eq_dec : EqDecision t.
Proof. solve_decision. Defined.

#[global] Instance countable : Countable t.
Proof.
  refine (inj_countable' (fun x => (id x, supported_tasks x))
            (fun p => mk p.1 p.2) _).
  by intros [].
Defined.

End Team.

Module TeamPool.

(** [_task_teams_map]: for each task the teams able to perform it, in the
    order they were added. *)
Record t : Type := mk { _task_teams_map : gmap Task.t (list Team.t) }.

(** [TeamPool()]. *)
Definition empty : t := mk ∅.

(** A capability is given as a task or as a task code. *)
Definition decode (x : Task.t + string) : result Task.t :=
  match x with
  | inl task => Ok task
  | inr code => Task.from_code code
  end.

(** [add_team(supported_tasks)]; [new_id] is the identifier [uuid4()] gives
    the new team. *)
Definition add_team (supported_tasks : list (Task.t + string)) (new_id : N) (pool : t) : result t :=
  tasks ← map_result decode supported_tasks;
  let tasks : gset Task.t := list_to_set tasks in
  let team := Team.mk new_id tasks in
  Ok (mk (foldr (fun task m => <[task := default [] (m !! task) ++ [team]]> m)
            (_task_teams_map pool) (elements tasks))).

(** [add_teams(supported_tasks, num_teams)], with one fresh identifier per
    team. *)
Definition add_teams (supported_tasks : list (Task.t + string)) (new_ids : list N) (pool : t) : result t :=
  for_each (fun pool new_id => add_team supported_tasks new_id pool) new_ids pool.

Definition get_teams_for_task (pool : t) (task : Task.t) : list Team.t :=
  default [] (_task_teams_map pool !! task).

Definition supported_tasks (pool : t) : gset Task.t := dom (_task_teams_map pool).

Definition teams (pool : t) : gset Team.t :=
  map_fold (fun _ team_list acc => list_to_set team_list ∪ acc) ∅ (_task_teams_map pool).

End TeamPool.

(** ** core/well.py *)

Module Well.

Record t : Type := mk {
  name : string;
  cluster : string;
  field : string;
  layer : string;
  purpose : string;
  well_type : string;
  oil_rate : float;
  liq_rate : float;
  length : float;
  init_entry_date : option datetime;
  readiness_date : option datetime;
  depend_from_cluster : option string;
}.

(** The [tasks] property: one task per [+]-separated code of [well_type]. *)
Definition tasks (w : t) : result (list Task.t) :=
  map_result (fun code => Task.from_code (Str.strip code)) (Str.split "+"%char (well_type w)).

(** [w1 == w2]: the generated dataclass equality compares the fields in
    order. *)
Definition eqb (w1 w2 : t) : bool :=
  String.eqb (name w1) (name w2) && String.eqb (cluster w1) (cluster w2)
  && String.eqb (field w1) (field w2) && String.eqb (layer w1) (layer w2)
  && String.eqb (purpose w1) (purpose w2) && String.eqb (well_type w1) (well_type w2)
  && float_eq (oil_rate w1) (oil_rate w2) && float_eq (liq_rate w1) (liq_rate w2)
  && float_eq (length w1) (length w2)
  && bool_decide (init_entry_date w1 = init_entry_date w2)
  && bool_decide (readiness_date w1 = readiness_date w2)
  && bool_decide (depend_from_cluster w1 = depend_from_cluster w2).

End Well.

(** [l.remove(x)]: drops the first item equal to [x]; ValueError when there
    is none. *)
Fixpoint list_remove {A : Type} (eqb : A -> A -> bool) (x : A) (l : list A) : result (list A) :=
  match l with
  | [] => Raise ValueError
  | y :: l' => if eqb y x then Ok l' else l'' ← list_remove eqb x l'; Ok (y :: l'')
  end.

(** ** core/plan.py *)

(** A value stored in [metadata]: an [int] (team counts) or a [float]. *)
Inductive num : Set :=
| Int (z : Z)
| Float (f : float).

Definition to_float (v : num) : float :=
  match v with Int z => float_of_Z z | Float f => f end.

(** A number where it meets a float in arithmetic. *)
Definition as_float (v : num) : outcome float :=
  match v with Int z => float_of_int z | Float f => Val f end.

(** [a * b] on numbers: the product of two [int]s is an [int], any other
    product a float. *)
Definition num_mul (a b : num) : outcome num :=
  match a, b with
  | Int x, Int y => Val (Int (x * y))
  | _, _ => x ← as_float a; y ← as_float b; Val (Float (x * y))
  end.

Module ScheduleEntry.

(** A frozen dataclass: its fields cannot be assigned after construction. *)
Record t : Type := mk {
  task : Task.t;
  team : Team.t;
  start : datetime;
  end_ : datetime;
  travel_time : timedelta;
}.

(** [entry.field = value], also behind [entry.field += value]: the class is
    declared [frozen=True], so the assignment raises. *)
Definition __setattr__ (entry : t) (field : string) (value : Z + Team.t) : result t :=
  Raise FrozenInstanceError.

End ScheduleEntry.

Module WellPlanContext.

Record t : Type := mk {
  well : Well.t;
  start : datetime;
  end_ : datetime;
  entries : list ScheduleEntry.t;
  cost : option float;
  oil_prod_profile : list float;
  liq_prod_profile : list float;
  metadata : gmap string num;
}.

(** [WellPlanContext(well, start=..., end=...)]. *)
Definition new (w : Well.t) (start_ end__ : datetime) : t :=
  mk w start_ end__ [] None [] [] ∅.

Definition set_entries (c : t) (es : list ScheduleEntry.t) : t :=
  mk (well c) (start c) (end_ c) es (cost c) (oil_prod_profile c) (liq_prod_profile c) (metadata c).

Definition set_cost (c : t) (x : option float) : t :=
  mk (well c) (start c) (end_ c) (entries c) x (oil_prod_profile c) (liq_prod_profile c) (metadata c).

Definition set_profiles (c : t) (oil liq : list float) : t :=
  mk (well c) (start c) (end_ c) (entries c) (cost c) oil liq (metadata c).

Definition set_metadata (c : t) (m : gmap string num) : t :=
  mk (well c) (start c) (end_ c) (entries c) (cost c) (oil_prod_profile c) (liq_prod_profile c) m.

(** [max(entry.end for entry in entries)] of a non-empty list. *)
Definition max_end (e : ScheduleEntry.t) (es : list ScheduleEntry.t) : datetime :=
  fold_left (fun acc e' => if acc <? ScheduleEntry.end_ e' then ScheduleEntry.end_ e' else acc)
    es (ScheduleEntry.end_ e).

Definition get_next_available_date (c : t) : datetime :=
  match entries c with
  | e :: es => max_end e es
  | [] => start c
  end.

Definition get_entry_by_task (c : t) (task : Task.t) : option ScheduleEntry.t :=
  List.find (fun entry => Task.eqb task (ScheduleEntry.task entry)) (entries c).

Definition launch_date (c : t) : result datetime :=
  match entries c with
  | e :: es => Ok (max_end e es)
  | [] => Raise ValueError
  end.

End WellPlanContext.

Module Plan.

Record t : Type := mk { id : N; well_plans : list WellPlanContext.t }.

Definition add_context (p : t) (context : WellPlanContext.t) : t :=
  mk (id p) (well_plans p ++ [context]).

(** [sum(wp.cost for wp in self.well_plans if wp.cost is not None)]. *)
Definition total_profit (p : t) : float :=
  py_sum (omap WellPlanContext.cost (well_plans p)).

(** [get_capex_per_year()]: the [capex] metadata of the planned wells added
    up by launch year; a well without entries has no launch date and is
    skipped. *)
Definition get_capex_per_year (p : t) : gmap Z float :=
  fold_left (fun aggregated wp =>
      match WellPlanContext.launch_date wp with
      | Ok launch_date =>
          let key := year launch_date in
          let value := to_float (default (Float 0) (WellPlanContext.metadata wp !! "capex")) in
          <[key := (default 0%float (aggregated !! key) + value)%float]> aggregated
      | _ => aggregated
      end)
    (well_plans p) ∅.

(** The [start_date] and [end_date] properties: [min] and [max] over a
    generator, a ValueError on a plan without well plans. *)
Definition start_date (p : t) : result datetime :=
  min_by Z.ltb (map WellPlanContext.start (well_plans p)).

Definition end_date (p : t) : result datetime :=
  max_by (fun a b => b <? a) (map WellPlanContext.end_ (well_plans p)).

(** [get_well_cost_by_name(name)]: [next(...)] yields the first well plan
    of that name; a well plan is always truthy, so only the default [None]
    raises. *)
Definition get_well_cost_by_name (p : t) (name : string) : result (option float) :=
  match List.find (fun wp => String.eqb (Well.name (WellPlanContext.well wp)) name)
          (well_plans p) with
  | Some well_plan => Ok (WellPlanContext.cost well_plan)
  | None => Raise ValueError
  end.

Definition get_all_entries (p : t) : list ScheduleEntry.t :=
  flat_map WellPlanContext.entries (well_plans p).

End Plan.

Module ConstraintBound.

Record t : Type := mk { value : float; year : option Z }.

End ConstraintBound.

(** The abstract class [Constraint]: its bounds and its [is_violated]. *)
Record Constraint : Type := {
  bounds : list ConstraintBound.t;
  is_violated : Plan.t -> WellPlanContext.t -> result bool;
}.

(** [min(bs, key=lambda b: b.value, default=None)]. *)
Definition min_bound (bs : list ConstraintBound.t) : option ConstraintBound.t :=
  match bs with
  | [] => None
  | b :: bs' =>
      Some (min_from (fun a b => PrimFloat.ltb (ConstraintBound.value a) (ConstraintBound.value b)) b bs')
  end.

Definition get_applicable_bound (bs : list ConstraintBound.t) (year : Z) : option ConstraintBound.t :=
  let specific_bounds :=
    List.filter (fun b => match ConstraintBound.year b with
                          | Some y => negb (y =? 0) && (y =? year)
                          | None => false
                          end) bs in
  let general_bounds :=
    List.filter (fun b => match ConstraintBound.year b with Some _ => false | None => true end) bs in
  match min_bound specific_bounds, min_bound general_bounds with
  | Some min_specific, Some min_general =>
      if PrimFloat.leb (ConstraintBound.value min_specific) (ConstraintBound.value min_general)
      then Some min_specific else Some min_general
  | Some min_specific, None => Some min_specific
  | None, min_general => min_general
  end.

(** ** services/team_manager.py: travel-time models *)

(** The [BaseMovement] protocol. *)
Record BaseMovement : Type := {
  get_move_days : option string -> string -> outcome float;
}.

(** [from_cluster == to_cluster] for an optional and a plain cluster name. *)
Definition same_cluster (from_cluster : option string) (to_cluster : string) : bool :=
  match from_cluster with
  | Some c => String.eqb c to_cluster
  | None => false
  end.

Module SimpleTeamMovement.

Definition get_move_days (from_cluster : option string) (to_cluster : string) : float :=
  if same_cluster from_cluster to_cluster then 1%float else 14%float.

Definition movement : BaseMovement :=
  Build_BaseMovement (fun from_cluster to_cluster => Val (get_move_days from_cluster to_cluster)).

End SimpleTeamMovement.

Module Coordinate.

Record t : Type := mk { x : float; y : float; z : float }.

Definition distance_to `{PyLib} (self other : t) : outcome float :=
  dx ← float_pow (x self - x other) 2;
  dy ← float_pow (y self - y other) 2;
  dz ← float_pow (z self - z other) 2;
  math_sqrt (dx + dy + dz).

End Coordinate.

Module DistanceTeamMovement.

Record t : Type := mk {
  cluster_coordinates : gmap string Coordinate.t;
  min_days_between_clusters : float;
  team_speed_kmh : float;
  same_cluster_move_days : float;
}.

(** The dataclass defaults. *)
Definition new (cluster_coordinates : gmap string Coordinate.t) : t :=
  mk cluster_coordinates 90 15 1.

Definition get_move_days `{PyLib} (self : t) (from_cluster : option string) (to_cluster : string)
    : outcome float :=
  if same_cluster from_cluster to_cluster then Val (same_cluster_move_days self)
  else
    match from_cluster with
    | None => Val (min_days_between_clusters self)
    | Some from_cluster =>
        match cluster_coordinates self !! from_cluster, cluster_coordinates self !! to_cluster with
        | Some from_coor, Some to_coor =>
            distance_meters ← Coordinate.distance_to from_coor to_coor;
            travel_hours ← float_div distance_meters (team_speed_kmh self * 1000);
            let travel_days := (travel_hours / 24)%float in
            Val (min_days_between_clusters self + travel_days)%float
        | _, _ => Val (min_days_between_clusters self)
        end
    end.

Definition movement `{PyLib} (self : t) : BaseMovement :=
  Build_BaseMovement (get_move_days self).

End DistanceTeamMovement.

(** ** services/team_manager.py: the team manager *)

Module TeamState.

Record t : Type := mk {
  available_from : datetime;
  current_cluster : option string;
}.

(** [TeamState()]. *)
Definition new : t := mk datetime_min None.

End TeamState.

Module TeamManager.

Record t : Type := mk {
  team_pool : TeamPool.t;
  movement : BaseMovement;
  _states : gmap Team.t TeamState.t;
  enable_team_count : bool;
  _usage_counts : gmap Z (gmap Task.t (gset Team.t));
  limits : gmap Z (gmap Task.t Z);
}.

(** [TeamManager(team_pool, movement, enable_team_count, limits)]: one
    fresh state per team of the pool, no usage recorded. *)
Definition new (team_pool : TeamPool.t) (movement : BaseMovement)
    (enable_team_count : bool) (limits : gmap Z (gmap Task.t Z)) : t :=
  mk team_pool movement (gset_to_gmap TeamState.new (TeamPool.teams team_pool))
     enable_team_count ∅ limits.

Definition set_states (self : t) (states : gmap Team.t TeamState.t) : t :=
  mk (team_pool self) (movement self) states (enable_team_count self)
     (_usage_counts self) (limits self).

Definition set_usage_counts (self : t) (usage : gmap Z (gmap Task.t (gset Team.t))) : t :=
  mk (team_pool self) (movement self) (_states self) (enable_team_count self)
     usage (limits self).

(** [self._usage_counts[year][task]]: a missing entry of the nested
    defaultdict reads as the empty set. *)
Definition usage (self : t) (year : Z) (task : Task.t) : gset Team.t :=
  default ∅ (_usage_counts self !! year ≫= (.!! task)).

Definition _check_limit (self : t) (task : Task.t) (year : Z) (team : Team.t) : bool :=
  if bool_decide (limits self = ∅) then true
  else
    match limits self !! year with
    | None => true
    | Some year_limits =>
        if bool_decide (year_limits = ∅) then true
        else
          match year_limits !! task with
          | None => true
          | Some max_count =>
              if bool_decide (team ∈ usage self year task) then true
              else Z.of_nat (size (usage self year task)) <? max_count
          end
    end.

(** [current_usage_set.add(team)] for the set of [(year, task)]. *)
Definition usage_add (self : t) (year : Z) (task : Task.t) (team : Team.t) : t :=
  set_usage_counts self
    (<[year := <[task := {[team]} ∪ usage self year task]>
                 (default ∅ (_usage_counts self !! year))]>
       (_usage_counts self)).

(** The body of the loop of [_record_usage] for one year. *)
Definition record_year (task : Task.t) (team : Team.t) (self : t) (year_to_record : Z) : t :=
  match default ∅ (limits self !! year_to_record) !! task with
  | None => self
  | Some _ =>
      if _check_limit self task year_to_record team
      then usage_add self year_to_record task team
      else self
  end.

Definition relevant_years (self : t) (assignment_year : Z) : list Z :=
  merge_sort Z.le
    (List.filter (fun y => assignment_year <=? y) (elements (dom (limits self)))).

Definition _record_usage (self : t) (task : Task.t) (assignment_year : Z) (team : Team.t) : t :=
  fold_left (record_year task team) (relevant_years self assignment_year) self.

Definition _count_teams_on_cluster_by_task (self : t) (cluster : string)
    (task : option Task.t) (team : option Team.t) : Z :=
  map_fold (fun _team team_state n =>
      if bool_decide (TeamState.current_cluster team_state = Some cluster)
         && match task with
            | None => true
            | Some task => bool_decide (task ∈ Team.supported_tasks _team)
            end
         && bool_decide (Some _team ≠ team)
      then n + 1 else n)
    0 (_states self).

Definition ascii_lower (c : ascii) : ascii :=
  let n := nat_of_ascii c in
  if ((65 <=? n) && (n <=? 90))%nat then ascii_of_nat (n + 32) else c.

(** [f"team_count_{task.name.lower()}"], or ["team_count"] without a task. *)
Definition team_count_key (task : option Task.t) : string :=
  match task with
  | Some task =>
      "team_count_" +:+ string_of_list_ascii (map ascii_lower (list_ascii_of_string (Task.name task)))
  | None => "team_count"
  end.

Definition _count_teams_on_cluster (self : t) (context : WellPlanContext.t)
    (task : option Task.t) (team : option Team.t) : WellPlanContext.t :=
  let count :=
    _count_teams_on_cluster_by_task self (Well.cluster (WellPlanContext.well context)) task team in
  WellPlanContext.set_metadata context
    (<[team_count_key task := Int count]> (WellPlanContext.metadata context)).

Section Scheduling.
Context `{PyLib}.

Definition _get_travel_time (self : t) (state : TeamState.t) (well : Well.t) : result timedelta :=
  move_days ← call (get_move_days (movement self) (TeamState.current_cluster state)
                      (Well.cluster well));
  call (timedelta_of_days move_days).

(** The loop of [_find_available_start_time]: return the current start when
    its year passes the limit check, else move to January 1 of the next
    year. *)
Fixpoint find_start_from (fuel : nat) (self : t) (task : Task.t) (team : Team.t)
    (current_start : datetime) : result datetime :=
  match fuel with
  | O => OutOfFuel
  | S fuel' =>
      let current_year := year current_start in
      if _check_limit self task current_year team then Ok current_start
      else
        current_start ← datetime_jan1 (current_year + 1);
        find_start_from fuel' self task team current_start
  end.

(** Every failed check needs a limit for the year at hand and the years
    only grow, so one round per configured year, plus one, is enough. *)
Definition find_start_fuel (self : t) : nat := S (size (limits self)).

Definition _find_available_start_time (self : t) (task : Task.t) (team : Team.t)
    (travel_time : timedelta) (context : WellPlanContext.t) : result datetime :=
  match _states self !! team with
  | None => Raise KeyError
  | Some state =>
      arrival ← datetime_add (TeamState.available_from state) travel_time;
      let base_start := Z.max arrival (WellPlanContext.get_next_available_date context) in
      find_start_from (find_start_fuel self) self task team base_start
  end.

(** A candidate of [get_assignments]: [(start_time, end_time, team, travel_time)]. *)
Definition candidate : Type := datetime * datetime * Team.t * timedelta.

Definition candidate_end (c : candidate) : datetime := c.1.1.2.

(** The candidate one team offers for a task. *)
Definition team_candidate (self : t) (context : WellPlanContext.t) (task : Task.t)
    (team : Team.t) : result candidate :=
  match _states self !! team with
  | None => Raise KeyError
  | Some state =>
      travel_time ← _get_travel_time self state (WellPlanContext.well context);
      start_time ← _find_available_start_time self task team travel_time context;
      end_time ← datetime_add start_time (Task.duration task);
      Ok (start_time, end_time, team, travel_time)
  end.

(** The candidates of all the teams able to perform the task, in pool order. *)
Definition task_candidates (self : t) (context : WellPlanContext.t) (task : Task.t)
    : result (list candidate) :=
  map_result (team_candidate self context task)
    (TeamPool.get_teams_for_task (team_pool self) task).

Definition entry_of_candidate (task : Task.t) (c : candidate) : ScheduleEntry.t :=
  let '(best_start, best_end, best_team, travel_time) := c in
  ScheduleEntry.mk task best_team best_start best_end travel_time.

(** The body of the loop of [get_assignments] for one task. *)
Definition assign_task (self : t) (context : WellPlanContext.t) (task : Task.t)
    : result WellPlanContext.t :=
  if bool_decide (task ∉ TeamPool.supported_tasks (team_pool self)) then Raise ValueError
  else
    candidates ← task_candidates self context task;
    match candidates with
    | [] => Ok context
    | _ :: _ =>
        best ← min_by (fun a b => candidate_end a <? candidate_end b) candidates;
        let context :=
          WellPlanContext.set_entries context
            (WellPlanContext.entries context ++ [entry_of_candidate task best]) in
        Ok (if enable_team_count self
            then _count_teams_on_cluster self context (Some task) (Some best.1.2)
            else context)
    end.

Definition get_assignments (self : t) (context : WellPlanContext.t) : result WellPlanContext.t :=
  tasks ← Well.tasks (WellPlanContext.well context);
  for_each (assign_task self) tasks context.

(** The body of the loop of [assign] for one entry. *)
Definition assign_entry (cluster : string) (self : t) (entry : ScheduleEntry.t) : t :=
  let self :=
    set_states self
      (<[ScheduleEntry.team entry := TeamState.mk (ScheduleEntry.end_ entry) (Some cluster)]>
         (_states self)) in
  _record_usage self (ScheduleEntry.task entry) (year (ScheduleEntry.start entry))
    (ScheduleEntry.team entry).

Definition assign (self : t) (context : WellPlanContext.t) : t :=
  fold_left (assign_entry (Well.cluster (WellPlanContext.well context)))
    (WellPlanContext.entries context) self.

End Scheduling.

End TeamManager.

(** ** services/cost.py *)

(** The protocols [CapitalCost], [OperationalCost] and [CostFunction]. *)
Record CapitalCost : Type := {
  capex_compute : Well.t -> result float;
}.

Record OperationalCost : Type := {
  opex_compute : list float -> list float -> list float;
}.

Record CostFunction : Type := {
  cost_compute : WellPlanContext.t -> result WellPlanContext.t;
}.

(** [enumerate(l)], the index as a Python [int]. *)
Fixpoint enumerate_from {A : Type} (i : Z) (l : list A) : list (Z * A) :=
  match l with
  | [] => []
  | x :: l' => (i, x) :: enumerate_from (i + 1) l'
  end.

Definition enumerate {A : Type} (l : list A) : list (Z * A) := enumerate_from 0 l.

Module BaseCapex.

Record t : Type := mk {
  build_cost_per_metr : gmap string float;
  equipment : float;
}.

Definition compute (self : t) (well : Well.t) : result float :=
  match build_cost_per_metr self !! Well.well_type well with
  | Some rate => Ok (rate * Well.length well + equipment self)%float
  | None => Raise KeyError
  end.

Definition capital_cost (self : t) : CapitalCost := Build_CapitalCost (compute self).

End BaseCapex.

Module BaseOpex.

Record t : Type := mk {
  oil_cost : float;
  water_cost : float;
  repair_monthly : float;
  maintain_monthly : float;
}.

(** [BaseOpex(oil_cost_per_tone, water_cost_per_tone, repair_per_year,
    maintain_per_year)]. *)
Definition new (oil_cost_per_tone water_cost_per_tone repair_per_year maintain_per_year : float) : t :=
  mk oil_cost_per_tone water_cost_per_tone (repair_per_year / 12)%float (maintain_per_year / 12)%float.

Definition compute (self : t) (monthly_oil_prod monthly_water_prod : list float) : list float :=
  map (fun '(oil, water) =>
         if PrimFloat.eqb oil 0 && PrimFloat.eqb water 0 then 0%float
         else (oil * oil_cost self + water * water_cost self
               + repair_monthly self + maintain_monthly self)%float)
      (combine monthly_oil_prod monthly_water_prod).

Definition operational_cost (self : t) : OperationalCost := Build_OperationalCost (compute self).

End BaseOpex.

Module NPV.

Record t : Type := mk {
  capex_cost : CapitalCost;
  opex_cost : OperationalCost;
  discount_rate : float;
  oil_price : float;
  start : datetime;
  travel_cost_per_day : num;
}.

(** [NPV(oil_price_per_tone, project_start_date, capex_cost, opex_cost)]
    with the default discount rate and travel cost (the [int] 1500000). *)
Definition new (oil_price_per_tone : float) (project_start_date : datetime)
    (capex_cost : CapitalCost) (opex_cost : OperationalCost) : t :=
  mk capex_cost opex_cost 0.125 oil_price_per_tone project_start_date (Int 1500000).

Section Compute.
Context `{PyLib}.

(** [cash_flow / (1 + self.discount_rate) ** years]: the power may raise,
    and the division raises ZeroDivisionError on a factor of zero.  (Below a
    discount rate of -1 the power of a non-integral number of years is a
    complex number in Python; the model covers the rates from -1 on.) *)
Definition _discount (self : t) (cash_flow years : float) : result float :=
  factor ← call (float_pow (1 + discount_rate self) years);
  call (float_div cash_flow factor).

Definition shift_years (self : t) (context : WellPlanContext.t) : float :=
  (float_of_Z (td_days (WellPlanContext.get_next_available_date context - start self)%Z) / 365)%float.

Definition monthly_water (context : WellPlanContext.t) : list float :=
  map (fun '(liq, oil) => (liq - oil)%float)
    (combine (WellPlanContext.liq_prod_profile context) (WellPlanContext.oil_prod_profile context)).

Definition monthly_cash_flows (self : t) (context : WellPlanContext.t) : list float :=
  let monthly_opex :=
    opex_compute (opex_cost self) (WellPlanContext.oil_prod_profile context) (monthly_water context) in
  map (fun '(oil, opex) => (oil * oil_price self - opex)%float)
    (combine (WellPlanContext.oil_prod_profile context) monthly_opex).

(** [entry.travel_time.days * self.travel_cost_per_day if entry else 0.0]. *)
Definition travel_cost (self : t) (context : WellPlanContext.t) : result num :=
  match WellPlanContext.get_entry_by_task context Task.DRILLING with
  | Some entry =>
      call (num_mul (Int (td_days (ScheduleEntry.travel_time entry))) (travel_cost_per_day self))
  | None => Ok (Float 0)
  end.

(** [sum(...)] of the discounted cash flows: the [int] 0 when there is no
    month. *)
Definition sum_of (flows : list float) : num :=
  match flows with
  | [] => Int 0
  | _ :: _ => Float (py_sum flows)
  end.

Definition compute (self : t) (context : WellPlanContext.t) : result WellPlanContext.t :=
  let shift_years := shift_years self context in
  capex ← capex_compute (capex_cost self) (WellPlanContext.well context);
  flows ← map_result (fun '(month, cf) =>
                        _discount self cf (shift_years + float_of_Z month / 12)%float)
             (enumerate (monthly_cash_flows self context));
  let discounted_cash_flows := sum_of flows in
  discounted_capex ← _discount self capex shift_years;
  travel_cost ← travel_cost self context;
  drill_team_penalty ←
    call (num_mul (default (Int 0) (WellPlanContext.metadata context !! "team_count_drilling"))
            travel_cost);
  travel ← call (as_float travel_cost);
  let context :=
    WellPlanContext.set_cost context
      (Some (to_float discounted_cash_flows - discounted_capex - travel)%float) in
  Ok (WellPlanContext.set_metadata context
        (<["drill_team_penalty" := drill_team_penalty]>
           (<["capex" := Float discounted_capex]>
              (<["cash_flow" := discounted_cash_flows]>
                 (<["travel_cost" := travel_cost]> (WellPlanContext.metadata context)))))).

Definition cost_function (self : t) : CostFunction := Build_CostFunction (compute self).

End Compute.

End NPV.

(** ** services/constraint.py *)

Module ConstraintManager.

Record t : Type := mk { constraints : list Constraint }.

(** [time_bounds]: the years the bounds of the constraints name, sorted. *)
Definition time_bounds (self : t) : list Z :=
  let years : gset Z :=
    list_to_set (flat_map (fun constraint => omap ConstraintBound.year (bounds constraint))
                   (constraints self)) in
  merge_sort Z.le (elements years).

Definition get_period_end (self : t) (current_year : Z) : option Z :=
  List.find (fun year => current_year <? year) (time_bounds self).

(** [any(constraint.is_violated(plan, context) for constraint in ...)]: the
    first violated constraint ends the scan. *)
Fixpoint any_violated (cs : list Constraint) (plan : Plan.t) (context : WellPlanContext.t) : result bool :=
  match cs with
  | [] => Ok false
  | constraint :: cs' =>
      v ← is_violated constraint plan context;
      if v : bool then Ok true else any_violated cs' plan context
  end.

Definition is_violated (self : t) (plan : Plan.t) (context : WellPlanContext.t) : result bool :=
  any_violated (constraints self) plan context.

End ConstraintManager.

Module CapexConstraint.

Definition is_violated (bs : list ConstraintBound.t) (plan : Plan.t) (context : WellPlanContext.t)
    : result bool :=
  launch_date ← WellPlanContext.launch_date context;
  let launch_year := year launch_date in
  let context_capex := to_float (default (Float 0) (WellPlanContext.metadata context !! "capex")) in
  if PrimFloat.eqb context_capex 0 then Ok false
  else
    match get_applicable_bound bs launch_year with
    | None => Ok false
    | Some bound =>
        let planned_capex_this_year := default 0%float (Plan.get_capex_per_year plan !! launch_year) in
        let total_capex_for_launch_year := (planned_capex_this_year + context_capex)%float in
        Ok (PrimFloat.ltb (ConstraintBound.value bound) total_capex_for_launch_year)
    end.

(** [CapexConstraint(bounds)]. *)
Definition new (bs : list ConstraintBound.t) : Constraint :=
  Build_Constraint bs (is_violated bs).

End CapexConstraint.

(** ** services/infrastructure.py, services/production.py, services/risk_strategy.py *)

(** The protocols the builder is given implementations of. *)
Record Infrastructure : Type := {
  get_ready_date : Well.t -> datetime;
}.

Record ProductionProfile : Type := {
  profile_compute : WellPlanContext.t -> result WellPlanContext.t;
}.

(** A risk strategy keeps a state of its own ([RS]); [define_risk] may draw
    from the random source [G]. *)
Record RiskStrategy (RS G : Type) : Type := {
  apply_risk : RS -> WellPlanContext.t -> result WellPlanContext.t;
  define_risk : RS -> WellPlanContext.t -> G -> result (RS * WellPlanContext.t * G);
}.

Arguments apply_risk {RS G}.
Arguments define_risk {RS G}.

Module SimpleInfrastructure.

Definition get_ready_date (well : Well.t) : datetime :=
  or_min (Well.readiness_date well).

Definition infrastructure : Infrastructure := Build_Infrastructure get_ready_date.

End SimpleInfrastructure.

(** The abstract class [BaseTeamManager], as the builder uses it: a manager
    state [M] with [get_assignments] and [assign]. *)
Record BaseTeamManager (M : Type) : Type := {
  mgr_get_assignments : M -> WellPlanContext.t -> result WellPlanContext.t;
  mgr_assign : M -> WellPlanContext.t -> result M;
}.

Arguments mgr_get_assignments {M}.
Arguments mgr_assign {M}.

Definition TeamManager_class `{PyLib} : BaseTeamManager TeamManager.t :=
  {| mgr_get_assignments := TeamManager.get_assignments;
     mgr_assign := fun self context => Ok (TeamManager.assign self context) |}.

(** ** builder.py *)

Module PlanBuilder.

Record t : Type := mk {
  start : datetime;
  end_ : datetime;
  infra : Infrastructure;
  profiler : ProductionProfile;
  cost_function : CostFunction;
  _constraints : ConstraintManager.t;
  use_drill_team_penalty : bool;
}.

(** [PlanBuilder(start, end, cost_function, infrastructure,
    production_profile, constraints)]. *)
Definition new (start end_ : datetime) (cost_function : CostFunction) (infra : Infrastructure)
    (profiler : ProductionProfile) (constraints : list Constraint) : t :=
  mk start end_ infra profiler cost_function (ConstraintManager.mk constraints) true.

Definition _is_cluster_finished (remaining_wells : list Well.t) (cluster : option string) : bool :=
  match cluster with
  | None => true
  | Some cluster =>
      negb (existsb (fun well => String.eqb (Well.cluster well) cluster) remaining_wells)
  end.

(** The items of a comprehension that are not [None]. *)
Definition somes {A : Type} (l : list (option A)) : list A := omap id l.

Section Build.
Context {M : Type} (manager_class : BaseTeamManager M).

Definition _build_context (self : t) (remaining_wells : list Well.t) (well : Well.t)
    (manager : M) (start : datetime) : result (option WellPlanContext.t) :=
  if negb (_is_cluster_finished remaining_wells (Well.depend_from_cluster well)) then Ok None
  else
    let context :=
      WellPlanContext.new well (Z.max (get_ready_date (infra self) well) start) (end_ self) in
    context ← mgr_get_assignments manager_class manager context;
    if (end_ self <? WellPlanContext.get_next_available_date context)
       || match WellPlanContext.entries context with [] => true | _ => false end
    then Ok None
    else
      context ← profile_compute (profiler self) context;
      Ok (Some context).

Definition _build_contexts (self : t) (remaining_wells : list Well.t) (manager : M)
    (start : datetime) : result (list WellPlanContext.t) :=
  contexts ← map_result (fun well => _build_context self remaining_wells well manager start)
               remaining_wells;
  Ok (somes contexts).

End Build.

Definition candidate_date (c : WellPlanContext.t) : datetime :=
  or_min (Well.init_entry_date (WellPlanContext.well c)).

(** [earliest_per_cluster[cluster] = candidate] on the dict as the list of
    its items in insertion order: a known key keeps its place. *)
Fixpoint dict_set (cluster : string) (candidate : WellPlanContext.t)
    (d : list (string * WellPlanContext.t)) : list (string * WellPlanContext.t) :=
  match d with
  | [] => [(cluster, candidate)]
  | (k, v) :: d' =>
      if String.eqb k cluster then (k, candidate) :: d'
      else (k, v) :: dict_set cluster candidate d'
  end.

Definition dict_get (cluster : string) (d : list (string * WellPlanContext.t))
    : option WellPlanContext.t :=
  snd <$> List.find (fun kv => String.eqb (fst kv) cluster) d.

(** The first block of [_filter_candidates]: per cluster, the candidate with
    the earliest initial entry date (the first of them on a tie). *)
Definition earliest_per_cluster (candidates : list WellPlanContext.t) : list WellPlanContext.t :=
  map snd
    (fold_left (fun d candidate =>
        let cluster := Well.cluster (WellPlanContext.well candidate) in
        match dict_get cluster d with
        | None => dict_set cluster candidate d
        | Some existing =>
            if candidate_date candidate <? candidate_date existing
            then dict_set cluster candidate d else d
        end)
      candidates []).

Section Filter.
Context {RS G : Type}.

Definition _filter_candidates (self : t) (candidates : list WellPlanContext.t) (plan : Plan.t)
    (risk_strategy : option (RiskStrategy RS G)) (risk_state : RS) (cluster_ordered : bool)
    : result (list WellPlanContext.t) :=
  let candidates :=
    if cluster_ordered && match candidates with [] => false | _ => true end
    then earliest_per_cluster candidates else candidates in
  candidates ←
    match risk_strategy with
    | Some rs => map_result (apply_risk rs risk_state) candidates
    | None => Ok candidates
    end;
  candidates ← map_result (cost_compute (cost_function self)) candidates;
  flags ← map_result (fun c => v ← ConstraintManager.is_violated (_constraints self) plan c;
                               Ok (c, v)) candidates;
  Ok (map fst (List.filter (fun cv => negb (snd cv)) flags)).

End Filter.

(** [min(candidates, key=lambda x: x.well.init_entry_date)]: the keys are
    compared with [<]; comparing a missing date ([None]) raises TypeError,
    whichever side it is on. *)
Fixpoint min_entry_date_from (best : WellPlanContext.t) (l : list WellPlanContext.t)
    : result WellPlanContext.t :=
  match l with
  | [] => Ok best
  | x :: l' =>
      match Well.init_entry_date (WellPlanContext.well x),
            Well.init_entry_date (WellPlanContext.well best) with
      | Some dx, Some db => min_entry_date_from (if dx <? db then x else best) l'
      | _, _ => Raise TypeError
      end
  end.

Definition min_entry_date (candidates : list WellPlanContext.t) : result WellPlanContext.t :=
  match candidates with
  | [] => Raise ValueError
  | x :: l => min_entry_date_from x l
  end.

Section Selection.
Context `{PyLib} {G : Type} `{RandomSource G}.

(** [candidate.cost or 0.0]: [None] and zero both give [0.0]. *)
Definition cost_or_zero (c : WellPlanContext.t) : float :=
  match WellPlanContext.cost c with
  | Some x => if PrimFloat.eqb x 0 then 0%float else x
  | None => 0%float
  end.

Definition _calculate_candidate_score (self : t) (candidate : WellPlanContext.t) (g : G)
    : float * G :=
  let base_score := cost_or_zero candidate in
  let penalty :=
    if use_drill_team_penalty self
    then to_float (default (Int 0) (WellPlanContext.metadata candidate !! "drill_team_penalty"))
    else 0%float in
  let '(random_factor, g) := uniform 0.95 1.05 g in
  let time_factor :=
    match Well.init_entry_date (WellPlanContext.well candidate) with
    | Some init_entry_date =>
        let days_from_start := td_days (init_entry_date - start self) in
        fmax 0.8 (1 - float_of_Z days_from_start / 365)%float
    | None => 1%float
    end in
  ((base_score - penalty) * random_factor * time_factor, g)%float.

Definition _get_neighbor_candidate (candidates : list WellPlanContext.t)
    (current_candidate : WellPlanContext.t) (g : G) : result (WellPlanContext.t * G) :=
  let '(u, g) := random g in
  if PrimFloat.ltb u 0.7 then choice candidates g
  else
    let current_cost := cost_or_zero current_candidate in
    let cost_range := (current_cost * 0.2)%float in
    let similar_candidates :=
      List.filter (fun c => PrimFloat.leb (PrimFloat.abs (cost_or_zero c - current_cost)) cost_range)
        candidates in
    match similar_candidates with
    | _ :: _ => choice similar_candidates g
    | [] => choice candidates g
    end.

Definition _accept_solution (current_score new_score temp : float) (g : G) : bool * G :=
  if PrimFloat.ltb current_score new_score then (true, g)
  else
    let delta := (new_score - current_score)%float in
    if PrimFloat.ltb 0 temp then
      let probability := math_exp (delta / temp) in
      let '(u, g) := random g in
      (PrimFloat.ltb u probability, g)
    else (false, g).

(** The state of the annealing loops: the current and the best candidate
    with their scores. *)
Record sa_state : Type := mk_sa {
  current_candidate : WellPlanContext.t;
  current_score : float;
  best_candidate : WellPlanContext.t;
  best_score : float;
}.

(** One pass of the inner [for] loop. *)
Definition sa_iteration (self : t) (valid_candidates : list WellPlanContext.t) (temp : float)
    (sg : sa_state * G) : result (sa_state * G) :=
  let '(s, g) := sg in
  '(neighbor_candidate, g) ← _get_neighbor_candidate valid_candidates (current_candidate s) g;
  let '(neighbor_score, g) := _calculate_candidate_score self neighbor_candidate g in
  let '(accepted, g) := _accept_solution (current_score s) neighbor_score temp g in
  if accepted then
    if PrimFloat.ltb (best_score s) neighbor_score
    then Ok (mk_sa neighbor_candidate neighbor_score neighbor_candidate neighbor_score, g)
    else Ok (mk_sa neighbor_candidate neighbor_score (best_candidate s) (best_score s), g)
  else Ok (s, g).

(** [for _ in range(n): ...]. *)
Fixpoint repeat_result {S : Type} (n : nat) (body : S -> result S) (s : S) : result S :=
  match n with
  | O => Ok s
  | S n' => s' ← body s; repeat_result n' body s'
  end.

(** [while temp > min_temp: ...; temp *= cooling_rate]. *)
Fixpoint sa_cooling (fuel : nat) (self : t) (valid_candidates : list WellPlanContext.t)
    (cooling_rate min_temp : float) (iterations_per_temp : nat) (temp : float)
    (sg : sa_state * G) : result (sa_state * G) :=
  match fuel with
  | O => OutOfFuel
  | S fuel' =>
      if PrimFloat.ltb min_temp temp then
        sg ← repeat_result iterations_per_temp (sa_iteration self valid_candidates temp) sg;
        sa_cooling fuel' self valid_candidates cooling_rate min_temp iterations_per_temp
          (temp * cooling_rate)%float sg
      else Ok sg
  end.

(** [[(key(c), c) for c in l]]: the keys are computed once each, in order. *)
Fixpoint scored (self : t) (l : list WellPlanContext.t) (g : G)
    : list (float * WellPlanContext.t) * G :=
  match l with
  | [] => ([], g)
  | c :: l' =>
      let '(s, g) := _calculate_candidate_score self c g in
      let '(rest, g) := scored self l' g in
      ((s, c) :: rest, g)
  end.

(** Rounds of the cooling loop the model allows; the default schedule
    (1000, 0.95, 1.0) takes 135. *)
Definition sa_fuel : nat := 200.

Definition _simulated_annealing_selection (self : t) (candidates : list WellPlanContext.t)
    (initial_temp cooling_rate min_temp : float) (iterations_per_temp : nat) (g : G)
    : result (WellPlanContext.t * G) :=
  let valid_candidates :=
    List.filter (fun c => match WellPlanContext.cost c with Some _ => true | None => false end)
      candidates in
  match valid_candidates with
  | [] =>
      match candidates with
      | c :: _ => Ok (c, g)
      | [] => Raise IndexError
      end
  | _ :: _ =>
      if (length valid_candidates <=? 3)%nat then
        let '(u, g) := random g in
        if PrimFloat.ltb u 0.6 then
          let '(keyed, g) := scored self valid_candidates g in
          best ← max_by (fun a b => PrimFloat.ltb (fst b) (fst a)) keyed;
          Ok (snd best, g)
        else choice valid_candidates g
      else
        '(current_candidate, g) ← choice valid_candidates g;
        let '(current_score, g) := _calculate_candidate_score self current_candidate g in
        '(s, g) ← sa_cooling sa_fuel self valid_candidates cooling_rate min_temp
                    iterations_per_temp initial_temp
                    (mk_sa current_candidate current_score current_candidate current_score, g);
        Ok (best_candidate s, g)
  end.

Definition _select_best_candidate (self : t) (candidates : list WellPlanContext.t)
    (keep_order : bool) (g : G) : result (WellPlanContext.t * G) :=
  if keep_order then
    best ← min_entry_date candidates;
    Ok (best, g)
  else
    match candidates with
    | [] => Raise ValueError
    | _ :: _ => _simulated_annealing_selection self candidates 1000 0.95 1 10 g
    end.

End Selection.

Section Compile.
Context `{PyLib} {M RS G : Type} `{RandomSource G}.
Context (manager_class : BaseTeamManager M).

(** What the loop of [compile] reads and writes: [self.remaining_wells],
    [current_start], [plan], the manager, the state of the risk strategy and
    the random source. *)
Record state : Type := mk_state {
  remaining_wells : list Well.t;
  current_start : datetime;
  plan : Plan.t;
  manager : M;
  risk_state : RS;
  rng : G;
}.

(** How one pass of the loop ends: it goes on to the next test of the loop
    condition ([Continue]: the end of the body, or [continue]), or it leaves
    the loop ([Break]). *)
Inductive step : Type :=
| Continue (s : state)
| Break (s : state).

(** [while self.remaining_wells and current_start < self.end]. *)
Definition loop_condition (self : t) (s : state) : bool :=
  match remaining_wells s with [] => false | _ => true end
  && (current_start s <? end_ self).

(** The body of the loop of [compile]. *)
Definition loop_body (self : t) (risk_strategy : option (RiskStrategy RS G))
    (keep_order cluster_ordered : bool) (s : state) : result step :=
  candidates ← _build_contexts manager_class self (remaining_wells s) (manager s) (current_start s);
  match candidates with
  | [] => Ok (Break s)
  | _ :: _ =>
      candidates ← _filter_candidates self candidates (plan s) risk_strategy (risk_state s)
                     cluster_ordered;
      match candidates with
      | [] =>
          let next_year :=
            ConstraintManager.get_period_end (_constraints self) (year (current_start s)) in
          let next_year :=
            match next_year with
            | Some y => if y =? 0 then year (current_start s) + 1 else y
            | None => year (current_start s) + 1
            end in
          current_start ← datetime_jan1 next_year;
          Ok (Continue (mk_state (remaining_wells s) current_start (plan s) (manager s)
                          (risk_state s) (rng s)))
      | _ :: _ =>
          '(best_candidate, g) ← _select_best_candidate self candidates keep_order (rng s);
          manager ← mgr_assign manager_class (manager s) best_candidate;
          remaining ← list_remove Well.eqb (WellPlanContext.well best_candidate) (remaining_wells s);
          '(risk_state, best_candidate, g) ←
            match risk_strategy with
            | Some rs =>
                '(risk_state, best_candidate, g) ← define_risk rs (risk_state s) best_candidate g;
                best_candidate ← cost_compute (cost_function self) best_candidate;
                Ok (risk_state, best_candidate, g)
            | None => Ok (risk_state s, best_candidate, g)
            end;
          Ok (Continue (mk_state remaining (current_start s)
                          (Plan.add_context (plan s) best_candidate) manager risk_state g))
      end
  end.

(** One test of the loop condition followed by the body. *)
Definition loop_step (self : t) (risk_strategy : option (RiskStrategy RS G))
    (keep_order cluster_ordered : bool) (s : state) : result step :=
  if loop_condition self s then loop_body self risk_strategy keep_order cluster_ordered s
  else Ok (Break s).

Fixpoint loop (fuel : nat) (self : t) (risk_strategy : option (RiskStrategy RS G))
    (keep_order cluster_ordered : bool) (s : state) : result state :=
  match fuel with
  | O => OutOfFuel
  | S fuel' =>
      r ← loop_step self risk_strategy keep_order cluster_ordered s;
      match r with
      | Continue s' => loop fuel' self risk_strategy keep_order cluster_ordered s'
      | Break s' => Ok s'
      end
  end.

(** The state the loop starts from: [plan = Plan()] (with identifier
    [plan_id]), [self.remaining_wells = wells.copy()],
    [current_start = self.start]. *)
Definition initial (self : t) (plan_id : N) (wells : list Well.t) (manager : M)
    (risk_state : RS) (g : G) : state :=
  mk_state wells (start self) (Plan.mk plan_id []) manager risk_state g.

(** [compile(wells, manager, risk_strategy, keep_order, cluster_ordered)],
    with the final state of everything the call mutates. *)
Definition compile_run (fuel : nat) (self : t) (plan_id : N) (wells : list Well.t) (manager : M)
    (risk_strategy : option (RiskStrategy RS G)) (risk_state : RS)
    (keep_order cluster_ordered : bool) (g : G) : result state :=
  loop fuel self risk_strategy keep_order cluster_ordered
    (initial self plan_id wells manager risk_state g).

Definition compile (fuel : nat) (self : t) (plan_id : N) (wells : list Well.t) (manager : M)
    (risk_strategy : option (RiskStrategy RS G)) (risk_state : RS)
    (keep_order cluster_ordered : bool) (g : G) : result Plan.t :=
  s ← compile_run fuel self plan_id wells manager risk_strategy risk_state
        keep_order cluster_ordered g;
  Ok (plan s).

End Compile.

End PlanBuilder.

(** ** services/optimization.py *)

Module SimulatedAnnealingPlanner.

Inductive mutation : Set := swap_wells | shift_well | reassign_team.

Section Neighbor.
Context {G : Type} `{RandomSource G}.

(** [l[i]] for a position the caller computed: out of range raises. *)
Definition item {A : Type} (l : list A) (i : nat) : result A :=
  match l !! i with
  | Some x => Ok x
  | None => Raise IndexError
  end.

(** [entry.start += delta; entry.end += delta] on one entry. *)
Definition shift_entry (delta : timedelta) (entry : ScheduleEntry.t) : result ScheduleEntry.t :=
  entry ← ScheduleEntry.__setattr__ entry "start" (inl (ScheduleEntry.start entry + delta));
  ScheduleEntry.__setattr__ entry "end" (inl (ScheduleEntry.end_ entry + delta)).

(** The mutation drawn by [_get_neighbor], applied to the copied list of
    well plans. *)
Definition mutate (m : mutation) (manager : TeamManager.t) (well_plans : list WellPlanContext.t)
    (g : G) : result (list WellPlanContext.t * G) :=
  match m with
  | swap_wells =>
      if (1 <? length well_plans)%nat then
        '((idx1, idx2), g) ← sample2 (length well_plans) g;
        wp1 ← item well_plans idx1;
        wp2 ← item well_plans idx2;
        Ok (<[idx2 := wp1]> (<[idx1 := wp2]> well_plans), g)
      else Ok (well_plans, g)
  | shift_well =>
      '(idx, g) ← randint 0 (Z.of_nat (length well_plans) - 1) g;
      '(days_shift, g) ← randint (-30) 30 g;
      wp ← item well_plans (Z.to_nat idx);
      entries ← map_result (shift_entry (days days_shift)) (WellPlanContext.entries wp);
      Ok (<[Z.to_nat idx := WellPlanContext.set_entries wp entries]> well_plans, g)
  | reassign_team =>
      '(idx, g) ← randint 0 (Z.of_nat (length well_plans) - 1) g;
      wp ← item well_plans (Z.to_nat idx);
      match WellPlanContext.entries wp with
      | [] => Ok (well_plans, g)
      | _ :: _ =>
          '(pos, entry, g) ← choice_pos (WellPlanContext.entries wp) g;
          '(new_team, g) ←
            choice (TeamPool.get_teams_for_task (TeamManager.team_pool manager)
                      (ScheduleEntry.task entry)) g;
          entry ← ScheduleEntry.__setattr__ entry "team" (inr new_team);
          Ok (<[Z.to_nat idx :=
                  WellPlanContext.set_entries wp (<[pos := entry]> (WellPlanContext.entries wp))]>
                well_plans, g)
      end
  end.

Definition _get_neighbor (plan : Plan.t) (manager : TeamManager.t) (g : G)
    : result (Plan.t * TeamManager.t * G) :=
  let neighbor := plan in
  '(mutation_type, g) ← choice [swap_wells; shift_well; reassign_team] g;
  '(well_plans, g) ← mutate mutation_type manager (Plan.well_plans neighbor) g;
  let manager := fold_left TeamManager.assign well_plans manager in
  Ok (Plan.mk (Plan.id neighbor) well_plans, manager, g).

End Neighbor.

End SimulatedAnnealingPlanner.

(** ** services/risk_strategy.py *)

Module ClusterRandomRiskStrategy.

(** The parameters of the strategy; its state is [_affected_clusters]. *)
Record t : Type := mk { trigger : float; impact : float }.

Definition state : Type := gmap string float.

Definition apply_risk (affected : state) (context : WellPlanContext.t) : WellPlanContext.t :=
  match affected !! Well.cluster (WellPlanContext.well context) with
  | Some reduction =>
      let context :=
        WellPlanContext.set_profiles context
          (map (fun oil => (oil * (1 - reduction))%float) (WellPlanContext.oil_prod_profile context))
          (WellPlanContext.liq_prod_profile context) in
      WellPlanContext.set_metadata context
        (<["applied_risk" := Float reduction]> (WellPlanContext.metadata context))
  | None => context
  end.

Section Define.
Context {G : Type} `{RandomSource G}.

Definition define_risk (self : t) (affected : state) (context : WellPlanContext.t) (g : G)
    : state * WellPlanContext.t * G :=
  let '(u, g) := random g in
  if PrimFloat.ltb u (trigger self) then
    let cluster := Well.cluster (WellPlanContext.well context) in
    let current_reduction := default 0%float (affected !! cluster) in
    let max_impact_remaining := (1 - current_reduction)%float in
    let affected :=
      if PrimFloat.ltb 0 max_impact_remaining then
        let additional_impact := fmin (impact self) max_impact_remaining in
        <[cluster := fmin (default 0%float (affected !! cluster) + additional_impact) 1]> affected
      else affected in
    (affected, apply_risk affected context, g)
  else (affected, context, g).

Definition risk_strategy (self : t) : RiskStrategy state G :=
  Build_RiskStrategy state G
    (fun affected context => Ok (apply_risk affected context))
    (fun affected context g => Ok (define_risk self affected context g)).

End Define.

End ClusterRandomRiskStrategy.

(** ** services/production.py *)

Module FileProductionProfile.

(** [l[:n]]: a negative [n] counts from the end of the list. *)
Definition slice_to {A : Type} (l : list A) (n : Z) : list A :=
  if 0 <=? n then firstn (Z.to_nat n) l
  else firstn (Z.to_nat (Z.of_nat (List.length l) + n)) l.

Definition _resize_list (input_list : list float) (length : Z) : list float :=
  let current_len := Z.of_nat (List.length input_list) in
  if length <=? current_len then slice_to input_list length
  else input_list ++ repeat 0%float (Z.to_nat (length - current_len)).

End FileProductionProfile.

(** ** builder.py of the package copy without the annealing selection

    The copy of the package under [src/well-plan-optimization-main] has the
    same [PlanBuilder], except for the selection without [keep_order]: the
    costed candidate of greatest cost net of the drilling-team penalty. *)

Module PlanBuilderGreedy.

(** [x.cost - (x.metadata.get('drill_team_penalty', 0) if
    self.use_drill_team_penalty else 0)]. *)
Definition net_cost (self : PlanBuilder.t) (cost : float) (x : WellPlanContext.t) : float :=
  (cost - (if PlanBuilder.use_drill_team_penalty self
           then to_float (default (Int 0) (WellPlanContext.metadata x !! "drill_team_penalty"))
           else float_of_Z 0))%float.

(** The candidates [c for c in candidates if c.cost is not None], each with
    its key. *)
Definition keyed (self : PlanBuilder.t) (candidates : list WellPlanContext.t)
    : list (float * WellPlanContext.t) :=
  omap (fun c => (fun cost => (net_cost self cost c, c)) <$> WellPlanContext.cost c) candidates.

Definition _select_best_candidate (self : PlanBuilder.t) (candidates : list WellPlanContext.t)
    (keep_order : bool) : result WellPlanContext.t :=
  if keep_order then PlanBuilder.min_entry_date candidates
  else
    best ← max_by (fun a b => PrimFloat.ltb (fst b) (fst a)) (keyed self candidates);
    Ok (snd best).

End PlanBuilderGreedy.

(** ** The calendar of the library: months *)

(** The months of the proleptic Gregorian calendar, as [datetime.py] has
    them: [_is_leap], [_days_in_month], [_days_before_month], [_ymd2ord] and
    [_ord2ymd].  The assertions of the library on the range of a month are
    left out: every month the code passes lies between 1 and 12. *)
Module Calendar.

Definition _is_leap (year : Z) : bool :=
  (year mod 4 =? 0) && (negb (year mod 100 =? 0) || (year mod 400 =? 0)).

Definition _DAYS_IN_MONTH : list Z := [-1; 31; 28; 31; 30; 31; 30; 31; 31; 30; 31; 30; 31].

Definition _DAYS_BEFORE_MONTH : list Z :=
  [-1; 0; 31; 59; 90; 120; 151; 181; 212; 243; 273; 304; 334].

(** [table[month]] for a month of the table. *)
Definition item (table : list Z) (month : Z) : Z := nth (Z.to_nat month) table 0.

Definition _days_in_month (year month : Z) : Z :=
  if (month =? 2) && _is_leap year then 29 else item _DAYS_IN_MONTH month.

Definition _days_before_month (year month : Z) : Z :=
  item _DAYS_BEFORE_MONTH month + (if (2 <? month) && _is_leap year then 1 else 0).

Definition _ymd2ord (year month day : Z) : Z :=
  _days_before_year year + _days_before_month year month + day.

Definition _ord2ymd (n : Z) : Z * Z * Z :=
  let n := n - 1 in
  let n400 := n / _DI400Y in
  let n := n mod _DI400Y in
  let year := n400 * 400 + 1 in
  let n100 := n / _DI100Y in
  let n := n mod _DI100Y in
  let n4 := n / _DI4Y in
  let n := n mod _DI4Y in
  let n1 := n / 365 in
  let n := n mod 365 in
  let year := year + n100 * 100 + n4 * 4 + n1 in
  if (n1 =? 4) || (n100 =? 4) then (year - 1, 12, 31)
  else
    let leapyear := (n1 =? 3) && (negb (n4 =? 24) || (n100 =? 3)) in
    let month := Z.shiftr (n + 50) 5 in
    let preceding :=
      item _DAYS_BEFORE_MONTH month + (if (2 <? month) && leapyear then 1 else 0) in
    if n <? preceding then
      let month := month - 1 in
      let preceding :=
        preceding - (item _DAYS_IN_MONTH month + (if (month =? 2) && leapyear then 1 else 0)) in
      (year, month, n - preceding + 1)
    else (year, month, n - preceding + 1).

(** [dt.month] and [dt.day]. *)
Definition month (dt : datetime) : Z := (_ord2ymd (toordinal dt)).1.2.
Definition day (dt : datetime) : Z := (_ord2ymd (toordinal dt)).2.

(** [dt.replace(year=year, month=month, day=day)] for a day of that month:
    the time of day is kept. *)
Definition replace (dt : datetime) (year month day : Z) : datetime :=
  (_ymd2ord year month day - 1) * us_per_day + dt mod us_per_day.

(** [datetime(year, month, 1)]. *)
Definition first_of_month (year month : Z) : datetime :=
  (_ymd2ord year month 1 - 1) * us_per_day.

End Calendar.

Export Calendar.

(** ** services/production.py: the linear profile *)

Module LinearProductionProfile.

(** The first day of the month after [current_month], at the same time of
    day: the two branches of [current_month.replace(...)]. *)
Definition next_month_of (current_month : datetime) : datetime :=
  if month current_month =? 12
  then replace current_month (year current_month + 1) 1 1
  else replace current_month (year current_month) (month current_month + 1) 1.

(** The loop [while current_month <= context.end]. *)
Fixpoint months_loop (fuel : nat) (start end_ : datetime) (well : Well.t)
    (current_month : datetime) (oil_rates liq_rates : list float)
    : result (list float * list float) :=
  match fuel with
  | O => OutOfFuel
  | S fuel' =>
      if current_month <=? end_ then
        let month_start := current_month in
        let next_month := next_month_of current_month in
        let month_end := next_month - Datetime.days 1 in
        let period_start := Z.max start month_start in
        let period_end := Z.min end_ month_end in
        let days := td_days (period_end - period_start) + 1 in
        if 0 <? days then
          months_loop fuel' start end_ well next_month
            (oil_rates ++ [(Well.oil_rate well * float_of_Z days)%float])
            (liq_rates ++ [(Well.liq_rate well * float_of_Z days)%float])
        else months_loop fuel' start end_ well next_month oil_rates liq_rates
      else Ok (oil_rates, liq_rates)
  end.

(** One round per month from the month of [start] to the month of [end_],
    and one to leave the loop. *)
Definition months_fuel (start end_ : datetime) : nat :=
  S (Z.to_nat ((year end_ - year start) * 12 + month end_ - month start + 1)).

Definition compute (context : WellPlanContext.t) : result WellPlanContext.t :=
  let start := WellPlanContext.get_next_available_date context in
  let end_ := WellPlanContext.end_ context in
  let well := WellPlanContext.well context in
  let current_month := replace start (year start) (month start) 1 in
  rates ← months_loop (months_fuel start end_) start end_ well current_month [] [];
  Ok (WellPlanContext.set_profiles context rates.1 rates.2).

Definition profile : ProductionProfile := Build_ProductionProfile compute.

End LinearProductionProfile.

(** ** core/plan.py: production by date, month and year *)

(** The methods of [WellPlanContext] that count production up to a date. *)
Module WellProduction.
Import WellPlanContext.

(** [_get_production_for_date(date, profile_attr)], for the profile the
    attribute names: the production of the months from the month the well
    is free to the month of [date]. *)
Definition _get_production_for_date (c : t) (date : datetime) (profile : list float) : float :=
  let production := 0%float in
  let well_start := get_next_available_date c in
  if date <? well_start then production
  else
    let n_month := (year date - year well_start) * 12 + month date - month well_start + 1 in
    let n_month :=
      if Z.of_nat (length profile) <? n_month then Z.of_nat (length profile) else n_month in
    (production + py_sum (FileProductionProfile.slice_to profile n_month))%float.

Definition get_oil_production_for_date (c : t) (date : datetime) : float :=
  _get_production_for_date c date (oil_prod_profile c).

Definition get_liquid_production_for_date (c : t) (date : datetime) : float :=
  _get_production_for_date c date (liq_prod_profile c).

End WellProduction.

(** The methods of [Plan] that date the items of a production profile and
    add them up. *)
Module PlanProduction.
Import Plan.

(** [aggregated[key] += value] for each item, on a [defaultdict(float)]. *)
Definition add_items {K : Type} `{Countable K} (aggregated : gmap K float)
    (items : list (K * float)) : gmap K float :=
  fold_left (fun aggregated '(key, value) =>
      <[key := (default 0%float (aggregated !! key) + value)%float]> aggregated)
    items aggregated.

Definition _monthly_to_yearly (launch_date : datetime) (production : list float)
    : list (Z * float) :=
  let launch_year := year launch_date in
  let launch_month := month launch_date in
  map (fun '(idx, prod) => (launch_year + (launch_month + idx - 1) / 12, prod))
      (enumerate production).

(** The loop of [_get_monthly_production_dates]. *)
Fixpoint monthly_dates_from (current_year current_month : Z) (production : list float)
    : list (datetime * float) :=
  match production with
  | [] => []
  | prod :: production' =>
      let month_start_date := first_of_month current_year current_month in
      let current_month := current_month + 1 in
      (month_start_date, prod)
      :: (if 12 <? current_month then monthly_dates_from (current_year + 1) 1 production'
          else monthly_dates_from current_year current_month production')
  end.

Definition _get_monthly_production_dates (launch_date : datetime) (production : list float)
    : list (datetime * float) :=
  monthly_dates_from (year launch_date) (month launch_date) production.

(** [get_oil_production_per_year()]: the monthly oil of the planned wells
    added up by year; a well without entries has no launch date and is
    skipped. *)
Definition get_oil_production_per_year (p : t) : gmap Z float :=
  fold_left (fun aggregated wp =>
      match WellPlanContext.launch_date wp with
      | Ok launch_date =>
          add_items aggregated
            (_monthly_to_yearly launch_date (WellPlanContext.oil_prod_profile wp))
      | _ => aggregated
      end)
    (well_plans p) ∅.

End PlanProduction.

(** ** services/constraint.py: the oil constraint *)

Module OilConstraint.

(** The loop over [context_oil_per_year.items()] returns at the first year
    above its bound; its body changes nothing, so the order of the items
    does not matter. *)
Definition is_violated (bs : list ConstraintBound.t) (plan : Plan.t) (context : WellPlanContext.t)
    : result bool :=
  launch_date ← WellPlanContext.launch_date context;
  let oil_tuples :=
    PlanProduction._monthly_to_yearly launch_date (WellPlanContext.oil_prod_profile context) in
  let context_oil_per_year := PlanProduction.add_items (∅ : gmap Z float) oil_tuples in
  let plan_oil_per_year := PlanProduction.get_oil_production_per_year plan in
  Ok (existsb (fun '(target_year, context_oil) =>
        match get_applicable_bound bs target_year with
        | None => false
        | Some bound =>
            let planned_oil := default 0%float (plan_oil_per_year !! target_year) in
            let total_oil := (planned_oil + context_oil)%float in
            PrimFloat.ltb (ConstraintBound.value bound) total_oil
        end)
      (map_to_list context_oil_per_year)).

Definition new (bs : list ConstraintBound.t) : Constraint :=
  Build_Constraint bs (is_violated bs).

End OilConstraint.

(** ** A concrete runtime and concrete collaborators for the example runs *)

Module Example.

(** [n / d] rounded to the nearest integer, ties to even ([d > 0]). *)
Definition round_half_even (n d : Z) : Z :=
  let q := n / d in
  let r := n mod d in
  if 2 * r <? d then q
  else if d <? 2 * r then q + 1
  else if Z.even q then q else q + 1.

(** The value of a finite float as a fraction [n / d]. *)
Definition fraction_of (x : float) : Z * Z :=
  match Prim2SF x with
  | SpecFloat.S754_finite s m e =>
      let n := if s then Z.neg m else Z.pos m in
      if 0 <=? e then (n * 2 ^ e, 1) else (n, 2 ^ (- e))
  | _ => (0, 1)
  end.

(** [timedelta(days=x)]: the whole days of [x] count exactly; the rest of
    [x], times the microseconds of a day, is a float product, rounded to
    whole microseconds with ties to even.  A NaN raises ValueError, an
    infinite [x] or more than 999999999 days OverflowError. *)
Definition timedelta_of_days (x : float) : outcome timedelta :=
  if is_nan x then Exn ValueError
  else if is_infinite x then Exn OverflowError
  else
    let '(n, d) := fraction_of x in
    let intpart := Z.quot n d in
    let fracpart := (x - float_of_Z intpart)%float in
    let '(n', d') := fraction_of (fracpart * 86400000000)%float in
    let us := intpart * us_per_day + round_half_even n' d' in
    if (-999999999 <=? td_days us) && (td_days us <=? 999999999) then Val us
    else Exn OverflowError.

(** [x ** y] on the arguments the examples go through, where the C library
    is exact: [x ** 0 = 1], [1 ** y = 1], [x ** 1 = x], [x ** 2 = x * x]
    (OverflowError when the square of a finite [x] is out of range). *)
Definition float_pow (x y : float) : outcome float :=
  if PrimFloat.eqb y 0 then Val 1%float
  else if PrimFloat.eqb x 1 then Val 1%float
  else if PrimFloat.eqb y 1 then Val x
  else if PrimFloat.eqb y 2 then
    if is_infinite (x * x) && negb (is_infinite x) then Exn OverflowError
    else Val (x * x)%float
  else Val nan.

(** [math.exp(x)] on the one argument where no rounding is involved. *)
Definition math_exp (x : float) : float :=
  if PrimFloat.eqb x 0 then 1%float else nan.

#[global] Instance pylib : PyLib :=
  Build_PyLib float_pow math_exp timedelta_of_days.

(** A scripted random source: the floats [random()] will return and the
    integers [_randbelow] will return, in order (a spent script gives 0). *)
Definition script : Type := list float * list nat.

#[global] Instance scripted : RandomSource script :=
  {| random := fun g =>
       match fst g with
       | u :: us => (u, (us, snd g))
       | [] => (0%float, g)
       end;
     _randbelow := fun n g =>
       match snd g with
       | k :: ks => (k, (fst g, ks))
       | [] => (0%nat, g)
       end |}.

(** A production profile for the examples: one month of thirty days at the
    daily rates of the well. *)
Definition one_month_profile : ProductionProfile :=
  Build_ProductionProfile (fun context =>
    Ok (WellPlanContext.set_profiles context
          [(Well.oil_rate (WellPlanContext.well context) * 30)%float]
          [(Well.liq_rate (WellPlanContext.well context) * 30)%float])).

(** A pool of one drilling team and its manager, without quotas. *)
Definition drilling_team : Team.t := Team.mk 1 {[Task.DRILLING]}.

Definition pool : TeamPool.t := TeamPool.mk {[Task.DRILLING := [drilling_team]]}.

Definition manager : TeamManager.t :=
  TeamManager.new pool SimpleTeamMovement.movement true ∅.

(** Two wells: [well_a] on cluster K1, and [well_b] on cluster K2, to be
    drilled after cluster K1. *)
Definition well_a : Well.t :=
  Well.mk "A" "K1" "F" "L" "oil" "ГС" 10 20 100 (Some (jan1 2024)) None None.

Definition well_b : Well.t :=
  Well.mk "B" "K2" "F" "L" "oil" "ГС" 10 20 100 (Some (jan1 2024 + days 31)) None (Some "K1").

(** A cost function without discounting. *)
Definition npv : NPV.t :=
  NPV.mk (BaseCapex.capital_cost (BaseCapex.mk {["ГС" := 10%float]} 50))
         (BaseOpex.operational_cost (BaseOpex.new 1 1 12 12))
         0 100 (jan1 2024) (Float 1500000).

(** A builder for 2024 and 2025 whose capital expenditure of 2024 is capped
    below the cost of one well. *)
Definition builder : PlanBuilder.t :=
  PlanBuilder.new (jan1 2024) (jan1 2026) (NPV.cost_function npv)
    SimpleInfrastructure.infrastructure one_month_profile
    [CapexConstraint.new [ConstraintBound.mk 1000 (Some 2024)]].

(** The same builder with a horizon of ten days and no constraint. *)
Definition short_builder : PlanBuilder.t :=
  PlanBuilder.new (jan1 2024) (jan1 2024 + days 10) (NPV.cost_function npv)
    SimpleInfrastructure.infrastructure one_month_profile [].

Definition risk : ClusterRandomRiskStrategy.t := ClusterRandomRiskStrategy.mk 0.5 0.2.

Definition no_draws : script := ([], []).

(** The state a run of [builder] over the two wells starts from. *)
Definition initial_state
    : @PlanBuilder.state TeamManager.t ClusterRandomRiskStrategy.state script :=
  PlanBuilder.initial builder 0 [well_a; well_b] manager ∅ no_draws.

(** The state a run of [short_builder] over [well_a] starts from. *)
Definition short_state : @PlanBuilder.state TeamManager.t unit script :=
  PlanBuilder.initial short_builder 0 [well_a] manager tt no_draws.

(** The state a pass of the loop goes on with ([s] itself when the pass
    does not go on). *)
Definition next_state {M RS G : Type} (r : result (@PlanBuilder.step M RS G))
    (s : PlanBuilder.state) : PlanBuilder.state :=
  match r with
  | Ok (PlanBuilder.Continue s') => s'
  | _ => s
  end.

Definition cluster_risk
    : option (RiskStrategy ClusterRandomRiskStrategy.state script) :=
  Some (ClusterRandomRiskStrategy.risk_strategy risk).

(** The run of [builder] after its first pass (no candidate passes the
    2024 cap: on to 2025) and after its second (well A is planned). *)
Definition state_2025 : PlanBuilder.state :=
  next_state (PlanBuilder.loop_step TeamManager_class builder cluster_risk true true initial_state)
    initial_state.

Definition state_a_planned : PlanBuilder.state :=
  next_state (PlanBuilder.loop_step TeamManager_class builder cluster_risk true true state_2025)
    state_2025.

(** The candidates the first pass builds (well A; well B waits for K1). *)
Definition built_2024 : list WellPlanContext.t :=
  match PlanBuilder._build_contexts TeamManager_class builder
          (PlanBuilder.remaining_wells initial_state) (PlanBuilder.manager initial_state)
          (PlanBuilder.current_start initial_state) with
  | Ok built => built
  | _ => []
  end.

(** A quota of one drilling team for 2024, over a pool of two drilling
    teams; [assigned_a] is the context of well A as [get_assignments] fills
    it in on the fresh manager. *)
Definition limits_2024 : gmap Z (gmap Task.t Z) := {[2024 := {[Task.DRILLING := 1]}]}.

Definition second_team : Team.t := Team.mk 2 {[Task.DRILLING]}.

Definition pool_of_two : TeamPool.t :=
  TeamPool.mk {[Task.DRILLING := [drilling_team; second_team]]}.

Definition quota_manager : TeamManager.t :=
  TeamManager.new pool_of_two SimpleTeamMovement.movement true limits_2024.

Definition context_a : WellPlanContext.t :=
  WellPlanContext.new well_a (jan1 2024) (jan1 2026).

Definition assigned_a : WellPlanContext.t :=
  match TeamManager.get_assignments quota_manager context_a with
  | Ok context => context
  | _ => context_a
  end.

(** The context of well A with its one-month production profile. *)
Definition profiled_a : WellPlanContext.t :=
  match profile_compute one_month_profile assigned_a with
  | Ok context => context
  | _ => assigned_a
  end.

(** Two clusters 540 km apart: 36 hours at the default 15 km/h. *)
Definition distances : DistanceTeamMovement.t :=
  DistanceTeamMovement.new
    {["K1" := Coordinate.mk 0 0 0; "K2" := Coordinate.mk 540000 0 0]}.

(** The plan with well A, as the example run builds it, and the draws that
    make [_get_neighbor] pick [shift_well] (position 1 of the three
    mutations), the well plan at position 0 and a shift of -30 + 35 = 5
    days; and those that make it pick [reassign_team] (position 2), the
    well plan, its entry and the team at position 0. *)
Definition plan_a : Plan.t := PlanBuilder.plan state_a_planned.

Definition shift_draws : script := ([], [1; 0; 35]%nat).

Definition reassign_draws : script := ([], [2; 0; 0; 0]%nat).

(** A well without initial entry date, and two candidates of a round. *)
Definition well_undated : Well.t :=
  Well.mk "U" "K3" "F" "L" "oil" "ГС" 10 20 100 None None None.

Definition two_candidates : list WellPlanContext.t :=
  [WellPlanContext.new well_a (jan1 2024) (jan1 2026);
   WellPlanContext.new well_undated (jan1 2024) (jan1 2026)].

(** Two costed candidates, and two scripts of draws that differ in the one
    integer drawn. *)
Definition costed_candidates : list WellPlanContext.t :=
  [WellPlanContext.set_cost (WellPlanContext.new well_a (jan1 2024) (jan1 2026)) (Some 10%float);
   WellPlanContext.set_cost (WellPlanContext.new well_b (jan1 2024) (jan1 2026)) (Some 20%float)].

Definition draws_first : script := ([0.9%float], [0%nat]).

Definition draws_second : script := ([0.9%float], [1%nat]).

End Example.

(** * The vocabulary of the properties *)

Section Vocabulary.
Context `{PyLib} {M RS G : Type} `{RandomSource G}.
Context (manager_class : BaseTeamManager M).

(** ** Results of calls *)

(** The result of a call with [f] applied to its value. *)
Definition result_map {A B : Type} (f : A -> B) (r : result A) : result B :=
  match r with
  | Ok a => Ok (f a)
  | Raise e => Raise e
  | OutOfFuel => OutOfFuel
  end.

(** A call that ends: with a value or with an exception. *)
Definition returns {A : Type} (r : result A) : Prop := r <> OutOfFuel.

(** ** Plans and candidates *)

(** The contexts [total_profit] sums over: those with a cost. *)
Definition has_cost (wp : WellPlanContext.t) : bool :=
  match WellPlanContext.cost wp with Some _ => true | None => false end.

(** The date keep-order selection compares: [well.init_entry_date]. *)
Definition entry_date (c : WellPlanContext.t) : option datetime :=
  Well.init_entry_date (WellPlanContext.well c).

(** The current and the best candidate of the annealing loop stay among
    the valid candidates. *)
Definition sa_within (valid : list WellPlanContext.t) (sg : PlanBuilder.sa_state * G) : Prop :=
  In (PlanBuilder.current_candidate (fst sg)) valid
  /\ In (PlanBuilder.best_candidate (fst sg)) valid.

(** ** Collaborators of the builder *)

(** A collaborator that fills in a context without replacing its well. *)
Definition keeps_well (f : WellPlanContext.t -> result WellPlanContext.t) : Prop :=
  forall c c', f c = Ok c' -> WellPlanContext.well c' = WellPlanContext.well c.

(** The contract of the builder's collaborators that precedence rests on:
    the manager, the production profile, the cost function and the risk
    strategy work on the context of the well they are given. *)
Definition well_preserving (self : PlanBuilder.t)
    (risk_strategy : option (RiskStrategy RS G)) : Prop :=
  (forall m, keeps_well (mgr_get_assignments manager_class m))
  /\ keeps_well (profile_compute (PlanBuilder.profiler self))
  /\ keeps_well (cost_compute (PlanBuilder.cost_function self))
  /\ forall rs, risk_strategy = Some rs ->
       (forall st, keeps_well (apply_risk rs st))
       /\ forall st c g st' c' g',
            define_risk rs st c g = Ok (st', c', g') ->
            WellPlanContext.well c' = WellPlanContext.well c.

(** The collaborators of the builder end on every input. *)
Definition collaborators_return (self : PlanBuilder.t)
    (risk_strategy : option (RiskStrategy RS G)) : Prop :=
  (forall m c, returns (mgr_get_assignments manager_class m c))
  /\ (forall m c, returns (mgr_assign manager_class m c))
  /\ (forall c, returns (profile_compute (PlanBuilder.profiler self) c))
  /\ (forall c, returns (cost_compute (PlanBuilder.cost_function self) c))
  /\ (forall constraint plan c,
        In constraint (ConstraintManager.constraints (PlanBuilder._constraints self)) ->
        returns (is_violated constraint plan c))
  /\ forall rs, risk_strategy = Some rs ->
       (forall st c, returns (apply_risk rs st c))
       /\ forall st c g, returns (define_risk rs st c g).

(** ** States of the builder *)

(** A state of the loop, and a step of it, with the random source replaced. *)
Definition set_rng (g : G) (s : @PlanBuilder.state M RS G) : PlanBuilder.state :=
  PlanBuilder.mk_state (PlanBuilder.remaining_wells s) (PlanBuilder.current_start s)
    (PlanBuilder.plan s) (PlanBuilder.manager s) (PlanBuilder.risk_state s) g.

Definition step_set_rng (g : G) (r : @PlanBuilder.step M RS G) : PlanBuilder.step :=
  match r with
  | PlanBuilder.Continue s => PlanBuilder.Continue (set_rng g s)
  | PlanBuilder.Break s => PlanBuilder.Break (set_rng g s)
  end.

(** What a pass of the loop that goes on does: either it appends nothing
    and leaves the plan and the pool as they were, or it appends the context
    of a well of the pool whose dependency cluster has no well in the pool,
    and removes that well. *)
Definition pass_effect (s s' : @PlanBuilder.state M RS G) : Prop :=
  (PlanBuilder.plan s' = PlanBuilder.plan s
   /\ PlanBuilder.remaining_wells s' = PlanBuilder.remaining_wells s)
  \/ exists context,
       PlanBuilder.plan s' = Plan.add_context (PlanBuilder.plan s) context
       /\ In (WellPlanContext.well context) (PlanBuilder.remaining_wells s)
       /\ list_remove Well.eqb (WellPlanContext.well context) (PlanBuilder.remaining_wells s)
          = Ok (PlanBuilder.remaining_wells s')
       /\ forall C, Well.depend_from_cluster (WellPlanContext.well context) = Some C ->
          forall w, In w (PlanBuilder.remaining_wells s) -> Well.cluster w <> C.

(** The states a run of the loop goes through, from a given state on. *)
Inductive reaches (self : PlanBuilder.t) (risk_strategy : option (RiskStrategy RS G))
    (keep_order cluster_ordered : bool) : PlanBuilder.state -> PlanBuilder.state -> Prop :=
| reaches_here s : reaches self risk_strategy keep_order cluster_ordered s s
| reaches_pass s s1 s2 :
    PlanBuilder.loop_step manager_class self risk_strategy keep_order cluster_ordered s
    = Ok (PlanBuilder.Continue s1) ->
    reaches self risk_strategy keep_order cluster_ordered s1 s2 ->
    reaches self risk_strategy keep_order cluster_ordered s s2.

(** The invariant behind precedence: no well of the pool lies in a cluster
    that a planned well depends on. *)
Definition precedence_ok (s : @PlanBuilder.state M RS G) : Prop :=
  forall context, In context (Plan.well_plans (PlanBuilder.plan s)) ->
  forall C, Well.depend_from_cluster (WellPlanContext.well context) = Some C ->
  forall w, In w (PlanBuilder.remaining_wells s) -> Well.cluster w <> C.

(** The year the builder moves to when no candidate survives filtering: the
    next constraint-boundary year, or the year after the current one when
    there is none. *)
Definition backoff_year (self : PlanBuilder.t) (s : @PlanBuilder.state M RS G) : Z :=
  match ConstraintManager.get_period_end (PlanBuilder._constraints self)
          (year (PlanBuilder.current_start s)) with
  | Some y => if y =? 0 then year (PlanBuilder.current_start s) + 1 else y
  | None => year (PlanBuilder.current_start s) + 1
  end.

(** The state after the backoff: only [current_start] changes. *)
Definition backed_off (self : PlanBuilder.t) (s : @PlanBuilder.state M RS G) : PlanBuilder.state :=
  PlanBuilder.mk_state (PlanBuilder.remaining_wells s) (jan1 (backoff_year self s))
    (PlanBuilder.plan s) (PlanBuilder.manager s) (PlanBuilder.risk_state s) (PlanBuilder.rng s).

(** The rounds a run can take: one per well, one per year of the horizon,
    and the last test of the loop condition. *)
Definition rounds (self : PlanBuilder.t) (s : @PlanBuilder.state M RS G) : nat :=
  length (PlanBuilder.remaining_wells s)
  + Z.to_nat (year (PlanBuilder.end_ self) - year (PlanBuilder.current_start s) + 1).

(** ** Team managers *)

(** A call on the team manager, and the manager after it.  [get_assignments]
    only reads the manager (it fills in the context it is given); [assign]
    updates the team states and records the usage. *)
Inductive manager_call : Type :=
| call_get_assignments (context : WellPlanContext.t)
| call_assign (context : WellPlanContext.t).

Definition after_call (self : TeamManager.t) (c : manager_call) : TeamManager.t :=
  match c with
  | call_get_assignments _ => self
  | call_assign context => TeamManager.assign self context
  end.

(** The manager after a sequence of calls. *)
Definition after_calls (self : TeamManager.t) (calls : list manager_call) : TeamManager.t :=
  fold_left after_call calls self.

(** The teams recorded for [task] in [year] do not outnumber the limit [L]. *)
Definition within_limit (self : TeamManager.t) (year : Z) (task : Task.t) (L : Z) : Prop :=
  Z.of_nat (size (TeamManager.usage self year task)) <= L.

(** The configured years from [y] on: the years in which a limit check can
    still fail. *)
Definition years_from (limits : gmap Z (gmap Task.t Z)) (y : Z) : gset Z :=
  filter (fun k => y <= k) (dom limits).

(** ** Assignments *)

(** What a team offers for [task] on [context]: it has a state in the
    manager, travels [travel_time] to the cluster of the well, can start at
    [start_time], the start [_find_available_start_time] finds, and ends at
    [end_time], the duration of the task later, a date of the library. *)
Definition offers (self : TeamManager.t) (context : WellPlanContext.t) (task : Task.t)
    (team : Team.t) (start_time end_time : datetime) (travel_time : timedelta) : Prop :=
  exists state,
    TeamManager._states self !! team = Some state
    /\ TeamManager._get_travel_time self state (WellPlanContext.well context) = Ok travel_time
    /\ TeamManager._find_available_start_time self task team travel_time context = Ok start_time
    /\ end_time = start_time + Task.duration task
    /\ in_range end_time = true.

(** [entry] is the earliest-finishing choice for [task]: its team is one of
    the teams able to perform the task and offers the start, end and travel
    time of the entry; every team before it in the pool offers a strictly
    later end, every team after it an end that is not earlier. *)
Definition earliest_finish (self : TeamManager.t) (context : WellPlanContext.t) (task : Task.t)
    (entry : ScheduleEntry.t) : Prop :=
  ScheduleEntry.task entry = task
  /\ exists before after,
       TeamPool.get_teams_for_task (TeamManager.team_pool self) task
       = before ++ ScheduleEntry.team entry :: after
       /\ offers self context task (ScheduleEntry.team entry) (ScheduleEntry.start entry)
            (ScheduleEntry.end_ entry) (ScheduleEntry.travel_time entry)
       /\ Forall (fun team => exists start_time end_time travel_time,
                    offers self context task team start_time end_time travel_time
                    /\ ScheduleEntry.end_ entry < end_time) before
       /\ Forall (fun team => exists start_time end_time travel_time,
                    offers self context task team start_time end_time travel_time
                    /\ ScheduleEntry.end_ entry <= end_time) after.

(** The context after [entry] is appended (and the competing teams counted,
    when the manager counts teams). *)
Definition appended (self : TeamManager.t) (context : WellPlanContext.t)
    (entry : ScheduleEntry.t) : WellPlanContext.t :=
  let context :=
    WellPlanContext.set_entries context (WellPlanContext.entries context ++ [entry]) in
  if TeamManager.enable_team_count self
  then TeamManager._count_teams_on_cluster self context (Some (ScheduleEntry.task entry))
         (Some (ScheduleEntry.team entry))
  else context.

(** The contexts [get_assignments] goes through: one earliest-finishing
    entry appended per task, in order; nothing for a task whose list of
    teams is empty. *)
Inductive assigned (self : TeamManager.t)
    : WellPlanContext.t -> list Task.t -> WellPlanContext.t -> Prop :=
| assigned_done context : assigned self context [] context
| assigned_task context task tasks entry context' :
    earliest_finish self context task entry ->
    assigned self (appended self context entry) tasks context' ->
    assigned self context (task :: tasks) context'
| assigned_no_team context task tasks context' :
    TeamPool.get_teams_for_task (TeamManager.team_pool self) task = [] ->
    assigned self context tasks context' ->
    assigned self context (task :: tasks) context'.

(** ** Net present value *)

(** An operational-cost model that returns one value per month. *)
Definition per_month (opex : OperationalCost) : Prop :=
  forall oil water : list float,
    length oil = length water -> length (opex_compute opex oil water) = length oil.

(** An [int] that a float can hold (any float). *)
Definition fits_float (v : num) : Prop :=
  match v with
  | Int z => is_infinite (float_of_Z z) = false
  | Float _ => True
  end.

(** ** The cooling schedule *)

(** Whether the cooling loop ends within [fuel] tests of its condition. *)
Fixpoint cooling_ends (fuel : nat) (cooling_rate min_temp temp : float) : bool :=
  match fuel with
  | O => false
  | S fuel' =>
      if PrimFloat.ltb min_temp temp
      then cooling_ends fuel' cooling_rate min_temp (temp * cooling_rate)%float
      else true
  end.

(** ** The calendar *)

(** Day [r + 1] of a 400-year cycle lies in the year [_ord2year] gives it. *)
Definition bracket_ok (r : Z) : bool :=
  let y := _ord2year (r + 1) in
  (_days_before_year y <? r + 1) && (r + 1 <=? _days_before_year (y + 1)).

(** [bracket_ok] on the [n] days from [r] on. *)
Fixpoint bracket_from (n : nat) (r : Z) : bool :=
  match n with
  | O => true
  | S n' => bracket_ok r && bracket_from n' (r + 1)
  end.

End Vocabulary.

(** * The vocabulary of the further properties *)

(** ** Inputs of the example runs *)

Module Scenario.

(** The pool of [Example.pool], built through [add_team]. *)
Definition pool_added : TeamPool.t :=
  match TeamPool.add_team [inl Task.DRILLING] 1 TeamPool.empty with
  | Ok pool => pool
  | _ => TeamPool.empty
  end.

(** Well A with a trailing separator in its well type. *)
Definition well_a_trailing : Well.t :=
  Well.mk "A" "K1" "F" "L" "oil" "ГС+" 10 20 100 (Some (jan1 2024)) None None.

(** A bound for 2024 and a general bound. *)
Definition bounds : list ConstraintBound.t :=
  [ConstraintBound.mk 1000 (Some 2024); ConstraintBound.mk 500 None].

(** The candidates the builder of the example builds and keeps in its
    second pass, in 2025. *)
Definition built_2025 : list WellPlanContext.t :=
  match PlanBuilder._build_contexts TeamManager_class Example.builder
          (PlanBuilder.remaining_wells Example.state_2025)
          (PlanBuilder.manager Example.state_2025)
          (PlanBuilder.current_start Example.state_2025) with
  | Ok built => built
  | _ => []
  end.

Definition filtered_2025 : list WellPlanContext.t :=
  match PlanBuilder._filter_candidates Example.builder built_2025
          (PlanBuilder.plan Example.state_2025) Example.cluster_risk
          (PlanBuilder.risk_state Example.state_2025) true with
  | Ok filtered => filtered
  | _ => []
  end.

(** The run of the example to its end: wells A and B are planned in 2025. *)
Definition final_state : PlanBuilder.state :=
  match PlanBuilder.compile_run TeamManager_class 10 Example.builder 0
          [Example.well_a; Example.well_b] Example.manager Example.cluster_risk ∅
          true true Example.no_draws with
  | Ok s => s
  | _ => Example.initial_state
  end.

(** The context of well A with the linear production profile. *)
Definition linear_a : WellPlanContext.t :=
  match LinearProductionProfile.compute Example.assigned_a with
  | Ok context => context
  | _ => Example.assigned_a
  end.

(** The builder of the example with the linear production profile, and an
    oil constraint beside the capex constraint. *)
Definition linear_builder : PlanBuilder.t :=
  PlanBuilder.new (jan1 2024) (jan1 2026) (NPV.cost_function Example.npv)
    SimpleInfrastructure.infrastructure LinearProductionProfile.profile
    [CapexConstraint.new [ConstraintBound.mk 1000 (Some 2024)];
     OilConstraint.new [ConstraintBound.mk 100000 None]].

(** A draw below the trigger chance of [Example.risk]. *)
Definition trigger_draws : Example.script := ([0.25%float], []).

(** A plan of three well plans with the costs 1.5, [None] and 2.25. *)
Definition costed_plan : Plan.t :=
  Plan.mk 0
    [WellPlanContext.set_cost (WellPlanContext.new Example.well_a (jan1 2024) (jan1 2026))
       (Some 1.5%float);
     WellPlanContext.new Example.well_undated (jan1 2024) (jan1 2026);
     WellPlanContext.set_cost (WellPlanContext.new Example.well_b (jan1 2024) (jan1 2026))
       (Some 2.25%float)].

(** Two drilling teams without quotas, and the manager once the first team
    has drilled well A, from January 1 to January 31, 2024. *)
Definition two_teams : TeamManager.t :=
  TeamManager.new Example.pool_of_two SimpleTeamMovement.movement true ∅.

Definition two_teams_busy : TeamManager.t :=
  TeamManager.assign two_teams
    (match TeamManager.get_assignments two_teams Example.context_a with
     | Ok context => context
     | _ => Example.context_a
     end).

(** Well A free on January 1 and on December 17 of the year 9999. *)
Definition last_year_a : WellPlanContext.t :=
  WellPlanContext.new Example.well_a (jan1 9999) (jan1 9999 + days 364).

Definition last_days_a : WellPlanContext.t :=
  WellPlanContext.new Example.well_a (jan1 9999 + days 350) (jan1 9999 + days 364).

(** A manager that allows no drilling team in the year 9999. *)
Definition closed_9999 : TeamManager.t :=
  TeamManager.new Example.pool SimpleTeamMovement.movement true
    {[9999 := {[Task.DRILLING := 0]}]}.

(** The manager with the quota of one drilling team for 2024, once the
    first team has drilled well A in 2024. *)
Definition quota_filled : TeamManager.t :=
  TeamManager.assign Example.quota_manager Example.assigned_a.

(** A cost function that discounts at 100 % a year, from a start one year
    (365 days) before well A is drilled, with the travel cost per day an
    [int]. *)
Definition discounting_npv : NPV.t :=
  NPV.mk (BaseCapex.capital_cost (BaseCapex.mk {["ГС" := 10%float]} 50))
         (BaseOpex.operational_cost (BaseOpex.new 1 1 12 12))
         1 100 (jan1 2024 + days 30 - days 365) (Int 1500000).

(** The same cost function with a discount rate of -100 %. *)
Definition vanishing_npv : NPV.t :=
  NPV.mk (BaseCapex.capital_cost (BaseCapex.mk {["ГС" := 10%float]} 50))
         (BaseOpex.operational_cost (BaseOpex.new 1 1 12 12))
         (-1) 100 (jan1 2024 + days 30 - days 365) (Int 1500000).

(** The builder of the example with a further bound for the year 10000,
    beyond the years of the library, and the state a run over well A starts
    from. *)
Definition far_builder : PlanBuilder.t :=
  PlanBuilder.new (jan1 2024) (jan1 2026) (NPV.cost_function Example.npv)
    SimpleInfrastructure.infrastructure Example.one_month_profile
    [CapexConstraint.new
       [ConstraintBound.mk 1000 (Some 2024); ConstraintBound.mk 1000 (Some 10000)]].

Definition far_state : @PlanBuilder.state TeamManager.t unit Example.script :=
  PlanBuilder.initial far_builder 0 [Example.well_a] Example.manager tt Example.no_draws.

End Scenario.

(** ** Team managers *)

(** The last entry of a list that a team performs. *)
Definition last_entry_of (team : Team.t) (entries : list ScheduleEntry.t)
    : option ScheduleEntry.t :=
  List.find (fun entry => bool_decide (ScheduleEntry.team entry = team)) (rev entries).

(** Whether [_record_usage] adds the team to the set of [(year, task)]:
    the task has a limit in that year and the team passes the check. *)
Definition recorded (self : TeamManager.t) (task : Task.t) (team : Team.t) (year : Z) : bool :=
  match default ∅ (TeamManager.limits self !! year) !! task with
  | Some _ => TeamManager._check_limit self task year team
  | None => false
  end.

(** Entries that follow one another from the date [from] on: each starts
    when the one before has ended, and lasts the duration of its task. *)
Fixpoint in_sequence (from : datetime) (entries : list ScheduleEntry.t) : Prop :=
  match entries with
  | [] => True
  | entry :: entries' =>
      from <= ScheduleEntry.start entry
      /\ ScheduleEntry.end_ entry
         = ScheduleEntry.start entry + Task.duration (ScheduleEntry.task entry)
      /\ in_sequence (ScheduleEntry.end_ entry) entries'
  end.

Section FurtherVocabulary.
Context `{PyLib} {M RS G : Type}.

(** What [get_assignments] has checked for an entry of [well] on the
    manager [self]: the team is one of the pool for the task, the entry
    leaves it the travel time to the cluster from the moment it is free, and
    the year of the start passes the limit check. *)
Definition entry_sound (self : TeamManager.t) (well : Well.t) (entry : ScheduleEntry.t) : Prop :=
  In (ScheduleEntry.team entry)
    (TeamPool.get_teams_for_task (TeamManager.team_pool self) (ScheduleEntry.task entry))
  /\ exists state,
       TeamManager._states self !! ScheduleEntry.team entry = Some state
       /\ TeamManager._get_travel_time self state well = Ok (ScheduleEntry.travel_time entry)
       /\ TeamState.available_from state + ScheduleEntry.travel_time entry
          <= ScheduleEntry.start entry
       /\ TeamManager._check_limit self (ScheduleEntry.task entry)
            (year (ScheduleEntry.start entry)) (ScheduleEntry.team entry) = true.

(** ** Collaborators of the builder *)

(** A collaborator that fills in a context without touching its entries. *)
Definition keeps_entries (f : WellPlanContext.t -> result WellPlanContext.t) : Prop :=
  forall c c', f c = Ok c' -> WellPlanContext.entries c' = WellPlanContext.entries c.

(** The contract behind the horizon of the plan: the production profile,
    the cost function and the risk strategy leave the entries of a context
    as the manager scheduled them. *)
Definition entries_preserving (self : PlanBuilder.t)
    (risk_strategy : option (RiskStrategy RS G)) : Prop :=
  keeps_entries (profile_compute (PlanBuilder.profiler self))
  /\ keeps_entries (cost_compute (PlanBuilder.cost_function self))
  /\ forall rs, risk_strategy = Some rs ->
       (forall st, keeps_entries (apply_risk rs st))
       /\ forall st c g st' c' g',
            define_risk rs st c g = Ok (st', c', g') ->
            WellPlanContext.entries c' = WellPlanContext.entries c.

(** A context that is scheduled and ends by [end_]. *)
Definition fits (end_ : datetime) (context : WellPlanContext.t) : Prop :=
  WellPlanContext.entries context <> []
  /\ WellPlanContext.get_next_available_date context <= end_.

(** Every context of the plan is scheduled and ends by the end of the plan. *)
Definition within_horizon (self : PlanBuilder.t) (s : @PlanBuilder.state M RS G) : Prop :=
  forall context, In context (Plan.well_plans (PlanBuilder.plan s)) ->
    fits (PlanBuilder.end_ self) context.

End FurtherVocabulary.

(** ** Candidates and clusters *)

Definition cluster_of (c : WellPlanContext.t) : string := Well.cluster (WellPlanContext.well c).

(** The invariant of the first loop of [_filter_candidates] over the
    candidates seen so far: the dict has one item per cluster seen, the
    earliest candidate of the cluster. *)
Definition earliest_inv (seen : list WellPlanContext.t) (d : list (string * WellPlanContext.t))
    : Prop :=
  NoDup (map fst d)
  /\ (forall k v, In (k, v) d ->
        cluster_of v = k /\ In v seen
        /\ forall c, In c seen -> cluster_of c = k ->
             PlanBuilder.candidate_date v <= PlanBuilder.candidate_date c)
  /\ forall c, In c seen -> In (cluster_of c) (map fst d).

(** ** Constraints *)

(** [y] is the year of a bound of one of the constraints. *)
Definition bound_year (self : ConstraintManager.t) (y : Z) : Prop :=
  exists constraint b,
    In constraint (ConstraintManager.constraints self)
    /\ In b (bounds constraint) /\ ConstraintBound.year b = Some y.

(** A bound applies to [year] when it names that year or no year (a bound
    for year 0 is falsy in [b.year and b.year == year] and applies to no
    year). *)
Definition applicable (year : Z) (b : ConstraintBound.t) : bool :=
  match ConstraintBound.year b with
  | Some y => negb (y =? 0) && (y =? year)
  | None => true
  end.

Definition bound_lt (a b : ConstraintBound.t) : bool :=
  PrimFloat.ltb (ConstraintBound.value a) (ConstraintBound.value b).

(** [context.metadata.get('capex', 0.0)]. *)
Definition capex_of (context : WellPlanContext.t) : float :=
  to_float (default (Float 0) (WellPlanContext.metadata context !! "capex")).

(** ** The risk strategy *)

(** No cluster has a reduction above 1. *)
Definition capped (affected : ClusterRandomRiskStrategy.state) : Prop :=
  forall cluster reduction, affected !! cluster = Some reduction ->
    PrimFloat.ltb 1 reduction = false.

(** ** Months and days *)

(** The month and the day of the day [n] of a year, counted from 0: the
    estimate of [_ord2ymd] and its correction. *)
Definition month_day (leapyear : bool) (n : Z) : Z * Z :=
  let month := Z.shiftr (n + 50) 5 in
  let preceding :=
    item _DAYS_BEFORE_MONTH month + (if (2 <? month) && leapyear then 1 else 0) in
  if n <? preceding then
    let month := month - 1 in
    let preceding :=
      preceding - (item _DAYS_IN_MONTH month + (if (month =? 2) && leapyear then 1 else 0)) in
    (month, n - preceding + 1)
  else (month, n - preceding + 1).

(** A year that is a leap year, or one that is not. *)
Definition sample_year (leapyear : bool) : Z := if leapyear then 4 else 1.

(** [month_day] gives a month, a day of that month, and the day [n] again. *)
Definition month_day_ok (leapyear : bool) (n : Z) : bool :=
  let '(m, d) := month_day leapyear n in
  (1 <=? m) && (m <=? 12) && (1 <=? d) && (d <=? _days_in_month (sample_year leapyear) m)
  && (_days_before_month (sample_year leapyear) m + d =? n + 1).

(** The days of a year, counted from 0. *)
Definition year_days (leapyear : bool) : list Z :=
  map Z.of_nat (seq 0 (if leapyear then 366 else 365)).

(** The months in order: [12 * year + month] grows with the date. *)
Definition month_index (dt : datetime) : Z := 12 * year dt + month dt.

(** The month [idx] months after the month [m0] of the year [y0]. *)
Definition month_after (y0 m0 idx : Z) : Z * Z :=
  (y0 + (m0 + idx - 1) / 12, (m0 + idx - 1) mod 12 + 1).

(** ** Production profiles *)

(** The sum of a list of day counts. *)
Definition sum_Z (l : list Z) : Z := foldr Z.add 0 l.

(** The rates of a list of day counts. *)
Definition rates_of (rate : float) (ds : list Z) : list float :=
  map (fun d => (rate * float_of_Z d)%float) ds.

(** The values of the items of [items] under [key], in order. *)
Definition values_of {K : Type} `{EqDecision K} (key : K) (items : list (K * float))
    : list float :=
  map snd (List.filter (fun item => bool_decide (item.1 = key)) items).

(** The yearly items of all planned wells, in the order of the plan. *)
Definition plan_oil_items (p : Plan.t) : list (Z * float) :=
  flat_map (fun wp =>
      match WellPlanContext.launch_date wp with
      | Ok launch_date =>
          PlanProduction._monthly_to_yearly launch_date (WellPlanContext.oil_prod_profile wp)
      | _ => []
      end)
    (Plan.well_plans p).

(** The oil of the year [y] a context adds: the sum, from [0.0] on, of its
    monthly oil of that year. *)
Definition context_oil (launch_date : datetime) (context : WellPlanContext.t) (y : Z) : float :=
  py_sum (values_of y (PlanProduction._monthly_to_yearly launch_date
                         (WellPlanContext.oil_prod_profile context))).

(** The oil of the year [y] in the plan, [0.0] for a year without any. *)
Definition planned_oil (plan : Plan.t) (y : Z) : float :=
  py_sum (values_of y (plan_oil_items plan)).

(** * Verified properties *)

(** ** The runtime *)

Lemma bind_Ok {A B : Type} (m : result A) (f : A -> result B) (b : B) :
  m ≫= f = Ok b -> exists a, m = Ok a /\ f a = Ok b.
Proof. destruct m as [a| |]; simpl; intros E; try discriminate. eauto. Qed.

Lemma map_result_Ok {A B : Type} (f : A -> result B) (l : list A) (l' : list B) :
  map_result f l = Ok l' -> Forall2 (fun x y => f x = Ok y) l l'.
Proof.
  revert l'. induction l as [|x l IH]; simpl; intros l' E.
  - injection E as <-. constructor.
  - apply bind_Ok in E as (y & Ey & E). apply bind_Ok in E as (ys & Eys & E).
    injection E as <-. constructor; auto.
Qed.

Lemma min_from_In {A : Type} (lt : A -> A -> bool) (l : list A) (best : A) :
  min_from lt best l = best \/ In (min_from lt best l) l.
Proof.
  revert best. induction l as [|x l IH]; simpl; intros best; [auto|].
  destruct (IH (if lt x best then x else best)) as [E|E]; [|auto].
  rewrite E. destruct (lt x best); auto.
Qed.

Lemma bind_returns {A B : Type} (m : result A) (f : A -> result B) :
  returns m -> (forall a, m = Ok a -> returns (f a)) -> returns (m ≫= f).
Proof. destruct m as [a| |]; cbn; intros Hm Hf; [apply Hf; reflexivity | discriminate | done]. Qed.

Lemma map_result_returns {A B : Type} (f : A -> result B) (l : list A) :
  (forall x, returns (f x)) -> returns (map_result f l).
Proof.
  intros Hf. induction l as [|x l IH]; cbn [map_result]; [discriminate|].
  apply bind_returns; [apply Hf|]. intros y _.
  apply bind_returns; [exact IH|]. intros ys _. discriminate.
Qed.

Lemma Forall2_In_right {A B : Type} (P : A -> B -> Prop) (l : list A) (l' : list B) (y : B) :
  Forall2 P l l' -> In y l' -> exists x, In x l /\ P x y.
Proof.
  induction 1 as [|x y0 l l' Hxy _ IH]; intros Hin; [destruct Hin|].
  destruct Hin as [<-|Hin]; [exists x; split; [by left | exact Hxy]|].
  destruct (IH Hin) as (x' & Hx' & HP). exists x'. split; [by right | exact HP].
Qed.

Lemma map_result_app {A B : Type} (f : A -> result B) (l1 l2 : list A) (r1 r2 : list B) :
  map_result f l1 = Ok r1 -> map_result f l2 = Ok r2 -> map_result f (l1 ++ l2) = Ok (r1 ++ r2).
Proof.
  revert r1. induction l1 as [|x l1 IH]; intros r1 E1 E2.
  - injection E1 as <-. exact E2.
  - cbn [map_result app] in *. apply bind_Ok in E1 as (y & Ey & E1).
    apply bind_Ok in E1 as (ys & Eys & E1). injection E1 as <-.
    rewrite Ey. cbn [mbind result_bind]. rewrite (IH ys Eys E2). reflexivity.
Qed.

Lemma for_each_returns {A S : Type} (body : S -> A -> result S) (l : list A) (s : S) :
  (forall s x, returns (body s x)) -> returns (for_each body l s).
Proof.
  intros Hbody. revert s. induction l as [|x l IH]; intros s; [discriminate|].
  cbn [for_each]. apply bind_returns; [apply Hbody | intros s' _; apply IH].
Qed.

Lemma min_by_In {A : Type} (lt : A -> A -> bool) (l : list A) (x : A) :
  min_by lt l = Ok x -> In x l.
Proof.
  destruct l as [|y l]; simpl; intros E; [discriminate|].
  injection E as <-. destruct (min_from_In lt l y) as [->|]; auto.
Qed.

Lemma float_eq_refl (x : float) : float_eq x x = true.
Proof. unfold float_eq, is_nan. destruct (PrimFloat.eqb x x); reflexivity. Qed.

Lemma Well_eqb_refl (w : Well.t) : Well.eqb w w = true.
Proof.
  unfold Well.eqb. rewrite !String.eqb_refl, !float_eq_refl, !bool_decide_eq_true_2 by reflexivity.
  reflexivity.
Qed.

Lemma list_remove_incl {A : Type} (eqb : A -> A -> bool) (x : A) (l l' : list A) :
  list_remove eqb x l = Ok l' -> incl l' l.
Proof.
  revert l'. induction l as [|y l IH]; simpl; intros l' E; [discriminate|].
  destruct (eqb y x).
  - injection E as <-. apply incl_tl, incl_refl.
  - apply bind_Ok in E as (l'' & E1 & E). injection E as <-.
    apply incl_cons; [left; reflexivity | apply incl_tl; auto].
Qed.

Lemma list_remove_length {A : Type} (eqb : A -> A -> bool) (x : A) (l l' : list A) :
  list_remove eqb x l = Ok l' -> length l = S (length l').
Proof.
  revert l'. induction l as [|y l IH]; simpl; intros l' E; [discriminate|].
  destruct (eqb y x).
  - injection E as <-. reflexivity.
  - apply bind_Ok in E as (l'' & E1 & E). injection E as <-. simpl. f_equal. auto.
Qed.

(** ** The calendar: January 1 of a year lies in that year *)

Lemma div_mod_small (k q r : Z) :
  0 <= r < k -> (k * q + r) / k = q /\ (k * q + r) mod k = r.
Proof.
  intros Hr. split.
  - symmetry. apply (Z.div_unique _ _ q r); lia.
  - symmetry. apply (Z.mod_unique _ _ q r); lia.
Qed.

Lemma year_decompose (z : Z) :
  exists a b c d, z = 400 * a + 100 * b + 4 * c + d /\ 0 <= b < 4 /\ 0 <= c < 25 /\ 0 <= d < 4.
Proof.
  exists (z / 400), (z mod 400 / 100), (z mod 400 mod 100 / 4), (z mod 400 mod 100 mod 4).
  pose proof (Z.div_mod z 400 ltac:(lia)).
  pose proof (Z.mod_pos_bound z 400 ltac:(lia)).
  pose proof (Z.div_mod (z mod 400) 100 ltac:(lia)).
  pose proof (Z.mod_pos_bound (z mod 400) 100 ltac:(lia)).
  pose proof (Z.div_mod (z mod 400 mod 100) 4 ltac:(lia)).
  pose proof (Z.mod_pos_bound (z mod 400 mod 100) 4 ltac:(lia)).
  assert (0 <= z mod 400 / 100 < 4)
    by (split; [apply Z.div_pos; lia | apply Z.div_lt_upper_bound; lia]).
  assert (0 <= z mod 400 mod 100 / 4 < 25)
    by (split; [apply Z.div_pos; lia | apply Z.div_lt_upper_bound; lia]).
  lia.
Qed.

Lemma days_before_year_decomposed (a b c d : Z) :
  0 <= b < 4 -> 0 <= c < 25 -> 0 <= d < 4 ->
  _days_before_year (400 * a + 100 * b + 4 * c + d + 1)
  = 146097 * a + 36524 * b + 1461 * c + 365 * d.
Proof.
  intros Hb Hc Hd. unfold _days_before_year. cbv zeta.
  replace (400 * a + 100 * b + 4 * c + d + 1 - 1) with (400 * a + 100 * b + 4 * c + d) by lia.
  assert (E4 : (400 * a + 100 * b + 4 * c + d) / 4 = 100 * a + 25 * b + c).
  { replace (400 * a + 100 * b + 4 * c + d) with (4 * (100 * a + 25 * b + c) + d) by lia.
    apply div_mod_small; lia. }
  assert (E100 : (400 * a + 100 * b + 4 * c + d) / 100 = 4 * a + b).
  { replace (400 * a + 100 * b + 4 * c + d) with (100 * (4 * a + b) + (4 * c + d)) by lia.
    apply div_mod_small; lia. }
  assert (E400 : (400 * a + 100 * b + 4 * c + d) / 400 = a).
  { replace (400 * a + 100 * b + 4 * c + d) with (400 * a + (100 * b + 4 * c + d)) by lia.
    apply div_mod_small; lia. }
  rewrite E4, E100, E400. lia.
Qed.

Lemma ord2year_jan1 (y : Z) : _ord2year (_days_before_year y + 1) = y.
Proof.
  destruct (year_decompose (y - 1)) as (a & b & c & d & E & Hb & Hc & Hd).
  replace y with (400 * a + 100 * b + 4 * c + d + 1) by lia.
  rewrite days_before_year_decomposed by assumption.
  unfold _ord2year, _DI400Y, _DI100Y, _DI4Y. cbv zeta.
  replace (146097 * a + 36524 * b + 1461 * c + 365 * d + 1 - 1)
    with (146097 * a + (36524 * b + 1461 * c + 365 * d)) by lia.
  destruct (div_mod_small 146097 a (36524 * b + 1461 * c + 365 * d) ltac:(lia)) as [-> ->].
  destruct (div_mod_small 36524 b (1461 * c + 365 * d) ltac:(lia)) as [D1 M1].
  replace (36524 * b + 1461 * c + 365 * d) with (36524 * b + (1461 * c + 365 * d)) by lia.
  rewrite D1, M1.
  destruct (div_mod_small 1461 c (365 * d) ltac:(lia)) as [-> ->].
  replace (365 * d) with (365 * d + 0) by lia.
  destruct (div_mod_small 365 d 0 ltac:(lia)) as [-> _].
  replace (d =? 4) with false by (symmetry; apply Z.eqb_neq; lia).
  replace (b =? 4) with false by (symmetry; apply Z.eqb_neq; lia).
  cbn [orb]. lia.
Qed.

Lemma year_jan1 (y : Z) : year (jan1 y) = y.
Proof.
  unfold year, toordinal, jan1. rewrite Z.div_mul by (unfold us_per_day; lia).
  apply ord2year_jan1.
Qed.

(** ** Profit aggregation *)

Lemma omap_cost_filter (l : list WellPlanContext.t) :
  omap WellPlanContext.cost l
  = map (fun wp => default 0%float (WellPlanContext.cost wp)) (List.filter has_cost l).
Proof.
  induction l as [|wp l IH]; [reflexivity|].
  cbn [omap list_omap List.filter]. unfold has_cost at 1.
  destruct (WellPlanContext.cost wp) eqn:E; cbn [map]; rewrite ?E, IH; reflexivity.
Qed.

Lemma omap_cost_all_None (l : list WellPlanContext.t) :
  Forall (fun wp => WellPlanContext.cost wp = None) l -> omap WellPlanContext.cost l = [].
Proof.
  induction 1 as [|wp l E _ IH]; [reflexivity|].
  cbn [omap list_omap]. rewrite E. exact IH.
Qed.

(** C7.  [Plan.total_profit()] is the sum of the [cost] fields of the well
    plans whose cost is not [None]: these costs added one after the other,
    in the order of the plan, starting from 0; it is 0 for a plan without
    well plans and for a plan whose costs are all [None]. *)
Theorem total_profit_is_sum_of_costs (p : Plan.t) :
  Plan.total_profit p
  = fold_left PrimFloat.add
      (map (fun wp => default 0%float (WellPlanContext.cost wp))
         (List.filter has_cost (Plan.well_plans p)))
      0%float
  /\ (Plan.well_plans p = [] -> Plan.total_profit p = 0%float)
  /\ (Forall (fun wp => WellPlanContext.cost wp = None) (Plan.well_plans p) ->
      Plan.total_profit p = 0%float).
Proof.
  unfold Plan.total_profit. split; [|split].
  - rewrite omap_cost_filter. reflexivity.
  - intros ->. reflexivity.
  - intros Hnone. rewrite omap_cost_all_None by assumption. reflexivity.
Qed.

(** Witness of C7: a plan of three well plans with the costs 1.5, [None]
    and 2.25; its total profit is 3.75. *)
Lemma total_profit_is_sum_of_costs_witness :
  Plan.total_profit Scenario.costed_plan = fold_left PrimFloat.add [1.5; 2.25]%float 0%float
  /\ Plan.total_profit Scenario.costed_plan = 3.75%float.
Proof.
  split.
  - exact (proj1 (total_profit_is_sum_of_costs Scenario.costed_plan)).
  - rewrite (proj1 (total_profit_is_sum_of_costs Scenario.costed_plan)).
    vm_compute. reflexivity.
Defined.

(** Appending a context adds its cost, if it has one, to the total. *)
Lemma total_profit_add_context (p : Plan.t) (c : WellPlanContext.t) :
  Plan.total_profit (Plan.add_context p c)
  = match WellPlanContext.cost c with
    | Some x => (Plan.total_profit p + x)%float
    | None => Plan.total_profit p
    end.
Proof.
  unfold Plan.total_profit, Plan.add_context, py_sum. cbn [Plan.well_plans].
  rewrite omap_app, fold_left_app. cbn [omap list_omap].
  destruct (WellPlanContext.cost c); reflexivity.
Qed.

(** ** Keep-order selection *)

Lemma min_entry_date_from_undated (l : list WellPlanContext.t) (best : WellPlanContext.t) :
  l <> [] ->
  entry_date best = None \/ (exists c, In c l /\ entry_date c = None) ->
  PlanBuilder.min_entry_date_from best l = Raise TypeError.
Proof.
  unfold entry_date. revert best. induction l as [|x l IH]; intros best Hne Hnone; [done|].
  cbn [PlanBuilder.min_entry_date_from].
  destruct (Well.init_entry_date (WellPlanContext.well x)) as [dx|] eqn:Ex; [|reflexivity].
  destruct (Well.init_entry_date (WellPlanContext.well best)) as [db|] eqn:Eb; [|reflexivity].
  destruct Hnone as [Hb | (c & [-> | Hc] & Ec)]; try congruence.
  apply IH.
  - intros ->. destruct Hc.
  - right. eauto.
Qed.

Lemma min_entry_date_from_spec (l : list WellPlanContext.t) (best c : WellPlanContext.t) :
  PlanBuilder.min_entry_date_from best l = Ok c ->
  (c = best \/ In c l)
  /\ forall c', c' = best \/ In c' l ->
       forall d', entry_date c' = Some d' -> exists d, entry_date c = Some d /\ d <= d'.
Proof.
  unfold entry_date. revert best. induction l as [|x l IH]; intros best E.
  - injection E as <-. split; [auto|]. intros c' [-> | []] d' Ed'. eauto with zarith.
  - cbn [PlanBuilder.min_entry_date_from] in E.
    destruct (Well.init_entry_date (WellPlanContext.well x)) as [dx|] eqn:Ex; [|discriminate].
    destruct (Well.init_entry_date (WellPlanContext.well best)) as [db|] eqn:Eb; [|discriminate].
    apply IH in E as [Hin Hmin].
    assert (Hnew : exists d, Well.init_entry_date (WellPlanContext.well c) = Some d
                             /\ d <= dx /\ d <= db).
    { destruct (Z.ltb_spec dx db) as [Hlt | Hge].
      - destruct (Hmin x (or_introl eq_refl) dx Ex) as (d & Ed & Hd).
        exists d. split; [exact Ed | lia].
      - destruct (Hmin best (or_introl eq_refl) db Eb) as (d & Ed & Hd).
        exists d. split; [exact Ed | lia]. }
    destruct Hnew as (d & Ed & Hdx & Hdb).
    split.
    + destruct Hin as [-> | Hin]; [|right; right; exact Hin].
      destruct (dx <? db); [right; left; reflexivity | left; reflexivity].
    + intros c' [-> | [-> | Hc']] d' Ed'.
      * exists d. split; [exact Ed|]. congruence.
      * exists d. split; [exact Ed|]. congruence.
      * apply (Hmin c'); auto.
Qed.

(** With [keep_order], the selected candidate is one of the candidates and
    no dated candidate has an earlier initial entry date. *)
Lemma min_entry_date_minimal (cs : list WellPlanContext.t) (c : WellPlanContext.t) :
  PlanBuilder.min_entry_date cs = Ok c ->
  In c cs
  /\ forall c', In c' cs ->
       forall d', entry_date c' = Some d' -> exists d, entry_date c = Some d /\ d <= d'.
Proof.
  destruct cs as [|x l]; [discriminate|]. cbn [PlanBuilder.min_entry_date]. intros E.
  apply min_entry_date_from_spec in E as [Hin Hmin]. split.
  - destruct Hin as [-> | Hin]; [left; reflexivity | right; exact Hin].
  - intros c' [<- | Hc']; apply Hmin; auto.
Qed.

(** When every candidate carries a date the selection succeeds. *)
Lemma min_entry_date_from_dated (l : list WellPlanContext.t) (best : WellPlanContext.t) :
  Forall (fun c => entry_date c <> None) (best :: l) ->
  exists c, PlanBuilder.min_entry_date_from best l = Ok c.
Proof.
  unfold entry_date. revert best. induction l as [|x l IH]; intros best Hall.
  - eauto.
  - cbn [PlanBuilder.min_entry_date_from].
    inversion Hall as [|? ? Hb Hrest]; subst. inversion Hrest as [|? ? Hx Hl]; subst.
    destruct (Well.init_entry_date (WellPlanContext.well x)) as [dx|] eqn:Ex; [|done].
    destruct (Well.init_entry_date (WellPlanContext.well best)) as [db|] eqn:Eb; [|done].
    apply IH. constructor; [|exact Hl].
    destruct (dx <? db); congruence.
Qed.

Section KeepOrder.
Context `{PyLib} {G : Type} `{RandomSource G}.

(** C10.  With [keep_order=True], a round with two or more candidates of
    which at least one has no [init_entry_date] makes
    [_select_best_candidate] raise TypeError instead of returning a
    candidate. *)
Theorem keep_order_undated_candidate_raises (self : PlanBuilder.t)
    (candidates : list WellPlanContext.t) (g : G) :
  (2 <= length candidates)%nat ->
  (exists c, In c candidates /\ entry_date c = None) ->
  PlanBuilder._select_best_candidate self candidates true g = Raise TypeError.
Proof.
  intros Hlen (c & Hc & Ec). unfold PlanBuilder._select_best_candidate.
  destruct candidates as [|x [|y l]]; cbn [length] in Hlen; try lia.
  cbn [PlanBuilder.min_entry_date].
  rewrite min_entry_date_from_undated; [reflexivity | discriminate |].
  destruct Hc as [<- | Hc]; [left; exact Ec | right; eauto].
Qed.

(** Conversely, keep-order selection over dated candidates returns one of
    them and leaves the random source as it was. *)
Lemma keep_order_dated_candidates_select (self : PlanBuilder.t)
    (candidates : list WellPlanContext.t) (g : G) :
  candidates <> [] ->
  Forall (fun c => entry_date c <> None) candidates ->
  exists c, PlanBuilder._select_best_candidate self candidates true g = Ok (c, g) /\ In c candidates.
Proof.
  intros Hne Hall. unfold PlanBuilder._select_best_candidate.
  destruct candidates as [|x l]; [done|].
  destruct (min_entry_date_from_dated l x Hall) as [c Ec].
  exists c. cbn [PlanBuilder.min_entry_date]. rewrite Ec. split; [reflexivity|].
  apply (min_entry_date_minimal (x :: l)). exact Ec.
Qed.

End KeepOrder.

(** ** Keep-order determinism *)

(** Destructs the computation a monadic bind of the goal waits for. *)
Ltac case_bind :=
  match goal with
  | |- context [mbind _ ?m] =>
      let E := fresh "E" in destruct m eqn:E; cbn [mbind result_bind]
  end.

Section Determinism.
Context `{PyLib} {M RS G : Type} `{RandomSource G}.
Context (manager_class : BaseTeamManager M).

Lemma keep_order_select_rng (self : PlanBuilder.t) (candidates : list WellPlanContext.t) (g g' : G) :
  PlanBuilder._select_best_candidate self candidates true g'
  = result_map (fun cg => (fst cg, g')) (PlanBuilder._select_best_candidate self candidates true g).
Proof.
  unfold PlanBuilder._select_best_candidate.
  destruct (PlanBuilder.min_entry_date candidates); reflexivity.
Qed.

(** Without a risk strategy and with [keep_order], a pass of the loop reads
    nothing from the random source and hands it on untouched. *)
Lemma keep_order_step_rng (self : PlanBuilder.t) (cluster_ordered : bool)
    (s : @PlanBuilder.state M RS G) (g : G) :
  PlanBuilder.loop_step manager_class self None true cluster_ordered (set_rng g s)
  = result_map (step_set_rng g)
      (PlanBuilder.loop_step manager_class self None true cluster_ordered s).
Proof.
  unfold PlanBuilder.loop_step, PlanBuilder.loop_condition, PlanBuilder.loop_body.
  cbn [set_rng PlanBuilder.remaining_wells PlanBuilder.current_start PlanBuilder.plan
       PlanBuilder.manager PlanBuilder.risk_state PlanBuilder.rng].
  destruct (_ && _); [|reflexivity].
  case_bind; try reflexivity.
  destruct a as [|c0 cs0]; [reflexivity|].
  case_bind; try reflexivity.
  destruct a as [|c1 cs1]; [destruct (datetime_jan1 _); reflexivity|].
  rewrite (keep_order_select_rng self (c1 :: cs1) (PlanBuilder.rng s) g).
  destruct (PlanBuilder._select_best_candidate self (c1 :: cs1) true (PlanBuilder.rng s))
    as [[best g0]| |]; cbn [result_map mbind result_bind fst]; try reflexivity.
  case_bind; try reflexivity.
  case_bind; reflexivity.
Qed.

Lemma keep_order_loop_rng (fuel : nat) (self : PlanBuilder.t) (cluster_ordered : bool)
    (s : @PlanBuilder.state M RS G) (g : G) :
  PlanBuilder.loop manager_class fuel self None true cluster_ordered (set_rng g s)
  = result_map (set_rng g)
      (PlanBuilder.loop manager_class fuel self None true cluster_ordered s).
Proof.
  revert s. induction fuel as [|fuel IH]; intros s; [reflexivity|].
  cbn [PlanBuilder.loop]. rewrite keep_order_step_rng.
  destruct (PlanBuilder.loop_step manager_class self None true cluster_ordered s) as [[s'|s']| |];
    cbn [result_map step_set_rng mbind result_bind]; auto.
Qed.

(** C9.  Two runs of [compile] with [keep_order=True], no risk strategy, the
    same wells and the same initial manager state return the same plan (the
    same contexts, hence the same wells, in the same order) or fail alike,
    whatever the states [g1] and [g2] of the random source; and each
    selection returns the first candidate of minimal [init_entry_date]
    without drawing from the random source. *)
Theorem keep_order_deterministic (fuel : nat) (self : PlanBuilder.t) (plan_id : N)
    (wells : list Well.t) (manager : M) (risk_state : RS) (cluster_ordered : bool) (g1 g2 : G) :
  PlanBuilder.compile manager_class fuel self plan_id wells manager None risk_state
    true cluster_ordered g1
  = PlanBuilder.compile manager_class fuel self plan_id wells manager None risk_state
      true cluster_ordered g2
  /\ forall candidates c g g',
       PlanBuilder._select_best_candidate self candidates true g = Ok (c, g') ->
       g' = g /\ In c candidates
       /\ forall c', In c' candidates ->
            forall d', entry_date c' = Some d' -> exists d, entry_date c = Some d /\ d <= d'.
Proof.
  split.
  - unfold PlanBuilder.compile, PlanBuilder.compile_run.
    change (PlanBuilder.initial self plan_id wells manager risk_state g1)
      with (set_rng g1 (PlanBuilder.initial self plan_id wells manager risk_state g2)).
    rewrite keep_order_loop_rng.
    destruct (PlanBuilder.loop manager_class fuel self None true cluster_ordered
                (PlanBuilder.initial self plan_id wells manager risk_state g2));
      reflexivity.
  - intros candidates c g g' E. unfold PlanBuilder._select_best_candidate in E.
    apply bind_Ok in E as (best & Ebest & E). injection E as -> ->.
    split; [reflexivity|]. apply min_entry_date_minimal. exact Ebest.
Qed.

End Determinism.

(** ** Every selection policy returns one of the candidates *)

Section SelectionMembership.
Context `{PyLib} {G : Type} `{RandomSource G}.

Lemma choice_In {A : Type} (l : list A) (g g' : G) (x : A) :
  choice l g = Ok (x, g') -> In x l.
Proof.
  unfold choice. destruct l as [|y l]; [discriminate|].
  remember (y :: l) as l0 eqn:El0.
  assert (Hlen : length l0 <> 0%nat) by (subst l0; discriminate).
  clear El0. destruct (_randbelow (length l0) g) as [k g0]. intros E.
  assert (Ex : x = nth (k mod length l0)%nat l0 y) by congruence.
  rewrite Ex. apply nth_In. apply Nat.mod_upper_bound. exact Hlen.
Qed.

Lemma scored_snd (self : PlanBuilder.t) (l : list WellPlanContext.t) (g : G) :
  map snd (fst (PlanBuilder.scored self l g)) = l.
Proof.
  revert g. induction l as [|c l IH]; intros g; [reflexivity|].
  cbn [PlanBuilder.scored].
  destruct (PlanBuilder._calculate_candidate_score self c g) as [s g1].
  specialize (IH g1). destruct (PlanBuilder.scored self l g1) as [rest g2].
  cbn [fst map snd] in *. rewrite IH. reflexivity.
Qed.

Lemma get_neighbor_candidate_In (candidates : list WellPlanContext.t)
    (current c : WellPlanContext.t) (g g' : G) :
  PlanBuilder._get_neighbor_candidate candidates current g = Ok (c, g') -> In c candidates.
Proof.
  unfold PlanBuilder._get_neighbor_candidate.
  destruct (random g) as [u g0]. destruct (PrimFloat.ltb u 0.7).
  - apply choice_In.
  - destruct (List.filter _ candidates) as [|x l] eqn:Ef.
    + apply choice_In.
    + intros E. apply choice_In in E. rewrite <- Ef in E.
      apply filter_In in E. tauto.
Qed.

Lemma sa_iteration_within (self : PlanBuilder.t) (valid : list WellPlanContext.t) (temp : float)
    (sg sg' : PlanBuilder.sa_state * G) :
  sa_within valid sg -> PlanBuilder.sa_iteration self valid temp sg = Ok sg' -> sa_within valid sg'.
Proof.
  unfold PlanBuilder.sa_iteration, sa_within. destruct sg as [s g]. cbn [fst].
  intros [Hcur Hbest] E.
  apply bind_Ok in E as ([neighbor g1] & En & E). apply get_neighbor_candidate_In in En.
  destruct (PlanBuilder._calculate_candidate_score self neighbor g1) as [score g2].
  destruct (PlanBuilder._accept_solution (PlanBuilder.current_score s) score temp g2)
    as [[|] g3].
  - destruct (PrimFloat.ltb (PlanBuilder.best_score s) score); injection E as <-; cbn; auto.
  - injection E as <-. cbn. auto.
Qed.

Lemma repeat_result_invariant {S : Type} (P : S -> Prop) (body : S -> result S) :
  (forall s s', P s -> body s = Ok s' -> P s') ->
  forall n s s', P s -> PlanBuilder.repeat_result n body s = Ok s' -> P s'.
Proof.
  intros Hbody. induction n as [|n IH]; intros s s' Hs E.
  - injection E as <-. exact Hs.
  - cbn [PlanBuilder.repeat_result] in E. apply bind_Ok in E as (s1 & E1 & E). eauto.
Qed.

Lemma sa_cooling_within (fuel : nat) (self : PlanBuilder.t) (valid : list WellPlanContext.t)
    (cooling_rate min_temp : float) (iterations : nat) (temp : float)
    (sg sg' : PlanBuilder.sa_state * G) :
  sa_within valid sg ->
  PlanBuilder.sa_cooling fuel self valid cooling_rate min_temp iterations temp sg = Ok sg' ->
  sa_within valid sg'.
Proof.
  revert temp sg. induction fuel as [|fuel IH]; intros temp sg Hsg E; [discriminate|].
  cbn [PlanBuilder.sa_cooling] in E. destruct (PrimFloat.ltb min_temp temp).
  - apply bind_Ok in E as (sg1 & E1 & E). refine (IH _ sg1 _ E).
    apply (repeat_result_invariant (sa_within valid) _ (sa_iteration_within self valid temp)
             iterations sg); assumption.
  - injection E as <-. exact Hsg.
Qed.

Lemma simulated_annealing_selection_In (self : PlanBuilder.t)
    (candidates : list WellPlanContext.t) (initial_temp cooling_rate min_temp : float)
    (iterations : nat) (g g' : G) (c : WellPlanContext.t) :
  PlanBuilder._simulated_annealing_selection self candidates initial_temp cooling_rate
    min_temp iterations g = Ok (c, g') ->
  In c candidates.
Proof.
  unfold PlanBuilder._simulated_annealing_selection.
  set (valid := List.filter _ candidates).
  assert (Hvalid : forall x, In x valid -> In x candidates)
    by (intros x Hx; apply filter_In in Hx; tauto).
  destruct valid as [|v valid'] eqn:Ev.
  - destruct candidates as [|c0 l]; [discriminate|]. intros E. injection E as <- <-. left. reflexivity.
  - rewrite <- Ev in *. clear Ev. destruct (length valid <=? 3)%nat.
    + destruct (random g) as [u g0]. destruct (PrimFloat.ltb u 0.6).
      * pose proof (scored_snd self valid g0) as Hsnd.
        destruct (PlanBuilder.scored self valid g0) as [keyed g1]. cbn [fst] in Hsnd.
        intros E. apply bind_Ok in E as (best & Ebest & E). injection E as <- <-.
        apply Hvalid. rewrite <- Hsnd. apply in_map. apply (min_by_In _ _ _ Ebest).
      * intros E. apply Hvalid. exact (choice_In _ _ _ _ E).
    + intros E. apply bind_Ok in E as ([current g0] & Ec & E). apply choice_In in Ec.
      destruct (PlanBuilder._calculate_candidate_score self current g0) as [score g1].
      apply bind_Ok in E as ([s g2] & Es & E). injection E as <- <-.
      apply Hvalid. apply sa_cooling_within in Es; [apply Es | split; exact Ec].
Qed.

Lemma select_best_candidate_In (self : PlanBuilder.t) (candidates : list WellPlanContext.t)
    (keep_order : bool) (g g' : G) (c : WellPlanContext.t) :
  PlanBuilder._select_best_candidate self candidates keep_order g = Ok (c, g') ->
  In c candidates.
Proof.
  unfold PlanBuilder._select_best_candidate. destruct keep_order.
  - intros E. apply bind_Ok in E as (best & Ebest & E). injection E as <- <-.
    apply min_entry_date_minimal. exact Ebest.
  - destruct candidates as [|c0 l]; [discriminate|].
    apply simulated_annealing_selection_In.
Qed.

End SelectionMembership.

(** ** Cluster precedence *)

Lemma is_cluster_finished_spec (remaining : list Well.t) (C : string) :
  PlanBuilder._is_cluster_finished remaining (Some C) = true ->
  forall w, In w remaining -> Well.cluster w <> C.
Proof.
  unfold PlanBuilder._is_cluster_finished. intros Hfin w Hw Hc.
  apply negb_true_iff in Hfin.
  assert (Hex : existsb (fun well => String.eqb (Well.cluster well) C) remaining = true).
  { apply existsb_exists. exists w. split; [exact Hw|]. apply String.eqb_eq. exact Hc. }
  congruence.
Qed.

Lemma map_result_keeps_well (f : WellPlanContext.t -> result WellPlanContext.t)
    (l l' : list WellPlanContext.t) :
  keeps_well f -> map_result f l = Ok l' ->
  forall c', In c' l' -> exists c, In c l /\ WellPlanContext.well c' = WellPlanContext.well c.
Proof.
  intros Hf E. apply map_result_Ok in E.
  induction E as [|c c1 l l' Ec _ IH]; intros c' Hc'; [destruct Hc'|].
  destruct Hc' as [<- | Hc'].
  - exists c. split; [left; reflexivity | exact (Hf _ _ Ec)].
  - destruct (IH c' Hc') as (c0 & Hc0 & Ew). exists c0. split; [right; exact Hc0 | exact Ew].
Qed.

Lemma dict_set_In (cluster : string) (candidate : WellPlanContext.t)
    (d : list (string * WellPlanContext.t)) (kv : string * WellPlanContext.t) :
  In kv (PlanBuilder.dict_set cluster candidate d) -> snd kv = candidate \/ In kv d.
Proof.
  induction d as [|[k v] d IH]; cbn [PlanBuilder.dict_set].
  - intros [<- | []]. left. reflexivity.
  - destruct (String.eqb k cluster).
    + intros [<- | Hin]; [left; reflexivity | right; right; exact Hin].
    + intros [<- | Hin]; [right; left; reflexivity|].
      destruct (IH Hin) as [E | Hd]; [left; exact E | right; right; exact Hd].
Qed.

Lemma earliest_per_cluster_In (candidates : list WellPlanContext.t) (c : WellPlanContext.t) :
  In c (PlanBuilder.earliest_per_cluster candidates) -> In c candidates.
Proof.
  unfold PlanBuilder.earliest_per_cluster.
  assert (Hfold : forall l d,
            (forall kv, In kv d -> In (snd kv) candidates) ->
            (forall x, In x l -> In x candidates) ->
            forall kv,
              In kv (fold_left (fun d candidate =>
                       let cluster := Well.cluster (WellPlanContext.well candidate) in
                       match PlanBuilder.dict_get cluster d with
                       | None => PlanBuilder.dict_set cluster candidate d
                       | Some existing =>
                           if PlanBuilder.candidate_date candidate <? PlanBuilder.candidate_date existing
                           then PlanBuilder.dict_set cluster candidate d else d
                       end) l d) ->
              In (snd kv) candidates).
  { induction l as [|x l IH]; intros d Hd Hl kv; cbn [fold_left]; [apply Hd|].
    apply IH; [|intros y Hy; apply Hl; right; exact Hy].
    intros kv' Hkv'. cbv zeta in Hkv'.
    assert (Hset : In kv' (PlanBuilder.dict_set (Well.cluster (WellPlanContext.well x)) x d) ->
                   In (snd kv') candidates).
    { intros Hin. destruct (dict_set_In _ _ _ _ Hin) as [-> | Hin'];
        [apply Hl; left; reflexivity | apply Hd; exact Hin']. }
    destruct (PlanBuilder.dict_get _ d) as [existing|]; [|auto].
    destruct (_ <? _); auto. }
  intros Hc. apply in_map_iff in Hc as (kv & <- & Hkv).
  apply (Hfold candidates []); auto. intros ? [].
Qed.

Lemma flags_fst {A : Type} (f : A -> result bool) (l : list A) (flags : list (A * bool)) :
  map_result (fun c => v ← f c; Ok (c, v)) l = Ok flags -> map fst flags = l.
Proof.
  intros E. apply map_result_Ok in E.
  induction E as [|c cv l l' Ec _ IH]; [reflexivity|].
  apply bind_Ok in Ec as (v & _ & Ec). injection Ec as <-. cbn. f_equal. exact IH.
Qed.

Lemma filter_candidates_wells {RS G : Type} (self : PlanBuilder.t)
    (candidates candidates' : list WellPlanContext.t) (plan : Plan.t)
    (risk_strategy : option (RiskStrategy RS G)) (risk_state : RS) (cluster_ordered : bool) :
  keeps_well (cost_compute (PlanBuilder.cost_function self)) ->
  (forall rs, risk_strategy = Some rs -> forall st, keeps_well (apply_risk rs st)) ->
  PlanBuilder._filter_candidates self candidates plan risk_strategy risk_state cluster_ordered
  = Ok candidates' ->
  forall c', In c' candidates' ->
    exists c, In c candidates /\ WellPlanContext.well c' = WellPlanContext.well c.
Proof.
  intros Hcost Hrisk E c' Hc'. unfold PlanBuilder._filter_candidates in E.
  set (ordered := if _ && _ then _ else candidates) in E.
  assert (Hord : forall x, In x ordered -> In x candidates).
  { subst ordered. destruct (_ && _); [apply earliest_per_cluster_In | auto]. }
  apply bind_Ok in E as (risked & Erisk & E).
  apply bind_Ok in E as (costed & Ecost & E).
  apply bind_Ok in E as (flags & Eflags & E). injection E as <-.
  apply flags_fst in Eflags.
  apply in_map_iff in Hc' as (cv & <- & Hcv). apply filter_In in Hcv as [Hcv _].
  assert (Hcosted : In (fst cv) costed) by (rewrite <- Eflags; apply in_map; exact Hcv).
  destruct (map_result_keeps_well _ _ _ Hcost Ecost _ Hcosted) as (c1 & Hc1 & Ew1).
  assert (Hfrom : exists c0, In c0 ordered /\ WellPlanContext.well c1 = WellPlanContext.well c0).
  { destruct risk_strategy as [rs|].
    - apply (map_result_keeps_well _ _ _ (Hrisk rs eq_refl risk_state) Erisk). exact Hc1.
    - injection Erisk as <-. eauto. }
  destruct Hfrom as (c0 & Hc0 & Ew0). exists c0. split; [auto | congruence].
Qed.

Section Precedence.
Context `{PyLib} {M RS G : Type} `{RandomSource G}.
Context (manager_class : BaseTeamManager M).

(** A context is built for a well only when its dependency cluster has no
    well left in the pool. *)
Lemma build_context_finished (self : PlanBuilder.t) (remaining : list Well.t) (well : Well.t)
    (manager : M) (start : datetime) (context : WellPlanContext.t) :
  PlanBuilder._build_context manager_class self remaining well manager start = Ok (Some context) ->
  PlanBuilder._is_cluster_finished remaining (Well.depend_from_cluster well) = true.
Proof.
  unfold PlanBuilder._build_context.
  destruct (PlanBuilder._is_cluster_finished remaining (Well.depend_from_cluster well));
    [reflexivity | discriminate].
Qed.

Lemma build_context_well (self : PlanBuilder.t) (remaining : list Well.t) (well : Well.t)
    (manager : M) (start : datetime) (context : WellPlanContext.t) :
  (forall m, keeps_well (mgr_get_assignments manager_class m)) ->
  keeps_well (profile_compute (PlanBuilder.profiler self)) ->
  PlanBuilder._build_context manager_class self remaining well manager start = Ok (Some context) ->
  WellPlanContext.well context = well.
Proof.
  intros Hmgr Hprof. unfold PlanBuilder._build_context.
  destruct (negb _); [discriminate|]. intros E.
  apply bind_Ok in E as (c1 & E1 & E). apply Hmgr in E1. cbn in E1.
  destruct (_ || _); [discriminate|].
  apply bind_Ok in E as (c2 & E2 & E). apply Hprof in E2. injection E as <-. congruence.
Qed.

Lemma build_contexts_candidates (self : PlanBuilder.t) (remaining : list Well.t) (manager : M)
    (start : datetime) (candidates : list WellPlanContext.t) :
  (forall m, keeps_well (mgr_get_assignments manager_class m)) ->
  keeps_well (profile_compute (PlanBuilder.profiler self)) ->
  PlanBuilder._build_contexts manager_class self remaining manager start = Ok candidates ->
  forall c, In c candidates ->
    In (WellPlanContext.well c) remaining
    /\ PlanBuilder._is_cluster_finished remaining
         (Well.depend_from_cluster (WellPlanContext.well c)) = true.
Proof.
  intros Hmgr Hprof E c Hc. unfold PlanBuilder._build_contexts in E.
  apply bind_Ok in E as (contexts & E & Ec). injection Ec as <-.
  apply map_result_Ok in E. unfold PlanBuilder.somes in Hc.
  apply list_elem_of_In, list_elem_of_omap in Hc as (oc & Hoc & Eoc). cbn in Eoc. subst oc.
  apply list_elem_of_In in Hoc.
  assert (Hsrc : forall l l', Forall2 (fun well y =>
                   PlanBuilder._build_context manager_class self remaining well manager start
                   = Ok y) l l' ->
                 In (Some c) l' ->
                 exists well, In well l /\
                   PlanBuilder._build_context manager_class self remaining well manager start
                   = Ok (Some c)).
  { induction 1 as [|w y l l' Ew _ IH]; intros Hin; [destruct Hin|].
    destruct Hin as [-> | Hin]; [exists w; split; [left; reflexivity | exact Ew]|].
    destruct (IH Hin) as (w' & Hw' & Ew'). exists w'. split; [right; exact Hw' | exact Ew']. }
  destruct (Hsrc _ _ E Hoc) as (well & Hwell & Ebuild).
  rewrite (build_context_well _ _ _ _ _ _ Hmgr Hprof Ebuild).
  split; [exact Hwell | exact (build_context_finished _ _ _ _ _ _ Ebuild)].
Qed.

Lemma loop_step_effect (self : PlanBuilder.t) (risk_strategy : option (RiskStrategy RS G))
    (keep_order cluster_ordered : bool) (s s' : @PlanBuilder.state M RS G) :
  well_preserving manager_class self risk_strategy ->
  PlanBuilder.loop_step manager_class self risk_strategy keep_order cluster_ordered s
  = Ok (PlanBuilder.Continue s') ->
  pass_effect s s'.
Proof.
  intros (Hmgr & Hprof & Hcost & Hrisk) E.
  unfold PlanBuilder.loop_step in E. destruct (PlanBuilder.loop_condition self s); [|discriminate].
  unfold PlanBuilder.loop_body in E.
  apply bind_Ok in E as (built & Ebuilt & E). destruct built as [|b0 built]; [discriminate|].
  apply bind_Ok in E as (filtered & Efilt & E). destruct filtered as [|f0 filtered].
  { apply bind_Ok in E as (next_start & _ & E). injection E as <-. left. split; reflexivity. }
  apply bind_Ok in E as ([best g] & Ebest & E).
  apply bind_Ok in E as (manager' & Eassign & E).
  apply bind_Ok in E as (remaining' & Eremove & E).
  apply bind_Ok in E as ([[rs' best'] g'] & Erisk & E). injection E as <-.
  unfold pass_effect. cbn [PlanBuilder.plan PlanBuilder.remaining_wells].
  apply select_best_candidate_In in Ebest.
  destruct (filter_candidates_wells _ _ _ _ _ _ _ Hcost (fun rs Hrs => proj1 (Hrisk rs Hrs))
              Efilt _ Ebest) as (c0 & Hc0 & Ew0).
  destruct (build_contexts_candidates _ _ _ _ _ Hmgr Hprof Ebuilt _ Hc0) as [Hin Hfin].
  assert (Ew : WellPlanContext.well best' = WellPlanContext.well best).
  { destruct risk_strategy as [rs|].
    - apply bind_Ok in Erisk as ([[rs1 best1] g1] & Edef & Erisk).
      apply bind_Ok in Erisk as (best2 & Ecost & Erisk). injection Erisk as <- <- <-.
      apply Hcost in Ecost. apply (proj2 (Hrisk rs eq_refl)) in Edef. congruence.
    - injection Erisk as <- <- <-. reflexivity. }
  right. exists best'. rewrite Ew, Ew0.
  split; [reflexivity|]. split; [exact Hin|]. split; [rewrite <- Ew0; exact Eremove|].
  intros C HC. apply is_cluster_finished_spec. rewrite <- HC. exact Hfin.
Qed.

Lemma pass_effect_precedence (s s' : @PlanBuilder.state M RS G) :
  pass_effect s s' -> precedence_ok s -> precedence_ok s'.
Proof.
  unfold precedence_ok.
  intros [[Eplan Erem] | (context & Eplan & Hin & Erem & Hdep)] Hok c Hc C HC w Hw.
  - rewrite Eplan in Hc. rewrite Erem in Hw. eauto.
  - apply list_remove_incl in Erem. apply Erem in Hw.
    rewrite Eplan in Hc. cbn [Plan.add_context Plan.well_plans] in Hc.
    apply in_app_or in Hc as [Hc | [<- | []]]; eauto.
Qed.

Lemma reaches_precedence (self : PlanBuilder.t) (risk_strategy : option (RiskStrategy RS G))
    (keep_order cluster_ordered : bool) (s s' : @PlanBuilder.state M RS G) :
  well_preserving manager_class self risk_strategy ->
  reaches manager_class self risk_strategy keep_order cluster_ordered s s' ->
  precedence_ok s -> precedence_ok s'.
Proof.
  intros Hwp Hreach. induction Hreach as [s | s s1 s2 Estep _ IH]; [auto|].
  intros Hok. apply IH. apply (pass_effect_precedence s); [|exact Hok].
  exact (loop_step_effect _ _ _ _ _ _ Hwp Estep).
Qed.

(** C1.  Cluster precedence, in every run of [compile] (every state [s] the
    loop reaches from the initial state, for any wells, manager, risk
    strategy and selection policy).  A context is built for a well [W] only
    when no well of the remaining pool lies in the cluster [W] depends on;
    a pass of the loop that appends a context to the plan appends the
    context of a well [W] of the pool such that no well of the pool, as it
    is when the pass begins, lies in the cluster [W] depends on; and so no
    well of the pool ever lies in a cluster that a planned well depends
    on. *)
Theorem cluster_precedence (self : PlanBuilder.t) (plan_id : N) (wells : list Well.t)
    (manager : M) (risk_strategy : option (RiskStrategy RS G)) (risk_state : RS)
    (keep_order cluster_ordered : bool) (g : G) (s : @PlanBuilder.state M RS G) :
  well_preserving manager_class self risk_strategy ->
  reaches manager_class self risk_strategy keep_order cluster_ordered
    (PlanBuilder.initial self plan_id wells manager risk_state g) s ->
  (forall well start context,
      PlanBuilder._build_context manager_class self (PlanBuilder.remaining_wells s) well
        (PlanBuilder.manager s) start = Ok (Some context) ->
      forall C, Well.depend_from_cluster well = Some C ->
      forall w, In w (PlanBuilder.remaining_wells s) -> Well.cluster w <> C)
  /\ (forall s',
        PlanBuilder.loop_step manager_class self risk_strategy keep_order cluster_ordered s
        = Ok (PlanBuilder.Continue s') ->
        pass_effect s s')
  /\ precedence_ok s.
Proof.
  intros Hwp Hreach. split; [|split].
  - intros well start context Ebuild C HC. apply is_cluster_finished_spec.
    rewrite <- HC. exact (build_context_finished _ _ _ _ _ _ Ebuild).
  - intros s' Estep. exact (loop_step_effect _ _ _ _ _ _ Hwp Estep).
  - apply (reaches_precedence _ _ _ _ _ _ Hwp Hreach).
    intros context [].
Qed.

End Precedence.

(** ** The repository's collaborators keep the well of a context *)

Lemma for_each_invariant {A S : Type} (P : S -> Prop) (body : S -> A -> result S) :
  (forall s x s', P s -> body s x = Ok s' -> P s') ->
  forall l s s', P s -> for_each body l s = Ok s' -> P s'.
Proof.
  intros Hbody. induction l as [|x l IH]; intros s s' Hs E.
  - injection E as <-. exact Hs.
  - cbn [for_each] in E. apply bind_Ok in E as (s1 & E1 & E). eauto.
Qed.

Section CollaboratorsKeepWell.
Context `{PyLib}.

Lemma assign_task_well (self : TeamManager.t) (context context' : WellPlanContext.t)
    (task : Task.t) :
  TeamManager.assign_task self context task = Ok context' ->
  WellPlanContext.well context' = WellPlanContext.well context.
Proof.
  unfold TeamManager.assign_task. destruct (bool_decide _); [discriminate|]. intros E.
  apply bind_Ok in E as (candidates & _ & E). destruct candidates as [|c0 cs].
  - injection E as <-. reflexivity.
  - apply bind_Ok in E as (best & _ & E). injection E as <-.
    destruct (TeamManager.enable_team_count self); reflexivity.
Qed.

Lemma TeamManager_keeps_well (self : TeamManager.t) :
  keeps_well (TeamManager.get_assignments self).
Proof.
  intros c c' E. unfold TeamManager.get_assignments in E.
  apply bind_Ok in E as (tasks & _ & E).
  apply (for_each_invariant
           (fun x => WellPlanContext.well x = WellPlanContext.well c)
           (TeamManager.assign_task self)) in E; [exact E | | reflexivity].
  intros s x s' Hs Es. rewrite <- Hs. exact (assign_task_well _ _ _ _ Es).
Qed.

(** [NPV.compute] writes the cost and the metadata of the context, nothing
    else. *)
Lemma NPV_compute_shape (self : NPV.t) (c c' : WellPlanContext.t) :
  NPV.compute self c = Ok c' ->
  exists cost metadata,
    c' = WellPlanContext.set_metadata (WellPlanContext.set_cost c (Some cost)) metadata.
Proof.
  intros E. unfold NPV.compute in E. apply bind_Ok in E as (capex & _ & E).
  apply bind_Ok in E as (flows & _ & E). apply bind_Ok in E as (discounted_capex & _ & E).
  apply bind_Ok in E as (travel_cost & _ & E). apply bind_Ok in E as (penalty & _ & E).
  apply bind_Ok in E as (travel & _ & E). injection E as <-. eauto.
Qed.

Lemma NPV_keeps_well (self : NPV.t) : keeps_well (NPV.compute self).
Proof.
  intros c c' E. apply NPV_compute_shape in E as (cost & metadata & ->). reflexivity.
Qed.

Lemma apply_risk_well (affected : ClusterRandomRiskStrategy.state) (c : WellPlanContext.t) :
  WellPlanContext.well (ClusterRandomRiskStrategy.apply_risk affected c) = WellPlanContext.well c.
Proof.
  unfold ClusterRandomRiskStrategy.apply_risk.
  destruct (affected !! Well.cluster (WellPlanContext.well c)); reflexivity.
Qed.

Lemma define_risk_well {G : Type} `{RandomSource G} (self : ClusterRandomRiskStrategy.t)
    (affected : ClusterRandomRiskStrategy.state) (c : WellPlanContext.t) (g : G) :
  WellPlanContext.well (ClusterRandomRiskStrategy.define_risk self affected c g).1.2
  = WellPlanContext.well c.
Proof.
  unfold ClusterRandomRiskStrategy.define_risk. destruct (random g) as [u g0].
  destruct (PrimFloat.ltb u _); [|reflexivity]. cbn [fst snd]. apply apply_risk_well.
Qed.

(** The team manager, the NPV cost function and the cluster risk strategy
    of the repository, with any production profile that keeps the well,
    meet the contract [well_preserving]. *)
Lemma repository_well_preserving {G : Type} `{RandomSource G} (self : PlanBuilder.t) (npv : NPV.t)
    (risk : option ClusterRandomRiskStrategy.t) :
  PlanBuilder.cost_function self = NPV.cost_function npv ->
  keeps_well (profile_compute (PlanBuilder.profiler self)) ->
  well_preserving TeamManager_class self
    (ClusterRandomRiskStrategy.risk_strategy (G := G) <$> risk).
Proof.
  intros Ecost Hprof. split; [|split; [|split]].
  - intros m. apply TeamManager_keeps_well.
  - exact Hprof.
  - rewrite Ecost. apply NPV_keeps_well.
  - intros rs Ers. destruct risk as [r|]; [|discriminate]. injection Ers as <-. split.
    + intros st c c' E. injection E as <-. apply apply_risk_well.
    + intros st c g st' c' g' E. injection E as E. rewrite <- (define_risk_well r st c g).
      rewrite E. reflexivity.
Qed.

End CollaboratorsKeepWell.

Lemma one_month_profile_keeps_well : keeps_well (profile_compute Example.one_month_profile).
Proof. intros c c' E. injection E as <-. reflexivity. Qed.

(** ** Concrete runs: cluster precedence and keep-order selection *)

Lemma example_first_pass :
  PlanBuilder.loop_step TeamManager_class Example.builder Example.cluster_risk true true
    Example.initial_state
  = Ok (PlanBuilder.Continue Example.state_2025).
Proof. vm_compute. reflexivity. Qed.

Lemma example_second_pass :
  PlanBuilder.loop_step TeamManager_class Example.builder Example.cluster_risk true true
    Example.state_2025
  = Ok (PlanBuilder.Continue Example.state_a_planned).
Proof. vm_compute. reflexivity. Qed.

Lemma example_well_preserving :
  well_preserving TeamManager_class Example.builder Example.cluster_risk.
Proof.
  apply (repository_well_preserving Example.builder Example.npv (Some Example.risk)).
  - reflexivity.
  - apply one_month_profile_keeps_well.
Qed.

Lemma example_reaches :
  reaches TeamManager_class Example.builder Example.cluster_risk true true
    (PlanBuilder.initial Example.builder 0 [Example.well_a; Example.well_b] Example.manager
       ∅ Example.no_draws)
    Example.state_a_planned.
Proof.
  eapply reaches_pass; [exact example_first_pass|].
  eapply reaches_pass; [exact example_second_pass|].
  apply reaches_here.
Qed.

(** Witness of C1: the run of the example builder over wells A (cluster K1)
    and B (cluster K2, to be drilled after K1), at the state where A is
    planned and B remains. *)
Lemma cluster_precedence_witness :
  (forall well start context,
      PlanBuilder._build_context TeamManager_class Example.builder
        (PlanBuilder.remaining_wells Example.state_a_planned) well
        (PlanBuilder.manager Example.state_a_planned) start = Ok (Some context) ->
      forall C, Well.depend_from_cluster well = Some C ->
      forall w, In w (PlanBuilder.remaining_wells Example.state_a_planned) -> Well.cluster w <> C)
  /\ (forall s',
        PlanBuilder.loop_step TeamManager_class Example.builder Example.cluster_risk true true
          Example.state_a_planned
        = Ok (PlanBuilder.Continue s') ->
        pass_effect Example.state_a_planned s')
  /\ precedence_ok Example.state_a_planned.
Proof.
  exact (cluster_precedence TeamManager_class Example.builder 0
           [Example.well_a; Example.well_b] Example.manager Example.cluster_risk ∅ true true
           Example.no_draws Example.state_a_planned
           example_well_preserving example_reaches).
Defined.

(** Witness of C10: a dated and an undated candidate. *)
Lemma keep_order_undated_candidate_raises_witness :
  PlanBuilder._select_best_candidate Example.builder Example.two_candidates true Example.no_draws
  = Raise TypeError.
Proof.
  apply (keep_order_undated_candidate_raises Example.builder Example.two_candidates
           Example.no_draws).
  - cbn. lia.
  - exists (WellPlanContext.new Example.well_undated (jan1 2024) (jan1 2026)).
    split; [right; left; reflexivity | reflexivity].
Defined.

(** ** Empty-candidate backoff *)

Section Backoff.
Context `{PyLib} {M RS G : Type} `{RandomSource G}.
Context (manager_class : BaseTeamManager M).

Lemma loop_condition_false (self : PlanBuilder.t) (s : @PlanBuilder.state M RS G) :
  PlanBuilder.loop_condition self s = false
  <-> PlanBuilder.remaining_wells s = [] \/ PlanBuilder.end_ self <= PlanBuilder.current_start s.
Proof.
  unfold PlanBuilder.loop_condition. rewrite andb_false_iff, Z.ltb_ge.
  destruct (PlanBuilder.remaining_wells s); split; intros [E | E]; auto; discriminate.
Qed.

(** The loop is left in exactly three cases: the pool is empty, the plan
    end is reached, or the round builds no candidate at all. *)
Lemma loop_step_break (self : PlanBuilder.t) (risk_strategy : option (RiskStrategy RS G))
    (keep_order cluster_ordered : bool) (s s' : @PlanBuilder.state M RS G) :
  PlanBuilder.loop_step manager_class self risk_strategy keep_order cluster_ordered s
  = Ok (PlanBuilder.Break s')
  <-> s' = s
      /\ (PlanBuilder.remaining_wells s = []
          \/ PlanBuilder.end_ self <= PlanBuilder.current_start s
          \/ PlanBuilder._build_contexts manager_class self (PlanBuilder.remaining_wells s)
               (PlanBuilder.manager s) (PlanBuilder.current_start s) = Ok []).
Proof.
  unfold PlanBuilder.loop_step.
  destruct (PlanBuilder.loop_condition self s) eqn:Econd.
  - assert (Hcond : ~ (PlanBuilder.remaining_wells s = []
                       \/ PlanBuilder.end_ self <= PlanBuilder.current_start s)).
    { intros Hc. apply loop_condition_false in Hc. congruence. }
    unfold PlanBuilder.loop_body.
    destruct (PlanBuilder._build_contexts manager_class self (PlanBuilder.remaining_wells s)
                (PlanBuilder.manager s) (PlanBuilder.current_start s)) as [[|c0 built]| |];
      cbn [mbind result_bind].
    + split; [intros E; injection E as <-; auto | intros [-> _]; reflexivity].
    + split.
      * intros E. exfalso.
        apply bind_Ok in E as (filtered & _ & E). destruct filtered as [|f0 filtered];
          [apply bind_Ok in E as (next_start & _ & E); discriminate|].
        apply bind_Ok in E as ([best g] & _ & E). apply bind_Ok in E as (m' & _ & E).
        apply bind_Ok in E as (r' & _ & E). apply bind_Ok in E as ([[rs' b'] g'] & _ & E).
        discriminate.
      * intros [_ [E | [E | E]]]; [tauto | tauto | discriminate].
    + split; [discriminate | intros [_ [E | [E | E]]]; [tauto | tauto | discriminate]].
    + split; [discriminate | intros [_ [E | [E | E]]]; [tauto | tauto | discriminate]].
  - apply loop_condition_false in Econd.
    split; [intros E; injection E as <-; tauto | intros [-> _]; reflexivity].
Qed.

(** C3 (amended).  When the round builds candidates but none survives
    filtering, while wells remain and [current_start < end], the builder
    turns to January 1 of the next constraint-boundary year (of the next
    year when there is none): when that year is a year of the library
    (MINYEAR to MAXYEAR, 1 to 9999) it moves [current_start] there, changes
    nothing else and goes on with the loop; past the last year
    [datetime(year, 1, 1)] raises ValueError and so does the pass.  The
    loop is left (the plan returned, no error raised) exactly when the
    pool is empty, [current_start] has reached the plan end, or a round
    builds no candidate at all. *)
Theorem filtered_out_backoff (self : PlanBuilder.t) (risk_strategy : option (RiskStrategy RS G))
    (keep_order cluster_ordered : bool) (s : @PlanBuilder.state M RS G)
    (built : list WellPlanContext.t) :
  PlanBuilder.loop_condition self s = true ->
  PlanBuilder._build_contexts manager_class self (PlanBuilder.remaining_wells s)
    (PlanBuilder.manager s) (PlanBuilder.current_start s) = Ok built ->
  built <> [] ->
  PlanBuilder._filter_candidates self built (PlanBuilder.plan s) risk_strategy
    (PlanBuilder.risk_state s) cluster_ordered = Ok [] ->
  (1 <= backoff_year self s <= 9999 ->
   PlanBuilder.loop_step manager_class self risk_strategy keep_order cluster_ordered s
   = Ok (PlanBuilder.Continue (backed_off self s))
   /\ year (PlanBuilder.current_start (backed_off self s)) = backoff_year self s)
  /\ (backoff_year self s < 1 \/ 9999 < backoff_year self s ->
      PlanBuilder.loop_step manager_class self risk_strategy keep_order cluster_ordered s
      = Raise ValueError)
  /\ forall t t',
       PlanBuilder.loop_step manager_class self risk_strategy keep_order cluster_ordered t
       = Ok (PlanBuilder.Break t')
       <-> t' = t
           /\ (PlanBuilder.remaining_wells t = []
               \/ PlanBuilder.end_ self <= PlanBuilder.current_start t
               \/ PlanBuilder._build_contexts manager_class self (PlanBuilder.remaining_wells t)
                    (PlanBuilder.manager t) (PlanBuilder.current_start t) = Ok []).
Proof.
  intros Econd Ebuilt Hne Efilt.
  assert (Estep : PlanBuilder.loop_step manager_class self risk_strategy keep_order
                    cluster_ordered s
                  = current_start ← datetime_jan1 (backoff_year self s);
                    Ok (PlanBuilder.Continue
                          (PlanBuilder.mk_state (PlanBuilder.remaining_wells s) current_start
                             (PlanBuilder.plan s) (PlanBuilder.manager s)
                             (PlanBuilder.risk_state s) (PlanBuilder.rng s)))).
  { unfold PlanBuilder.loop_step, PlanBuilder.loop_body. rewrite Econd, Ebuilt.
    cbn [mbind result_bind]. destruct built as [|c0 built]; [done|].
    rewrite Efilt. reflexivity. }
  split; [|split].
  - intros Hyear. split; [|apply year_jan1].
    rewrite Estep. unfold datetime_jan1, MINYEAR, MAXYEAR.
    rewrite (proj2 (Z.leb_le _ _) (proj1 Hyear)), (proj2 (Z.leb_le _ _) (proj2 Hyear)).
    reflexivity.
  - intros Hyear. rewrite Estep. unfold datetime_jan1, MINYEAR, MAXYEAR.
    destruct Hyear as [Hlo | Hhi].
    + rewrite (proj2 (Z.leb_gt _ _) Hlo). reflexivity.
    + rewrite (proj2 (Z.leb_gt _ _) Hhi), andb_false_r. reflexivity.
  - intros t t'. apply loop_step_break.
Qed.

End Backoff.

(** Counterexample to C3 as stated: a single well and a horizon of ten
    days, too short for the thirty days of drilling.  The round yields zero
    candidates while the well remains and [current_start < end]; the builder
    does not move [current_start] to a later year and retry: it leaves the
    loop, with the pool not empty and the plan end not reached. *)
Lemma backoff_counterexample :
  PlanBuilder.loop_condition Example.short_builder Example.short_state = true
  /\ PlanBuilder._build_contexts TeamManager_class Example.short_builder
       (PlanBuilder.remaining_wells Example.short_state)
       (PlanBuilder.manager Example.short_state)
       (PlanBuilder.current_start Example.short_state) = Ok []
  /\ PlanBuilder.loop_step TeamManager_class Example.short_builder None true true
       Example.short_state
     = Ok (PlanBuilder.Break Example.short_state)
  /\ PlanBuilder.remaining_wells Example.short_state = [Example.well_a]
  /\ PlanBuilder.current_start Example.short_state < PlanBuilder.end_ Example.short_builder.
Proof. repeat split; vm_compute; reflexivity. Qed.

(** Witness of C3 (amended): the first pass of the example run.  Well A is
    the one candidate built (well B waits for cluster K1), the 2024 cap on
    capital expenditure filters it out, and the builder moves on to
    January 1, 2025. *)
Lemma filtered_out_backoff_witness :
  (1 <= backoff_year Example.builder Example.initial_state <= 9999 ->
   PlanBuilder.loop_step TeamManager_class Example.builder Example.cluster_risk true true
     Example.initial_state
   = Ok (PlanBuilder.Continue (backed_off Example.builder Example.initial_state))
   /\ year (PlanBuilder.current_start (backed_off Example.builder Example.initial_state))
      = backoff_year Example.builder Example.initial_state)
  /\ (backoff_year Example.builder Example.initial_state < 1
      \/ 9999 < backoff_year Example.builder Example.initial_state ->
      PlanBuilder.loop_step TeamManager_class Example.builder Example.cluster_risk true true
        Example.initial_state
      = Raise ValueError)
  /\ forall t t',
       PlanBuilder.loop_step TeamManager_class Example.builder Example.cluster_risk true true t
       = Ok (PlanBuilder.Break t')
       <-> t' = t
           /\ (PlanBuilder.remaining_wells t = []
               \/ PlanBuilder.end_ Example.builder <= PlanBuilder.current_start t
               \/ PlanBuilder._build_contexts TeamManager_class Example.builder
                    (PlanBuilder.remaining_wells t) (PlanBuilder.manager t)
                    (PlanBuilder.current_start t) = Ok []).
Proof.
  apply (filtered_out_backoff TeamManager_class Example.builder Example.cluster_risk true true
           Example.initial_state Example.built_2024).
  - vm_compute. reflexivity.
  - vm_compute. reflexivity.
  - vm_compute. discriminate.
  - vm_compute. reflexivity.
Defined.

(** In that pass the backoff year is 2025 and the builder goes on from
    January 1, 2025.  With a further bound for the year 10000 the next
    constraint boundary after 2024 lies past the last year of the library:
    the pass, and the call of [compile], end in ValueError. *)
Lemma example_backoff_outcomes :
  backoff_year Example.builder Example.initial_state = 2025
  /\ PlanBuilder.loop_step TeamManager_class Example.builder Example.cluster_risk true true
       Example.initial_state
     = Ok (PlanBuilder.Continue
             (PlanBuilder.mk_state [Example.well_a; Example.well_b] (jan1 2025)
                (Plan.mk 0 []) Example.manager ∅ Example.no_draws))
  /\ backoff_year Scenario.far_builder Scenario.far_state = 10000
  /\ PlanBuilder.loop_step TeamManager_class Scenario.far_builder None true true
       Scenario.far_state
     = Raise ValueError
  /\ PlanBuilder.compile TeamManager_class 10 Scenario.far_builder 0 [Example.well_a]
       Example.manager None tt true true Example.no_draws
     = Raise ValueError.
Proof. repeat split; vm_compute; reflexivity. Qed.

(** ** Quota conformance *)

Lemma usage_add_limits (self : TeamManager.t) (year : Z) (task : Task.t) (team : Team.t) :
  TeamManager.limits (TeamManager.usage_add self year task team) = TeamManager.limits self.
Proof. reflexivity. Qed.

Lemma usage_usage_add (self : TeamManager.t) (year year' : Z) (task task' : Task.t)
    (team : Team.t) :
  TeamManager.usage (TeamManager.usage_add self year task team) year' task'
  = if bool_decide (year = year' /\ task = task')
    then {[team]} ∪ TeamManager.usage self year task
    else TeamManager.usage self year' task'.
Proof.
  unfold TeamManager.usage, TeamManager.usage_add. cbn [TeamManager._usage_counts
    TeamManager.set_usage_counts].
  destruct (decide (year = year')) as [<- | Hy].
  - rewrite lookup_insert_eq. cbn [mbind option_bind].
    destruct (decide (task = task')) as [<- | Ht].
    + rewrite lookup_insert_eq, bool_decide_eq_true_2 by done. reflexivity.
    + rewrite lookup_insert_ne, bool_decide_eq_false_2 by (try tauto; done).
      destruct (TeamManager._usage_counts self !! year); reflexivity.
  - rewrite lookup_insert_ne, bool_decide_eq_false_2 by (try tauto; done). reflexivity.
Qed.

(** A counted team passes the limit check. *)
Lemma check_limit_counted (self : TeamManager.t) (task : Task.t) (year : Z) (team : Team.t) :
  team ∈ TeamManager.usage self year task -> TeamManager._check_limit self task year team = true.
Proof.
  intros Hin. unfold TeamManager._check_limit.
  destruct (bool_decide _); [reflexivity|].
  destruct (TeamManager.limits self !! year) as [year_limits|]; [|reflexivity].
  destruct (bool_decide _); [reflexivity|].
  destruct (year_limits !! task); [|reflexivity].
  rewrite bool_decide_eq_true_2 by exact Hin. reflexivity.
Qed.

(** Under a configured limit, a team that passes the check is counted
    already or finds the set below the limit. *)
Lemma check_limit_room (self : TeamManager.t) (task : Task.t) (year : Z) (team : Team.t)
    (year_limits : gmap Task.t Z) (L : Z) :
  TeamManager.limits self !! year = Some year_limits ->
  year_limits !! task = Some L ->
  TeamManager._check_limit self task year team = true ->
  team ∈ TeamManager.usage self year task
  \/ Z.of_nat (size (TeamManager.usage self year task)) < L.
Proof.
  intros Ey Et. unfold TeamManager._check_limit.
  rewrite bool_decide_eq_false_2 by (intros E; rewrite E, lookup_empty in Ey; discriminate).
  rewrite Ey.
  rewrite bool_decide_eq_false_2 by (intros E; rewrite E, lookup_empty in Et; discriminate).
  rewrite Et. destruct (bool_decide_reflect (team ∈ TeamManager.usage self year task)); [auto|].
  intros Hlt. right. apply Z.ltb_lt. exact Hlt.
Qed.

(** Recording a team that is counted already changes nothing. *)
Lemma usage_add_counted (self : TeamManager.t) (year : Z) (task : Task.t) (team : Team.t) :
  team ∈ TeamManager.usage self year task -> TeamManager.usage_add self year task team = self.
Proof.
  unfold TeamManager.usage_add. intros Hin.
  assert (Hunion : {[team]} ∪ TeamManager.usage self year task = TeamManager.usage self year task)
    by (apply subseteq_union_1_L, singleton_subseteq_l; exact Hin).
  rewrite Hunion. unfold TeamManager.usage in *.
  destruct (TeamManager._usage_counts self !! year) as [by_task|] eqn:Ey;
    cbn [mbind option_bind default] in *; [|set_solver].
  destruct (by_task !! task) as [teams|] eqn:Et; cbn [default] in *; [|set_solver].
  rewrite (insert_id by_task task teams Et), (insert_id _ year by_task Ey).
  destruct self; reflexivity.
Qed.

Lemma record_year_counted (self : TeamManager.t) (task : Task.t) (team : Team.t) (year : Z) :
  team ∈ TeamManager.usage self year task -> TeamManager.record_year task team self year = self.
Proof.
  intros Hin. unfold TeamManager.record_year.
  destruct (default ∅ (TeamManager.limits self !! year) !! task); [|reflexivity].
  rewrite (check_limit_counted _ _ _ _ Hin). apply usage_add_counted. exact Hin.
Qed.

Lemma record_year_limits (task : Task.t) (team : Team.t) (self : TeamManager.t) (y : Z) :
  TeamManager.limits (TeamManager.record_year task team self y) = TeamManager.limits self.
Proof.
  unfold TeamManager.record_year.
  destruct (default ∅ (TeamManager.limits self !! y) !! task); [|reflexivity].
  destruct (TeamManager._check_limit self task y team); reflexivity.
Qed.

Lemma record_year_within (task task' : Task.t) (team : Team.t) (self : TeamManager.t)
    (y year : Z) (year_limits : gmap Task.t Z) (L : Z) :
  TeamManager.limits self !! year = Some year_limits ->
  year_limits !! task' = Some L ->
  within_limit self year task' L ->
  within_limit (TeamManager.record_year task team self y) year task' L.
Proof.
  intros Ey Et Hok. unfold TeamManager.record_year.
  destruct (default ∅ (TeamManager.limits self !! y) !! task) as [l|] eqn:El; [|exact Hok].
  destruct (TeamManager._check_limit self task y team) eqn:Echeck; [|exact Hok].
  unfold within_limit in *. rewrite usage_usage_add.
  destruct (bool_decide_reflect (y = year /\ task = task')) as [[-> ->] | _]; [|exact Hok].
  destruct (check_limit_room _ _ _ _ _ _ Ey Et Echeck) as [Hin | Hlt].
  - replace ({[team]} ∪ TeamManager.usage self year task') with (TeamManager.usage self year task')
      by (symmetry; apply subseteq_union_1_L, singleton_subseteq_l; exact Hin).
    exact Hok.
  - pose proof (size_union_alt {[team]} (TeamManager.usage self year task')) as Hsize.
    rewrite size_singleton in Hsize.
    pose proof (subseteq_size (TeamManager.usage self year task' ∖ {[team]})
                  (TeamManager.usage self year task')
                  ltac:(apply subseteq_difference_l; reflexivity)).
    lia.
Qed.

Lemma record_years_within (task task' : Task.t) (team : Team.t) (years : list Z)
    (self : TeamManager.t) (year : Z) (year_limits : gmap Task.t Z) (L : Z) :
  TeamManager.limits self !! year = Some year_limits ->
  year_limits !! task' = Some L ->
  within_limit self year task' L ->
  let self' := fold_left (TeamManager.record_year task team) years self in
  TeamManager.limits self' = TeamManager.limits self /\ within_limit self' year task' L.
Proof.
  revert self. induction years as [|y years IH]; intros self Ey Et Hok; [split; [reflexivity|exact Hok]|].
  cbn [fold_left].
  destruct (IH (TeamManager.record_year task team self y)) as [Elim Hok'].
  - rewrite record_year_limits. exact Ey.
  - exact Et.
  - exact (record_year_within _ _ _ _ _ _ _ _ Ey Et Hok).
  - split; [rewrite Elim; apply record_year_limits | exact Hok'].
Qed.

Lemma assign_entry_within (cluster : string) (self : TeamManager.t) (entry : ScheduleEntry.t)
    (year : Z) (task : Task.t) (year_limits : gmap Task.t Z) (L : Z) :
  TeamManager.limits self !! year = Some year_limits ->
  year_limits !! task = Some L ->
  within_limit self year task L ->
  TeamManager.limits (TeamManager.assign_entry cluster self entry) = TeamManager.limits self
  /\ within_limit (TeamManager.assign_entry cluster self entry) year task L.
Proof.
  intros Ey Et Hok. unfold TeamManager.assign_entry, TeamManager._record_usage.
  apply (record_years_within _ _ _ _
           (TeamManager.set_states self _) year year_limits L); assumption.
Qed.

Lemma assign_within (self : TeamManager.t) (context : WellPlanContext.t)
    (year : Z) (task : Task.t) (year_limits : gmap Task.t Z) (L : Z) :
  TeamManager.limits self !! year = Some year_limits ->
  year_limits !! task = Some L ->
  within_limit self year task L ->
  TeamManager.limits (TeamManager.assign self context) = TeamManager.limits self
  /\ within_limit (TeamManager.assign self context) year task L.
Proof.
  unfold TeamManager.assign.
  generalize (Well.cluster (WellPlanContext.well context)) as cluster.
  intros cluster. revert self.
  induction (WellPlanContext.entries context) as [|entry entries IH]; intros self Ey Et Hok;
    [split; [reflexivity | exact Hok]|].
  cbn [fold_left].
  destruct (assign_entry_within cluster self entry year task year_limits L Ey Et Hok)
    as [Elim Hok'].
  destruct (IH (TeamManager.assign_entry cluster self entry)) as [Elim' Hok''];
    [rewrite Elim; exact Ey | exact Et | exact Hok' |].
  split; [rewrite Elim', Elim; reflexivity | exact Hok''].
Qed.

Lemma after_calls_within (calls : list manager_call) (self : TeamManager.t)
    (year : Z) (task : Task.t) (year_limits : gmap Task.t Z) (L : Z) :
  TeamManager.limits self !! year = Some year_limits ->
  year_limits !! task = Some L ->
  within_limit self year task L ->
  within_limit (after_calls self calls) year task L.
Proof.
  unfold after_calls. revert self.
  induction calls as [|c calls IH]; intros self Ey Et Hok; [exact Hok|].
  cbn [fold_left]. destruct c as [context | context]; cbn [after_call].
  - apply IH; assumption.
  - destruct (assign_within self context year task year_limits L Ey Et Hok) as [Elim Hok'].
    apply IH; [rewrite Elim; exact Ey | exact Et | exact Hok'].
Qed.

(** C2.  Quota conformance.  For every (year, task) pair with a configured
    limit [L] (a count: [0 <= L]), after any sequence of [get_assignments]
    and [assign] calls on a fresh manager, the set of distinct teams
    recorded for that task in that year has at most [L] members; a team
    counted already for the pair passes the limit check, and recording it
    again leaves the manager as it is. *)
Theorem quota_conformance (team_pool : TeamPool.t) (movement : BaseMovement)
    (enable_team_count : bool) (limits : gmap Z (gmap Task.t Z))
    (calls : list manager_call) (year : Z) (task : Task.t)
    (year_limits : gmap Task.t Z) (L : Z) :
  limits !! year = Some year_limits ->
  year_limits !! task = Some L ->
  0 <= L ->
  let self := after_calls (TeamManager.new team_pool movement enable_team_count limits) calls in
  Z.of_nat (size (TeamManager.usage self year task)) <= L
  /\ forall team, team ∈ TeamManager.usage self year task ->
       TeamManager._check_limit self task year team = true
       /\ TeamManager.record_year task team self year = self.
Proof.
  intros Ey Et HL self. split.
  - apply (after_calls_within calls
             (TeamManager.new team_pool movement enable_team_count limits)
             year task year_limits L Ey Et).
    unfold within_limit, TeamManager.usage, TeamManager.new. cbn [TeamManager._usage_counts].
    rewrite lookup_empty. cbn. rewrite size_empty. exact HL.
  - intros team Hin. split;
      [apply check_limit_counted | apply record_year_counted]; exact Hin.
Qed.

(** Witness of C2: a quota of one drilling team for 2024 over a pool of two
    teams; the context of well A is filled in and assigned. *)
Lemma quota_conformance_witness :
  let self :=
    after_calls
      (TeamManager.new Example.pool_of_two SimpleTeamMovement.movement true Example.limits_2024)
      [call_get_assignments Example.context_a; call_assign Example.assigned_a] in
  Z.of_nat (size (TeamManager.usage self 2024 Task.DRILLING)) <= 1
  /\ forall team, team ∈ TeamManager.usage self 2024 Task.DRILLING ->
       TeamManager._check_limit self Task.DRILLING 2024 team = true
       /\ TeamManager.record_year Task.DRILLING team self 2024 = self.
Proof.
  apply (quota_conformance Example.pool_of_two SimpleTeamMovement.movement true
           Example.limits_2024
           [call_get_assignments Example.context_a; call_assign Example.assigned_a]
           2024 Task.DRILLING {[Task.DRILLING := 1]} 1).
  - vm_compute. reflexivity.
  - vm_compute. reflexivity.
  - lia.
Defined.

(** In that run the first team fills the quota of 2024: it is the one team
    recorded, and the second team no longer passes the check for 2024. *)
Lemma example_quota_filled :
  let self := after_calls Example.quota_manager [call_assign Example.assigned_a] in
  TeamManager.usage self 2024 Task.DRILLING = {[Example.drilling_team]}
  /\ TeamManager._check_limit self Task.DRILLING 2024 Example.drilling_team = true
  /\ TeamManager._check_limit self Task.DRILLING 2024 Example.second_team = false.
Proof. repeat split; vm_compute; reflexivity. Qed.

(** ** The calendar: the year of a date *)

Lemma bracket_cycle : bracket_from (Z.to_nat 146097) 0 = true.
Proof. vm_compute. reflexivity. Qed.

Lemma bracket_from_spec (n : nat) (r k : Z) :
  bracket_from n r = true -> 0 <= k < Z.of_nat n -> bracket_ok (r + k) = true.
Proof.
  revert r k. induction n as [|n IH]; intros r k Hall Hk; [lia|].
  cbn [bracket_from] in Hall. apply andb_true_iff in Hall as [Hr Hrest].
  destruct (Z.eq_dec k 0) as [-> | Hne]; [rewrite Z.add_0_r; exact Hr|].
  replace (r + k) with (r + 1 + (k - 1)) by lia. apply IH; [exact Hrest | lia].
Qed.

Lemma days_before_year_shift (a y : Z) :
  _days_before_year (400 * a + y) = 146097 * a + _days_before_year y.
Proof.
  unfold _days_before_year. cbv zeta.
  replace (400 * a + y - 1) with (y - 1 + (100 * a) * 4) at 2 by lia.
  replace (400 * a + y - 1) with (y - 1 + (4 * a) * 100) at 2 by lia.
  replace (400 * a + y - 1) with (y - 1 + a * 400) at 2 by lia.
  rewrite !Z.div_add by lia. lia.
Qed.

Lemma ord2year_shift (a r : Z) :
  0 <= r < 146097 -> _ord2year (146097 * a + r + 1) = 400 * a + _ord2year (r + 1).
Proof.
  intros Hr. unfold _ord2year, _DI400Y. cbv zeta.
  replace (146097 * a + r + 1 - 1) with (146097 * a + r) by lia.
  replace (r + 1 - 1) with (146097 * 0 + r) by lia.
  destruct (div_mod_small 146097 a r Hr) as [-> ->].
  destruct (div_mod_small 146097 0 r Hr) as [-> ->].
  destruct (_ || _); lia.
Qed.

(** Every day lies after the last day before its year and not after the
    last day of its year. *)
Lemma ord2year_bracket (n : Z) :
  _days_before_year (_ord2year n) < n <= _days_before_year (_ord2year n + 1).
Proof.
  pose proof (Z.div_mod (n - 1) 146097 ltac:(lia)) as Hdm.
  pose proof (Z.mod_pos_bound (n - 1) 146097 ltac:(lia)) as Hr.
  set (a := (n - 1) / 146097) in *. set (r := (n - 1) mod 146097) in *.
  replace n with (146097 * a + r + 1) by lia.
  rewrite (ord2year_shift a r Hr).
  replace (400 * a + _ord2year (r + 1) + 1) with (400 * a + (_ord2year (r + 1) + 1)) by lia.
  rewrite !days_before_year_shift.
  pose proof (bracket_from_spec _ 0 r bracket_cycle ltac:(lia)) as Hok.
  rewrite Z.add_0_l in Hok. unfold bracket_ok in Hok. cbv zeta in Hok.
  apply andb_true_iff in Hok as [Hlo Hhi]. apply Z.ltb_lt in Hlo. apply Z.leb_le in Hhi. lia.
Qed.

Lemma days_before_year_mono (y y' : Z) : y < y' -> _days_before_year y < _days_before_year y'.
Proof.
  intros Hlt. unfold _days_before_year. cbv zeta.
  Z.to_euclidean_division_equations; lia.
Qed.

Lemma ord2year_mono (n n' : Z) : n <= n' -> _ord2year n <= _ord2year n'.
Proof.
  intros Hle. destruct (Z.le_gt_cases (_ord2year n) (_ord2year n')) as [H | Hgt]; [exact H|].
  pose proof (ord2year_bracket n) as [Hn _]. pose proof (ord2year_bracket n') as [_ Hn'].
  destruct (Z.eq_dec (_ord2year n' + 1) (_ord2year n)) as [E | Hne].
  - rewrite E in Hn'. lia.
  - pose proof (days_before_year_mono (_ord2year n' + 1) (_ord2year n) ltac:(lia)). lia.
Qed.

(** The year of a date grows with the date. *)
Lemma year_mono (d d' : datetime) : d <= d' -> year d <= year d'.
Proof.
  intros Hle. unfold year, toordinal. apply ord2year_mono.
  pose proof (Z.div_le_mono d d' us_per_day ltac:(unfold us_per_day; lia) Hle). lia.
Qed.

(** A date lies between January 1 of its year and January 1 of the next. *)
Lemma year_bracket (d : datetime) : jan1 (year d) <= d < jan1 (year d + 1).
Proof.
  unfold jan1, year, toordinal. pose proof (ord2year_bracket (d / us_per_day + 1)) as [Hlo Hhi].
  pose proof (Z.div_mod d us_per_day ltac:(unfold us_per_day; lia)) as Hdm.
  pose proof (Z.mod_pos_bound d us_per_day ltac:(unfold us_per_day; lia)) as Hr.
  unfold us_per_day in *. lia.
Qed.

(** ** Dates of the library *)

Lemma datetime_jan1_Ok (y : Z) (d : datetime) :
  datetime_jan1 y = Ok d <-> d = jan1 y /\ MINYEAR <= y <= MAXYEAR.
Proof.
  unfold datetime_jan1.
  destruct (Z.leb_spec MINYEAR y), (Z.leb_spec y MAXYEAR); cbn [andb]; split;
    try discriminate; try (intros [_ ?]; lia);
    try (intros E; injection E as <-; split; [reflexivity | lia]);
    intros [-> _]; reflexivity.
Qed.

Lemma datetime_jan1_Raise (y : Z) (e : exn) :
  datetime_jan1 y = Raise e <-> e = ValueError /\ (y < MINYEAR \/ MAXYEAR < y).
Proof.
  unfold datetime_jan1.
  destruct (Z.leb_spec MINYEAR y), (Z.leb_spec y MAXYEAR); cbn [andb]; split;
    try discriminate; try (intros [_ ?]; lia);
    try (intros E; injection E as <-; split; [reflexivity | lia]);
    intros [-> _]; reflexivity.
Qed.

Lemma datetime_jan1_returns (y : Z) : returns (datetime_jan1 y).
Proof. unfold datetime_jan1. destruct (_ && _); discriminate. Qed.

Lemma datetime_add_Ok (dt : datetime) (td : timedelta) (d : datetime) :
  datetime_add dt td = Ok d <-> d = dt + td /\ in_range (dt + td) = true.
Proof.
  unfold datetime_add. cbv zeta. destruct (in_range (dt + td)).
  - split; [intros E; injection E as <-; auto | intros [-> _]; reflexivity].
  - split; [discriminate | intros [_ E]; discriminate].
Qed.

Lemma datetime_add_Raise (dt : datetime) (td : timedelta) (e : exn) :
  datetime_add dt td = Raise e <-> e = OverflowError /\ in_range (dt + td) = false.
Proof.
  unfold datetime_add. cbv zeta. destruct (in_range (dt + td)).
  - split; [discriminate | intros [_ E]; discriminate].
  - split; [intros E; injection E as <-; auto | intros [-> _]; reflexivity].
Qed.

Lemma datetime_add_returns (dt : datetime) (td : timedelta) : returns (datetime_add dt td).
Proof. unfold datetime_add. cbv zeta. destruct (in_range _); discriminate. Qed.

Lemma in_range_spec (d : datetime) : in_range d = true <-> 0 <= d < jan1 (MAXYEAR + 1).
Proof. unfold in_range. rewrite andb_true_iff, Z.leb_le, Z.ltb_lt. reflexivity. Qed.

(** A date of the library lies in a year of the library. *)
Lemma in_range_year (d : datetime) : in_range d = true -> MINYEAR <= year d <= MAXYEAR.
Proof.
  intros Hd. apply in_range_spec in Hd as [Hlo Hhi]. split.
  - change MINYEAR with (year 0). apply year_mono. exact Hlo.
  - change MAXYEAR with (year (jan1 (MAXYEAR + 1) - 1)). apply year_mono. lia.
Qed.

(** ** The search for a start time *)

Lemma check_limit_fails_configured (self : TeamManager.t) (task : Task.t) (y : Z) (team : Team.t) :
  TeamManager._check_limit self task y team = false -> y ∈ dom (TeamManager.limits self).
Proof.
  unfold TeamManager._check_limit. destruct (bool_decide _); [discriminate|].
  destruct (TeamManager.limits self !! y) as [year_limits|] eqn:Ey; [|discriminate].
  intros _. apply elem_of_dom. rewrite Ey. eauto.
Qed.

Lemma years_from_next (limits : gmap Z (gmap Task.t Z)) (y : Z) :
  y ∈ dom limits -> (size (years_from limits (y + 1)) < size (years_from limits y))%nat.
Proof.
  intros Hy. apply subset_size. unfold years_from. split.
  - intros k Hk. apply elem_of_filter in Hk as [Hle Hk]. apply elem_of_filter. split; [lia | exact Hk].
  - intros Hsub. assert (Hin : y ∈ filter (fun k => y + 1 <= k) (dom limits)).
    { apply Hsub. apply elem_of_filter. split; [lia | exact Hy]. }
    apply elem_of_filter in Hin as [Hle _]. lia.
Qed.

Lemma years_from_size (limits : gmap Z (gmap Task.t Z)) (y : Z) :
  (size (years_from limits y) <= size limits)%nat.
Proof.
  rewrite <- size_dom. apply subseteq_size. unfold years_from.
  intros k Hk. apply elem_of_filter in Hk as [_ Hk]. exact Hk.
Qed.

Section StartTime.
Context `{PyLib}.

(** The search ends within the fuel of the model: every failed check needs
    a limit for the year at hand, and the years only grow. *)
Lemma find_start_from_returns (fuel : nat) (self : TeamManager.t) (task : Task.t) (team : Team.t)
    (current_start : datetime) :
  (size (years_from (TeamManager.limits self) (year current_start)) < fuel)%nat ->
  returns (TeamManager.find_start_from fuel self task team current_start).
Proof.
  revert current_start. induction fuel as [|fuel IH]; intros current_start Hfuel; [lia|].
  cbn [TeamManager.find_start_from].
  destruct (TeamManager._check_limit self task (year current_start) team) eqn:Echeck;
    [discriminate|].
  apply bind_returns; [apply datetime_jan1_returns|].
  intros d Ed. apply datetime_jan1_Ok in Ed as [-> _]. apply IH. rewrite year_jan1.
  pose proof (years_from_next _ _ (check_limit_fails_configured _ _ _ _ Echeck)). lia.
Qed.

(** The start the search returns: not before the start it is given, in a
    year that passes the limit check, after years that all fail it; when it
    is not the given start it is January 1 of a year of the library. *)
Lemma find_start_from_spec (fuel : nat) (self : TeamManager.t) (task : Task.t) (team : Team.t)
    (current_start start_time : datetime) :
  TeamManager.find_start_from fuel self task team current_start = Ok start_time ->
  current_start <= start_time
  /\ TeamManager._check_limit self task (year start_time) team = true
  /\ (forall y, year current_start <= y < year start_time ->
        TeamManager._check_limit self task y team = false)
  /\ (start_time = current_start
      \/ start_time = jan1 (year start_time) /\ year start_time <= MAXYEAR).
Proof.
  revert current_start. induction fuel as [|fuel IH]; intros current_start; [discriminate|].
  cbn [TeamManager.find_start_from].
  destruct (TeamManager._check_limit self task (year current_start) team) eqn:Echeck.
  - intros E. injection E as <-. split; [lia|]. split; [exact Echeck|].
    split; [intros y Hy; lia | left; reflexivity].
  - intros E. apply bind_Ok in E as (d & Ed & E). apply datetime_jan1_Ok in Ed as [-> Hyear].
    apply IH in E as (Hle & Hok & Hfail & Hshape).
    rewrite year_jan1 in Hfail.
    pose proof (year_bracket current_start) as [_ Hlt].
    split; [lia|]. split; [exact Hok|]. split.
    + intros y Hy. destruct (Z.eq_dec y (year current_start)) as [->|Hne]; [exact Echeck|].
      apply Hfail. lia.
    + right. destruct Hshape as [-> | Hshape]; [|exact Hshape].
      rewrite year_jan1. split; [reflexivity | lia].
Qed.

(** The search fails only with the ValueError of [datetime(year, 1, 1)]:
    every year from the given start on failed the check, up to a year whose
    successor is no year of the library. *)
Lemma find_start_from_Raise (fuel : nat) (self : TeamManager.t) (task : Task.t) (team : Team.t)
    (current_start : datetime) (e : exn) :
  TeamManager.find_start_from fuel self task team current_start = Raise e ->
  e = ValueError
  /\ exists last,
       year current_start <= last
       /\ (forall y, year current_start <= y <= last ->
             TeamManager._check_limit self task y team = false)
       /\ (last + 1 < MINYEAR \/ MAXYEAR < last + 1).
Proof.
  revert current_start. induction fuel as [|fuel IH]; intros current_start; [discriminate|].
  cbn [TeamManager.find_start_from].
  destruct (TeamManager._check_limit self task (year current_start) team) eqn:Echeck;
    [discriminate|].
  destruct (datetime_jan1 (year current_start + 1)) as [d| e'|] eqn:Ed;
    cbn [mbind result_bind]; intros E.
  - apply datetime_jan1_Ok in Ed as [-> Hyear].
    apply IH in E as (-> & last & Hle & Hfail & Hlast). rewrite year_jan1 in *.
    split; [reflexivity|]. exists last. split; [lia|]. split; [|exact Hlast].
    intros y Hy. destruct (Z.eq_dec y (year current_start)) as [->|Hne]; [exact Echeck|].
    apply Hfail. lia.
  - injection E as <-. apply datetime_jan1_Raise in Ed as [-> Hyear].
    split; [reflexivity|]. exists (year current_start). split; [lia|]. split; [|exact Hyear].
    intros y Hy. replace y with (year current_start) by lia. exact Echeck.
  - discriminate.
Qed.

Lemma find_available_start_time_returns (self : TeamManager.t) (task : Task.t) (team : Team.t)
    (travel_time : timedelta) (context : WellPlanContext.t) :
  returns (TeamManager._find_available_start_time self task team travel_time context).
Proof.
  unfold TeamManager._find_available_start_time.
  destruct (TeamManager._states self !! team) as [state|]; [|discriminate].
  apply bind_returns; [apply datetime_add_returns|]. intros arrival _.
  apply find_start_from_returns. unfold TeamManager.find_start_fuel.
  pose proof (years_from_size (TeamManager.limits self)
                (year (Z.max arrival (WellPlanContext.get_next_available_date context)))).
  lia.
Qed.

(** The start [_find_available_start_time] returns. *)
Lemma find_available_start_time_Ok (self : TeamManager.t) (task : Task.t) (team : Team.t)
    (travel_time : timedelta) (context : WellPlanContext.t) (start_time : datetime) :
  TeamManager._find_available_start_time self task team travel_time context = Ok start_time ->
  exists state,
    TeamManager._states self !! team = Some state
    /\ in_range (TeamState.available_from state + travel_time) = true
    /\ TeamState.available_from state + travel_time <= start_time
    /\ WellPlanContext.get_next_available_date context <= start_time
    /\ TeamManager._check_limit self task (year start_time) team = true.
Proof.
  unfold TeamManager._find_available_start_time.
  destruct (TeamManager._states self !! team) as [state|]; [|discriminate].
  intros E. apply bind_Ok in E as (arrival & Earrival & E).
  apply datetime_add_Ok in Earrival as [-> Hrange].
  apply find_start_from_spec in E as (Hle & Hok & _ & _).
  exists state. split; [reflexivity|]. split; [exact Hrange|].
  split; [lia|]. split; [lia | exact Hok].
Qed.

Lemma get_travel_time_returns (self : TeamManager.t) (state : TeamState.t) (well : Well.t) :
  returns (TeamManager._get_travel_time self state well).
Proof.
  unfold TeamManager._get_travel_time.
  destruct (get_move_days _ _ _) as [move_days|e]; cbn [call mbind result_bind]; [|discriminate].
  destruct (timedelta_of_days move_days); discriminate.
Qed.

Lemma team_candidate_returns (self : TeamManager.t) (context : WellPlanContext.t)
    (task : Task.t) (team : Team.t) :
  returns (TeamManager.team_candidate self context task team).
Proof.
  unfold TeamManager.team_candidate.
  destruct (TeamManager._states self !! team) as [state|]; [|discriminate].
  apply bind_returns; [apply get_travel_time_returns|]. intros travel_time _.
  apply bind_returns; [apply find_available_start_time_returns|]. intros start_time _.
  apply bind_returns; [apply datetime_add_returns|]. discriminate.
Qed.

(** The candidate of a team is what the team offers. *)
Lemma team_candidate_offers (self : TeamManager.t) (context : WellPlanContext.t) (task : Task.t)
    (team team' : Team.t) (start_time end_time : datetime) (travel_time : timedelta) :
  TeamManager.team_candidate self context task team
  = Ok (start_time, end_time, team', travel_time)
  <-> team' = team /\ offers self context task team start_time end_time travel_time.
Proof.
  unfold TeamManager.team_candidate, offers. split.
  - destruct (TeamManager._states self !! team) as [state|] eqn:Estate; [|discriminate].
    intros E. apply bind_Ok in E as (travel & Etravel & E).
    apply bind_Ok in E as (start & Estart & E). apply bind_Ok in E as (end' & Eend & E).
    injection E as <- <- <- <-. apply datetime_add_Ok in Eend as [-> Hrange].
    split; [reflexivity|]. exists state. auto.
  - intros (-> & state & Estate & Etravel & Estart & -> & Hrange).
    rewrite Estate, Etravel. cbn [mbind result_bind]. rewrite Estart. cbn [mbind result_bind].
    rewrite (proj2 (datetime_add_Ok _ _ _) (conj eq_refl Hrange)). reflexivity.
Qed.

End StartTime.

(** ** What recording the usage leaves unchanged *)

Lemma record_year_states (task : Task.t) (team : Team.t) (self : TeamManager.t) (y : Z) :
  TeamManager._states (TeamManager.record_year task team self y) = TeamManager._states self
  /\ TeamManager.team_pool (TeamManager.record_year task team self y) = TeamManager.team_pool self.
Proof.
  unfold TeamManager.record_year.
  destruct (default ∅ (TeamManager.limits self !! y) !! task); [|auto].
  destruct (TeamManager._check_limit self task y team); auto.
Qed.

Lemma record_usage_states (self : TeamManager.t) (task : Task.t) (y : Z) (team : Team.t) :
  TeamManager._states (TeamManager._record_usage self task y team) = TeamManager._states self
  /\ TeamManager.team_pool (TeamManager._record_usage self task y team)
     = TeamManager.team_pool self.
Proof.
  unfold TeamManager._record_usage.
  generalize (TeamManager.relevant_years self y) as years. intros years. revert self.
  induction years as [|y0 years IH]; intros self; [auto|].
  cbn [fold_left]. destruct (IH (TeamManager.record_year task team self y0)) as [Es Ep].
  destruct (record_year_states task team self y0) as [Es0 Ep0].
  split; congruence.
Qed.

(** ** Earliest-finish assignment *)

(** [min(l, key=...)] over integer keys returns the first item of minimal
    key: the items before it have a strictly greater key, the items after
    it a key at least as great. *)
Lemma min_from_first_minimal {A : Type} (key : A -> Z) (l : list A) (x : A) :
  let m := min_from (fun a b => key a <? key b) x l in
  exists before after,
    x :: l = before ++ m :: after
    /\ (forall c, In c before -> key m < key c)
    /\ (forall c, In c after -> key m <= key c).
Proof.
  revert x. induction l as [|y l IH]; intros x; cbn [min_from].
  - exists [], []. repeat split; intros c [].
  - destruct (Z.ltb_spec (key y) (key x)) as [Hlt | Hge].
    + destruct (IH y) as (before & after & E & Hb & Ha). cbv zeta in *.
      set (m := min_from (fun a b => key a <? key b) y l) in *.
      assert (Hmy : key m <= key y).
      { destruct before as [|b0 before]; cbn in E; injection E as E0 E1.
        - rewrite E0. lia.
        - subst b0. specialize (Hb y (or_introl eq_refl)). lia. }
      exists (x :: before), after. split; [cbn; rewrite E; reflexivity|]. split; [|exact Ha].
      intros c [<- | Hc]; [lia | auto].
    + destruct (IH x) as (before & after & E & Hb & Ha). cbv zeta in *.
      set (m := min_from (fun a b => key a <? key b) x l) in *.
      destruct before as [|b0 before]; cbn in E; injection E as E0 E1.
      * exists [], (y :: after). split; [cbn; rewrite E0, E1; reflexivity|].
        split; [intros c []|]. intros c [<- | Hc]; [rewrite <- E0; lia | auto].
      * subst b0. exists (x :: y :: before), after.
        split; [cbn; rewrite E1; reflexivity|]. split; [|exact Ha].
        pose proof (Hb x (or_introl eq_refl)) as Hmx.
        intros c [<- | [<- | Hc]]; [exact Hmx | lia | apply Hb; right; exact Hc].
Qed.

(** Conversely, the item whose key is strictly below the keys before it
    and not above the keys after it is the one [min] returns. *)
Lemma min_from_keeps {A : Type} (key : A -> Z) (l : list A) (best : A) :
  (forall c, In c l -> key best <= key c) ->
  min_from (fun a b => key a <? key b) best l = best.
Proof.
  induction l as [|y l IH]; intros Hall; [reflexivity|]. cbn [min_from].
  destruct (Z.ltb_spec (key y) (key best)) as [Hlt | _].
  - specialize (Hall y (or_introl eq_refl)). lia.
  - apply IH. intros c Hc. apply Hall. right. exact Hc.
Qed.

Lemma min_from_first {A : Type} (key : A -> Z) (before after : list A) (best m : A) :
  key m < key best ->
  (forall c, In c before -> key m < key c) ->
  (forall c, In c after -> key m <= key c) ->
  min_from (fun a b => key a <? key b) best (before ++ m :: after) = m.
Proof.
  revert best. induction before as [|b before IH]; intros best Hbest Hb Ha.
  - cbn [app min_from]. rewrite (proj2 (Z.ltb_lt _ _) Hbest). apply min_from_keeps. exact Ha.
  - cbn [app min_from]. apply IH; [|intros c Hc; apply Hb; right; exact Hc | exact Ha].
    destruct (key b <? key best); [apply Hb; left; reflexivity | exact Hbest].
Qed.

Lemma min_by_first {A : Type} (key : A -> Z) (before after : list A) (m : A) :
  (forall c, In c before -> key m < key c) ->
  (forall c, In c after -> key m <= key c) ->
  min_by (fun a b => key a <? key b) (before ++ m :: after) = Ok m.
Proof.
  intros Hb Ha. destruct before as [|b before]; cbn [app min_by]; f_equal.
  - apply min_from_keeps. exact Ha.
  - apply min_from_first; [apply Hb; left; reflexivity | | exact Ha].
    intros c Hc. apply Hb. right. exact Hc.
Qed.

Section EarliestFinish.
Context `{PyLib}.

(** The candidates of teams that all offer something. *)
Lemma offers_candidates (self : TeamManager.t) (context : WellPlanContext.t) (task : Task.t)
    (P : datetime -> Prop) (teams : list Team.t) :
  Forall (fun team => exists start_time end_time travel_time,
            offers self context task team start_time end_time travel_time /\ P end_time) teams ->
  exists candidates,
    map_result (TeamManager.team_candidate self context task) teams = Ok candidates
    /\ forall c, In c candidates -> P (TeamManager.candidate_end c).
Proof.
  induction 1 as [|team teams (s & e & tr & Hoffer & HP) _ (cands & Ecands & Hall)].
  - exists []. split; [reflexivity | intros c []].
  - exists ((s, e, team, tr) :: cands). cbn [map_result].
    rewrite (proj2 (team_candidate_offers self context task team team s e tr)
               (conj eq_refl Hoffer)).
    cbn [mbind result_bind]. rewrite Ecands. split; [reflexivity|].
    intros c [<- | Hc]; [exact HP | exact (Hall c Hc)].
Qed.

Lemma candidates_offer (self : TeamManager.t) (context : WellPlanContext.t) (task : Task.t)
    (P : datetime -> Prop) (teams : list Team.t) (candidates : list TeamManager.candidate) :
  Forall2 (fun team c => TeamManager.team_candidate self context task team = Ok c)
    teams candidates ->
  (forall c, In c candidates -> P (TeamManager.candidate_end c)) ->
  Forall (fun team => exists start_time end_time travel_time,
            offers self context task team start_time end_time travel_time /\ P end_time) teams.
Proof.
  induction 1 as [|team [[[s e] team'] tr] teams cands Ec _ IH]; intros Hall; constructor.
  - apply team_candidate_offers in Ec as [_ Hoffer]. exists s, e, tr.
    split; [exact Hoffer | exact (Hall _ (or_introl eq_refl))].
  - apply IH. intros c Hc. apply Hall. right. exact Hc.
Qed.

Lemma teams_supported (self : TeamManager.t) (task : Task.t) :
  TeamPool.get_teams_for_task (TeamManager.team_pool self) task <> [] ->
  task ∈ TeamPool.supported_tasks (TeamManager.team_pool self).
Proof.
  unfold TeamPool.get_teams_for_task, TeamPool.supported_tasks. intros Hne.
  apply elem_of_dom. destruct (TeamPool._task_teams_map _ !! task); [eauto | done].
Qed.

(** A task of a team that offers the earliest finish gets its entry. *)
Lemma earliest_finish_assign_task (self : TeamManager.t) (context : WellPlanContext.t)
    (task : Task.t) (entry : ScheduleEntry.t) :
  earliest_finish self context task entry ->
  TeamManager.assign_task self context task = Ok (appended self context entry).
Proof.
  intros (Etask & before & after & Eteams & Hoffer & Hbefore & Hafter).
  unfold TeamManager.assign_task.
  rewrite bool_decide_eq_false_2.
  2:{ intros Hn. apply Hn. apply teams_supported. rewrite Eteams.
      intros E. apply app_eq_nil in E as [_ E]. discriminate. }
  destruct (offers_candidates self context task _ _ Hbefore) as (cb & Ecb & Hcb).
  destruct (offers_candidates self context task _ _ Hafter) as (ca & Eca & Hca).
  set (best := (ScheduleEntry.start entry, ScheduleEntry.end_ entry, ScheduleEntry.team entry,
                ScheduleEntry.travel_time entry) : TeamManager.candidate).
  assert (Ecands : TeamManager.task_candidates self context task = Ok (cb ++ best :: ca)).
  { unfold TeamManager.task_candidates. rewrite Eteams.
    apply map_result_app; [exact Ecb|]. cbn [map_result].
    rewrite (proj2 (team_candidate_offers self context task _ _ _ _ _) (conj eq_refl Hoffer)).
    cbn [mbind result_bind]. rewrite Eca. reflexivity. }
  rewrite Ecands. cbn [mbind result_bind].
  destruct (cb ++ best :: ca) as [|c0 cs] eqn:Ecs;
    [apply app_eq_nil in Ecs as [_ Ecs]; discriminate|].
  rewrite <- Ecs. rewrite (min_by_first TeamManager.candidate_end cb ca best Hcb Hca).
  cbn [mbind result_bind]. unfold appended, best, TeamManager.entry_of_candidate.
  cbn [fst snd]. destruct entry as [task' team start end_ travel]. cbn in Etask. subst task'.
  reflexivity.
Qed.

(** What a task that is scheduled leaves: nothing when no team is listed
    for it, else the entry of the earliest finish. *)
Lemma assign_task_Ok (self : TeamManager.t) (context context' : WellPlanContext.t)
    (task : Task.t) :
  TeamManager.assign_task self context task = Ok context' ->
  task ∈ TeamPool.supported_tasks (TeamManager.team_pool self)
  /\ (TeamPool.get_teams_for_task (TeamManager.team_pool self) task = [] /\ context' = context
      \/ exists entry,
           earliest_finish self context task entry /\ context' = appended self context entry).
Proof.
  unfold TeamManager.assign_task.
  destruct (bool_decide_reflect
              (task ∉ TeamPool.supported_tasks (TeamManager.team_pool self))) as [Hn | Hsup];
    [discriminate|].
  intros E. split; [destruct (decide (task ∈ TeamPool.supported_tasks
                                        (TeamManager.team_pool self))); tauto|].
  apply bind_Ok in E as (candidates & Ecands & E).
  unfold TeamManager.task_candidates in Ecands. apply map_result_Ok in Ecands.
  destruct candidates as [|c0 cs].
  { injection E as <-. left. split; [|reflexivity]. inversion Ecands. reflexivity. }
  right. cbn [min_by mbind result_bind] in E. injection E as <-.
  destruct (min_from_first_minimal TeamManager.candidate_end cs c0)
    as (cb & ca & Esplit & Hcb & Hca). cbv zeta in *.
  set (best := min_from (fun a b => TeamManager.candidate_end a <? TeamManager.candidate_end b)
                 c0 cs) in *.
  rewrite Esplit in Ecands.
  apply Forall2_app_inv_r in Ecands as (before & rest & Hbefore & Hrest & Eteams).
  inversion Hrest as [|team c after ca' Ebest Hafter]; subst.
  destruct best as [[[s e] team'] tr] eqn:Ebest'.
  pose proof Ebest as Eoffer. apply team_candidate_offers in Eoffer as [-> Hoffer].
  exists (ScheduleEntry.mk task team s e tr). split; [|reflexivity].
  split; [reflexivity|]. exists before, after. cbn [ScheduleEntry.team ScheduleEntry.start
    ScheduleEntry.end_ ScheduleEntry.travel_time].
  split; [exact Eteams|]. split; [exact Hoffer|]. split.
  - apply (candidates_offer self context task (fun end_time => e < end_time) before cb Hbefore).
    exact Hcb.
  - apply (candidates_offer self context task (fun end_time => e <= end_time) after ca Hafter).
    exact Hca.
Qed.

Lemma assign_task_returns (self : TeamManager.t) (context : WellPlanContext.t) (task : Task.t) :
  returns (TeamManager.assign_task self context task).
Proof.
  unfold TeamManager.assign_task. destruct (bool_decide _); [discriminate|].
  apply bind_returns.
  { unfold TeamManager.task_candidates. apply map_result_returns.
    intros team. apply team_candidate_returns. }
  intros [|c0 candidates] _; [discriminate|]. apply bind_returns; discriminate.
Qed.

Lemma get_assignments_returns (self : TeamManager.t) (context : WellPlanContext.t) :
  returns (TeamManager.get_assignments self context).
Proof.
  unfold TeamManager.get_assignments. apply bind_returns.
  { unfold Well.tasks. apply map_result_returns. intros code. unfold Task.from_code.
    destruct (List.find _ _); discriminate. }
  intros tasks _. apply for_each_returns. intros c task. apply assign_task_returns.
Qed.

End EarliestFinish.

Section Assignments.
Context `{PyLib}.

Lemma for_each_app {A S : Type} (body : S -> A -> result S) (l1 l2 : list A) (s : S) :
  for_each body (l1 ++ l2) s = s1 ← for_each body l1 s; for_each body l2 s1.
Proof.
  revert s. induction l1 as [|x l1 IH]; intros s; [reflexivity|].
  cbn [app for_each]. destruct (body s x) as [s'| |]; cbn [mbind result_bind]; auto.
Qed.

Lemma assign_tasks_assigned (self : TeamManager.t) (tasks : list Task.t)
    (context context' : WellPlanContext.t) :
  for_each (TeamManager.assign_task self) tasks context = Ok context' ->
  assigned self context tasks context'
  /\ Forall (fun task => task ∈ TeamPool.supported_tasks (TeamManager.team_pool self)) tasks.
Proof.
  revert context. induction tasks as [|task tasks IH]; intros context E.
  - injection E as <-. split; constructor.
  - cbn [for_each] in E. apply bind_Ok in E as (context1 & Estep & E).
    apply IH in E as [Hrest Hsup].
    apply assign_task_Ok in Estep as [Htask [[Enone ->] | (entry & Hentry & ->)]].
    + split; [apply assigned_no_team; assumption | constructor; assumption].
    + split; [eapply assigned_task; eassumption | constructor; assumption].
Qed.

Lemma assigned_assign_tasks (self : TeamManager.t) (tasks : list Task.t)
    (context context' : WellPlanContext.t) :
  Forall (fun task => task ∈ TeamPool.supported_tasks (TeamManager.team_pool self)) tasks ->
  assigned self context tasks context' ->
  for_each (TeamManager.assign_task self) tasks context = Ok context'.
Proof.
  intros Hsup Hassigned. induction Hassigned as
    [context | context task tasks entry context' Hentry _ IH
     | context task tasks context' Enone _ IH].
  - reflexivity.
  - cbn [for_each]. rewrite (earliest_finish_assign_task self context task entry Hentry).
    cbn [mbind result_bind]. apply IH. inversion Hsup; assumption.
  - cbn [for_each]. inversion Hsup as [|? ? Htask Hrest]; subst.
    assert (Estep : TeamManager.assign_task self context task = Ok context).
    { unfold TeamManager.assign_task.
      rewrite (bool_decide_eq_false_2 _ (fun Hn => Hn Htask)).
      unfold TeamManager.task_candidates. rewrite Enone. reflexivity. }
    rewrite Estep. cbn [mbind result_bind]. apply IH. exact Hrest.
Qed.

(** C5.  Earliest-finish tie-break.  For a context whose well has the
    tasks [tasks], [get_assignments] ends, with a context or an exception.
    When all the tasks are supported by the pool, it returns a context
    exactly when every team able to perform a task offers a candidate at
    the turn of the task (a travel time, a start and an end, the duration
    of the task later, that are dates of the library), and the context it
    returns has, for each task in order, the entry of the team whose end is
    minimal: every team before it in the pool ends strictly later, every
    team after it not earlier, whatever the travel times (nothing is
    appended for a task whose list of teams is empty).  When a task is
    supported by no team, it returns no context: it raises ValueError at
    the first such task, once the tasks before it are scheduled. *)
Theorem earliest_finish_assignment (self : TeamManager.t) (context : WellPlanContext.t)
    (tasks : list Task.t) :
  Well.tasks (WellPlanContext.well context) = Ok tasks ->
  returns (TeamManager.get_assignments self context)
  /\ (Forall (fun task => task ∈ TeamPool.supported_tasks (TeamManager.team_pool self)) tasks ->
      forall context',
        TeamManager.get_assignments self context = Ok context'
        <-> assigned self context tasks context')
  /\ (forall before task after context1,
        tasks = before ++ task :: after ->
        Forall (fun task => task ∈ TeamPool.supported_tasks (TeamManager.team_pool self))
          before ->
        task ∉ TeamPool.supported_tasks (TeamManager.team_pool self) ->
        assigned self context before context1 ->
        TeamManager.get_assignments self context = Raise ValueError)
  /\ (Exists (fun task => task ∉ TeamPool.supported_tasks (TeamManager.team_pool self)) tasks ->
      forall context', TeamManager.get_assignments self context <> Ok context').
Proof.
  intros Etasks. split; [apply get_assignments_returns|].
  unfold TeamManager.get_assignments. rewrite Etasks. cbn [mbind result_bind].
  split; [|split].
  - intros Hsup context'. split.
    + intros E. exact (proj1 (assign_tasks_assigned self tasks context context' E)).
    + apply assigned_assign_tasks. exact Hsup.
  - intros before task after context1 -> Hsup Hn Hassigned.
    rewrite for_each_app, (assigned_assign_tasks self before context context1 Hsup Hassigned).
    cbn [mbind result_bind for_each]. unfold TeamManager.assign_task.
    rewrite bool_decide_eq_true_2 by exact Hn. reflexivity.
  - intros Hex context' E. apply assign_tasks_assigned in E as [_ Hsup].
    apply Exists_exists in Hex as (task & Hin & Hn).
    apply Hn. exact (proj1 (Forall_forall _ _) Hsup task Hin).
Qed.

End Assignments.

(** Witness of C5: well A (one drilling task) on a manager with two
    drilling teams of which the first has drilled a well of the cluster
    until January 31, 2024.  The first team needs one day of travel and
    offers February 1 - March 2; the second, fresh and in no cluster, needs
    fourteen and offers January 1 - 31: the second team is taken, for its
    earlier end, against pool order and travel time. *)
Lemma earliest_finish_assignment_witness :
  (returns (TeamManager.get_assignments Scenario.two_teams_busy Example.context_a)
   /\ (Forall (fun task =>
                 task ∈ TeamPool.supported_tasks (TeamManager.team_pool Scenario.two_teams_busy))
         [Task.DRILLING] ->
       forall context',
         TeamManager.get_assignments Scenario.two_teams_busy Example.context_a = Ok context'
         <-> assigned Scenario.two_teams_busy Example.context_a [Task.DRILLING] context')
   /\ (forall before task after context1,
         [Task.DRILLING] = before ++ task :: after ->
         Forall (fun task =>
                   task ∈ TeamPool.supported_tasks (TeamManager.team_pool Scenario.two_teams_busy))
           before ->
         task ∉ TeamPool.supported_tasks (TeamManager.team_pool Scenario.two_teams_busy) ->
         assigned Scenario.two_teams_busy Example.context_a before context1 ->
         TeamManager.get_assignments Scenario.two_teams_busy Example.context_a
         = Raise ValueError)
   /\ (Exists (fun task =>
                 task ∉ TeamPool.supported_tasks (TeamManager.team_pool Scenario.two_teams_busy))
         [Task.DRILLING] ->
       forall context',
         TeamManager.get_assignments Scenario.two_teams_busy Example.context_a <> Ok context'))
  /\ TeamManager.team_candidate Scenario.two_teams_busy Example.context_a Task.DRILLING
       Example.drilling_team
     = Ok (jan1 2024 + days 31, jan1 2024 + days 61, Example.drilling_team, days 1)
  /\ TeamManager.team_candidate Scenario.two_teams_busy Example.context_a Task.DRILLING
       Example.second_team
     = Ok (jan1 2024, jan1 2024 + days 30, Example.second_team, days 14)
  /\ result_map WellPlanContext.entries
       (TeamManager.get_assignments Scenario.two_teams_busy Example.context_a)
     = Ok [ScheduleEntry.mk Task.DRILLING Example.second_team (jan1 2024) (jan1 2024 + days 30)
             (days 14)].
Proof.
  split; [|repeat split; vm_compute; reflexivity].
  apply (earliest_finish_assignment Scenario.two_teams_busy Example.context_a [Task.DRILLING]).
  vm_compute. reflexivity.
Defined.

(** On the fresh manager both teams offer January 1 - 31, 2024 and the
    first team of the pool is taken; a context for a repair task (GTM),
    which no team of the pool performs, raises ValueError. *)
Lemma example_assignment :
  WellPlanContext.entries Example.assigned_a
  = [ScheduleEntry.mk Task.DRILLING Example.drilling_team (jan1 2024) (jan1 2024 + days 30)
       (days 14)]
  /\ TeamManager.get_assignments Example.quota_manager
       (WellPlanContext.new
          (Well.mk "G" "K1" "F" "L" "oil" "ГРП" 10 20 100 None None None)
          (jan1 2024) (jan1 2026))
     = Raise ValueError.
Proof. split; vm_compute; reflexivity. Qed.

(** ** The NPV postcondition *)

Section NPVPostcondition.
Context `{PyLib}.

Lemma BaseOpex_per_month (self : BaseOpex.t) : per_month (BaseOpex.operational_cost self).
Proof.
  intros oil water Hlen. cbn. unfold BaseOpex.compute.
  rewrite length_map, length_combine. lia.
Qed.

Lemma monthly_water_zip (context : WellPlanContext.t) :
  NPV.monthly_water context
  = zip_with (fun liq oil => (liq - oil)%float) (WellPlanContext.liq_prod_profile context)
      (WellPlanContext.oil_prod_profile context).
Proof.
  unfold NPV.monthly_water.
  generalize (WellPlanContext.oil_prod_profile context) as oil.
  induction (WellPlanContext.liq_prod_profile context) as [|l liq IH]; intros [|o oil];
    cbn [combine map zip_with]; try reflexivity.
  rewrite IH. reflexivity.
Qed.

(** A comprehension over [enumerate(l)] whose body succeeds on every
    item. *)
Lemma map_result_enumerate {B : Type} (f : Z -> float -> result B) (g : nat -> B)
    (l : list float) (i : nat) :
  (forall m, (m < length l)%nat -> f (Z.of_nat (i + m)) (nth m l 0%float) = Ok (g (i + m)%nat)) ->
  map_result (fun '(month, x) => f month x) (enumerate_from (Z.of_nat i) l)
  = Ok (map g (seq i (length l))).
Proof.
  revert i. induction l as [|x l IH]; intros i Hall; [reflexivity|].
  cbn [enumerate_from map_result length seq map].
  pose proof (Hall 0%nat ltac:(cbn; lia)) as H0. rewrite Nat.add_0_r in H0. cbn [nth] in H0.
  rewrite H0. cbn [mbind result_bind].
  replace (Z.of_nat i + 1) with (Z.of_nat (S i)) by lia.
  rewrite (IH (S i)); [reflexivity|].
  intros m Hm. specialize (Hall (S m) ltac:(cbn; lia)). cbn [nth] in Hall.
  replace (S i + m)%nat with (i + S m)%nat by lia. exact Hall.
Qed.

Lemma nth_cash_flow (price : float) (oil opex : list float) (m : nat) :
  length opex = length oil -> (m < length oil)%nat ->
  nth m (map (fun '(oil, opex) => (oil * price - opex)%float) (combine oil opex)) 0%float
  = (nth m oil 0 * price - nth m opex 0)%float.
Proof.
  revert opex m. induction oil as [|o oil IH]; intros [|p opex] m Hlen Hm; cbn in *; try lia.
  destruct m as [|m]; [reflexivity|]. apply IH; lia.
Qed.

Lemma discount_Ok (self : NPV.t) (cash_flow years factor : float) :
  float_pow (1 + NPV.discount_rate self) years = Val factor ->
  PrimFloat.eqb factor 0 = false ->
  NPV._discount self cash_flow years = Ok (cash_flow / factor)%float.
Proof.
  intros Epow Hfactor. unfold NPV._discount. rewrite Epow. cbn [call mbind result_bind].
  unfold float_div. rewrite Hfactor. reflexivity.
Qed.

Lemma as_float_fits (v : num) : fits_float v -> as_float v = Val (to_float v).
Proof.
  destruct v as [z|f]; [|reflexivity]. cbn [fits_float as_float to_float].
  unfold float_of_int. intros ->. reflexivity.
Qed.

(** C6.  NPV postcondition.  For a context with aligned oil and liquid
    profiles (and an operational-cost model that returns one value per
    month, as [BaseOpex] does), a capital cost [capex] of the well, a
    discount rate of at least -1 (below it [**] gives complex numbers) and
    discount factors, [(1 + discount_rate) ** years], that are defined and
    not zero (a zero factor is a ZeroDivisionError): [NPV.compute] returns
    the context with [cost] set to the sum (from 0, in the order of the
    months) of the monthly cash flows, oil times price minus opex, each
    divided by the factor of exponent [shift_years + month / 12], minus
    [capex] divided by the factor of exponent [shift_years], minus the
    travel cost, where [shift_years] is the whole days from the start of
    the project to the date the well is free, over 365.  The travel cost
    is the whole days of the drilling entry's travel time times the
    per-day rate (an [int] when the rate is one), [0.0] without a drilling
    entry.  The metadata hold [travel_cost], [cash_flow] (the [int] 0 when
    there is no month), [capex] and [drill_team_penalty], the count of
    competing drilling teams times the travel cost; nothing else of the
    context changes.  The [int]s that meet a float are taken to fit one. *)
Theorem npv_postcondition (self : NPV.t) (context : WellPlanContext.t)
    (capex capex_factor : float) (factors : list float) :
  let oil := WellPlanContext.oil_prod_profile context in
  let liq := WellPlanContext.liq_prod_profile context in
  let opex :=
    opex_compute (NPV.opex_cost self) oil (zip_with (fun liq oil => (liq - oil)%float) liq oil) in
  let shift_years :=
    (float_of_Z (td_days (WellPlanContext.get_next_available_date context - NPV.start self)%Z)
     / 365)%float in
  let travel_cost :=
    match WellPlanContext.get_entry_by_task context Task.DRILLING with
    | Some entry =>
        match NPV.travel_cost_per_day self with
        | Int rate => Int (td_days (ScheduleEntry.travel_time entry) * rate)
        | Float rate =>
            Float (float_of_Z (td_days (ScheduleEntry.travel_time entry)) * rate)%float
        end
    | None => Float 0
    end in
  let team_count :=
    default (Int 0) (WellPlanContext.metadata context !! "team_count_drilling") in
  let flows :=
    map (fun m => ((nth m oil 0 * NPV.oil_price self - nth m opex 0) / nth m factors 0)%float)
      (seq 0 (length oil)) in
  length oil = length liq ->
  per_month (NPV.opex_cost self) ->
  capex_compute (NPV.capex_cost self) (WellPlanContext.well context) = Ok capex ->
  PrimFloat.ltb (1 + NPV.discount_rate self) 0 = false ->
  (forall m, (m < length oil)%nat ->
     float_pow (1 + NPV.discount_rate self) (shift_years + float_of_Z (Z.of_nat m) / 12)
     = Val (nth m factors 0%float)
     /\ PrimFloat.eqb (nth m factors 0%float) 0 = false) ->
  float_pow (1 + NPV.discount_rate self) shift_years = Val capex_factor ->
  PrimFloat.eqb capex_factor 0 = false ->
  (forall entry, WellPlanContext.get_entry_by_task context Task.DRILLING = Some entry ->
     fits_float (Int (td_days (ScheduleEntry.travel_time entry)))) ->
  fits_float travel_cost ->
  fits_float team_count ->
  exists context',
    NPV.compute self context = Ok context'
    /\ WellPlanContext.cost context'
       = Some (fold_left PrimFloat.add flows 0 - capex / capex_factor
               - to_float travel_cost)%float
    /\ WellPlanContext.metadata context' !! "travel_cost" = Some travel_cost
    /\ WellPlanContext.metadata context' !! "cash_flow"
       = Some (match flows with
               | [] => Int 0
               | _ :: _ => Float (fold_left PrimFloat.add flows 0%float)
               end)
    /\ WellPlanContext.metadata context' !! "capex" = Some (Float (capex / capex_factor))
    /\ WellPlanContext.metadata context' !! "drill_team_penalty"
       = Some (match team_count, travel_cost with
               | Int count, Int cost => Int (count * cost)
               | _, _ => Float (to_float team_count * to_float travel_cost)%float
               end)
    /\ context'
       = WellPlanContext.set_metadata
           (WellPlanContext.set_cost context (WellPlanContext.cost context'))
           (WellPlanContext.metadata context').
Proof.
  intros oil liq opex shift_years travel_cost team_count flows
    Haligned Hopex Ecapex _ Hfactors Ecapex_factor Hcapex_factor Hdays Htravel Hcount.
  assert (Hlen : length opex = length oil).
  { apply Hopex. rewrite length_zip_with. unfold oil, liq in *. lia. }
  assert (Eflows :
    map_result (fun '(month, cf) =>
                  NPV._discount self cf
                    (NPV.shift_years self context + float_of_Z month / 12)%float)
      (enumerate (NPV.monthly_cash_flows self context))
    = Ok flows).
  { unfold enumerate, NPV.monthly_cash_flows. rewrite monthly_water_zip.
    fold oil liq opex.
    pose proof (map_result_enumerate
                  (fun month cf =>
                     NPV._discount self cf
                       (NPV.shift_years self context + float_of_Z month / 12)%float)
                  (fun m => ((nth m oil 0 * NPV.oil_price self - nth m opex 0)
                             / nth m factors 0)%float)
                  (map (fun '(oil, opex) => (oil * NPV.oil_price self - opex)%float)
                     (combine oil opex)) 0) as Hmap.
    change (Z.of_nat 0) with 0 in Hmap.
    rewrite length_map, length_combine, Hlen, Nat.min_id in Hmap.
    apply Hmap. intros m Hm. cbn [Nat.add].
    rewrite (nth_cash_flow _ _ _ _ Hlen Hm).
    destruct (Hfactors m Hm) as [Epow Hnz].
    apply discount_Ok; [exact Epow | exact Hnz]. }
  assert (Etravel : NPV.travel_cost self context = Ok travel_cost).
  { unfold NPV.travel_cost, travel_cost.
    destruct (WellPlanContext.get_entry_by_task context Task.DRILLING) as [entry|] eqn:Eentry;
      [|reflexivity].
    specialize (Hdays entry eq_refl).
    destruct (NPV.travel_cost_per_day self) as [rate|rate]; [reflexivity|].
    cbn [num_mul]. rewrite (as_float_fits _ Hdays). reflexivity. }
  assert (Epenalty :
    num_mul team_count travel_cost
    = Val (match team_count, travel_cost with
           | Int count, Int cost => Int (count * cost)
           | _, _ => Float (to_float team_count * to_float travel_cost)%float
           end)).
  { destruct team_count as [count|count] eqn:Ec, travel_cost as [cost|cost] eqn:Et;
      cbn [num_mul]; rewrite ?(as_float_fits _ Hcount), ?(as_float_fits _ Htravel);
      reflexivity. }
  eexists. unfold NPV.compute. rewrite Ecapex. cbn [mbind result_bind].
  rewrite Eflows. cbn [mbind result_bind].
  rewrite (discount_Ok self capex (NPV.shift_years self context) capex_factor
             Ecapex_factor Hcapex_factor).
  cbn [mbind result_bind]. rewrite Etravel. cbn [mbind result_bind].
  fold team_count. rewrite Epenalty. cbn [call mbind result_bind].
  rewrite (as_float_fits _ Htravel). cbn [call mbind result_bind].
  split; [reflexivity|].
  cbn [WellPlanContext.set_metadata WellPlanContext.set_cost WellPlanContext.cost
       WellPlanContext.metadata].
  assert (Esum : to_float (NPV.sum_of flows) = fold_left PrimFloat.add flows 0%float).
  { unfold NPV.sum_of. destruct flows; reflexivity. }
  rewrite Esum. split; [reflexivity|].
  split; [rewrite !lookup_insert_ne by done; apply lookup_insert_eq|].
  split; [rewrite !lookup_insert_ne by done; rewrite lookup_insert_eq;
          unfold NPV.sum_of; destruct flows; reflexivity|].
  split; [rewrite !lookup_insert_ne by done; apply lookup_insert_eq|].
  split; [apply lookup_insert_eq | reflexivity].
Qed.

End NPVPostcondition.

(** Witness of C6: well A, drilled January 1 - 31, 2024 by a team that
    travelled 14 days, one month of production (300 t of oil at 100,
    operational cost 602), capital cost 1050; the project starts 365 days
    before the well is free and the rate is 100 %, so that both discount
    factors are [2.0 ** 1.0 = 2.0].  The travel cost, 14 days at the [int]
    1,500,000 a day, is an [int]. *)
Lemma npv_postcondition_witness :
  exists context',
    NPV.compute Scenario.discounting_npv Example.profiled_a = Ok context'
    /\ WellPlanContext.cost context' = Some (29398 / 2 - 1050 / 2 - 21000000)%float
    /\ WellPlanContext.metadata context' !! "travel_cost" = Some (Int 21000000)
    /\ WellPlanContext.metadata context' !! "cash_flow" = Some (Float 14699)
    /\ WellPlanContext.metadata context' !! "capex" = Some (Float 525)
    /\ WellPlanContext.metadata context' !! "drill_team_penalty" = Some (Int 0).
Proof.
  pose proof (npv_postcondition Scenario.discounting_npv Example.profiled_a 1050 2 [2%float])
    as Hpost.
  cbv zeta in Hpost.
  destruct Hpost as (context' & E & Ecost & Etravel & Ecash & Ecapex & Epenalty & _).
  - vm_compute. reflexivity.
  - apply BaseOpex_per_month.
  - vm_compute. reflexivity.
  - vm_compute. reflexivity.
  - intros [|m] Hm; [split; vm_compute; reflexivity | exfalso; vm_compute in Hm; lia].
  - vm_compute. reflexivity.
  - vm_compute. reflexivity.
  - intros entry Eentry. vm_compute in Eentry. injection Eentry as <-. vm_compute. reflexivity.
  - vm_compute. reflexivity.
  - vm_compute. reflexivity.
  - exists context'. split; [exact E|].
    split; [rewrite Ecost; vm_compute; reflexivity|].
    split; [rewrite Etravel; vm_compute; reflexivity|].
    split; [rewrite Ecash; vm_compute; reflexivity|].
    split; [rewrite Ecapex; vm_compute; reflexivity|].
    rewrite Epenalty. vm_compute. reflexivity.
Defined.

(** The numbers of the run without discounting (rate 0, the travel cost per
    day a float): 300 t of oil at 100, operational cost 602, capital cost
    1050, 14 days of travel at 1,500,000 a day.  At a discount rate of
    -100 % the discount factor of that run is [0.0 ** 1.0 = 0.0], and the
    call raises ZeroDivisionError. *)
Lemma example_npv :
  result_map WellPlanContext.cost (NPV.compute Example.npv Example.profiled_a)
  = Ok (Some (29398 - 1050 - 21000000)%float)
  /\ result_map (fun context => WellPlanContext.metadata context !! "travel_cost")
       (NPV.compute Example.npv Example.profiled_a)
     = Ok (Some (Float 21000000))
  /\ NPV.compute Scenario.vanishing_npv Example.profiled_a = Raise ZeroDivisionError.
Proof. repeat split; vm_compute; reflexivity. Qed.

(** ** Travel time *)

Section Movement.
Context `{PyLib}.

Lemma same_cluster_true (from_cluster : option string) (to_cluster : string) :
  same_cluster from_cluster to_cluster = true <-> from_cluster = Some to_cluster.
Proof.
  unfold same_cluster. destruct from_cluster as [c|]; [|split; discriminate].
  rewrite String.eqb_eq. split; congruence.
Qed.

Lemma same_cluster_false (from_cluster : option string) (to_cluster : string) :
  from_cluster <> Some to_cluster -> same_cluster from_cluster to_cluster = false.
Proof.
  intros Hne. destruct (same_cluster from_cluster to_cluster) eqn:E; [|reflexivity].
  apply same_cluster_true in E. contradiction.
Qed.


End Movement.


(** With a team speed of zero the same move raises ZeroDivisionError. *)
Lemma example_zero_speed :
  DistanceTeamMovement.get_move_days
    (DistanceTeamMovement.mk
       {["K1" := Coordinate.mk 0 0 0; "K2" := Coordinate.mk 540000 0 0]} 90 0 1)
    (Some "K1") "K2"
  = Exn ZeroDivisionError.
Proof. vm_compute. reflexivity. Qed.

(** ** The mutations of the whole-plan annealing step *)

Section Mutations.
Context {G : Type} `{RandomSource G}.

Lemma randint_range (a b : Z) (g : G) :
  a <= b -> exists k g', randint a b g = Ok (k, g') /\ a <= k <= b.
Proof.
  intros Hab. unfold randint. destruct (Z.leb_spec (b - a + 1) 0) as [Hw | Hw]; [lia|].
  destruct (_randbelow (Z.to_nat (b - a + 1)) g) as [k g'].
  eexists _, _. split; [reflexivity|].
  pose proof (Nat.mod_upper_bound k (Z.to_nat (b - a + 1)) ltac:(lia)). lia.
Qed.

Lemma shift_entries_raise (delta : timedelta) (entries : list ScheduleEntry.t) :
  entries <> [] ->
  map_result (SimulatedAnnealingPlanner.shift_entry delta) entries = Raise FrozenInstanceError.
Proof. destruct entries as [|entry entries]; [done | reflexivity]. Qed.

(** Whenever [shift_well] is drawn for a plan whose well plans have
    entries (as every context the builder plans has), [_get_neighbor]
    raises: the entries are frozen. *)
Lemma shift_well_raises (plan : Plan.t) (manager : TeamManager.t) (g g0 : G) :
  choice [SimulatedAnnealingPlanner.swap_wells; SimulatedAnnealingPlanner.shift_well;
          SimulatedAnnealingPlanner.reassign_team] g
  = Ok (SimulatedAnnealingPlanner.shift_well, g0) ->
  Plan.well_plans plan <> [] ->
  Forall (fun wp => WellPlanContext.entries wp <> []) (Plan.well_plans plan) ->
  SimulatedAnnealingPlanner._get_neighbor plan manager g = Raise FrozenInstanceError.
Proof.
  intros Echoice Hne Hentries. unfold SimulatedAnnealingPlanner._get_neighbor.
  rewrite Echoice. cbn [mbind result_bind].
  unfold SimulatedAnnealingPlanner.mutate.
  assert (Hlen : (0 < length (Plan.well_plans plan))%nat)
    by (destruct (Plan.well_plans plan); [done | cbn; lia]).
  destruct (randint_range 0 (Z.of_nat (length (Plan.well_plans plan)) - 1) g0 ltac:(lia))
    as (idx & g1 & -> & Hidx). cbn [mbind result_bind].
  destruct (randint_range (-30) 30 g1 ltac:(lia)) as (d & g2 & -> & _). cbn [mbind result_bind].
  unfold SimulatedAnnealingPlanner.item.
  destruct (lookup_lt_is_Some_2 (Plan.well_plans plan) (Z.to_nat idx) ltac:(lia)) as [wp Ewp].
  rewrite Ewp. cbn [mbind result_bind].
  rewrite shift_entries_raise; [reflexivity|].
  apply (proj1 (Forall_forall _ _) Hentries). apply list_elem_of_lookup. eauto.
Qed.

End Mutations.

(** C4 fails on the code.  On the plan of the example run (one well plan
    with one entry), when [shift_well] is drawn [_get_neighbor] raises
    FrozenInstanceError at [entry.start += ...], and when [reassign_team] is
    drawn it raises it at [entry.team = new_team]: [ScheduleEntry] is a
    frozen dataclass.  Only [swap_wells] goes through. *)
Lemma get_neighbor_raises_on_frozen_entry :
  Plan.well_plans Example.plan_a <> []
  /\ SimulatedAnnealingPlanner._get_neighbor Example.plan_a Example.manager Example.shift_draws
     = Raise FrozenInstanceError
  /\ SimulatedAnnealingPlanner._get_neighbor Example.plan_a Example.manager Example.reassign_draws
     = Raise FrozenInstanceError
  /\ is_Ok (SimulatedAnnealingPlanner._get_neighbor Example.plan_a Example.manager
              Example.no_draws) = true.
Proof. repeat split; vm_compute; try reflexivity; discriminate. Qed.

(** ** The annealing selection returns *)

(** The default schedule (1000, 0.95, 1.0) cools in 135 rounds, within the
    fuel of the model. *)
Lemma default_schedule_ends :
  cooling_ends 135 0.95 1 1000 = false
  /\ cooling_ends 136 0.95 1 1000 = true
  /\ cooling_ends PlanBuilder.sa_fuel 0.95 1 1000 = true.
Proof. repeat split; vm_compute; reflexivity. Qed.

Section SelectionReturns.
Context `{PyLib} {G : Type} `{RandomSource G}.

Lemma choice_total {A : Type} (l : list A) (g : G) :
  l <> [] -> exists x g', choice l g = Ok (x, g').
Proof.
  intros Hne. unfold choice. destruct l as [|y l]; [done|].
  destruct (_randbelow (length (y :: l)) g) as [k g']. eauto.
Qed.

Lemma get_neighbor_candidate_total (candidates : list WellPlanContext.t)
    (current : WellPlanContext.t) (g : G) :
  candidates <> [] ->
  exists c g', PlanBuilder._get_neighbor_candidate candidates current g = Ok (c, g').
Proof.
  intros Hne. unfold PlanBuilder._get_neighbor_candidate.
  destruct (random g) as [u g0]. destruct (PrimFloat.ltb u 0.7); [apply choice_total; exact Hne|].
  destruct (List.filter _ candidates) as [|x l] eqn:Ef; apply choice_total; [exact Hne | done].
Qed.

Lemma sa_iteration_total (self : PlanBuilder.t) (valid : list WellPlanContext.t) (temp : float)
    (sg : PlanBuilder.sa_state * G) :
  valid <> [] -> exists sg', PlanBuilder.sa_iteration self valid temp sg = Ok sg'.
Proof.
  intros Hne. unfold PlanBuilder.sa_iteration. destruct sg as [s g].
  destruct (get_neighbor_candidate_total valid (PlanBuilder.current_candidate s) g Hne)
    as (c & g1 & ->). cbn [mbind result_bind].
  destruct (PlanBuilder._calculate_candidate_score self c g1) as [score g2].
  destruct (PlanBuilder._accept_solution _ score temp g2) as [[|] g3]; [|eauto].
  destruct (PrimFloat.ltb _ score); eauto.
Qed.

Lemma repeat_result_total {S : Type} (body : S -> result S) :
  (forall s, exists s', body s = Ok s') ->
  forall n s, exists s', PlanBuilder.repeat_result n body s = Ok s'.
Proof.
  intros Hbody. induction n as [|n IH]; intros s; cbn [PlanBuilder.repeat_result]; [eauto|].
  destruct (Hbody s) as [s1 ->]. cbn [mbind result_bind]. apply IH.
Qed.

Lemma sa_cooling_total (fuel : nat) (self : PlanBuilder.t) (valid : list WellPlanContext.t)
    (cooling_rate min_temp : float) (iterations : nat) (temp : float)
    (sg : PlanBuilder.sa_state * G) :
  valid <> [] ->
  cooling_ends fuel cooling_rate min_temp temp = true ->
  exists sg',
    PlanBuilder.sa_cooling fuel self valid cooling_rate min_temp iterations temp sg = Ok sg'.
Proof.
  intros Hne. revert temp sg. induction fuel as [|fuel IH]; intros temp sg Hends; [discriminate|].
  cbn [cooling_ends PlanBuilder.sa_cooling] in *.
  destruct (PrimFloat.ltb min_temp temp); [|eauto].
  destruct (repeat_result_total _ (fun sg0 => sa_iteration_total self valid temp sg0 Hne)
              iterations sg) as [sg1 ->].
  cbn [mbind result_bind]. apply IH. exact Hends.
Qed.

(** Without [keep_order], the selection returns one of the candidates of
    any non-empty list: it raises nothing and its cooling loop ends. *)
Lemma annealing_selection_returns (self : PlanBuilder.t) (candidates : list WellPlanContext.t)
    (g : G) :
  candidates <> [] ->
  exists c g',
    PlanBuilder._select_best_candidate self candidates false g = Ok (c, g') /\ In c candidates.
Proof.
  intros Hne.
  assert (Hok : exists c g', PlanBuilder._select_best_candidate self candidates false g = Ok (c, g')).
  { unfold PlanBuilder._select_best_candidate. destruct candidates as [|c0 cs]; [done|].
    unfold PlanBuilder._simulated_annealing_selection.
    destruct (List.filter _ (c0 :: cs)) as [|v valid] eqn:Ev; [eauto|].
    destruct (length (v :: valid) <=? 3)%nat.
    - destruct (random g) as [u g0]. destruct (PrimFloat.ltb u 0.6).
      + cbn [PlanBuilder.scored].
        destruct (PlanBuilder._calculate_candidate_score self v g0) as [s g1].
        destruct (PlanBuilder.scored self valid g1) as [rest g2].
        cbn [max_by min_by mbind result_bind]. eauto.
      + apply choice_total. discriminate.
    - destruct (choice_total (v :: valid) g ltac:(discriminate)) as (current & g0 & ->).
      cbn [mbind result_bind].
      destruct (PlanBuilder._calculate_candidate_score self current g0) as [score g1].
      destruct (sa_cooling_total PlanBuilder.sa_fuel self (v :: valid) 0.95 1 10 1000
                  (PlanBuilder.mk_sa current score current score, g1)
                  ltac:(discriminate) (proj2 (proj2 default_schedule_ends)))
        as ([s g2] & ->).
      cbn [mbind result_bind]. eauto. }
  destruct Hok as (c & g' & E). exists c, g'. split; [exact E|].
  exact (select_best_candidate_In _ _ _ _ _ _ E).
Qed.

End SelectionReturns.

(** Without [keep_order] the selection does read the random source: over
    the same two candidates, two scripts of draws select different wells. *)
Lemma example_annealing_reads_draws :
  result_map (fun cg => Well.name (WellPlanContext.well (fst cg)))
    (PlanBuilder._select_best_candidate Example.builder Example.costed_candidates false
       Example.draws_first)
  = Ok "A"
  /\ result_map (fun cg => Well.name (WellPlanContext.well (fst cg)))
       (PlanBuilder._select_best_candidate Example.builder Example.costed_candidates false
          Example.draws_second)
     = Ok "B".
Proof. split; vm_compute; reflexivity. Qed.

(** ** [compile] returns *)

Lemma list_remove_returns {A : Type} (eqb : A -> A -> bool) (x : A) (l : list A) :
  returns (list_remove eqb x l).
Proof.
  induction l as [|y l IH]; cbn [list_remove]; [discriminate|].
  destruct (eqb y x); [discriminate|]. apply bind_returns; [exact IH|]. discriminate.
Qed.

Lemma get_period_end_later (self : ConstraintManager.t) (current_year y : Z) :
  ConstraintManager.get_period_end self current_year = Some y -> current_year < y.
Proof.
  unfold ConstraintManager.get_period_end. intros E. apply find_some in E as [_ E].
  apply Z.ltb_lt. exact E.
Qed.

Section Returns.
Context `{PyLib} {M RS G : Type} `{RandomSource G}.
Context (manager_class : BaseTeamManager M).

Lemma any_violated_returns (cs : list Constraint) (plan : Plan.t) (c : WellPlanContext.t) :
  (forall constraint, In constraint cs -> returns (is_violated constraint plan c)) ->
  returns (ConstraintManager.any_violated cs plan c).
Proof.
  induction cs as [|constraint cs IH]; intros Hcs; cbn [ConstraintManager.any_violated];
    [discriminate|].
  apply bind_returns; [apply Hcs; left; reflexivity|]. intros [|] _; [discriminate|].
  apply IH. intros c' Hc'. apply Hcs. right. exact Hc'.
Qed.

Lemma select_best_candidate_returns (self : PlanBuilder.t) (candidates : list WellPlanContext.t)
    (keep_order : bool) (g : G) :
  candidates <> [] -> returns (PlanBuilder._select_best_candidate self candidates keep_order g).
Proof.
  intros Hne. destruct keep_order.
  - unfold PlanBuilder._select_best_candidate. apply bind_returns; [|discriminate].
    destruct candidates as [|x l]; [done|]. cbn [PlanBuilder.min_entry_date].
    clear Hne. revert x. induction l as [|y l IH]; intros x; cbn [PlanBuilder.min_entry_date_from];
      [discriminate|].
    destruct (Well.init_entry_date _); [|discriminate].
    destruct (Well.init_entry_date _); [apply IH | discriminate].
  - destruct (annealing_selection_returns self candidates g Hne) as (c & g' & -> & _).
    discriminate.
Qed.

Lemma loop_step_returns (self : PlanBuilder.t) (risk_strategy : option (RiskStrategy RS G))
    (keep_order cluster_ordered : bool) (s : @PlanBuilder.state M RS G) :
  collaborators_return manager_class self risk_strategy ->
  returns (PlanBuilder.loop_step manager_class self risk_strategy keep_order cluster_ordered s).
Proof.
  intros (Hget & Hassign & Hprof & Hcost & Hcons & Hrisk).
  unfold PlanBuilder.loop_step. destruct (PlanBuilder.loop_condition self s); [|discriminate].
  unfold PlanBuilder.loop_body. apply bind_returns.
  { unfold PlanBuilder._build_contexts. apply bind_returns; [|discriminate].
    apply map_result_returns. intros well. unfold PlanBuilder._build_context.
    destruct (negb _); [discriminate|]. apply bind_returns; [apply Hget|]. intros c _.
    destruct (_ || _); [discriminate|]. apply bind_returns; [apply Hprof | discriminate]. }
  intros [|b0 built] _; [discriminate|]. apply bind_returns.
  { unfold PlanBuilder._filter_candidates. apply bind_returns.
    - destruct risk_strategy as [rs|]; [|discriminate].
      apply map_result_returns. apply (proj1 (Hrisk rs eq_refl)).
    - intros risked _. apply bind_returns; [apply map_result_returns; exact Hcost|].
      intros costed _. apply bind_returns; [|discriminate].
      apply map_result_returns. intros c. apply bind_returns; [|discriminate].
      apply any_violated_returns. intros constraint Hin. apply Hcons. exact Hin. }
  intros [|f0 filtered] _;
    [apply bind_returns; [apply datetime_jan1_returns | discriminate]|].
  apply bind_returns.
  { apply select_best_candidate_returns. discriminate. }
  intros [best g] _. apply bind_returns; [apply Hassign|]. intros manager' _.
  apply bind_returns; [apply list_remove_returns|]. intros remaining' _.
  apply bind_returns; [|intros [[rs' best'] g'] _; discriminate].
  destruct risk_strategy as [rs|]; [|discriminate].
  apply bind_returns; [apply (proj2 (Hrisk rs eq_refl))|]. intros [[rs1 best1] g1] _.
  apply bind_returns; [apply Hcost | discriminate].
Qed.

End Returns.

Section Termination.
Context `{PyLib} {M RS G : Type} `{RandomSource G}.
Context (manager_class : BaseTeamManager M).

(** A pass that goes on takes a well out of the pool or moves to a later
    year of the horizon. *)
Lemma loop_step_rounds (self : PlanBuilder.t) (risk_strategy : option (RiskStrategy RS G))
    (keep_order cluster_ordered : bool) (s s' : @PlanBuilder.state M RS G) :
  PlanBuilder.loop_step manager_class self risk_strategy keep_order cluster_ordered s
  = Ok (PlanBuilder.Continue s') ->
  (rounds self s' < rounds self s)%nat.
Proof.
  unfold PlanBuilder.loop_step. destruct (PlanBuilder.loop_condition self s) eqn:Econd;
    [|discriminate].
  unfold PlanBuilder.loop_condition in Econd. apply andb_true_iff in Econd as [_ Hlt].
  apply Z.ltb_lt in Hlt.
  pose proof (year_mono _ _ (Z.lt_le_incl _ _ Hlt)) as Hyear.
  unfold PlanBuilder.loop_body. intros E.
  apply bind_Ok in E as (built & _ & E). destruct built as [|b0 built]; [discriminate|].
  apply bind_Ok in E as (filtered & _ & E). destruct filtered as [|f0 filtered].
  - apply bind_Ok in E as (next_start & Enext & E). apply datetime_jan1_Ok in Enext as [-> _].
    injection E as <-. unfold rounds. cbn [PlanBuilder.remaining_wells PlanBuilder.current_start].
    rewrite year_jan1.
    destruct (ConstraintManager.get_period_end _ _) as [y|] eqn:Ey; [|lia].
    apply get_period_end_later in Ey. destruct (y =? 0); lia.
  - apply bind_Ok in E as ([best g] & _ & E). apply bind_Ok in E as (manager' & _ & E).
    apply bind_Ok in E as (remaining' & Eremove & E).
    apply bind_Ok in E as ([[rs' best'] g'] & _ & E). injection E as <-.
    apply list_remove_length in Eremove. unfold rounds.
    cbn [PlanBuilder.remaining_wells PlanBuilder.current_start]. lia.
Qed.

Lemma loop_returns (self : PlanBuilder.t) (risk_strategy : option (RiskStrategy RS G))
    (keep_order cluster_ordered : bool) (fuel : nat) (s : @PlanBuilder.state M RS G) :
  collaborators_return manager_class self risk_strategy ->
  (rounds self s < fuel)%nat ->
  returns (PlanBuilder.loop manager_class fuel self risk_strategy keep_order cluster_ordered s).
Proof.
  intros Hcoll. revert s. induction fuel as [|fuel IH]; intros s Hfuel; [lia|].
  cbn [PlanBuilder.loop].
  apply bind_returns; [apply loop_step_returns; exact Hcoll|].
  intros [s' | s'] Estep; [|discriminate].
  apply IH. apply loop_step_rounds in Estep. lia.
Qed.

(** More fuel does not change the outcome of a run that ended. *)
Lemma loop_fuel_mono (self : PlanBuilder.t) (risk_strategy : option (RiskStrategy RS G))
    (keep_order cluster_ordered : bool) (fuel fuel' : nat) (s : @PlanBuilder.state M RS G) :
  returns (PlanBuilder.loop manager_class fuel self risk_strategy keep_order cluster_ordered s) ->
  (fuel <= fuel')%nat ->
  PlanBuilder.loop manager_class fuel' self risk_strategy keep_order cluster_ordered s
  = PlanBuilder.loop manager_class fuel self risk_strategy keep_order cluster_ordered s.
Proof.
  revert fuel' s. induction fuel as [|fuel IH]; intros fuel' s Hret Hle; [done|].
  destruct fuel' as [|fuel']; [lia|]. cbn [PlanBuilder.loop] in *.
  destruct (PlanBuilder.loop_step manager_class self risk_strategy keep_order cluster_ordered s)
    as [[s' | s']| |]; cbn [mbind result_bind] in *; try reflexivity.
  apply IH; [exact Hret | lia].
Qed.

(** X1.  [compile] returns: when its collaborators end on every input, a
    run over [wells] ends, with a plan or an exception, within one round
    per well and one per year of the horizon; more fuel gives the same
    outcome. *)
Theorem compile_returns (self : PlanBuilder.t) (plan_id : N) (wells : list Well.t)
    (manager : M) (risk_strategy : option (RiskStrategy RS G)) (risk_state : RS)
    (keep_order cluster_ordered : bool) (g : G) :
  collaborators_return manager_class self risk_strategy ->
  let fuel0 :=
    S (length wells
       + Z.to_nat (year (PlanBuilder.end_ self) - year (PlanBuilder.start self) + 1)) in
  returns (PlanBuilder.compile manager_class fuel0 self plan_id wells manager risk_strategy
             risk_state keep_order cluster_ordered g)
  /\ forall fuel, (fuel0 <= fuel)%nat ->
       PlanBuilder.compile manager_class fuel self plan_id wells manager risk_strategy
         risk_state keep_order cluster_ordered g
       = PlanBuilder.compile manager_class fuel0 self plan_id wells manager risk_strategy
           risk_state keep_order cluster_ordered g.
Proof.
  intros Hcoll fuel0.
  assert (Hret : returns (PlanBuilder.loop manager_class fuel0 self risk_strategy keep_order
                            cluster_ordered
                            (PlanBuilder.initial self plan_id wells manager risk_state g))).
  { apply loop_returns; [exact Hcoll|]. unfold rounds, PlanBuilder.initial.
    cbn [PlanBuilder.remaining_wells PlanBuilder.current_start]. lia. }
  unfold PlanBuilder.compile, PlanBuilder.compile_run. split.
  - apply bind_returns; [exact Hret | discriminate].
  - intros fuel Hle. rewrite (loop_fuel_mono _ _ _ _ fuel0 fuel _ Hret Hle). reflexivity.
Qed.

(** A run that ends has gone through the states [reaches] describes. *)
Lemma loop_reaches (self : PlanBuilder.t) (risk_strategy : option (RiskStrategy RS G))
    (keep_order cluster_ordered : bool) (fuel : nat) (s s' : @PlanBuilder.state M RS G) :
  PlanBuilder.loop manager_class fuel self risk_strategy keep_order cluster_ordered s = Ok s' ->
  reaches manager_class self risk_strategy keep_order cluster_ordered s s'.
Proof.
  revert s. induction fuel as [|fuel IH]; intros s E; [discriminate|].
  cbn [PlanBuilder.loop] in E. apply bind_Ok in E as (r & Estep & E).
  destruct r as [s1 | s1].
  - eapply reaches_pass; [exact Estep | apply IH; exact E].
  - injection E as <-. apply loop_step_break in Estep as [-> _]. apply reaches_here.
Qed.

End Termination.

(** * Further properties of the code *)

(** ** The order of the floats *)

(** Case analysis over the formats of the floats compared. *)
Ltac sf_cases :=
  unfold SpecFloat.SFltb, SpecFloat.SFleb, SpecFloat.SFeqb, SpecFloat.SFcompare;
  repeat match goal with
         | x : SpecFloat.spec_float |- _ => destruct x as [[]|[]| |[] ? ?]
         end;
  try discriminate; try reflexivity;
  repeat match goal with
         | |- context [Pos.compare_cont Eq ?a ?b] =>
             change (Pos.compare_cont Eq a b) with (Pos.compare a b)
         | H : context [Pos.compare_cont Eq ?a ?b] |- _ =>
             change (Pos.compare_cont Eq a b) with (Pos.compare a b) in H
         end;
  repeat match goal with
         | |- context [Z.compare ?a ?b] => destruct (Z.compare_spec a b)
         | H : context [Z.compare ?a ?b] |- _ => destruct (Z.compare_spec a b)
         end;
  try discriminate; try reflexivity; try lia;
  repeat match goal with
         | |- context [Pos.compare ?a ?b] => destruct (Pos.compare_spec a b)
         | H : context [Pos.compare ?a ?b] |- _ => destruct (Pos.compare_spec a b)
         end;
  cbn in *; try discriminate; try reflexivity; try lia.

Lemma SFltb_trans (x y z : SpecFloat.spec_float) :
  SpecFloat.SFltb x y = true -> SpecFloat.SFltb y z = true -> SpecFloat.SFltb x z = true.
Proof. sf_cases. Qed.

Lemma SFleb_trans (x y z : SpecFloat.spec_float) :
  SpecFloat.SFleb x y = true -> SpecFloat.SFleb y z = true -> SpecFloat.SFleb x z = true.
Proof. sf_cases. Qed.

Lemma SFltb_leb (x y : SpecFloat.spec_float) :
  SpecFloat.SFltb x y = true -> SpecFloat.SFleb x y = true.
Proof. sf_cases. Qed.

Lemma SFleb_total (x y : SpecFloat.spec_float) :
  SpecFloat.SFeqb x x = true -> SpecFloat.SFeqb y y = true ->
  SpecFloat.SFltb y x = false -> SpecFloat.SFleb x y = true.
Proof. sf_cases. Qed.

Lemma SFltb_total (x y : SpecFloat.spec_float) :
  SpecFloat.SFeqb x x = true -> SpecFloat.SFeqb y y = true ->
  SpecFloat.SFleb x y = false -> SpecFloat.SFltb y x = true.
Proof. sf_cases. Qed.

Lemma SFleb_refl (x : SpecFloat.spec_float) :
  SpecFloat.SFeqb x x = true -> SpecFloat.SFleb x x = true.
Proof. sf_cases. Qed.

Lemma SFltb_irrefl (x : SpecFloat.spec_float) : SpecFloat.SFltb x x = false.
Proof. sf_cases. Qed.

Lemma is_nan_false (x : float) :
  is_nan x = false <-> SpecFloat.SFeqb (Prim2SF x) (Prim2SF x) = true.
Proof.
  unfold is_nan. rewrite FloatAxioms.eqb_spec.
  destruct (SpecFloat.SFeqb (Prim2SF x) (Prim2SF x)); cbn; split; congruence.
Qed.

Lemma ltb_trans (x y z : float) :
  PrimFloat.ltb x y = true -> PrimFloat.ltb y z = true -> PrimFloat.ltb x z = true.
Proof. rewrite !FloatAxioms.ltb_spec. apply SFltb_trans. Qed.

Lemma leb_trans (x y z : float) :
  PrimFloat.leb x y = true -> PrimFloat.leb y z = true -> PrimFloat.leb x z = true.
Proof. rewrite !FloatAxioms.leb_spec. apply SFleb_trans. Qed.

Lemma ltb_leb (x y : float) : PrimFloat.ltb x y = true -> PrimFloat.leb x y = true.
Proof. rewrite FloatAxioms.ltb_spec, FloatAxioms.leb_spec. apply SFltb_leb. Qed.

Lemma leb_total (x y : float) :
  is_nan x = false -> is_nan y = false -> PrimFloat.ltb y x = false -> PrimFloat.leb x y = true.
Proof.
  intros Hx%is_nan_false Hy%is_nan_false.
  rewrite FloatAxioms.ltb_spec, FloatAxioms.leb_spec. by apply SFleb_total.
Qed.

Lemma ltb_total (x y : float) :
  is_nan x = false -> is_nan y = false -> PrimFloat.leb x y = false -> PrimFloat.ltb y x = true.
Proof.
  intros Hx%is_nan_false Hy%is_nan_false.
  rewrite FloatAxioms.ltb_spec, FloatAxioms.leb_spec. by apply SFltb_total.
Qed.

Lemma leb_refl (x : float) : is_nan x = false -> PrimFloat.leb x x = true.
Proof. intros Hx%is_nan_false. rewrite FloatAxioms.leb_spec. by apply SFleb_refl. Qed.

Lemma ltb_irrefl (x : float) : PrimFloat.ltb x x = false.
Proof. rewrite FloatAxioms.ltb_spec. apply SFltb_irrefl. Qed.

(** ** Lists and results *)

Lemma lookup_repeat {A : Type} (x : A) (n i : nat) : (i < n)%nat -> repeat x n !! i = Some x.
Proof.
  revert i. induction n as [|n IH]; intros [|i] Hi; cbn; try lia; [reflexivity|].
  apply IH. lia.
Qed.

Lemma find_app_last {A : Type} (p : A -> bool) (l : list A) (x : A) :
  List.find p (l ++ [x])
  = match List.find p l with Some y => Some y | None => if p x then Some x else None end.
Proof. induction l as [|y l IH]; cbn; [reflexivity|]. destruct (p y); [reflexivity | exact IH]. Qed.

(** An item that [min] with a transitive, irreflexive [lt] returns is
    beaten by no item of the list. *)
Lemma min_from_unbeaten {A : Type} (lt : A -> A -> bool) (l seen : list A) (best : A) :
  (forall x, lt x x = false) ->
  (forall x y z, lt x y = true -> lt y z = true -> lt x z = true) ->
  (forall c, In c seen -> lt c best = false) ->
  forall c, In c (seen ++ l) -> lt c (min_from lt best l) = false.
Proof.
  intros Hirr Htrans. revert seen best.
  induction l as [|x l IH]; intros seen best Hseen c Hc.
  - rewrite app_nil_r in Hc. exact (Hseen c Hc).
  - cbn [min_from]. apply (IH (seen ++ [x])).
    + intros c' Hc'. destruct (lt x best) eqn:Elt.
      * destruct (lt c' x) eqn:E; [|reflexivity].
        apply in_app_or in Hc' as [Hc'|[<-|[]]].
        -- rewrite <- (Hseen c' Hc'). symmetry. exact (Htrans _ _ _ E Elt).
        -- rewrite Hirr in E. discriminate.
      * apply in_app_or in Hc' as [Hc'|[<-|[]]]; [exact (Hseen c' Hc') | exact Elt].
    + rewrite <- app_assoc. exact Hc.
Qed.

(** ** The collaborators of the repository return and keep the entries *)

Section Repository.
Context `{PyLib}.

Lemma call_returns {A : Type} (o : outcome A) : returns (call o).
Proof. destruct o; discriminate. Qed.

Lemma discount_returns (self : NPV.t) (cash_flow years : float) :
  returns (NPV._discount self cash_flow years).
Proof.
  unfold NPV._discount. apply bind_returns; [apply call_returns|].
  intros factor _. apply call_returns.
Qed.

Lemma NPV_returns (self : NPV.t) (context : WellPlanContext.t) :
  returns (capex_compute (NPV.capex_cost self) (WellPlanContext.well context)) ->
  returns (NPV.compute self context).
Proof.
  intros Hcapex. unfold NPV.compute. apply bind_returns; [exact Hcapex|]. intros capex _.
  apply bind_returns;
    [apply map_result_returns; intros [month cf]; apply discount_returns|]. intros flows _.
  apply bind_returns; [apply discount_returns|]. intros discounted_capex _.
  apply bind_returns.
  { unfold NPV.travel_cost. destruct (WellPlanContext.get_entry_by_task _ _);
      [apply call_returns | discriminate]. }
  intros travel_cost _. apply bind_returns; [apply call_returns|]. intros penalty _.
  apply bind_returns; [apply call_returns | discriminate].
Qed.

Lemma BaseCapex_returns (self : BaseCapex.t) (well : Well.t) :
  returns (BaseCapex.compute self well).
Proof. unfold BaseCapex.compute. destruct (_ !! _); discriminate. Qed.

Lemma CapexConstraint_returns (bs : list ConstraintBound.t) (plan : Plan.t)
    (context : WellPlanContext.t) :
  returns (CapexConstraint.is_violated bs plan context).
Proof.
  unfold CapexConstraint.is_violated. apply bind_returns.
  { unfold WellPlanContext.launch_date. destruct (WellPlanContext.entries context); discriminate. }
  intros d _. destruct (PrimFloat.eqb _ _); [discriminate|].
  destruct (get_applicable_bound _ _); discriminate.
Qed.

Lemma repository_collaborators_return {G : Type} `{RandomSource G} (self : PlanBuilder.t)
    (npv : NPV.t) (capex : BaseCapex.t) (risk : option ClusterRandomRiskStrategy.t) :
  PlanBuilder.cost_function self = NPV.cost_function npv ->
  NPV.capex_cost npv = BaseCapex.capital_cost capex ->
  (forall c, returns (profile_compute (PlanBuilder.profiler self) c)) ->
  Forall (fun constraint => exists bs, constraint = CapexConstraint.new bs)
    (ConstraintManager.constraints (PlanBuilder._constraints self)) ->
  collaborators_return TeamManager_class self
    (ClusterRandomRiskStrategy.risk_strategy (G := G) <$> risk).
Proof.
  intros Ecost Ecapex Hprof Hcons. split; [|split; [|split; [|split; [|split]]]].
  - intros m c. apply get_assignments_returns.
  - intros m c. discriminate.
  - exact Hprof.
  - intros c. rewrite Ecost. apply NPV_returns. rewrite Ecapex. apply BaseCapex_returns.
  - intros constraint plan c Hin.
    destruct (proj1 (Forall_forall _ _) Hcons constraint ltac:(by apply list_elem_of_In))
      as (bs & ->). apply CapexConstraint_returns.
  - intros rs Ers. destruct risk as [r|]; [|discriminate]. injection Ers as <-.
    split; [intros st c | intros st c g]; discriminate.
Qed.

Lemma NPV_keeps_entries (self : NPV.t) : keeps_entries (NPV.compute self).
Proof.
  intros c c' E. apply NPV_compute_shape in E as (cost & metadata & ->). reflexivity.
Qed.

Lemma apply_risk_entries (affected : ClusterRandomRiskStrategy.state) (c : WellPlanContext.t) :
  WellPlanContext.entries (ClusterRandomRiskStrategy.apply_risk affected c)
  = WellPlanContext.entries c.
Proof. unfold ClusterRandomRiskStrategy.apply_risk. destruct (_ !! _); reflexivity. Qed.

Lemma define_risk_entries {G : Type} `{RandomSource G} (self : ClusterRandomRiskStrategy.t)
    (affected : ClusterRandomRiskStrategy.state) (c : WellPlanContext.t) (g : G) :
  WellPlanContext.entries (ClusterRandomRiskStrategy.define_risk self affected c g).1.2
  = WellPlanContext.entries c.
Proof.
  unfold ClusterRandomRiskStrategy.define_risk. destruct (random g) as [u g'].
  destruct (PrimFloat.ltb u _); [|reflexivity]. cbn [fst snd]. apply apply_risk_entries.
Qed.

Lemma repository_entries_preserving {G : Type} `{RandomSource G} (self : PlanBuilder.t)
    (npv : NPV.t) (risk : option ClusterRandomRiskStrategy.t) :
  PlanBuilder.cost_function self = NPV.cost_function npv ->
  keeps_entries (profile_compute (PlanBuilder.profiler self)) ->
  entries_preserving self (ClusterRandomRiskStrategy.risk_strategy (G := G) <$> risk).
Proof.
  intros Ecost Hprof. split; [|split].
  - exact Hprof.
  - rewrite Ecost. apply NPV_keeps_entries.
  - intros rs Ers. destruct risk as [r|]; [|discriminate]. injection Ers as <-. split.
    + intros st c c' E. injection E as <-. apply apply_risk_entries.
    + intros st c g st' c' g' E. injection E as E. rewrite <- (define_risk_entries r st c g).
      rewrite E. reflexivity.
Qed.

End Repository.

Lemma example_collaborators_return :
  collaborators_return TeamManager_class Example.builder Example.cluster_risk.
Proof.
  apply (repository_collaborators_return Example.builder Example.npv
           (BaseCapex.mk {["ГС" := 10%float]} 50) (Some Example.risk)).
  - reflexivity.
  - reflexivity.
  - intros c. discriminate.
  - repeat constructor. eexists. reflexivity.
Qed.

Lemma example_entries_preserving : entries_preserving Example.builder Example.cluster_risk.
Proof.
  apply (repository_entries_preserving Example.builder Example.npv (Some Example.risk)).
  - reflexivity.
  - intros c c' E. injection E as <-. reflexivity.
Qed.

Lemma example_final_state :
  PlanBuilder.compile_run TeamManager_class 10 Example.builder 0
    [Example.well_a; Example.well_b] Example.manager Example.cluster_risk ∅
    true true Example.no_draws
  = Ok Scenario.final_state.
Proof. vm_compute. reflexivity. Qed.

(** Witness of X1: the example run, whose collaborators are the team
    manager, the NPV cost function, the capital-expenditure constraint and
    the cluster risk strategy of the repository. *)
Lemma compile_returns_witness :
  let fuel0 :=
    S (length [Example.well_a; Example.well_b]
       + Z.to_nat (year (PlanBuilder.end_ Example.builder)
                   - year (PlanBuilder.start Example.builder) + 1)) in
  returns (PlanBuilder.compile TeamManager_class fuel0 Example.builder 0
             [Example.well_a; Example.well_b] Example.manager Example.cluster_risk ∅
             true true Example.no_draws)
  /\ forall fuel, (fuel0 <= fuel)%nat ->
       PlanBuilder.compile TeamManager_class fuel Example.builder 0
         [Example.well_a; Example.well_b] Example.manager Example.cluster_risk ∅
         true true Example.no_draws
       = PlanBuilder.compile TeamManager_class fuel0 Example.builder 0
           [Example.well_a; Example.well_b] Example.manager Example.cluster_risk ∅
           true true Example.no_draws.
Proof.
  exact (compile_returns TeamManager_class Example.builder 0 [Example.well_a; Example.well_b]
           Example.manager Example.cluster_risk ∅ true true Example.no_draws
           example_collaborators_return).
Defined.

(** ** No well is lost, and every planned well fits the horizon *)

Lemma fits_entries (end_ : datetime) (c c' : WellPlanContext.t) :
  WellPlanContext.entries c' = WellPlanContext.entries c -> fits end_ c -> fits end_ c'.
Proof.
  unfold fits, WellPlanContext.get_next_available_date. intros ->.
  destruct (WellPlanContext.entries c); [intros [[] _]; reflexivity | auto].
Qed.

Lemma map_result_keeps_entries (f : WellPlanContext.t -> result WellPlanContext.t)
    (l l' : list WellPlanContext.t) :
  keeps_entries f -> map_result f l = Ok l' ->
  forall c', In c' l' ->
    exists c, In c l /\ WellPlanContext.entries c' = WellPlanContext.entries c.
Proof.
  intros Hf E. apply map_result_Ok in E.
  induction E as [|c c1 l l' Ec _ IH]; intros c' Hc'; [destruct Hc'|].
  destruct Hc' as [<- | Hc'].
  - exists c. split; [left; reflexivity | exact (Hf _ _ Ec)].
  - destruct (IH c' Hc') as (c0 & Hc0 & Ew). exists c0. split; [right; exact Hc0 | exact Ew].
Qed.

Lemma filter_candidates_entries {RS G : Type} (self : PlanBuilder.t)
    (candidates candidates' : list WellPlanContext.t) (plan : Plan.t)
    (risk_strategy : option (RiskStrategy RS G)) (risk_state : RS) (cluster_ordered : bool) :
  keeps_entries (cost_compute (PlanBuilder.cost_function self)) ->
  (forall rs, risk_strategy = Some rs -> forall st, keeps_entries (apply_risk rs st)) ->
  PlanBuilder._filter_candidates self candidates plan risk_strategy risk_state cluster_ordered
  = Ok candidates' ->
  forall c', In c' candidates' ->
    exists c, In c candidates /\ WellPlanContext.entries c' = WellPlanContext.entries c.
Proof.
  intros Hcost Hrisk E c' Hc'. unfold PlanBuilder._filter_candidates in E.
  set (ordered := if _ && _ then _ else candidates) in E.
  assert (Hord : forall x, In x ordered -> In x candidates).
  { subst ordered. destruct (_ && _); [apply earliest_per_cluster_In | auto]. }
  apply bind_Ok in E as (risked & Erisk & E).
  apply bind_Ok in E as (costed & Ecost & E).
  apply bind_Ok in E as (flags & Eflags & E). injection E as <-.
  apply flags_fst in Eflags.
  apply in_map_iff in Hc' as (cv & <- & Hcv). apply filter_In in Hcv as [Hcv _].
  assert (Hcosted : In (fst cv) costed) by (rewrite <- Eflags; apply in_map; exact Hcv).
  destruct (map_result_keeps_entries _ _ _ Hcost Ecost _ Hcosted) as (c1 & Hc1 & Ew1).
  assert (Hfrom : exists c0, In c0 ordered
                             /\ WellPlanContext.entries c1 = WellPlanContext.entries c0).
  { destruct risk_strategy as [rs|].
    - apply (map_result_keeps_entries _ _ _ (Hrisk rs eq_refl risk_state) Erisk). exact Hc1.
    - injection Erisk as <-. eauto. }
  destruct Hfrom as (c0 & Hc0 & Ew0). exists c0. split; [auto | congruence].
Qed.

Section Horizon.
Context `{PyLib} {M RS G : Type} `{RandomSource G}.
Context (manager_class : BaseTeamManager M).

Lemma build_context_fits (self : PlanBuilder.t) (remaining : list Well.t) (well : Well.t)
    (manager : M) (start : datetime) (context : WellPlanContext.t) :
  keeps_entries (profile_compute (PlanBuilder.profiler self)) ->
  PlanBuilder._build_context manager_class self remaining well manager start = Ok (Some context) ->
  fits (PlanBuilder.end_ self) context.
Proof.
  intros Hprof. unfold PlanBuilder._build_context.
  destruct (negb _); [discriminate|]. intros E.
  apply bind_Ok in E as (c1 & E1 & E).
  destruct (Z.ltb_spec (PlanBuilder.end_ self) (WellPlanContext.get_next_available_date c1))
    as [Hlt|Hle]; [discriminate|].
  cbn [orb] in E. destruct (WellPlanContext.entries c1) as [|e es] eqn:Eentries; [discriminate|].
  apply bind_Ok in E as (c2 & E2 & E). apply Hprof in E2. injection E as <-.
  apply (fits_entries _ c1); [exact E2|]. split; [rewrite Eentries; discriminate | exact Hle].
Qed.

Lemma build_contexts_fit (self : PlanBuilder.t) (remaining : list Well.t) (manager : M)
    (start : datetime) (candidates : list WellPlanContext.t) :
  keeps_entries (profile_compute (PlanBuilder.profiler self)) ->
  PlanBuilder._build_contexts manager_class self remaining manager start = Ok candidates ->
  forall c, In c candidates -> fits (PlanBuilder.end_ self) c.
Proof.
  intros Hprof E c Hc. unfold PlanBuilder._build_contexts in E.
  apply bind_Ok in E as (contexts & E & Ec). injection Ec as <-.
  apply map_result_Ok in E. unfold PlanBuilder.somes in Hc.
  apply list_elem_of_In, list_elem_of_omap in Hc as (oc & Hoc & Eoc). cbn in Eoc. subst oc.
  apply list_elem_of_In in Hoc.
  induction E as [|w y l l' Ew _ IH]; [destruct Hoc|].
  destruct Hoc as [-> | Hoc]; [exact (build_context_fits _ _ _ _ _ _ Hprof Ew) | exact (IH Hoc)].
Qed.

Lemma loop_step_horizon (self : PlanBuilder.t) (risk_strategy : option (RiskStrategy RS G))
    (keep_order cluster_ordered : bool) (s s' : @PlanBuilder.state M RS G) :
  entries_preserving self risk_strategy ->
  PlanBuilder.loop_step manager_class self risk_strategy keep_order cluster_ordered s
  = Ok (PlanBuilder.Continue s') ->
  within_horizon self s -> within_horizon self s'.
Proof.
  intros (Hprof & Hcost & Hrisk) E Hs.
  unfold PlanBuilder.loop_step in E. destruct (PlanBuilder.loop_condition self s); [|discriminate].
  unfold PlanBuilder.loop_body in E.
  apply bind_Ok in E as (built & Ebuilt & E). destruct built as [|b0 built]; [discriminate|].
  apply bind_Ok in E as (filtered & Efilt & E). destruct filtered as [|f0 filtered].
  { apply bind_Ok in E as (next_start & _ & E). injection E as <-. exact Hs. }
  apply bind_Ok in E as ([best g] & Ebest & E).
  apply bind_Ok in E as (manager' & Eassign & E).
  apply bind_Ok in E as (remaining' & Eremove & E).
  apply bind_Ok in E as ([[rs' best'] g'] & Erisk & E). injection E as <-.
  unfold within_horizon. cbn [PlanBuilder.plan Plan.add_context Plan.well_plans].
  intros context [Hc | [<- | []]]%in_app_or; [exact (Hs context Hc)|].
  apply select_best_candidate_In in Ebest.
  destruct (filter_candidates_entries _ _ _ _ _ _ _ Hcost (fun rs Hrs => proj1 (Hrisk rs Hrs))
              Efilt _ Ebest) as (c0 & Hc0 & Ee0).
  pose proof (build_contexts_fit _ _ _ _ _ Hprof Ebuilt _ Hc0) as Hfit.
  apply (fits_entries _ c0); [|exact Hfit]. rewrite <- Ee0.
  destruct risk_strategy as [rs|].
  - apply bind_Ok in Erisk as ([[rs1 best1] g1] & Edef & Erisk).
    apply bind_Ok in Erisk as (best2 & Ecost & Erisk). injection Erisk as <- <- <-.
    apply Hcost in Ecost. apply (proj2 (Hrisk rs eq_refl)) in Edef. congruence.
  - injection Erisk as <- <- <-. reflexivity.
Qed.

(** X2.  [compile] loses no well and invents none: in the state a run over
    [wells] ends in, the contexts of the plan and the wells left in the pool
    are together as many as [wells], the pool holds wells of [wells] only,
    and every context of the plan is the context of one of [wells] (for
    collaborators that work on the context of the well they are given). *)
Theorem plan_conservation (fuel : nat) (self : PlanBuilder.t) (plan_id : N)
    (wells : list Well.t) (manager : M) (risk_strategy : option (RiskStrategy RS G))
    (risk_state : RS) (keep_order cluster_ordered : bool) (g : G)
    (s : @PlanBuilder.state M RS G) :
  well_preserving manager_class self risk_strategy ->
  PlanBuilder.compile_run manager_class fuel self plan_id wells manager risk_strategy risk_state
    keep_order cluster_ordered g = Ok s ->
  (length (Plan.well_plans (PlanBuilder.plan s)) + length (PlanBuilder.remaining_wells s)
   = length wells)%nat
  /\ incl (PlanBuilder.remaining_wells s) wells
  /\ forall context, In context (Plan.well_plans (PlanBuilder.plan s)) ->
       In (WellPlanContext.well context) wells.
Proof.
  intros Hwp E. unfold PlanBuilder.compile_run in E. apply loop_reaches in E.
  set (inv := fun s : @PlanBuilder.state M RS G =>
         (length (Plan.well_plans (PlanBuilder.plan s)) + length (PlanBuilder.remaining_wells s)
          = length wells)%nat
         /\ incl (PlanBuilder.remaining_wells s) wells
         /\ forall context, In context (Plan.well_plans (PlanBuilder.plan s)) ->
              In (WellPlanContext.well context) wells).
  assert (Hinit : inv (PlanBuilder.initial self plan_id wells manager risk_state g)).
  { split; [reflexivity|]. split; [apply incl_refl | intros context []]. }
  assert (Hgen : forall s0 s1,
            reaches manager_class self risk_strategy keep_order cluster_ordered s0 s1 ->
            inv s0 -> inv s1).
  { intros s0 s1 Hreach. induction Hreach as [s0 | s0 s1 s2 Estep _ IH]; [auto|].
    intros (Hlen & Hincl & Hplanned). apply IH.
    destruct (loop_step_effect _ _ _ _ _ _ _ Hwp Estep)
      as [[Eplan Erem] | (context & Eplan & Hin & Erem & _)].
    - unfold inv. rewrite Eplan, Erem. auto.
    - unfold inv. rewrite Eplan. cbn [Plan.add_context Plan.well_plans].
      rewrite length_app. cbn [length].
      pose proof (list_remove_length _ _ _ _ Erem) as Hrem.
      pose proof (list_remove_incl _ _ _ _ Erem) as Hsub.
      split; [lia|]. split; [intros w Hw; apply Hincl, Hsub, Hw|].
      intros c [Hc | [<- | []]]%in_app_or; [exact (Hplanned c Hc) | exact (Hincl _ Hin)]. }
  exact (Hgen _ _ E Hinit).
Qed.

(** X3.  Every context of the plan [compile] returns is scheduled and
    finished by the end of the plan: it has entries, and the last of them
    ends at [self.end] at the latest (for a production profile, a cost
    function and a risk strategy that leave the entries of a context as the
    manager scheduled them). *)
Theorem planned_within_horizon (fuel : nat) (self : PlanBuilder.t) (plan_id : N)
    (wells : list Well.t) (manager : M) (risk_strategy : option (RiskStrategy RS G))
    (risk_state : RS) (keep_order cluster_ordered : bool) (g : G) (plan : Plan.t) :
  entries_preserving self risk_strategy ->
  PlanBuilder.compile manager_class fuel self plan_id wells manager risk_strategy risk_state
    keep_order cluster_ordered g = Ok plan ->
  forall context, In context (Plan.well_plans plan) ->
    WellPlanContext.entries context <> []
    /\ WellPlanContext.get_next_available_date context <= PlanBuilder.end_ self.
Proof.
  intros Hpres E. unfold PlanBuilder.compile in E.
  apply bind_Ok in E as (s & E & Eplan). injection Eplan as <-.
  unfold PlanBuilder.compile_run in E. apply loop_reaches in E.
  assert (Hinit : within_horizon self (PlanBuilder.initial self plan_id wells manager risk_state g))
    by (intros context []).
  assert (Hgen : forall s0 s1,
            reaches manager_class self risk_strategy keep_order cluster_ordered s0 s1 ->
            within_horizon self s0 -> within_horizon self s1).
  { intros s0 s1 Hreach. induction Hreach as [s0 | s0 s1 s2 Estep _ IH]; [auto|].
    intros Hs0. apply IH. exact (loop_step_horizon _ _ _ _ _ _ Hpres Estep Hs0). }
  exact (Hgen _ _ E Hinit).
Qed.

End Horizon.

(** Witness of X2: the example run ends with wells A and B planned and an
    empty pool. *)
Lemma plan_conservation_witness :
  (length (Plan.well_plans (PlanBuilder.plan Scenario.final_state))
   + length (PlanBuilder.remaining_wells Scenario.final_state)
   = length [Example.well_a; Example.well_b])%nat
  /\ incl (PlanBuilder.remaining_wells Scenario.final_state) [Example.well_a; Example.well_b]
  /\ forall context, In context (Plan.well_plans (PlanBuilder.plan Scenario.final_state)) ->
       In (WellPlanContext.well context) [Example.well_a; Example.well_b].
Proof.
  exact (plan_conservation TeamManager_class 10 Example.builder 0
           [Example.well_a; Example.well_b] Example.manager Example.cluster_risk ∅
           true true Example.no_draws Scenario.final_state
           example_well_preserving example_final_state).
Defined.

Lemma example_final_plan :
  PlanBuilder.compile TeamManager_class 10 Example.builder 0
    [Example.well_a; Example.well_b] Example.manager Example.cluster_risk ∅
    true true Example.no_draws
  = Ok (PlanBuilder.plan Scenario.final_state).
Proof. vm_compute. reflexivity. Qed.

(** Witness of X3: the plan of the example run. *)
Lemma planned_within_horizon_witness :
  PlanBuilder.compile TeamManager_class 10 Example.builder 0
    [Example.well_a; Example.well_b] Example.manager Example.cluster_risk ∅
    true true Example.no_draws
  = Ok (PlanBuilder.plan Scenario.final_state)
  /\ forall context, In context (Plan.well_plans (PlanBuilder.plan Scenario.final_state)) ->
       WellPlanContext.entries context <> []
       /\ WellPlanContext.get_next_available_date context <= PlanBuilder.end_ Example.builder.
Proof.
  split; [exact example_final_plan|].
  exact (planned_within_horizon TeamManager_class 10 Example.builder 0
           [Example.well_a; Example.well_b] Example.manager Example.cluster_risk ∅
           true true Example.no_draws (PlanBuilder.plan Scenario.final_state)
           example_entries_preserving example_final_plan).
Defined.

(** ** The outcomes of the selection *)

Section SelectionEdges.
Context `{PyLib} {G : Type} `{RandomSource G}.

Lemma min_entry_date_from_raises (l : list WellPlanContext.t) (best : WellPlanContext.t)
    (e : exn) :
  PlanBuilder.min_entry_date_from best l = Raise e ->
  e = TypeError /\ l <> [] /\ exists c, In c (best :: l) /\ entry_date c = None.
Proof.
  revert best. induction l as [|x l IH]; intros best; cbn [PlanBuilder.min_entry_date_from];
    [discriminate|].
  destruct (Well.init_entry_date (WellPlanContext.well x)) as [dx|] eqn:Ex.
  - destruct (Well.init_entry_date (WellPlanContext.well best)) as [db|] eqn:Eb.
    + intros E. apply IH in E as (-> & _ & c & Hc & Ec).
      split; [reflexivity|]. split; [discriminate|]. exists c. split; [|exact Ec].
      destruct Hc as [<-|Hc]; [|right; right; exact Hc].
      destruct (dx <? db); [right; left; reflexivity | left; reflexivity].
    + intros E. injection E as <-. split; [reflexivity|]. split; [discriminate|].
      exists best. split; [left; reflexivity | exact Eb].
  - intros E. injection E as <-. split; [reflexivity|]. split; [discriminate|].
    exists x. split; [right; left; reflexivity | exact Ex].
Qed.


End SelectionEdges.

(** ** One candidate per cluster *)

Lemma dict_get_None (k : string) (d : list (string * WellPlanContext.t)) :
  PlanBuilder.dict_get k d = None <-> ~ In k (map fst d).
Proof.
  unfold PlanBuilder.dict_get. induction d as [|[k0 v0] d IH]; cbn; [tauto|].
  destruct (String.eqb_spec k0 k) as [->|Hne]; cbn.
  - split; [discriminate | intros Hn; exfalso; apply Hn; by left].
  - rewrite IH. split; [intros Hn [E|Hin]; [exact (Hne E) | exact (Hn Hin)] | tauto].
Qed.

Lemma dict_get_Some (k : string) (d : list (string * WellPlanContext.t)) (v : WellPlanContext.t) :
  PlanBuilder.dict_get k d = Some v -> In (k, v) d.
Proof.
  unfold PlanBuilder.dict_get. induction d as [|[k0 v0] d IH]; cbn; [discriminate|].
  destruct (String.eqb_spec k0 k) as [->|Hne]; cbn.
  - intros E. injection E as <-. by left.
  - intros E. right. exact (IH E).
Qed.

Lemma dict_set_keys (k : string) (v : WellPlanContext.t) (d : list (string * WellPlanContext.t)) :
  map fst (PlanBuilder.dict_set k v d)
  = if bool_decide (k ∈ map fst d) then map fst d else map fst d ++ [k].
Proof.
  induction d as [|[k0 v0] d IH]; cbn [PlanBuilder.dict_set map fst app].
  - rewrite bool_decide_eq_false_2 by apply not_elem_of_nil. reflexivity.
  - destruct (String.eqb_spec k0 k) as [->|Hne]; cbn [map fst].
    + rewrite bool_decide_eq_true_2 by left. reflexivity.
    + rewrite IH. destruct (bool_decide_reflect (k ∈ map fst d)) as [Hin|Hin].
      * rewrite bool_decide_eq_true_2 by (right; exact Hin). reflexivity.
      * rewrite bool_decide_eq_false_2; [reflexivity|].
        intros [E|Hin']%elem_of_cons; [exact (Hne (eq_sym E)) | exact (Hin Hin')].
Qed.

Lemma dict_set_items (k : string) (v : WellPlanContext.t) (d : list (string * WellPlanContext.t))
    (kv : string * WellPlanContext.t) :
  NoDup (map fst d) ->
  In kv (PlanBuilder.dict_set k v d) -> kv = (k, v) \/ (fst kv <> k /\ In kv d).
Proof.
  induction d as [|[k0 v0] d IH]; cbn [PlanBuilder.dict_set map fst]; intros Hnd.
  - intros [<-|[]]. by left.
  - apply NoDup_cons in Hnd as [Hk0 Hnd].
    destruct (String.eqb_spec k0 k) as [->|Hne].
    + intros [<-|Hin]; [by left|]. right. split; [|by right].
      intros E. apply Hk0. apply list_elem_of_In. rewrite <- E. apply in_map. exact Hin.
    + intros [<-|Hin]; [right; split; [exact Hne | by left]|].
      destruct (IH Hnd Hin) as [->|[Hk Hin']]; [by left | right; split; [exact Hk | by right]].
Qed.

Lemma dict_set_has (k : string) (v : WellPlanContext.t) (d : list (string * WellPlanContext.t)) :
  In (k, v) (PlanBuilder.dict_set k v d).
Proof.
  induction d as [|[k0 v0] d IH]; cbn [PlanBuilder.dict_set]; [by left|].
  destruct (String.eqb_spec k0 k) as [->|Hne]; [by left | by right].
Qed.

Lemma dict_set_others (k : string) (v : WellPlanContext.t) (d : list (string * WellPlanContext.t))
    (kv : string * WellPlanContext.t) :
  fst kv <> k -> In kv d -> In kv (PlanBuilder.dict_set k v d).
Proof.
  intros Hk. induction d as [|[k0 v0] d IH]; cbn [PlanBuilder.dict_set]; [intros []|].
  destruct (String.eqb_spec k0 k) as [->|Hne].
  - intros [<-|Hin]; [done | by right].
  - intros [<-|Hin]; [by left | right; exact (IH Hin)].
Qed.

Lemma keys_unique {V : Type} (d : list (string * V)) (k : string) (v1 v2 : V) :
  NoDup (map fst d) -> In (k, v1) d -> In (k, v2) d -> v1 = v2.
Proof.
  induction d as [|[k0 v0] d IH]; cbn [map fst]; intros Hnd; [intros []|].
  apply NoDup_cons in Hnd as [Hk0 Hnd].
  intros [E1|H1] [E2|H2].
  - congruence.
  - injection E1 as -> ->. exfalso. apply Hk0, list_elem_of_In.
    change k with (fst (k, v2)). apply in_map. exact H2.
  - injection E2 as -> ->. exfalso. apply Hk0, list_elem_of_In.
    change k with (fst (k, v1)). apply in_map. exact H1.
  - exact (IH Hnd H1 H2).
Qed.

Lemma earliest_inv_step (seen : list WellPlanContext.t) (d : list (string * WellPlanContext.t))
    (candidate : WellPlanContext.t) :
  earliest_inv seen d ->
  earliest_inv (seen ++ [candidate])
    (match PlanBuilder.dict_get (cluster_of candidate) d with
     | None => PlanBuilder.dict_set (cluster_of candidate) candidate d
     | Some existing =>
         if PlanBuilder.candidate_date candidate <? PlanBuilder.candidate_date existing
         then PlanBuilder.dict_set (cluster_of candidate) candidate d else d
     end).
Proof.
  intros (Hnd & Hitems & Hkeys).
  assert (Hset : (forall existing, PlanBuilder.dict_get (cluster_of candidate) d = Some existing ->
                    PlanBuilder.candidate_date candidate < PlanBuilder.candidate_date existing)
                 -> earliest_inv (seen ++ [candidate])
                      (PlanBuilder.dict_set (cluster_of candidate) candidate d)).
  { intros Hless. split; [|split].
    - rewrite dict_set_keys. destruct (bool_decide_reflect (cluster_of candidate ∈ map fst d));
        [exact Hnd|].
      apply NoDup_app. split; [exact Hnd|]. split; [|apply NoDup_singleton].
      intros k Hk ->%list_elem_of_singleton. exact (n Hk).
    - intros k v Hin0. destruct (dict_set_items _ _ _ _ Hnd Hin0) as [E|[Hk Hin]].
      + injection E as -> ->. split; [reflexivity|]. split; [apply in_or_app; right; by left|].
        intros c [Hc|[<-|[]]]%in_app_or Ec; [|lia].
        destruct (PlanBuilder.dict_get (cluster_of candidate) d) as [existing|] eqn:Eget.
        * pose proof (Hless existing eq_refl) as Hlt.
          apply dict_get_Some in Eget. destruct (Hitems _ _ Eget) as (_ & _ & Hmin).
          specialize (Hmin c Hc Ec). lia.
        * apply dict_get_None in Eget. exfalso. apply Eget. rewrite <- Ec. exact (Hkeys c Hc).
      + cbn [fst] in Hk. destruct (Hitems _ _ Hin) as (Ev & Hv & Hmin).
        split; [exact Ev|]. split; [apply in_or_app; by left|].
        intros c [Hc|[<-|[]]]%in_app_or Ec; [exact (Hmin c Hc Ec)|]. congruence.
    - intros c [Hc|[<-|[]]]%in_app_or.
      + rewrite dict_set_keys. destruct (bool_decide _); [exact (Hkeys c Hc)|].
        apply in_or_app. left. exact (Hkeys c Hc).
      + change (cluster_of candidate) with (fst (cluster_of candidate, candidate)) at 1.
        apply in_map. apply dict_set_has. }
  destruct (PlanBuilder.dict_get (cluster_of candidate) d) as [existing|] eqn:Eget.
  - destruct (Z.ltb_spec (PlanBuilder.candidate_date candidate)
                (PlanBuilder.candidate_date existing)) as [Hlt|Hge].
    + apply Hset. intros existing' E. injection E as <-. exact Hlt.
    + apply dict_get_Some in Eget. split; [exact Hnd|]. split.
      * intros k v Hin. destruct (Hitems _ _ Hin) as (Ev & Hv & Hmin).
        split; [exact Ev|]. split; [apply in_or_app; by left|].
        intros c [Hc|[<-|[]]]%in_app_or Ec; [exact (Hmin c Hc Ec)|].
        assert (v = existing) as ->.
        { apply (keys_unique d k); [exact Hnd | exact Hin|]. rewrite <- Ec. exact Eget. }
        exact Hge.
      * intros c [Hc|[<-|[]]]%in_app_or; [exact (Hkeys c Hc)|].
        change (cluster_of candidate) with (fst (cluster_of candidate, existing)).
        apply in_map. exact Eget.
  - apply Hset. intros existing E. discriminate.
Qed.

Lemma earliest_per_cluster_spec (candidates : list WellPlanContext.t) :
  let earliest := PlanBuilder.earliest_per_cluster candidates in
  NoDup (map cluster_of earliest)
  /\ (forall c', In c' earliest ->
        In c' candidates
        /\ forall c, In c candidates -> cluster_of c = cluster_of c' ->
             PlanBuilder.candidate_date c' <= PlanBuilder.candidate_date c)
  /\ forall c, In c candidates -> In (cluster_of c) (map cluster_of earliest).
Proof.
  unfold PlanBuilder.earliest_per_cluster.
  assert (Hfold : forall l seen d,
            earliest_inv seen d ->
            earliest_inv (seen ++ l)
              (fold_left (fun d candidate =>
                 let cluster := Well.cluster (WellPlanContext.well candidate) in
                 match PlanBuilder.dict_get cluster d with
                 | None => PlanBuilder.dict_set cluster candidate d
                 | Some existing =>
                     if PlanBuilder.candidate_date candidate <? PlanBuilder.candidate_date existing
                     then PlanBuilder.dict_set cluster candidate d else d
                 end) l d)).
  { induction l as [|candidate l IH]; intros seen d Hinv; [rewrite app_nil_r; exact Hinv|].
    cbn [fold_left]. replace (seen ++ candidate :: l) with ((seen ++ [candidate]) ++ l)
      by (rewrite <- app_assoc; reflexivity).
    apply IH. apply earliest_inv_step. exact Hinv. }
  specialize (Hfold candidates [] []). cbn [app] in Hfold.
  destruct Hfold as (Hnd & Hitems & Hkeys).
  { split; [constructor|]. split; [intros k v []|intros c []]. }
  set (d := fold_left _ candidates []) in *.
  assert (Hclusters : map cluster_of (map snd d) = map fst d).
  { rewrite map_map. apply map_ext_in. intros [k v] Hin. cbn [fst snd].
    exact (proj1 (Hitems _ _ Hin)). }
  cbn zeta. rewrite Hclusters. split; [exact Hnd|]. split.
  - intros c' Hin. apply in_map_iff in Hin as ([k v] & <- & Hin). cbn [snd].
    destruct (Hitems _ _ Hin) as (Ev & Hv & Hmin). split; [exact Hv|].
    intros c Hc Ec. apply Hmin; [exact Hc | congruence].
  - exact Hkeys.
Qed.

Lemma map_result_wells (f : WellPlanContext.t -> result WellPlanContext.t)
    (l l' : list WellPlanContext.t) :
  keeps_well f -> map_result f l = Ok l' ->
  map WellPlanContext.well l' = map WellPlanContext.well l.
Proof.
  intros Hf E. apply map_result_Ok in E.
  induction E as [|x y l l' Hxy _ IH]; [reflexivity|].
  cbn [map]. rewrite IH, (Hf _ _ Hxy). reflexivity.
Qed.

Lemma filter_flags_sublist {A : Type} (flags : list (A * bool)) :
  sublist (map fst (List.filter (fun cv => negb (snd cv)) flags)) (map fst flags).
Proof.
  induction flags as [|[c v] flags IH]; cbn [List.filter map fst snd]; [constructor|].
  destruct v; cbn [negb map fst]; [by apply sublist_cons | by apply sublist_skip].
Qed.

(** X5.  With [cluster_ordered], [_filter_candidates] returns at most one
    candidate per cluster, and each is the candidate of a well that has the
    earliest initial entry date among the candidates of its cluster (a
    missing date counts as [datetime.min]), for a cost function and a risk
    strategy that work on the context of the well they are given. *)
Theorem filter_one_per_cluster {RS G : Type} (self : PlanBuilder.t)
    (candidates candidates' : list WellPlanContext.t) (plan : Plan.t)
    (risk_strategy : option (RiskStrategy RS G)) (risk_state : RS) :
  keeps_well (cost_compute (PlanBuilder.cost_function self)) ->
  (forall rs, risk_strategy = Some rs -> forall st, keeps_well (apply_risk rs st)) ->
  PlanBuilder._filter_candidates self candidates plan risk_strategy risk_state true
  = Ok candidates' ->
  NoDup (map cluster_of candidates')
  /\ forall c', In c' candidates' ->
       exists c, In c candidates
         /\ WellPlanContext.well c' = WellPlanContext.well c
         /\ forall c2, In c2 candidates -> cluster_of c2 = cluster_of c ->
              PlanBuilder.candidate_date c <= PlanBuilder.candidate_date c2.
Proof.
  intros Hcost Hrisk E. unfold PlanBuilder._filter_candidates in E. cbn [andb] in E.
  destruct (earliest_per_cluster_spec candidates) as (Hnd & Hmin & _). cbn zeta in Hnd, Hmin.
  set (earliest := if match candidates with [] => false | _ => true end
                   then PlanBuilder.earliest_per_cluster candidates else candidates) in E.
  assert (Hearliest : NoDup (map cluster_of earliest)
                      /\ forall c, In c earliest ->
                           In c candidates
                           /\ forall c2, In c2 candidates -> cluster_of c2 = cluster_of c ->
                                PlanBuilder.candidate_date c <= PlanBuilder.candidate_date c2).
  { unfold earliest. destruct candidates; [split; [constructor | intros c []]|].
    split; [exact Hnd | exact Hmin]. }
  clearbody earliest. destruct Hearliest as [Hnd' Hmin'].
  apply bind_Ok in E as (risked & Erisked & E).
  apply bind_Ok in E as (costed & Ecosted & E).
  apply bind_Ok in E as (flags & Eflags & E). injection E as <-.
  assert (Hwells : map WellPlanContext.well costed = map WellPlanContext.well earliest).
  { rewrite (map_result_wells _ _ _ Hcost Ecosted).
    destruct risk_strategy as [rs|]; [|by injection Erisked as <-].
    exact (map_result_wells _ _ _ (Hrisk rs eq_refl risk_state) Erisked). }
  pose proof (filter_flags_sublist flags) as Hsub.
  rewrite (flags_fst _ _ _ Eflags) in Hsub.
  split.
  - apply (sublist_NoDup _ (map cluster_of costed)); [|by apply (fmap_sublist cluster_of)].
    unfold cluster_of. rewrite <- (map_map WellPlanContext.well Well.cluster), Hwells, map_map.
    exact Hnd'.
  - intros c' Hc'.
    assert (Hin : In c' costed).
    { apply list_elem_of_In. apply (elem_of_sublist _ _ _ ltac:(by apply list_elem_of_In) Hsub). }
    apply (in_map WellPlanContext.well) in Hin. rewrite Hwells in Hin.
    apply in_map_iff in Hin as (c & Ewell & Hc).
    exists c. destruct (Hmin' c Hc) as [Hc0 Hleast]. auto.
Qed.

Lemma example_filtered_2025 :
  PlanBuilder._filter_candidates Example.builder Scenario.built_2025
    (PlanBuilder.plan Example.state_2025) Example.cluster_risk
    (PlanBuilder.risk_state Example.state_2025) true
  = Ok Scenario.filtered_2025.
Proof. vm_compute. reflexivity. Qed.

(** Witness of X5: the second pass of the example run, which keeps the
    candidate of well A. *)
Lemma filter_one_per_cluster_witness :
  NoDup (map cluster_of Scenario.filtered_2025)
  /\ forall c', In c' Scenario.filtered_2025 ->
       exists c, In c Scenario.built_2025
         /\ WellPlanContext.well c' = WellPlanContext.well c
         /\ forall c2, In c2 Scenario.built_2025 -> cluster_of c2 = cluster_of c ->
              PlanBuilder.candidate_date c <= PlanBuilder.candidate_date c2.
Proof.
  exact (filter_one_per_cluster Example.builder Scenario.built_2025 Scenario.filtered_2025
           (PlanBuilder.plan Example.state_2025) Example.cluster_risk
           (PlanBuilder.risk_state Example.state_2025)
           (proj1 (proj2 (proj2 example_well_preserving)))
           (fun rs Hrs => proj1 (proj2 (proj2 (proj2 example_well_preserving)) rs Hrs))
           example_filtered_2025).
Defined.

(** ** The constraint manager and the bounds *)

Lemma time_bounds_spec (self : ConstraintManager.t) (y : Z) :
  In y (ConstraintManager.time_bounds self) <-> bound_year self y.
Proof.
  unfold ConstraintManager.time_bounds, bound_year.
  rewrite <- list_elem_of_In, merge_sort_Permutation, elem_of_elements, elem_of_list_to_set,
    list_elem_of_In, in_flat_map.
  split.
  - intros (constraint & Hc & Hy). apply list_elem_of_In, list_elem_of_omap in Hy as (b & Hb & Ey).
    exists constraint, b. split; [exact Hc|]. split; [by apply list_elem_of_In | exact Ey].
  - intros (constraint & b & Hc & Hb & Ey). exists constraint. split; [exact Hc|].
    apply list_elem_of_In, list_elem_of_omap. exists b. split; [by apply list_elem_of_In | exact Ey].
Qed.

Lemma find_sorted_least (current : Z) (l : list Z) :
  StronglySorted Z.le l ->
  match List.find (fun year => current <? year) l with
  | Some y => In y l /\ current < y /\ forall y', In y' l -> current < y' -> y <= y'
  | None => forall y', In y' l -> y' <= current
  end.
Proof.
  induction 1 as [|y0 l Hl IH Hall]; cbn [List.find]; [intros y' []|].
  destruct (Z.ltb_spec current y0) as [Hlt|Hge].
  - split; [by left|]. split; [exact Hlt|]. intros y' [<-|Hin] _; [lia|].
    exact (proj1 (Forall_forall _ _) Hall y' ltac:(by apply list_elem_of_In)).
  - destruct (List.find _ l) as [y|].
    + destruct IH as (Hin & Hlt & Hleast). split; [by right|]. split; [exact Hlt|].
      intros y' [<-|Hin'] Hy'; [lia | exact (Hleast y' Hin' Hy')].
    + intros y' [<-|Hin]; [exact Hge | exact (IH y' Hin)].
Qed.

(** X6.  [get_period_end(current_year)] returns the least year above
    [current_year] among the years of the bounds of all constraints, and
    [None] exactly when no bound has a year above [current_year]. *)
Theorem period_end_least (self : ConstraintManager.t) (current_year : Z) :
  match ConstraintManager.get_period_end self current_year with
  | Some y =>
      bound_year self y /\ current_year < y
      /\ forall y', bound_year self y' -> current_year < y' -> y <= y'
  | None => forall y', bound_year self y' -> y' <= current_year
  end.
Proof.
  unfold ConstraintManager.get_period_end.
  pose proof (find_sorted_least current_year (ConstraintManager.time_bounds self)) as Hfind.
  destruct (List.find _ _) as [y|].
  - destruct Hfind as (Hin & Hlt & Hleast).
    { unfold ConstraintManager.time_bounds. apply StronglySorted_merge_sort; apply _. }
    split; [by apply time_bounds_spec|]. split; [exact Hlt|].
    intros y' Hy'. apply Hleast. by apply time_bounds_spec.
  - intros y' Hy'. apply Hfind; [|by apply time_bounds_spec].
    unfold ConstraintManager.time_bounds. apply StronglySorted_merge_sort; apply _.
Qed.

Lemma min_from_least (l : list ConstraintBound.t) (best : ConstraintBound.t) :
  Forall (fun b => is_nan (ConstraintBound.value b) = false) (best :: l) ->
  forall b, In b (best :: l) ->
    PrimFloat.leb (ConstraintBound.value (min_from bound_lt best l)) (ConstraintBound.value b) = true.
Proof.
  revert best. induction l as [|x l IH]; intros best Hnan b Hb.
  - destruct Hb as [<-|[]]. apply leb_refl. by inversion Hnan.
  - cbn [min_from]. inversion Hnan as [|? ? Hbest Hrest]; subst.
    inversion Hrest as [|? ? Hx Hl]; subst.
    unfold bound_lt at 2.
    destruct (PrimFloat.ltb (ConstraintBound.value x) (ConstraintBound.value best)) eqn:Elt.
    + destruct Hb as [<-|[<-|Hb]].
      * apply (leb_trans _ (ConstraintBound.value x)); [|by apply ltb_leb].
        apply IH; [by constructor | by left].
      * apply IH; [by constructor | by left].
      * apply IH; [by constructor | by right].
    + destruct Hb as [<-|[<-|Hb]].
      * apply IH; [by constructor | by left].
      * apply (leb_trans _ (ConstraintBound.value best)); [apply IH; [by constructor | by left]|].
        by apply leb_total.
      * apply IH; [by constructor | by right].
Qed.

Lemma min_bound_least (bs : list ConstraintBound.t) :
  Forall (fun b => is_nan (ConstraintBound.value b) = false) bs ->
  match min_bound bs with
  | Some m =>
      In m bs
      /\ forall b, In b bs ->
           PrimFloat.leb (ConstraintBound.value m) (ConstraintBound.value b) = true
  | None => bs = []
  end.
Proof.
  intros Hnan. destruct bs as [|b bs]; [reflexivity|]. cbn [min_bound]. split.
  - destruct (min_from_In (fun a b0 => PrimFloat.ltb (ConstraintBound.value a) (ConstraintBound.value b0))
                bs b) as [-> | Hin]; [by left | by right].
  - exact (min_from_least bs b Hnan).
Qed.

(** X7.  [get_applicable_bound(year)] returns a bound of least value among
    the bounds that apply to [year], those that name it and those that name
    no year, and [None] exactly when no bound applies (for bounds whose
    values are numbers, not NaN). *)
Theorem applicable_bound_least (bs : list ConstraintBound.t) (year : Z) :
  Forall (fun b => is_nan (ConstraintBound.value b) = false) bs ->
  match get_applicable_bound bs year with
  | Some bound =>
      In bound bs /\ applicable year bound = true
      /\ forall b, In b bs -> applicable year b = true ->
           PrimFloat.leb (ConstraintBound.value bound) (ConstraintBound.value b) = true
  | None => forall b, In b bs -> applicable year b = false
  end.
Proof.
  intros Hnan. unfold get_applicable_bound.
  set (is_specific := fun b : ConstraintBound.t =>
         match ConstraintBound.year b with
         | Some y => negb (y =? 0) && (y =? year)
         | None => false
         end).
  set (is_general := fun b : ConstraintBound.t =>
         match ConstraintBound.year b with Some _ => false | None => true end).
  assert (Hsplit : forall b, applicable year b = is_specific b || is_general b).
  { intros b. unfold applicable, is_specific, is_general.
    destruct (ConstraintBound.year b); [rewrite orb_false_r|]; reflexivity. }
  assert (Hfilter : forall p, Forall (fun b => is_nan (ConstraintBound.value b) = false)
                                (List.filter p bs)).
  { intros p. apply Forall_forall. intros b Hb%list_elem_of_In%filter_In.
    apply (proj1 (Forall_forall _ _) Hnan). apply list_elem_of_In. tauto. }
  pose proof (min_bound_least (List.filter is_specific bs) (Hfilter _)) as Hs.
  pose proof (min_bound_least (List.filter is_general bs) (Hfilter _)) as Hg.
  destruct (min_bound (List.filter is_specific bs)) as [ms|],
           (min_bound (List.filter is_general bs)) as [mg|].
  - destruct Hs as [Hms Hsmin], Hg as [Hmg Hgmin].
    apply filter_In in Hms as [Hms Ems], Hmg as [Hmg Emg].
    assert (Hnms : is_nan (ConstraintBound.value ms) = false)
      by (apply (proj1 (Forall_forall _ _) Hnan); by apply list_elem_of_In).
    assert (Hnmg : is_nan (ConstraintBound.value mg) = false)
      by (apply (proj1 (Forall_forall _ _) Hnan); by apply list_elem_of_In).
    destruct (PrimFloat.leb (ConstraintBound.value ms) (ConstraintBound.value mg)) eqn:Ele.
    + split; [exact Hms|]. split; [rewrite Hsplit, Ems; reflexivity|].
      intros b Hb Hab. rewrite Hsplit in Hab. apply orb_true_iff in Hab as [Hab|Hab].
      * apply Hsmin. apply filter_In. auto.
      * apply (leb_trans _ (ConstraintBound.value mg)); [exact Ele|].
        apply Hgmin. apply filter_In. auto.
    + split; [exact Hmg|]. split; [rewrite Hsplit, Emg; apply orb_true_r|].
      intros b Hb Hab. rewrite Hsplit in Hab. apply orb_true_iff in Hab as [Hab|Hab].
      * apply (leb_trans _ (ConstraintBound.value ms)).
        { apply ltb_leb. by apply ltb_total. }
        apply Hsmin. apply filter_In. auto.
      * apply Hgmin. apply filter_In. auto.
  - destruct Hs as [Hms Hsmin]. apply filter_In in Hms as [Hms Ems].
    split; [exact Hms|]. split; [rewrite Hsplit, Ems; reflexivity|].
    intros b Hb Hab. rewrite Hsplit in Hab. apply orb_true_iff in Hab as [Hab|Hab].
    + apply Hsmin. apply filter_In. auto.
    + exfalso. assert (Hin : In b (List.filter is_general bs)) by (apply filter_In; auto).
      rewrite Hg in Hin. destruct Hin.
  - destruct Hg as [Hmg Hgmin]. apply filter_In in Hmg as [Hmg Emg].
    split; [exact Hmg|]. split; [rewrite Hsplit, Emg; apply orb_true_r|].
    intros b Hb Hab. rewrite Hsplit in Hab. apply orb_true_iff in Hab as [Hab|Hab].
    + exfalso. assert (Hin : In b (List.filter is_specific bs)) by (apply filter_In; auto).
      rewrite Hs in Hin. destruct Hin.
    + apply Hgmin. apply filter_In. auto.
  - intros b Hb. rewrite Hsplit.
    destruct (is_specific b) eqn:E1.
    { exfalso. assert (Hin : In b (List.filter is_specific bs)) by (apply filter_In; auto).
      rewrite Hs in Hin. destruct Hin. }
    destruct (is_general b) eqn:E2; [|reflexivity].
    exfalso. assert (Hin : In b (List.filter is_general bs)) by (apply filter_In; auto).
    rewrite Hg in Hin. destruct Hin.
Qed.

(** Witness of X7: in 2024 the general bound of 500 is the least. *)
Lemma applicable_bound_least_witness :
  match get_applicable_bound Scenario.bounds 2024 with
  | Some bound =>
      In bound Scenario.bounds /\ applicable 2024 bound = true
      /\ forall b, In b Scenario.bounds -> applicable 2024 b = true ->
           PrimFloat.leb (ConstraintBound.value bound) (ConstraintBound.value b) = true
  | None => forall b, In b Scenario.bounds -> applicable 2024 b = false
  end.
Proof.
  apply (applicable_bound_least Scenario.bounds 2024).
  repeat constructor.
Defined.

Lemma capex_per_year_add_context (p : Plan.t) (context : WellPlanContext.t) :
  Plan.get_capex_per_year (Plan.add_context p context)
  = match WellPlanContext.launch_date context with
    | Ok launch_date =>
        <[year launch_date :=
            (default 0%float (Plan.get_capex_per_year p !! year launch_date)
             + capex_of context)%float]> (Plan.get_capex_per_year p)
    | _ => Plan.get_capex_per_year p
    end.
Proof.
  unfold Plan.get_capex_per_year, Plan.add_context. cbn [Plan.well_plans].
  rewrite fold_left_app. cbn [fold_left].
  destruct (WellPlanContext.launch_date context); reflexivity.
Qed.


(** ** The team manager *)

Section StartSearch.
Context `{PyLib}.

Lemma jan1_mono (y y' : Z) : y <= y' -> jan1 y <= jan1 y'.
Proof.
  intros Hle. unfold jan1. destruct (Z.eq_dec y y') as [->|Hne]; [lia|].
  pose proof (days_before_year_mono y y' ltac:(lia)). unfold us_per_day. lia.
Qed.

Lemma jan1_in_range (y : Z) : MINYEAR <= y <= MAXYEAR -> in_range (jan1 y) = true.
Proof.
  intros [Hlo Hhi]. apply in_range_spec. split.
  - change 0 with (jan1 MINYEAR). apply jan1_mono. exact Hlo.
  - unfold jan1. pose proof (days_before_year_mono y (MAXYEAR + 1) ltac:(lia)).
    unfold us_per_day. lia.
Qed.

(** X9.  The search of [_find_available_start_time] for a team of the
    manager, on a context whose well is free at a date of the library.
    When the moment the team is free and has travelled is no date of the
    library the call raises OverflowError.  Otherwise it returns a start,
    or raises ValueError.  The start it returns is a date of the library,
    not before the moment the team is free and has travelled nor before the
    well is free; its year passes the limit check, every year from the
    base start up to it fails the check, and when it is not the base start
    itself it is the first of January.  It raises ValueError when every
    year from the base start to the last year of the library (MAXYEAR,
    9999) fails the check. *)
Theorem start_time_search (self : TeamManager.t) (task : Task.t) (team : Team.t)
    (travel_time : timedelta) (context : WellPlanContext.t) (state : TeamState.t) :
  TeamManager._states self !! team = Some state ->
  in_range (WellPlanContext.get_next_available_date context) = true ->
  let arrival := TeamState.available_from state + travel_time in
  let base_start := Z.max arrival (WellPlanContext.get_next_available_date context) in
  let found := TeamManager._find_available_start_time self task team travel_time context in
  (in_range arrival = false -> found = Raise OverflowError)
  /\ (in_range arrival = true ->
      (exists start_time,
          found = Ok start_time
          /\ base_start <= start_time
          /\ in_range start_time = true
          /\ TeamManager._check_limit self task (year start_time) team = true
          /\ (forall y, year base_start <= y < year start_time ->
                TeamManager._check_limit self task y team = false)
          /\ (start_time = base_start \/ start_time = jan1 (year start_time)))
      \/ (found = Raise ValueError
          /\ forall y, year base_start <= y <= 9999 ->
               TeamManager._check_limit self task y team = false)).
Proof.
  intros Estate Hfree arrival base_start found.
  unfold found, TeamManager._find_available_start_time. rewrite Estate. split.
  - intros Hout. fold arrival.
    rewrite (proj2 (datetime_add_Raise _ _ OverflowError) (conj eq_refl Hout)). reflexivity.
  - intros Hin. rewrite (proj2 (datetime_add_Ok _ _ _) (conj eq_refl Hin)).
    cbn [mbind result_bind]. fold arrival base_start.
    assert (Hbase : in_range base_start = true).
    { unfold base_start. destruct (Z.max_spec arrival
        (WellPlanContext.get_next_available_date context)) as [[_ ->] | [_ ->]]; assumption. }
    pose proof (in_range_year base_start Hbase) as Hyear.
    pose proof (find_start_from_returns (TeamManager.find_start_fuel self) self task team
                  base_start) as Hreturns.
    destruct (TeamManager.find_start_from (TeamManager.find_start_fuel self) self task team
                base_start) as [start_time|e|] eqn:E.
    + left. exists start_time. split; [reflexivity|].
      apply find_start_from_spec in E as (Hle & Hok & Hfail & Hshape).
      split; [exact Hle|]. split; [|split; [exact Hok|split; [exact Hfail|tauto]]].
      destruct Hshape as [-> | [Ejan Hmax]]; [exact Hbase|].
      rewrite Ejan. apply jan1_in_range. pose proof (year_mono _ _ Hle) as Hmono. lia.
    + right. apply find_start_from_Raise in E as (-> & last & Hle & Hfail & Hlast).
      split; [reflexivity|]. intros y Hy. apply Hfail. unfold MINYEAR, MAXYEAR in *. lia.
    + exfalso. apply Hreturns; [|reflexivity]. unfold TeamManager.find_start_fuel.
      pose proof (years_from_size (TeamManager.limits self) (year base_start)). lia.
Qed.

Lemma duration_positive (task : Task.t) : 0 < Task.duration task.
Proof. destruct task; reflexivity. Qed.

Lemma next_available_date_append (context : WellPlanContext.t) (entry : ScheduleEntry.t) :
  WellPlanContext.get_next_available_date context < ScheduleEntry.end_ entry ->
  WellPlanContext.get_next_available_date
    (WellPlanContext.set_entries context (WellPlanContext.entries context ++ [entry]))
  = ScheduleEntry.end_ entry.
Proof.
  unfold WellPlanContext.get_next_available_date, WellPlanContext.set_entries.
  cbn [WellPlanContext.entries]. destruct (WellPlanContext.entries context) as [|e0 es].
  - reflexivity.
  - cbn [app]. unfold WellPlanContext.max_end. rewrite fold_left_app. cbn [fold_left].
    intros Hlt. apply Z.ltb_lt in Hlt. unfold WellPlanContext.max_end in Hlt.
    rewrite Hlt. reflexivity.
Qed.

Lemma team_candidate_sound (self : TeamManager.t) (context : WellPlanContext.t) (task : Task.t)
    (team : Team.t) (c : TeamManager.candidate) :
  TeamManager.team_candidate self context task team = Ok c ->
  c.1.2 = team
  /\ WellPlanContext.get_next_available_date context <= c.1.1.1
  /\ c.1.1.2 = c.1.1.1 + Task.duration task
  /\ exists state,
       TeamManager._states self !! team = Some state
       /\ TeamManager._get_travel_time self state (WellPlanContext.well context) = Ok c.2
       /\ TeamState.available_from state + c.2 <= c.1.1.1
       /\ TeamManager._check_limit self task (year c.1.1.1) team = true.
Proof.
  destruct c as [[[start_time end_time] team'] travel_time]. intros E.
  apply team_candidate_offers in E as (-> & state & Estate & Etravel & Estart & -> & _).
  cbn [fst snd].
  apply find_available_start_time_Ok in Estart
    as (state' & Estate' & _ & Hfree & Hwell & Hok).
  rewrite Estate in Estate'. injection Estate' as <-.
  split; [reflexivity|]. split; [exact Hwell|]. split; [reflexivity|].
  exists state. auto.
Qed.

Lemma assign_task_step (self : TeamManager.t) (context context' : WellPlanContext.t)
    (task : Task.t) :
  TeamManager.assign_task self context task = Ok context' ->
  context' = context
  \/ exists entry,
       WellPlanContext.entries context' = WellPlanContext.entries context ++ [entry]
       /\ WellPlanContext.get_next_available_date context <= ScheduleEntry.start entry
       /\ ScheduleEntry.end_ entry
          = ScheduleEntry.start entry + Task.duration (ScheduleEntry.task entry)
       /\ ScheduleEntry.task entry = task
       /\ entry_sound self (WellPlanContext.well context) entry
       /\ WellPlanContext.get_next_available_date context' = ScheduleEntry.end_ entry.
Proof.
  unfold TeamManager.assign_task.
  destruct (bool_decide _); [discriminate|].
  intros E. apply bind_Ok in E as (candidates & Ecands & E).
  destruct candidates as [|c0 candidates]; [injection E as <-; left; reflexivity|].
  apply bind_Ok in E as (best & Ebest & E). right.
  apply min_by_In in Ebest.
  unfold TeamManager.task_candidates in Ecands. apply map_result_Ok in Ecands.
  destruct (Forall2_In_right _ _ _ best Ecands Ebest) as (team & Hteam & Ecand).
  apply team_candidate_sound in Ecand as (Eteam & Hstart & Eend & state & Estate & Etravel & Hfree & Hok).
  destruct best as [[[best_start best_end] best_team] travel_time]. cbn [fst snd] in *.
  subst best_team.
  exists (ScheduleEntry.mk task team best_start best_end travel_time).
  assert (Hnext : WellPlanContext.get_next_available_date
                    (WellPlanContext.set_entries context
                       (WellPlanContext.entries context
                        ++ [ScheduleEntry.mk task team best_start best_end travel_time]))
                  = best_end).
  { apply next_available_date_append. cbn [ScheduleEntry.end_].
    pose proof (duration_positive task). lia. }
  injection E as <-. cbn [ScheduleEntry.start ScheduleEntry.end_ ScheduleEntry.task].
  split; [destruct (TeamManager.enable_team_count self); reflexivity|].
  split; [exact Hstart|]. split; [exact Eend|]. split; [reflexivity|].
  split.
  - split; [exact Hteam|]. exists state.
    cbn [ScheduleEntry.team ScheduleEntry.task ScheduleEntry.travel_time ScheduleEntry.start].
    auto.
  - destruct (TeamManager.enable_team_count self); exact Hnext.
Qed.

Lemma assign_tasks_sequence (self : TeamManager.t) (tasks : list Task.t)
    (context context' : WellPlanContext.t) :
  for_each (TeamManager.assign_task self) tasks context = Ok context' ->
  exists new_entries,
    WellPlanContext.entries context' = WellPlanContext.entries context ++ new_entries
    /\ in_sequence (WellPlanContext.get_next_available_date context) new_entries
    /\ Forall (entry_sound self (WellPlanContext.well context)) new_entries
    /\ sublist (map ScheduleEntry.task new_entries) tasks.
Proof.
  revert context. induction tasks as [|task tasks IH]; intros context E.
  - injection E as <-. exists []. rewrite app_nil_r.
    split; [reflexivity|]. split; [exact I|]. split; [apply Forall_nil_2 | apply sublist_nil].
  - cbn [for_each] in E. apply bind_Ok in E as (context1 & Estep & E).
    pose proof (assign_task_well _ _ _ _ Estep) as Ewell.
    apply IH in E as (news & Eentries & Hseq & Hsound & Hsub).
    apply assign_task_step in Estep as [-> | (entry & E1 & Hstart & Eend & Etask & Hentry & Enext)].
    + exists news. split; [exact Eentries|]. split; [exact Hseq|]. split; [exact Hsound|].
      by apply sublist_cons.
    + exists (entry :: news). rewrite Eentries, E1, <- app_assoc. split; [reflexivity|].
      split.
      { cbn [in_sequence]. split; [exact Hstart|]. split; [exact Eend|].
        rewrite <- Enext. exact Hseq. }
      split.
      { constructor; [exact Hentry | rewrite <- Ewell; exact Hsound]. }
      cbn [map]. rewrite Etask. by apply sublist_skip.
Qed.

(** X10.  The entries [get_assignments] adds to a context follow one
    another: each starts when the one before has ended (the first when the
    well is free) and lasts the duration of its task; their tasks are tasks
    of the well, in order; and each entry has a team of the pool for its
    task, leaves it the travel time from the moment it is free, and starts
    in a year that passes the limit check. *)
Theorem assignments_in_sequence (self : TeamManager.t) (context context' : WellPlanContext.t) :
  TeamManager.get_assignments self context = Ok context' ->
  exists tasks new_entries,
    Well.tasks (WellPlanContext.well context) = Ok tasks
    /\ WellPlanContext.entries context' = WellPlanContext.entries context ++ new_entries
    /\ in_sequence (WellPlanContext.get_next_available_date context) new_entries
    /\ Forall (entry_sound self (WellPlanContext.well context)) new_entries
    /\ sublist (map ScheduleEntry.task new_entries) tasks.
Proof.
  unfold TeamManager.get_assignments. intros E.
  apply bind_Ok in E as (tasks & Etasks & E).
  apply assign_tasks_sequence in E as (news & E1 & Hseq & Hsound & Hsub).
  exists tasks, news. auto.
Qed.

End StartSearch.

(** Witness of X9: the second team of the manager with a quota of one
    drilling team for 2024, once the first team has drilled well A in 2024.
    The second team is free and needs 14 days; the base start is January 1,
    2024, when the well is free; the year 2024 fails the limit check, and
    the search moves to January 1, 2025, a year without limits. *)
Lemma start_time_search_witness :
  let arrival := TeamState.available_from TeamState.new + days 14 in
  let base_start := Z.max arrival (WellPlanContext.get_next_available_date Example.context_a) in
  let found :=
    TeamManager._find_available_start_time Scenario.quota_filled Task.DRILLING
      Example.second_team (days 14) Example.context_a in
  ((in_range arrival = false -> found = Raise OverflowError)
   /\ (in_range arrival = true ->
       (exists start_time,
           found = Ok start_time
           /\ base_start <= start_time
           /\ in_range start_time = true
           /\ TeamManager._check_limit Scenario.quota_filled Task.DRILLING (year start_time)
                Example.second_team = true
           /\ (forall y, year base_start <= y < year start_time ->
                 TeamManager._check_limit Scenario.quota_filled Task.DRILLING y
                   Example.second_team = false)
           /\ (start_time = base_start \/ start_time = jan1 (year start_time)))
       \/ (found = Raise ValueError
           /\ forall y, year base_start <= y <= 9999 ->
                TeamManager._check_limit Scenario.quota_filled Task.DRILLING y
                  Example.second_team = false)))
  /\ base_start = jan1 2024
  /\ TeamManager._check_limit Scenario.quota_filled Task.DRILLING 2024 Example.second_team
     = false
  /\ found = Ok (jan1 2025).
Proof.
  split; [|repeat split; vm_compute; reflexivity].
  apply (start_time_search Scenario.quota_filled Task.DRILLING Example.second_team (days 14)
           Example.context_a TeamState.new).
  - vm_compute. reflexivity.
  - vm_compute. reflexivity.
Defined.

(** At the end of the library's years: with no drilling team allowed in
    9999 the search for well A, free on January 1, 9999, turns to the year
    10000 and raises ValueError; and a well free on December 17, 9999 is
    given a start, but the end of its thirty days of drilling is no date of
    the library: OverflowError. *)
Lemma example_last_year :
  TeamManager._find_available_start_time Scenario.closed_9999 Task.DRILLING
    Example.drilling_team (days 14) Scenario.last_year_a
  = Raise ValueError
  /\ TeamManager.get_assignments Scenario.closed_9999 Scenario.last_year_a
     = Raise ValueError
  /\ TeamManager._find_available_start_time Example.manager Task.DRILLING
       Example.drilling_team (days 14) Scenario.last_days_a
     = Ok (jan1 9999 + days 350)
  /\ TeamManager.get_assignments Example.manager Scenario.last_days_a
     = Raise OverflowError.
Proof. repeat split; vm_compute; reflexivity. Qed.

(** Witness of X10: the assignments of well A by the quota manager. *)
Lemma assignments_in_sequence_witness :
  exists tasks new_entries,
    Well.tasks (WellPlanContext.well Example.context_a) = Ok tasks
    /\ WellPlanContext.entries Example.assigned_a
       = WellPlanContext.entries Example.context_a ++ new_entries
    /\ in_sequence (WellPlanContext.get_next_available_date Example.context_a) new_entries
    /\ Forall (entry_sound Example.quota_manager (WellPlanContext.well Example.context_a))
         new_entries
    /\ sublist (map ScheduleEntry.task new_entries) tasks.
Proof.
  apply (assignments_in_sequence Example.quota_manager Example.context_a Example.assigned_a).
  vm_compute. reflexivity.
Defined.

Lemma assign_entries_states (cluster : string) (entries : list ScheduleEntry.t)
    (self : TeamManager.t) (team : Team.t) :
  TeamManager._states (fold_left (TeamManager.assign_entry cluster) entries self) !! team
  = match last_entry_of team entries with
    | Some entry => Some (TeamState.mk (ScheduleEntry.end_ entry) (Some cluster))
    | None => TeamManager._states self !! team
    end.
Proof.
  revert self. induction entries as [|entry entries IH]; intros self; [reflexivity|].
  cbn [fold_left]. rewrite IH. unfold last_entry_of. cbn [rev]. rewrite find_app_last.
  destruct (List.find _ (rev entries)); [reflexivity|].
  unfold TeamManager.assign_entry.
  rewrite (proj1 (record_usage_states _ _ _ _)). cbn [TeamManager.set_states TeamManager._states].
  destruct (bool_decide_reflect (ScheduleEntry.team entry = team)) as [->|Hne].
  - apply lookup_insert_eq.
  - apply lookup_insert_ne. exact Hne.
Qed.

Lemma record_usage_limits (self : TeamManager.t) (task : Task.t) (y : Z) (team : Team.t) :
  TeamManager.limits (TeamManager._record_usage self task y team) = TeamManager.limits self.
Proof.
  unfold TeamManager._record_usage. generalize (TeamManager.relevant_years self y) as years.
  intros years. revert self. induction years as [|y' years IH]; intros self; [reflexivity|].
  cbn [fold_left]. rewrite IH. apply record_year_limits.
Qed.

Lemma assign_entries_fixed (cluster : string) (entries : list ScheduleEntry.t)
    (self : TeamManager.t) :
  let self' := fold_left (TeamManager.assign_entry cluster) entries self in
  TeamManager.team_pool self' = TeamManager.team_pool self
  /\ TeamManager.limits self' = TeamManager.limits self.
Proof.
  revert self. induction entries as [|entry entries IH]; intros self; [split; reflexivity|].
  cbn [fold_left]. cbn zeta in IH.
  destruct (IH (TeamManager.assign_entry cluster self entry)) as [-> ->].
  unfold TeamManager.assign_entry. split.
  - rewrite (proj2 (record_usage_states _ _ _ _)). reflexivity.
  - rewrite record_usage_limits. reflexivity.
Qed.

(** X11.  After [assign(context)] every team that has an entry in the
    context is free from the end of its last entry on and stands on the
    cluster of the well; the state of every other team, the pool and the
    limits are unchanged. *)
Theorem assign_team_states (self : TeamManager.t) (context : WellPlanContext.t) :
  let self' := TeamManager.assign self context in
  (forall team,
     TeamManager._states self' !! team
     = match last_entry_of team (WellPlanContext.entries context) with
       | Some entry =>
           Some (TeamState.mk (ScheduleEntry.end_ entry)
                   (Some (Well.cluster (WellPlanContext.well context))))
       | None => TeamManager._states self !! team
       end)
  /\ TeamManager.team_pool self' = TeamManager.team_pool self
  /\ TeamManager.limits self' = TeamManager.limits self.
Proof.
  split; [intros team; apply assign_entries_states | apply assign_entries_fixed].
Qed.

Lemma check_limit_ext (s1 s2 : TeamManager.t) (task : Task.t) (y : Z) (team : Team.t) :
  TeamManager.limits s1 = TeamManager.limits s2 ->
  TeamManager.usage s1 y task = TeamManager.usage s2 y task ->
  TeamManager._check_limit s1 task y team = TeamManager._check_limit s2 task y team.
Proof. unfold TeamManager._check_limit. intros -> ->. reflexivity. Qed.

Lemma record_year_usage (task task' : Task.t) (team : Team.t) (self : TeamManager.t) (y y' : Z) :
  TeamManager.usage (TeamManager.record_year task team self y) y' task'
  = if bool_decide (y = y' /\ task = task') && recorded self task team y
    then {[team]} ∪ TeamManager.usage self y task
    else TeamManager.usage self y' task'.
Proof.
  unfold TeamManager.record_year, recorded.
  destruct (default ∅ (TeamManager.limits self !! y) !! task);
    [|rewrite andb_false_r; reflexivity].
  destruct (TeamManager._check_limit self task y team);
    [|rewrite andb_false_r; reflexivity].
  rewrite andb_true_r. apply usage_usage_add.
Qed.

Lemma recorded_record_year (task : Task.t) (team : Team.t) (self : TeamManager.t) (y y' : Z) :
  y <> y' ->
  recorded (TeamManager.record_year task team self y) task team y' = recorded self task team y'.
Proof.
  intros Hne. unfold recorded. rewrite record_year_limits.
  destruct (default ∅ (TeamManager.limits self !! y') !! task); [|reflexivity].
  apply check_limit_ext; [apply record_year_limits|].
  rewrite record_year_usage. rewrite bool_decide_eq_false_2; [reflexivity|].
  intros [E _]. exact (Hne E).
Qed.

Lemma record_years_usage (task task' : Task.t) (team : Team.t) (years : list Z)
    (self : TeamManager.t) (y' : Z) :
  NoDup years ->
  TeamManager.usage (fold_left (TeamManager.record_year task team) years self) y' task'
  = if bool_decide (y' ∈ years /\ task = task') && recorded self task team y'
    then {[team]} ∪ TeamManager.usage self y' task'
    else TeamManager.usage self y' task'.
Proof.
  intros Hnd. revert self. induction Hnd as [|y0 years Hy0 Hnd IH]; intros self.
  - cbn [fold_left]. rewrite bool_decide_eq_false_2; [reflexivity|].
    intros [Hin _]. by apply elem_of_nil in Hin.
  - cbn [fold_left]. rewrite IH.
    destruct (bool_decide_reflect (y' ∈ years /\ task = task')) as [[Hin <-]|Hnot].
    + assert (Hne : y0 <> y') by (intros ->; exact (Hy0 Hin)).
      rewrite recorded_record_year by exact Hne.
      rewrite record_year_usage.
      rewrite (bool_decide_eq_false_2 (y0 = y' /\ task = task)) by (intros [E _]; exact (Hne E)).
      rewrite (bool_decide_eq_true_2 (y' ∈ y0 :: years /\ task = task))
        by (split; [by right | reflexivity]).
      reflexivity.
    + cbn [andb]. rewrite record_year_usage.
      destruct (bool_decide_reflect (y0 = y' /\ task = task')) as [[-> <-]|Hnot'].
      * rewrite (bool_decide_eq_true_2 (y' ∈ y' :: years /\ task = task))
          by (split; [by left | reflexivity]).
        reflexivity.
      * rewrite (bool_decide_eq_false_2 (y' ∈ y0 :: years /\ task = task')); [reflexivity|].
        intros [[->|Hin]%elem_of_cons E]; [exact (Hnot' (conj eq_refl E)) | exact (Hnot (conj Hin E))].
Qed.

Lemma relevant_years_spec (self : TeamManager.t) (y y' : Z) :
  NoDup (TeamManager.relevant_years self y)
  /\ (y' ∈ TeamManager.relevant_years self y
      <-> y <= y' /\ y' ∈ dom (TeamManager.limits self)).
Proof.
  unfold TeamManager.relevant_years.
  pose proof (merge_sort_Permutation Z.le
                (List.filter (fun y0 => y <=? y0) (elements (dom (TeamManager.limits self)))))
    as Hperm.
  split.
  - rewrite Hperm. apply NoDup_ListNoDup, List.NoDup_filter, NoDup_ListNoDup, NoDup_elements.
  - rewrite Hperm, list_elem_of_In, filter_In, <- list_elem_of_In, elem_of_elements, Z.leb_le.
    tauto.
Qed.

(** X12.  [_record_usage(task, assignment_year, team)] adds the team to
    the usage set of [task] for every year from [assignment_year] on in
    which the task has a limit and the team passes the limit check, this
    one and all later years of the limits, and changes no other usage set. *)
Theorem record_usage_years (self : TeamManager.t) (task : Task.t) (y : Z) (team : Team.t)
    (y' : Z) (task' : Task.t) :
  TeamManager.usage (TeamManager._record_usage self task y team) y' task'
  = if bool_decide (y <= y' /\ task' = task) && recorded self task team y'
    then {[team]} ∪ TeamManager.usage self y' task'
    else TeamManager.usage self y' task'.
Proof.
  unfold TeamManager._record_usage.
  destruct (relevant_years_spec self y y') as [Hnd Hin].
  rewrite record_years_usage by exact Hnd.
  destruct (recorded self task team y') eqn:Erec.
  - rewrite !andb_true_r.
    rewrite (bool_decide_ext (y' ∈ TeamManager.relevant_years self y /\ task = task')
               (y <= y' /\ task' = task)); [reflexivity|].
    rewrite Hin. split; [intros [[H1 _] ->]; auto|].
    intros [H1 ->]. split; [|reflexivity]. split; [exact H1|].
    unfold recorded in Erec. apply elem_of_dom.
    destruct (TeamManager.limits self !! y'); [eauto|].
    cbn in Erec. rewrite lookup_empty in Erec. discriminate.
  - rewrite !andb_false_r. reflexivity.
Qed.

(** ** The team pool *)

Lemma foldr_append_team (team : Team.t) (l : list Task.t) (m : gmap Task.t (list Team.t))
    (task : Task.t) :
  NoDup l ->
  foldr (fun task m => <[task := default [] (m !! task) ++ [team]]> m) m l !! task
  = if bool_decide (task ∈ l) then Some (default [] (m !! task) ++ [team]) else m !! task.
Proof.
  induction 1 as [|x l Hx Hl IH]; cbn [foldr]; [reflexivity|].
  destruct (decide (x = task)) as [->|Hne].
  - rewrite lookup_insert_eq, IH.
    rewrite (bool_decide_eq_false_2 (task ∈ l)) by exact Hx.
    rewrite bool_decide_eq_true_2 by left. reflexivity.
  - rewrite lookup_insert_ne by exact Hne. rewrite IH.
    destruct (bool_decide_reflect (task ∈ l)) as [Hin|Hin].
    + rewrite bool_decide_eq_true_2 by (right; exact Hin). reflexivity.
    + rewrite bool_decide_eq_false_2; [reflexivity|].
      intros [->|Hin']%elem_of_cons; [done | exact (Hin Hin')].
Qed.

(** X13.  After [add_team(supported_tasks)] the new team is the last of
    the teams of each of its tasks, the teams of every other task are
    unchanged, and the supported tasks of the pool are the old ones and
    those of the team. *)
Theorem add_team_get_teams (supported_tasks : list (Task.t + string)) (new_id : N)
    (pool pool' : TeamPool.t) :
  TeamPool.add_team supported_tasks new_id pool = Ok pool' ->
  exists tasks,
    map_result TeamPool.decode supported_tasks = Ok tasks
    /\ let team := Team.mk new_id (list_to_set tasks) in
       (forall task, In task tasks ->
          TeamPool.get_teams_for_task pool' task
          = TeamPool.get_teams_for_task pool task ++ [team])
       /\ (forall task, ~ In task tasks ->
             TeamPool.get_teams_for_task pool' task = TeamPool.get_teams_for_task pool task)
       /\ TeamPool.supported_tasks pool'
          = TeamPool.supported_tasks pool ∪ list_to_set tasks.
Proof.
  unfold TeamPool.add_team. intros E.
  apply bind_Ok in E as (tasks & Etasks & E). injection E as <-.
  exists tasks. split; [exact Etasks|]. cbn zeta.
  set (team := Team.mk new_id (list_to_set tasks)).
  assert (Hlookup : forall task,
            foldr (fun task m => <[task := default [] (m !! task) ++ [team]]> m)
              (TeamPool._task_teams_map pool) (elements (list_to_set tasks : gset Task.t))
            !! task
            = if bool_decide (task ∈ tasks)
              then Some (default [] (TeamPool._task_teams_map pool !! task) ++ [team])
              else TeamPool._task_teams_map pool !! task).
  { intros task. rewrite foldr_append_team by apply NoDup_elements.
    rewrite (bool_decide_ext (task ∈ elements (list_to_set tasks : gset Task.t)) (task ∈ tasks));
      [reflexivity|].
    rewrite elem_of_elements, elem_of_list_to_set. reflexivity. }
  split; [|split].
  - intros task Hin%list_elem_of_In. unfold TeamPool.get_teams_for_task.
    cbn [TeamPool._task_teams_map]. rewrite Hlookup.
    rewrite bool_decide_eq_true_2 by exact Hin. reflexivity.
  - intros task Hin. unfold TeamPool.get_teams_for_task.
    cbn [TeamPool._task_teams_map]. rewrite Hlookup.
    rewrite bool_decide_eq_false_2; [reflexivity|].
    intros Hin'%list_elem_of_In. exact (Hin Hin').
  - unfold TeamPool.supported_tasks. apply set_eq. intros task.
    cbn [TeamPool._task_teams_map].
    rewrite elem_of_union, !elem_of_dom, elem_of_list_to_set, Hlookup.
    destruct (bool_decide_reflect (task ∈ tasks)) as [Hin|Hin].
    + split; [intros _; right; exact Hin | intros _; eauto].
    + split; [auto|]. intros [Hs|Hs]; [exact Hs | done].
Qed.

(** Witness of X13: a drilling team added to the empty pool. *)
Lemma add_team_get_teams_witness :
  exists tasks,
    map_result TeamPool.decode [inl Task.DRILLING] = Ok tasks
    /\ let team := Team.mk 1 (list_to_set tasks) in
       (forall task, In task tasks ->
          TeamPool.get_teams_for_task Scenario.pool_added task
          = TeamPool.get_teams_for_task TeamPool.empty task ++ [team])
       /\ (forall task, ~ In task tasks ->
             TeamPool.get_teams_for_task Scenario.pool_added task
             = TeamPool.get_teams_for_task TeamPool.empty task)
       /\ TeamPool.supported_tasks Scenario.pool_added
          = TeamPool.supported_tasks TeamPool.empty ∪ list_to_set tasks.
Proof.
  apply (add_team_get_teams [inl Task.DRILLING] 1 TeamPool.empty Scenario.pool_added).
  vm_compute. reflexivity.
Defined.

Lemma add_team_lookup (supported_tasks : list (Task.t + string)) (tasks : list Task.t)
    (new_id : N) (pool pool' : TeamPool.t) (task : Task.t) :
  map_result TeamPool.decode supported_tasks = Ok tasks ->
  TeamPool.add_team supported_tasks new_id pool = Ok pool' ->
  TeamPool.get_teams_for_task pool' task
  = TeamPool.get_teams_for_task pool task
    ++ (if bool_decide (task ∈ tasks) then [Team.mk new_id (list_to_set tasks)] else []).
Proof.
  intros Etasks E. unfold TeamPool.add_team in E. rewrite Etasks in E.
  cbn [mbind result_bind] in E. injection E as <-.
  unfold TeamPool.get_teams_for_task. cbn [TeamPool._task_teams_map].
  rewrite foldr_append_team by apply NoDup_elements.
  rewrite (bool_decide_ext (task ∈ elements (list_to_set tasks : gset Task.t)) (task ∈ tasks))
    by (rewrite elem_of_elements, elem_of_list_to_set; reflexivity).
  destruct (bool_decide (task ∈ tasks)); [reflexivity|].
  rewrite app_nil_r. reflexivity.
Qed.

(** X23.  [add_teams(supported_tasks, num_teams)] adds [num_teams] teams to
    each task of the list, after the teams the task had and in the order
    they are created, and none to any other task; with [num_teams] at most
    0 it leaves the pool as it is and does not even read the task codes. *)
Theorem add_teams_get_teams (supported_tasks : list (Task.t + string)) (new_ids : list N)
    (pool pool' : TeamPool.t) :
  TeamPool.add_teams supported_tasks new_ids pool = Ok pool' ->
  (new_ids = [] /\ pool' = pool)
  \/ exists tasks,
       map_result TeamPool.decode supported_tasks = Ok tasks
       /\ forall task,
            TeamPool.get_teams_for_task pool' task
            = TeamPool.get_teams_for_task pool task
              ++ (if bool_decide (task ∈ tasks)
                  then map (fun new_id => Team.mk new_id (list_to_set tasks)) new_ids
                  else []).
Proof.
  unfold TeamPool.add_teams. destruct new_ids as [|new_id new_ids].
  { intros E. injection E as <-. left. split; reflexivity. }
  intros E. right.
  destruct (map_result TeamPool.decode supported_tasks) as [tasks|e|] eqn:Etasks;
    [|cbn [for_each] in E; unfold TeamPool.add_team in E; rewrite Etasks in E; discriminate..].
  exists tasks. split; [reflexivity|]. intros task.
  revert pool new_id E. induction new_ids as [|next_id new_ids IH]; intros pool new_id E.
  - cbn [for_each] in E. apply bind_Ok in E as (pool1 & E1 & E). injection E as <-.
    rewrite (add_team_lookup _ _ _ _ _ task Etasks E1).
    destruct (bool_decide (task ∈ tasks)); reflexivity.
  - cbn [for_each] in E. apply bind_Ok in E as (pool1 & E1 & E).
    rewrite (IH pool1 next_id E), (add_team_lookup _ _ _ _ _ task Etasks E1).
    destruct (bool_decide (task ∈ tasks)); [|rewrite !app_nil_r; reflexivity].
    rewrite <- app_assoc. reflexivity.
Qed.

(** Witness of X23: the pool of two drilling teams. *)
Lemma add_teams_get_teams_witness :
  (([1; 2]%N : list N) = [] /\ Example.pool_of_two = TeamPool.empty)
  \/ exists tasks,
       map_result TeamPool.decode [inl Task.DRILLING] = Ok tasks
       /\ forall task,
            TeamPool.get_teams_for_task Example.pool_of_two task
            = TeamPool.get_teams_for_task TeamPool.empty task
              ++ (if bool_decide (task ∈ tasks)
                  then map (fun new_id => Team.mk new_id (list_to_set tasks)) [1; 2]%N
                  else []).
Proof.
  apply (add_teams_get_teams [inl Task.DRILLING] [1; 2]%N TeamPool.empty Example.pool_of_two).
  vm_compute. reflexivity.
Defined.

(** ** Task codes *)

Lemma split_nonempty (sep : ascii) (s : string) : Str.split sep s <> [].
Proof.
  destruct s as [|c s]; cbn [Str.split]; [discriminate|].
  destruct (Ascii.eqb c sep); [discriminate|]. destruct (Str.split sep s); discriminate.
Qed.

Lemma split_trailing (sep : ascii) (s : string) :
  Str.split sep (s +:+ String sep EmptyString) = Str.split sep s ++ [EmptyString].
Proof.
  induction s as [|c s IH].
  - change (EmptyString +:+ String sep EmptyString) with (String sep EmptyString).
    cbn [Str.split]. rewrite Ascii.eqb_refl. reflexivity.
  - change (String c s +:+ String sep EmptyString)
      with (String c (s +:+ String sep EmptyString)).
    cbn [Str.split]. rewrite IH.
    destruct (Ascii.eqb c sep); [reflexivity|]. pose proof (split_nonempty sep s) as Hne.
    destruct (Str.split sep s) as [|w ws]; [done | reflexivity].
Qed.

(** X14.  A separator at the end of [well_type] adds a GTM task to the
    tasks of the well: the empty code after it is found in the aliases of
    GTM, which are the string [("ГРП")] and not a tuple. *)
Theorem tasks_trailing_separator (well well' : Well.t) (tasks : list Task.t) :
  Well.well_type well' = Well.well_type well +:+ "+" ->
  Well.tasks well = Ok tasks ->
  Well.tasks well' = Ok (tasks ++ [Task.GTM]).
Proof.
  unfold Well.tasks. intros -> E. rewrite split_trailing.
  apply (map_result_app _ _ _ _ _ E). reflexivity.
Qed.

(** Witness of X14: well A of type ГС, and the same well of type ГС+. *)
Lemma tasks_trailing_separator_witness :
  Well.tasks Scenario.well_a_trailing = Ok ([Task.DRILLING] ++ [Task.GTM]).
Proof.
  apply (tasks_trailing_separator Example.well_a Scenario.well_a_trailing [Task.DRILLING]).
  - reflexivity.
  - vm_compute. reflexivity.
Defined.

(** ** The risk strategy *)

(** X15.  [define_risk] never lets the reduction of a cluster exceed 1: if
    no reduction is above 1 before the call, none is after it; the call
    forgets no affected cluster and changes the reduction of no cluster
    but that of the well. *)
Theorem risk_reduction_capped {G : Type} `{RandomSource G} (self : ClusterRandomRiskStrategy.t)
    (affected : ClusterRandomRiskStrategy.state) (context : WellPlanContext.t) (g : G) :
  capped affected ->
  let affected' := (ClusterRandomRiskStrategy.define_risk self affected context g).1.1 in
  capped affected'
  /\ dom affected ⊆ dom affected'
  /\ forall cluster, cluster <> Well.cluster (WellPlanContext.well context) ->
       affected' !! cluster = affected !! cluster.
Proof.
  intros Hcap. unfold ClusterRandomRiskStrategy.define_risk.
  unfold capped, ClusterRandomRiskStrategy.state in *.
  destruct (random g) as [u g']. destruct (PrimFloat.ltb u _); cbn [fst];
    [|split; [exact Hcap | split; [reflexivity | reflexivity]]].
  destruct (PrimFloat.ltb 0 _); cbn [fst];
    [|split; [exact Hcap | split; [reflexivity | reflexivity]]].
  split; [|split].
  - intros cluster reduction.
    destruct (decide (cluster = Well.cluster (WellPlanContext.well context))) as [->|Hne].
    + rewrite lookup_insert_eq. intros E. injection E as <-.
      set (total := (_ + fmin _ _)%float). unfold fmin.
      destruct (PrimFloat.ltb 1 total) eqn:Elt; [reflexivity | exact Elt].
    + rewrite lookup_insert_ne by congruence. apply Hcap.
  - intros cluster [r Hr]%elem_of_dom. apply elem_of_dom.
    destruct (decide (cluster = Well.cluster (WellPlanContext.well context))) as [->|Hne].
    + rewrite lookup_insert_eq. eauto.
    + rewrite lookup_insert_ne by congruence. eauto.
  - intros cluster Hne. apply lookup_insert_ne. congruence.
Qed.

Lemma example_capped : capped {["K1" := 0.9%float]}.
Proof.
  intros cluster reduction [_ <-]%lookup_singleton_Some. reflexivity.
Qed.

(** Witness of X15: the risk is triggered on cluster K1, already reduced by
    0.9. *)
Lemma risk_reduction_capped_witness :
  let affected' :=
    (ClusterRandomRiskStrategy.define_risk Example.risk {["K1" := 0.9%float]}
       Example.assigned_a Scenario.trigger_draws).1.1 in
  capped affected'
  /\ dom ({["K1" := 0.9%float]} : ClusterRandomRiskStrategy.state) ⊆ dom affected'
  /\ forall cluster, cluster <> Well.cluster (WellPlanContext.well Example.assigned_a) ->
       affected' !! cluster
       = ({["K1" := 0.9%float]} : ClusterRandomRiskStrategy.state) !! cluster.
Proof.
  exact (risk_reduction_capped Example.risk {["K1" := 0.9%float]} Example.assigned_a
           Scenario.trigger_draws example_capped).
Defined.

(** ** The queries of a plan *)

Lemma min_from_snoc (best x : Z) (l : list Z) :
  min_from Z.ltb best (l ++ [x]) = Z.min (min_from Z.ltb best l) x.
Proof.
  revert best. induction l as [|y l IH]; intros best; cbn [min_from app].
  - destruct (Z.ltb_spec x best); lia.
  - apply IH.
Qed.

Lemma max_from_snoc (best x : Z) (l : list Z) :
  min_from (fun a b => b <? a) best (l ++ [x])
  = Z.max (min_from (fun a b => b <? a) best l) x.
Proof.
  revert best. induction l as [|y l IH]; intros best; cbn [min_from app].
  - destruct (Z.ltb_spec best x); lia.
  - apply IH.
Qed.

(** X16.  What [add_context] does to the queries of a plan: the entries of
    the context come after all entries of the plan; the cost by name of a
    well already in the plan is unchanged (the first context of a name
    answers), and the name of the new well no longer raises ValueError; the
    start date is the earlier of the old one and the start of the context,
    the end date the later of the old one and its end ([start_date] and
    [end_date] raise on an empty plan only); the total profit grows by the
    cost of the context, if it has one. *)
Theorem add_context_queries (p : Plan.t) (context : WellPlanContext.t) :
  let p' := Plan.add_context p context in
  Plan.get_all_entries p' = Plan.get_all_entries p ++ WellPlanContext.entries context
  /\ (forall name,
        Plan.get_well_cost_by_name p' name
        = match Plan.get_well_cost_by_name p name with
          | Ok cost => Ok cost
          | _ =>
              if String.eqb (Well.name (WellPlanContext.well context)) name
              then Ok (WellPlanContext.cost context) else Raise ValueError
          end)
  /\ Plan.start_date p'
     = Ok (match Plan.start_date p with
           | Ok d => Z.min d (WellPlanContext.start context)
           | _ => WellPlanContext.start context
           end)
  /\ Plan.end_date p'
     = Ok (match Plan.end_date p with
           | Ok d => Z.max d (WellPlanContext.end_ context)
           | _ => WellPlanContext.end_ context
           end)
  /\ Plan.total_profit p'
     = match WellPlanContext.cost context with
       | Some cost => (Plan.total_profit p + cost)%float
       | None => Plan.total_profit p
       end.
Proof.
  cbn zeta. split; [|split; [|split; [|split]]]; [| | | |apply total_profit_add_context];
    unfold Plan.add_context.
  - unfold Plan.get_all_entries. cbn [Plan.well_plans]. rewrite flat_map_app.
    cbn [flat_map]. rewrite app_nil_r. reflexivity.
  - intros name. unfold Plan.get_well_cost_by_name. cbn [Plan.well_plans].
    rewrite find_app_last.
    destruct (List.find _ (Plan.well_plans p)); [reflexivity|].
    destruct (String.eqb _ name); reflexivity.
  - unfold Plan.start_date, min_by. cbn [Plan.well_plans]. rewrite map_app. cbn [map].
    destruct (map WellPlanContext.start (Plan.well_plans p)) as [|d l]; [reflexivity|].
    cbn [app]. rewrite min_from_snoc. reflexivity.
  - unfold Plan.end_date, max_by, min_by. cbn [Plan.well_plans]. rewrite map_app. cbn [map].
    destruct (map WellPlanContext.end_ (Plan.well_plans p)) as [|d l]; [reflexivity|].
    cbn [app]. rewrite max_from_snoc. reflexivity.
Qed.

(** ** Profiles read from files *)

(** X17.  [_resize_list(input_list, length)] for [length >= 0] returns
    exactly [length] items: the items of the input in their places, followed
    by [0.0] where the input is shorter; resizing the result again to the
    same length changes nothing.  A negative [length] pads nothing: the slice
    [input_list[:length]] drops the last [-length] items. *)
Theorem resize_list_spec (input_list : list float) (n : Z) :
  let resized := FileProductionProfile._resize_list input_list n in
  length resized
  = Z.to_nat (if 0 <=? n then n else Z.of_nat (length input_list) + n)
  /\ (forall i x, input_list !! i = Some x -> (i < length resized)%nat -> resized !! i = Some x)
  /\ (forall i, (length input_list <= i < length resized)%nat -> resized !! i = Some 0%float)
  /\ (0 <= n -> FileProductionProfile._resize_list resized n = resized).
Proof.
  intros resized.
  assert (Hlen : length resized
                 = Z.to_nat (if 0 <=? n then n else Z.of_nat (length input_list) + n)).
  { unfold resized, FileProductionProfile._resize_list, FileProductionProfile.slice_to.
    destruct (Z.leb_spec n (Z.of_nat (length input_list))), (Z.leb_spec 0 n);
      rewrite ?length_firstn, ?length_app, ?repeat_length; lia. }
  split; [exact Hlen|]. split; [|split].
  - intros i x Hi. rewrite Hlen.
    unfold resized, FileProductionProfile._resize_list, FileProductionProfile.slice_to.
    destruct (Z.leb_spec n (Z.of_nat (length input_list))), (Z.leb_spec 0 n); intros Hlt;
      try lia.
    + rewrite lookup_take_lt by exact Hlt. exact Hi.
    + rewrite lookup_take_lt by exact Hlt. exact Hi.
    + apply lookup_app_l_Some. exact Hi.
  - rewrite Hlen. intros i [Hge Hlt].
    unfold resized, FileProductionProfile._resize_list.
    destruct (Z.leb_spec n (Z.of_nat (length input_list))), (Z.leb_spec 0 n); try lia.
    rewrite lookup_app_r by exact Hge. apply lookup_repeat. lia.
  - intros Hn. unfold FileProductionProfile._resize_list at 1.
    destruct (Z.leb_spec 0 n); [|lia]. rewrite Hlen.
    destruct (Z.leb_spec n (Z.of_nat (Z.to_nat n))); [|lia].
    unfold FileProductionProfile.slice_to. destruct (Z.leb_spec 0 n); [|lia].
    apply firstn_all2. rewrite Hlen. lia.
Qed.

(** ** The greedy selection *)

Lemma keyed_spec (self : PlanBuilder.t) (candidates : list WellPlanContext.t)
    (k : float) (c : WellPlanContext.t) :
  In (k, c) (PlanBuilderGreedy.keyed self candidates)
  <-> In c candidates
      /\ exists cost, WellPlanContext.cost c = Some cost
                      /\ k = PlanBuilderGreedy.net_cost self cost c.
Proof.
  unfold PlanBuilderGreedy.keyed. rewrite <- list_elem_of_In, list_elem_of_omap.
  split.
  - intros (c' & Hc' & E). destruct (WellPlanContext.cost c') as [cost|] eqn:Ecost; [|discriminate].
    cbn in E. injection E as <- <-. split; [by apply list_elem_of_In|]. eauto.
  - intros (Hc & cost & Ecost & ->). exists c. split; [by apply list_elem_of_In|].
    rewrite Ecost. reflexivity.
Qed.


(** ** The calendar: months and days *)

Lemma month_day_checked (leapyear : bool) :
  forallb (month_day_ok leapyear) (year_days leapyear) = true.
Proof. destruct leapyear; vm_compute; reflexivity. Qed.

Lemma sample_year_leap (leapyear : bool) : _is_leap (sample_year leapyear) = leapyear.
Proof. destruct leapyear; reflexivity. Qed.

Lemma days_in_month_sample (y m : Z) :
  _days_in_month y m = _days_in_month (sample_year (_is_leap y)) m.
Proof. unfold _days_in_month. rewrite sample_year_leap. reflexivity. Qed.

Lemma days_before_month_sample (y m : Z) :
  _days_before_month y m = _days_before_month (sample_year (_is_leap y)) m.
Proof. unfold _days_before_month. rewrite sample_year_leap. reflexivity. Qed.

Lemma month_day_spec (y n : Z) :
  0 <= n < 365 + (if _is_leap y then 1 else 0) ->
  let '(m, d) := month_day (_is_leap y) n in
  1 <= m <= 12 /\ 1 <= d <= _days_in_month y m /\ _days_before_month y m + d = n + 1.
Proof.
  intros Hn. pose proof (month_day_checked (_is_leap y)) as Hall.
  rewrite forallb_forall in Hall. specialize (Hall n).
  unfold month_day_ok in Hall. destruct (month_day (_is_leap y) n) as [m d].
  rewrite (days_in_month_sample y m), (days_before_month_sample y m).
  assert (Hin : In n (year_days (_is_leap y))).
  { unfold year_days. apply in_map_iff. exists (Z.to_nat n). split; [lia|].
    apply in_seq. destruct (_is_leap y); lia. }
  apply Hall in Hin. repeat (apply andb_true_iff in Hin as [Hin ?]). lia.
Qed.

(** The leap years in terms of the place of a year in its cycle of 400. *)
Lemma is_leap_decomposed (a b c e : Z) :
  0 <= b < 4 -> 0 <= c < 25 -> 0 <= e < 4 ->
  _is_leap (400 * a + 100 * b + 4 * c + e + 1)
  = (e =? 3) && (negb (c =? 24) || (b =? 3)).
Proof.
  intros Hb Hc He. unfold _is_leap.
  set (y := 400 * a + 100 * b + 4 * c + e + 1).
  assert (E4 : y mod 4 = (e + 1) mod 4).
  { unfold y. replace (400 * a + 100 * b + 4 * c + e + 1)
      with (e + 1 + (100 * a + 25 * b + c) * 4) by lia. apply Z.mod_add. lia. }
  assert (E100 : y mod 100 = (4 * c + e + 1) mod 100).
  { unfold y. replace (400 * a + 100 * b + 4 * c + e + 1)
      with (4 * c + e + 1 + (4 * a + b) * 100) by lia. apply Z.mod_add. lia. }
  assert (E400 : y mod 400 = (100 * b + 4 * c + e + 1) mod 400).
  { unfold y. replace (400 * a + 100 * b + 4 * c + e + 1)
      with (100 * b + 4 * c + e + 1 + a * 400) by lia. apply Z.mod_add. lia. }
  rewrite E4, E100, E400.
  destruct (Z.eqb_spec e 3) as [->|He3].
  - replace ((3 + 1) mod 4) with 0 by reflexivity. cbn [Z.eqb andb].
    destruct (Z.eqb_spec c 24) as [->|Hc24].
    + replace ((4 * 24 + 3 + 1) mod 100) with 0 by reflexivity. cbn [Z.eqb negb orb].
      destruct (Z.eqb_spec b 3) as [->|Hb3]; [reflexivity|].
      replace (100 * b + 4 * 24 + 3 + 1) with (400 * 0 + (100 * b + 100)) by lia.
      rewrite (proj2 (div_mod_small 400 0 (100 * b + 100) ltac:(lia))).
      destruct (Z.eqb_spec (100 * b + 100) 0); [lia | reflexivity].
    + replace (4 * c + 3 + 1) with (100 * 0 + (4 * c + 4)) by lia.
      rewrite (proj2 (div_mod_small 100 0 (4 * c + 4) ltac:(lia))).
      destruct (Z.eqb_spec (4 * c + 4) 0); [lia | reflexivity].
  - replace (e + 1) with (4 * 0 + (e + 1)) by lia.
    rewrite (proj2 (div_mod_small 4 0 (e + 1) ltac:(lia))).
    destruct (Z.eqb_spec (e + 1) 0); [lia | reflexivity].
Qed.

(** The year of a triple is the year of [_ord2year]. *)
Lemma ord2ymd_year (n : Z) : (_ord2ymd n).1.1 = _ord2year n.
Proof.
  unfold _ord2ymd, _ord2year. cbv zeta. destruct (_ || _); [reflexivity|].
  destruct (_ <? _); reflexivity.
Qed.

(** The triple of a day [n]: a month, a day of that month, and the day [n]
    again through [_ymd2ord]; its year is the year of [_ord2year]. *)
Lemma ord2ymd_spec (n : Z) :
  let '(y, m, d) := _ord2ymd n in
  1 <= m <= 12 /\ 1 <= d <= _days_in_month y m /\ _ymd2ord y m d = n /\ y = _ord2year n.
Proof.
  pose proof (ord2ymd_year n) as Hyear. revert Hyear.
  unfold _ord2ymd, _DI400Y, _DI100Y, _DI4Y. cbv zeta.
  pose proof (Z.div_mod (n - 1) 146097 ltac:(lia)) as H400.
  pose proof (Z.mod_pos_bound (n - 1) 146097 ltac:(lia)) as R400.
  set (a := (n - 1) / 146097) in *. set (r := (n - 1) mod 146097) in *.
  pose proof (Z.div_mod r 36524 ltac:(lia)) as H100.
  pose proof (Z.mod_pos_bound r 36524 ltac:(lia)) as R100.
  set (b := r / 36524) in *. set (r2 := r mod 36524) in *.
  pose proof (Z.div_mod r2 1461 ltac:(lia)) as H4.
  pose proof (Z.mod_pos_bound r2 1461 ltac:(lia)) as R4.
  set (c := r2 / 1461) in *. set (r3 := r2 mod 1461) in *.
  pose proof (Z.div_mod r3 365 ltac:(lia)) as H1.
  pose proof (Z.mod_pos_bound r3 365 ltac:(lia)) as R1.
  set (e := r3 / 365) in *. set (f := r3 mod 365) in *.
  assert (Hb : 0 <= b <= 4) by lia. assert (Hc : 0 <= c <= 24) by lia.
  assert (He : 0 <= e <= 4) by lia.
  destruct (Z.eqb_spec e 4) as [E4|N4]; cbn [orb].
  - (* the last day of a cycle of four years *)
    intros Hyear. cbn [fst snd] in Hyear. rewrite <- Hyear.
    assert (Hc' : c < 24) by lia. assert (Hb' : b < 4) by lia.
    replace (a * 400 + 1 + b * 100 + c * 4 + e - 1)
      with (400 * a + 100 * b + 4 * c + 3 + 1) by lia.
    pose proof (is_leap_decomposed a b c 3 ltac:(lia) ltac:(lia) ltac:(lia)) as Hleap.
    replace ((3 =? 3) && (negb (c =? 24) || (b =? 3))) with true in Hleap
      by (destruct (Z.eqb_spec c 24); [lia | reflexivity]).
    unfold _ymd2ord, _days_in_month, _days_before_month.
    rewrite Hleap, days_before_year_decomposed by lia.
    split; [lia|]. split; [vm_compute; easy|]. split; [|reflexivity].
    replace (item _DAYS_BEFORE_MONTH 12) with 334 by reflexivity.
    replace ((2 <? 12) && true) with true by reflexivity. lia.
  - destruct (Z.eqb_spec b 4) as [E4|N100].
    + (* the last day of a cycle of four hundred years *)
      intros Hyear. cbn [fst snd] in Hyear. rewrite <- Hyear.
      replace (a * 400 + 1 + b * 100 + c * 4 + e - 1)
        with (400 * a + 100 * 3 + 4 * 24 + 3 + 1) by lia.
      pose proof (is_leap_decomposed a 3 24 3 ltac:(lia) ltac:(lia) ltac:(lia)) as Hleap.
      cbn in Hleap.
      unfold _ymd2ord, _days_in_month, _days_before_month.
      rewrite Hleap, days_before_year_decomposed by lia.
      split; [lia|]. split; [vm_compute; easy|]. split; [|reflexivity].
      replace (item _DAYS_BEFORE_MONTH 12) with 334 by reflexivity.
    replace ((2 <? 12) && true) with true by reflexivity. lia.
    + assert (Hb' : b < 4) by lia. assert (He' : e < 4) by lia.
      set (y := a * 400 + 1 + b * 100 + c * 4 + e).
      assert (Ey : y = 400 * a + 100 * b + 4 * c + e + 1) by (unfold y; lia).
      assert (Hleap : (e =? 3) && (negb (c =? 24) || (b =? 3)) = _is_leap y).
      { rewrite Ey. symmetry. apply is_leap_decomposed; lia. }
      rewrite Hleap.
      pose proof (month_day_spec y f ltac:(destruct (_is_leap y); lia)) as Hmd.
      unfold month_day in Hmd. cbv zeta in Hmd.
      assert (Hdby : _days_before_year y = n - 1 - f).
      { rewrite Ey, days_before_year_decomposed by lia. lia. }
      destruct (f <? _); cbn [fst snd]; intros <-; unfold _ymd2ord; rewrite Hdby;
        (split; [lia|]; split; [lia|]; split; [lia | reflexivity]).
Qed.

Lemma div_step (k y : Z) :
  0 < k -> y / k = (y - 1) / k + (if y mod k =? 0 then 1 else 0).
Proof.
  intros Hk. destruct (Z.eqb_spec (y mod k) 0); Z.to_euclidean_division_equations; nia.
Qed.

Lemma days_in_year (y : Z) :
  _days_before_year (y + 1) = _days_before_year y + 365 + (if _is_leap y then 1 else 0).
Proof.
  unfold _days_before_year, _is_leap. cbv zeta.
  replace (y + 1 - 1) with y by lia.
  rewrite (div_step 4 y), (div_step 100 y), (div_step 400 y) by lia.
  assert (H4 : y mod 4 = (y mod 100) mod 4)
    by (symmetry; apply Z.mod_mod_divide; exists 25; lia).
  assert (H100 : y mod 100 = (y mod 400) mod 100)
    by (symmetry; apply Z.mod_mod_divide; exists 4; lia).
  destruct (Z.eqb_spec (y mod 4) 0) as [E4|N4], (Z.eqb_spec (y mod 100) 0) as [E100|N100],
    (Z.eqb_spec (y mod 400) 0) as [E400|N400]; cbn [andb orb negb]; try lia;
    exfalso;
    first [rewrite E400, Zmod_0_l in H100; lia | rewrite E100, Zmod_0_l in H4; lia].
Qed.

Ltac month_cases m :=
  assert (m = 1 \/ m = 2 \/ m = 3 \/ m = 4 \/ m = 5 \/ m = 6 \/ m = 7 \/ m = 8 \/ m = 9
          \/ m = 10 \/ m = 11 \/ m = 12) as [->|[->|[->|[->|[->|[->|[->|[->|[->|[->|[->| ->]]]]]]]]]]]
    by lia.

Lemma days_in_month_bounds (y m : Z) : 1 <= m <= 12 -> 28 <= _days_in_month y m <= 31.
Proof.
  intros Hm. unfold _days_in_month. month_cases m; destruct (_is_leap y); vm_compute; easy.
Qed.

Lemma days_before_next_month (y m : Z) :
  1 <= m < 12 -> _days_before_month y (m + 1) = _days_before_month y m + _days_in_month y m.
Proof.
  intros Hm. unfold _days_before_month, _days_in_month.
  month_cases m; try lia; destruct (_is_leap y); vm_compute; easy.
Qed.

Lemma days_before_december (y : Z) :
  _days_before_month y 12 + _days_in_month y 12 = 365 + (if _is_leap y then 1 else 0).
Proof. unfold _days_before_month, _days_in_month. destruct (_is_leap y); vm_compute; easy. Qed.

Lemma days_before_month_le (y m m' : Z) :
  1 <= m -> m < m' -> m' <= 12 ->
  _days_before_month y m + _days_in_month y m <= _days_before_month y m'.
Proof.
  intros H1 H2 H3. unfold _days_before_month, _days_in_month.
  month_cases m; month_cases m'; try lia; destruct (_is_leap y); vm_compute; easy.
Qed.

Lemma ymd2ord_unfold (y m d : Z) :
  _ymd2ord y m d = _days_before_year y + _days_before_month y m + d.
Proof. reflexivity. Qed.

Lemma ymd2ord_bracket (y m d : Z) :
  1 <= m <= 12 -> 1 <= d <= _days_in_month y m ->
  _days_before_year y < _ymd2ord y m d <= _days_before_year (y + 1).
Proof.
  intros Hm Hd. unfold _ymd2ord. rewrite days_in_year.
  pose proof (days_before_december y) as Hdec.
  assert (Hle : _days_before_month y m + _days_in_month y m
                <= _days_before_month y 12 + _days_in_month y 12).
  { destruct (Z.eq_dec m 12) as [->|Hne]; [lia|].
    pose proof (days_before_month_le y m 12 ltac:(lia) ltac:(lia) ltac:(lia)).
    pose proof (days_in_month_bounds y 12 ltac:(lia)). lia. }
  assert (0 <= _days_before_month y m).
  { unfold _days_before_month. month_cases m; destruct (_is_leap y); vm_compute; easy. }
  lia.
Qed.

Lemma ord2year_unique (n y : Z) :
  _days_before_year y < n <= _days_before_year (y + 1) -> _ord2year n = y.
Proof.
  intros [Hlo Hhi]. pose proof (ord2year_bracket n) as [Hlo' Hhi'].
  destruct (Z.lt_trichotomy (_ord2year n) y) as [Hlt | [E | Hgt]]; [|exact E|].
  - destruct (Z.eq_dec (_ord2year n + 1) y) as [E|Hne]; [rewrite E in Hhi'; lia|].
    pose proof (days_before_year_mono (_ord2year n + 1) y ltac:(lia)). lia.
  - destruct (Z.eq_dec (y + 1) (_ord2year n)) as [E|Hne]; [rewrite E in Hhi; lia|].
    pose proof (days_before_year_mono (y + 1) (_ord2year n) ltac:(lia)). lia.
Qed.

(** A day of the calendar is the triple of its ordinal. *)
Lemma ord2ymd_ymd2ord (y m d : Z) :
  1 <= m <= 12 -> 1 <= d <= _days_in_month y m -> _ord2ymd (_ymd2ord y m d) = (y, m, d).
Proof.
  intros Hm Hd. pose proof (ord2ymd_spec (_ymd2ord y m d)) as Hspec.
  destruct (_ord2ymd (_ymd2ord y m d)) as [[y' m'] d'].
  destruct Hspec as (Hm' & Hd' & E & Ey).
  rewrite (ord2year_unique _ y (ymd2ord_bracket y m d Hm Hd)) in Ey. subst y'.
  unfold _ymd2ord in E.
  destruct (Z.lt_trichotomy m m') as [Hlt | [-> | Hgt]].
  - pose proof (days_before_month_le y m m' ltac:(lia) Hlt ltac:(lia)). lia.
  - f_equal. lia.
  - pose proof (days_before_month_le y m' m ltac:(lia) Hgt ltac:(lia)). lia.
Qed.

(** ** Dates and their fields *)

Lemma us_per_day_pos : 0 < us_per_day.
Proof. reflexivity. Qed.

Lemma date_fields (dt : datetime) :
  1 <= month dt <= 12 /\ 1 <= day dt <= _days_in_month (year dt) (month dt)
  /\ dt = replace dt (year dt) (month dt) (day dt).
Proof.
  unfold month, day, year, replace. pose proof (ord2ymd_spec (toordinal dt)) as Hspec.
  destruct (_ord2ymd (toordinal dt)) as [[y m] d]. cbn [fst snd].
  destruct Hspec as (Hm & Hd & E & ->). split; [exact Hm|]. split; [exact Hd|].
  rewrite E. unfold toordinal.
  pose proof (Z.div_mod dt us_per_day ltac:(pose proof us_per_day_pos; lia)). lia.
Qed.

Lemma toordinal_replace (dt : datetime) (y m d : Z) :
  toordinal (replace dt y m d) = _ymd2ord y m d
  /\ replace dt y m d mod us_per_day = dt mod us_per_day.
Proof.
  unfold toordinal, replace. pose proof us_per_day_pos as Hpos.
  pose proof (Z.mod_pos_bound dt us_per_day Hpos) as Hr.
  rewrite (Z.mul_comm _ us_per_day).
  destruct (div_mod_small us_per_day (_ymd2ord y m d - 1) (dt mod us_per_day) Hr) as [-> ->].
  split; [lia | reflexivity].
Qed.

Lemma replace_fields (dt : datetime) (y m d : Z) :
  1 <= m <= 12 -> 1 <= d <= _days_in_month y m ->
  year (replace dt y m d) = y /\ month (replace dt y m d) = m /\ day (replace dt y m d) = d.
Proof.
  intros Hm Hd. unfold year, month, day.
  rewrite (proj1 (toordinal_replace dt y m d)).
  pose proof (ord2ymd_spec (_ymd2ord y m d)) as Hspec.
  rewrite (ord2ymd_ymd2ord y m d Hm Hd) in *. cbn [fst snd].
  destruct Hspec as (_ & _ & _ & <-). auto.
Qed.

Lemma first_of_month_fields (y m : Z) :
  1 <= m <= 12 -> year (first_of_month y m) = y /\ month (first_of_month y m) = m.
Proof.
  intros Hm. pose proof (days_in_month_bounds y m Hm) as Hdim.
  destruct (replace_fields 0 y m 1 Hm ltac:(lia)) as (Ey & Em & _).
  unfold replace in Ey, Em. rewrite Z.mod_0_l, Z.add_0_r in Ey, Em by (unfold us_per_day; lia).
  split; assumption.
Qed.

Lemma toordinal_mono (d d' : datetime) : d <= d' -> toordinal d <= toordinal d'.
Proof.
  intros Hle. unfold toordinal.
  pose proof (Z.div_le_mono d d' us_per_day us_per_day_pos Hle). lia.
Qed.

Lemma toordinal_fields (dt : datetime) :
  toordinal dt = _ymd2ord (year dt) (month dt) (day dt).
Proof.
  destruct (date_fields dt) as (_ & _ & E). rewrite E at 1.
  apply toordinal_replace.
Qed.

Lemma month_index_mono (d d' : datetime) : d <= d' -> month_index d <= month_index d'.
Proof.
  intros Hle. unfold month_index.
  pose proof (year_mono d d' Hle) as Hy.
  destruct (date_fields d) as (Hm & Hd & _), (date_fields d') as (Hm' & Hd' & _).
  destruct (Z.eq_dec (year d) (year d')) as [Ey|Hne]; [|lia].
  destruct (Z_lt_le_dec (month d') (month d)) as [Hlt|Hge]; [|lia].
  exfalso. pose proof (toordinal_mono d d' Hle) as Hord.
  pose proof (toordinal_fields d) as E1. pose proof (toordinal_fields d') as E2.
  pose proof (days_before_month_le (year d) (month d') (month d) ltac:(lia) Hlt ltac:(lia))
    as Hbefore.
  rewrite ymd2ord_unfold in E1, E2.
  generalize dependent (toordinal d). generalize dependent (toordinal d').
  generalize dependent (day d). generalize dependent (day d').
  generalize dependent (month d). generalize dependent (month d').
  generalize dependent (year d'). intros y' Hy' Ey. subst y'.
  generalize dependent (year d). intros. lia.
Qed.

(** ** The linear production profile *)

Lemma sum_Z_app (l1 l2 : list Z) : sum_Z (l1 ++ l2) = sum_Z l1 + sum_Z l2.
Proof. unfold sum_Z. induction l1 as [|x l1 IH]; cbn [foldr app]; lia. Qed.

Lemma replace_unfold (dt : datetime) (y m d : Z) :
  replace dt y m d
  = (_days_before_year y + _days_before_month y m + d - 1) * us_per_day + dt mod us_per_day.
Proof. reflexivity. Qed.

Lemma days_before_january (y : Z) : _days_before_month y 1 = 0.
Proof. reflexivity. Qed.

(** The next month of a first of month: the first of the month after it, as
    many days later as the month has, at the same time of day. *)
Lemma next_month_spec (cm : datetime) :
  day cm = 1 ->
  let next := LinearProductionProfile.next_month_of cm in
  next = cm + _days_in_month (year cm) (month cm) * us_per_day
  /\ day next = 1
  /\ month_index next = month_index cm + 1.
Proof.
  intros Hday next. destruct (date_fields cm) as (Hm & _ & Ecm).
  rewrite Hday, replace_unfold in Ecm.
  unfold next, LinearProductionProfile.next_month_of, month_index.
  pose proof (days_in_month_bounds (year cm) (month cm) Hm) as Hdim.
  destruct (Z.eqb_spec (month cm) 12) as [E12|Hne].
  - pose proof (days_in_month_bounds (year cm + 1) 1 ltac:(lia)) as Hdim1.
    destruct (replace_fields cm (year cm + 1) 1 1 ltac:(lia) ltac:(lia)) as (Ey & Em & Ed).
    split; [|split; [exact Ed | lia]].
    rewrite replace_unfold, days_in_year, days_before_january.
    pose proof (days_before_december (year cm)) as Hdec. rewrite E12 in *.
    generalize dependent (cm mod us_per_day). intros r Ecm. lia.
  - pose proof (days_in_month_bounds (year cm) (month cm + 1) ltac:(lia)) as Hdim1.
    destruct (replace_fields cm (year cm) (month cm + 1) 1 ltac:(lia) ltac:(lia))
      as (Ey & Em & Ed).
    split; [|split; [exact Ed | lia]].
    rewrite replace_unfold, days_before_next_month by lia.
    generalize dependent (cm mod us_per_day). intros r Ecm. lia.
Qed.

(** The first of the month of [start]. *)
Lemma first_of_start (start : datetime) :
  let cm := replace start (year start) (month start) 1 in
  day cm = 1 /\ month_index cm = month_index start
  /\ start = cm + (day start - 1) * us_per_day.
Proof.
  intros cm. destruct (date_fields start) as (Hm & Hd & Estart).
  destruct (replace_fields start (year start) (month start) 1 Hm ltac:(lia)) as (Ey & Em & Ed).
  fold cm in Ey, Em, Ed.
  split; [exact Ed|]. split; [unfold month_index; rewrite Ey, Em; reflexivity|].
  unfold cm. rewrite replace_unfold in Estart |- *.
  generalize dependent (start mod us_per_day). intros r Estart. lia.
Qed.

(** The whole days from a moment to a later one with the same time of day. *)
Lemma td_days_mul (k : Z) : td_days (k * us_per_day) = k.
Proof. unfold td_days. apply Z.div_mul. pose proof us_per_day_pos. lia. Qed.

Section MonthsLoop.
Context (start end_ : datetime) (well : Well.t).

(** A moment at the time of day of [start] is after [end_] exactly when it
    is more whole days after [start] than [end_] is. *)
Lemma after_end (k : Z) : end_ < start + k * us_per_day <-> td_days (end_ - start) < k.
Proof.
  unfold td_days. pose proof us_per_day_pos as Hpos.
  pose proof (Z.div_mod (end_ - start) us_per_day ltac:(lia)) as Hdm.
  pose proof (Z.mod_pos_bound (end_ - start) us_per_day Hpos) as Hr.
  set (q := (end_ - start) / us_per_day) in *. set (r := (end_ - start) mod us_per_day) in *.
  split; intros Hk.
  - destruct (Z_lt_le_dec q k) as [Hlt|Hge]; [exact Hlt|]. exfalso.
    pose proof (Z.mul_le_mono_nonneg_r k q us_per_day ltac:(lia) Hge). lia.
  - pose proof (Z.mul_le_mono_nonneg_r (q + 1) k us_per_day ltac:(lia) ltac:(lia)). lia.
Qed.

Lemma months_loop_spec (fuel : nat) (cm : datetime) (k : Z) (oil_rates liq_rates : list float) :
  day cm = 1 ->
  cm = start + k * us_per_day ->
  0 <= k + _days_in_month (year cm) (month cm) - 1 ->
  (Z.to_nat (month_index end_ - month_index cm + 1) < fuel)%nat ->
  exists ds,
    LinearProductionProfile.months_loop fuel start end_ well cm oil_rates liq_rates
    = Ok (oil_rates ++ rates_of (Well.oil_rate well) ds,
          liq_rates ++ rates_of (Well.liq_rate well) ds)
    /\ (end_ < start -> ds = [])
    /\ (start <= end_ ->
        Forall (fun d => 1 <= d <= 31) ds
        /\ sum_Z ds = td_days (end_ - start) + 1 - Z.min (Z.max k 0) (td_days (end_ - start) + 1)
        /\ month_index end_ - month_index cm <= Z.of_nat (length ds))
    /\ (Z.of_nat (length ds) <= Z.max 0 (month_index end_ - month_index cm + 1)).
Proof.
  revert cm k oil_rates liq_rates.
  induction fuel as [|fuel IH]; intros cm k oil_rates liq_rates Hday Ecm Hstart Hfuel; [lia|].
  cbn [LinearProductionProfile.months_loop]. pose proof us_per_day_pos as Hpos.
  pose proof (after_end k) as Hk. pose proof (after_end 0) as H0.
  set (q := td_days (end_ - start)) in *.
  destruct (Z.leb_spec cm end_) as [Hle|Hgt].
  - destruct (next_month_spec cm Hday) as (Enext & Hday' & Emi). cbn zeta in Enext, Hday', Emi.
    destruct (date_fields cm) as (Hm & _ & _).
    pose proof (days_in_month_bounds (year cm) (month cm) Hm) as Hdim.
    set (dim := _days_in_month (year cm) (month cm)) in *.
    set (next := LinearProductionProfile.next_month_of cm) in *.
    pose proof (month_index_mono cm end_ Hle) as Hmono.
    assert (Enext' : next = start + (k + dim) * us_per_day) by lia.
    destruct (date_fields next) as (Hm' & _ & _).
    pose proof (days_in_month_bounds (year next) (month next) Hm') as Hdim'.
    assert (Hk' : 0 <= k + dim + _days_in_month (year next) (month next) - 1) by lia.
    assert (Hfuel' : (Z.to_nat (month_index end_ - month_index next + 1) < fuel)%nat) by lia.
    assert (Hkq : k <= q) by lia.
    replace (Datetime.days 1) with us_per_day by reflexivity.
    pose proof (after_end (k + dim - 1)) as Hlast.
    assert (Eps : Z.max start cm = start + Z.max k 0 * us_per_day).
    { destruct (Z.max_spec k 0) as [[Hlt ->]|[Hge ->]].
      - rewrite Z.max_l; lia.
      - pose proof (Z.mul_le_mono_nonneg_r 0 k us_per_day ltac:(lia) ltac:(lia)).
        rewrite Z.max_r; lia. }
    rewrite Eps.
    set (d := td_days (Z.min end_ (next - us_per_day) - (start + Z.max k 0 * us_per_day)) + 1).
    assert (Ed : d = (if Z_le_gt_dec (next - us_per_day) end_ then k + dim - 1 else q)
                     - Z.max k 0 + 1).
    { unfold d. destruct (Z_le_gt_dec (next - us_per_day) end_) as [Hfull|Hcut].
      - rewrite Z.min_r by lia.
        replace (next - us_per_day - (start + Z.max k 0 * us_per_day))
          with ((k + dim - 1 - Z.max k 0) * us_per_day) by lia.
        rewrite td_days_mul. reflexivity.
      - rewrite Z.min_l by lia. unfold td_days at 1.
        replace (end_ - (start + Z.max k 0 * us_per_day))
          with (end_ - start + (- Z.max k 0) * us_per_day) by lia.
        rewrite Z.div_add by lia. fold (td_days (end_ - start)). fold q. lia. }
    clearbody d.
    destruct (Z.ltb_spec 0 d) as [Hpos_days|Hnone].
    + destruct (IH next (k + dim) (oil_rates ++ [(Well.oil_rate well * float_of_Z d)%float])
                  (liq_rates ++ [(Well.liq_rate well * float_of_Z d)%float])
                  Hday' Enext' Hk' Hfuel') as (ds & E & Hempty & Hsum & Hlen).
      exists (d :: ds). rewrite E, <- !app_assoc. cbn [rates_of map app].
      split; [reflexivity|]. split; [|split].
      * intros Hlt. exfalso. destruct (Z_le_gt_dec (next - us_per_day) end_); lia.
      * intros Hse. destruct (Hsum Hse) as (Hall & Htotal & Hmonths).
        cbn [sum_Z foldr length]. fold (sum_Z ds). rewrite Htotal.
        destruct (Z_le_gt_dec (next - us_per_day) end_) as [Hfull|Hcut];
          (split; [constructor; [lia | exact Hall] | split; lia]).
      * cbn [length]. lia.
    + destruct (IH next (k + dim) oil_rates liq_rates Hday' Enext' Hk' Hfuel')
        as (ds & E & Hempty & Hsum & Hlen).
      destruct (Z_lt_le_dec end_ start) as [Hlt|Hse].
      * exists ds. split; [exact E|]. split; [exact Hempty|]. split; [lia|]. lia.
      * exfalso. destruct (Z_le_gt_dec (next - us_per_day) end_); lia.
  - exists []. unfold rates_of. cbn [map]. rewrite !app_nil_r.
    split; [reflexivity|]. split; [reflexivity|]. split; [|cbn [length]; lia].
    intros Hse. split; [constructor|]. cbn [sum_Z foldr length].
    pose proof (month_index_mono end_ cm ltac:(lia)). lia.
Qed.

End MonthsLoop.

(** The loop of [compute] from the first of the month in which the well is
    free. *)
Lemma linear_profile_loop (context : WellPlanContext.t) :
  let start := WellPlanContext.get_next_available_date context in
  let end_ := WellPlanContext.end_ context in
  let well := WellPlanContext.well context in
  exists ds,
    LinearProductionProfile.compute context
    = Ok (WellPlanContext.set_profiles context
            (rates_of (Well.oil_rate well) ds) (rates_of (Well.liq_rate well) ds))
    /\ (end_ < start -> ds = [])
    /\ (start <= end_ ->
        Forall (fun d => 1 <= d <= 31) ds
        /\ sum_Z ds
           = td_days (end_ - start) + 1
             - Z.min (Z.max (- (day start - 1)) 0) (td_days (end_ - start) + 1)
        /\ month_index end_ - month_index start <= Z.of_nat (length ds))
    /\ Z.of_nat (length ds) <= Z.max 0 (month_index end_ - month_index start + 1).
Proof.
  intros start end_ well. unfold LinearProductionProfile.compute. fold start end_ well.
  destruct (first_of_start start) as (Hday & Emi & Estart). cbn zeta in Hday, Emi, Estart.
  set (cm := replace start (year start) (month start) 1) in *.
  destruct (date_fields start) as (Hm & Hd & _).
  assert (Ey : year cm = year start /\ month cm = month start).
  { destruct (replace_fields start (year start) (month start) 1 Hm ltac:(lia)) as (Ey & Em & _).
    split; assumption. }
  destruct Ey as [Ey Em].
  destruct (months_loop_spec start end_ well
              (LinearProductionProfile.months_fuel start end_) cm (- (day start - 1)) [] []
              Hday ltac:(lia) ltac:(rewrite Ey, Em; lia)
              ltac:(unfold LinearProductionProfile.months_fuel, month_index in *; lia))
    as (ds & E & Hempty & Hsum & Hlen).
  exists ds. rewrite E, Emi in *. cbn [mbind result_bind fst snd app].
  split; [reflexivity|]. split; [exact Hempty|]. split; [exact Hsum | exact Hlen].
Qed.

(** X19.  [LinearProductionProfile.compute] returns the context with two
    profiles of one item per month and changes nothing else of it.  The
    item of a month is the rate of the well times a number of days between
    1 and 31; the days add up to the whole days from the moment the well is
    free to [context.end], plus one; there is an item for every month from
    the month the well is free to the month of [context.end], the last one
    possibly left out; the profiles are empty when the well is free after
    [context.end].  (Dates are unbounded here: the ValueError of [replace]
    past the year 9999 is not modelled.) *)
Theorem linear_profile_days (context : WellPlanContext.t) :
  let start := WellPlanContext.get_next_available_date context in
  let end_ := WellPlanContext.end_ context in
  let well := WellPlanContext.well context in
  exists ds,
    LinearProductionProfile.compute context
    = Ok (WellPlanContext.set_profiles context
            (rates_of (Well.oil_rate well) ds) (rates_of (Well.liq_rate well) ds))
    /\ (end_ < start -> ds = [])
    /\ (start <= end_ ->
        Forall (fun d => 1 <= d <= 31) ds
        /\ sum_Z ds = td_days (end_ - start) + 1
        /\ month_index end_ - month_index start <= Z.of_nat (length ds)
           <= month_index end_ - month_index start + 1).
Proof.
  intros start end_ well.
  destruct (linear_profile_loop context) as (ds & E & Hempty & Hsum & Hlen).
  fold start end_ well in E, Hempty, Hsum, Hlen.
  exists ds. split; [exact E|]. split; [exact Hempty|].
  intros Hse. destruct (Hsum Hse) as (Hall & Htotal & Hmonths).
  destruct (date_fields start) as (_ & Hd & _).
  pose proof (after_end start end_ 0) as H0.
  pose proof (month_index_mono start end_ Hse).
  split; [exact Hall|]. split; lia.
Qed.


(** ** Production by month and year *)

Lemma add_items_app {K : Type} `{Countable K} (aggregated : gmap K float)
    (l1 l2 : list (K * float)) :
  PlanProduction.add_items aggregated (l1 ++ l2) = PlanProduction.add_items (PlanProduction.add_items aggregated l1) l2.
Proof. unfold PlanProduction.add_items. apply fold_left_app. Qed.

(** What [add_items] leaves under a key: the values of the key added, in
    order, to what was there, or to [0.0]. *)
Lemma add_items_lookup {K : Type} `{Countable K} (items : list (K * float))
    (aggregated : gmap K float) (key : K) :
  PlanProduction.add_items aggregated items !! key
  = match values_of key items with
    | [] => aggregated !! key
    | values => Some (fold_left PrimFloat.add values (default 0%float (aggregated !! key)))
    end.
Proof.
  revert aggregated. induction items as [|[k v] items IH]; intros aggregated; [reflexivity|].
  unfold PlanProduction.add_items. cbn [fold_left]. fold (PlanProduction.add_items
    (<[k := (default 0%float (aggregated !! k) + v)%float]> aggregated) items).
  rewrite IH. unfold values_of. cbn [List.filter fst].
  destruct (bool_decide_reflect (k = key)) as [->|Hne].
  - cbn [map snd]. rewrite lookup_insert_eq. cbn [default fold_left].
    destruct (map snd _); reflexivity.
  - rewrite lookup_insert_ne by exact Hne. reflexivity.
Qed.

Lemma values_of_app {K : Type} `{EqDecision K} (key : K) (l1 l2 : list (K * float)) :
  values_of key (l1 ++ l2) = values_of key l1 ++ values_of key l2.
Proof. unfold values_of. rewrite List.filter_app, map_app. reflexivity. Qed.

Lemma values_of_nil {K : Type} `{EqDecision K} (key : K) (items : list (K * float)) :
  values_of key items = [] <-> ~ In key (map fst items).
Proof.
  unfold values_of. induction items as [|[k v] items IH]; cbn [List.filter map fst In].
  - tauto.
  - destruct (bool_decide_reflect (k = key)) as [->|Hne]; cbn [map].
    + split; [discriminate | intros Hn; exfalso; apply Hn; by left].
    + rewrite IH. tauto.
Qed.

(** The oil of a year in the plan is the sum, from [0.0] on and in the order
    of the plan, of the monthly oil of that year. *)
Lemma oil_production_per_year_lookup (p : Plan.t) (y : Z) :
  PlanProduction.get_oil_production_per_year p !! y
  = match values_of y (plan_oil_items p) with
    | [] => None
    | values => Some (py_sum values)
    end.
Proof.
  unfold PlanProduction.get_oil_production_per_year, plan_oil_items.
  assert (Hgen : forall wps aggregated,
            fold_left (fun aggregated wp =>
                match WellPlanContext.launch_date wp with
                | Ok launch_date =>
                    PlanProduction.add_items aggregated
                      (PlanProduction._monthly_to_yearly launch_date (WellPlanContext.oil_prod_profile wp))
                | _ => aggregated
                end) wps aggregated
            = PlanProduction.add_items aggregated
                (flat_map (fun wp =>
                     match WellPlanContext.launch_date wp with
                     | Ok launch_date =>
                         PlanProduction._monthly_to_yearly launch_date
                           (WellPlanContext.oil_prod_profile wp)
                     | _ => []
                     end) wps)).
  { induction wps as [|wp wps IH]; intros aggregated; [reflexivity|].
    cbn [fold_left flat_map]. rewrite IH, add_items_app.
    destruct (WellPlanContext.launch_date wp); reflexivity. }
  rewrite Hgen, add_items_lookup, lookup_empty. reflexivity.
Qed.

Lemma month_after_next (y0 m0 idx : Z) :
  let '(y, m) := month_after y0 m0 idx in
  month_after y0 m0 (idx + 1) = if 12 <? m + 1 then (y + 1, 1) else (y, m + 1).
Proof.
  unfold month_after.
  pose proof (Z.div_mod (m0 + idx - 1) 12 ltac:(lia)) as Hdm.
  pose proof (Z.mod_pos_bound (m0 + idx - 1) 12 ltac:(lia)) as Hr.
  set (q := (m0 + idx - 1) / 12) in *. set (r := (m0 + idx - 1) mod 12) in *.
  replace (m0 + (idx + 1) - 1) with (12 * q + (r + 1)) by lia.
  destruct (Z.ltb_spec 12 (r + 1 + 1)) as [Hlast|Hin].
  - replace (12 * q + (r + 1)) with (12 * (q + 1) + 0) by lia.
    destruct (div_mod_small 12 (q + 1) 0 ltac:(lia)) as [-> ->]. f_equal; lia.
  - destruct (div_mod_small 12 q (r + 1) ltac:(lia)) as [-> ->]. reflexivity.
Qed.

Lemma monthly_dates_from_spec (y0 m0 : Z) (production : list float) (i : Z) :
  PlanProduction.monthly_dates_from (month_after y0 m0 i).1 (month_after y0 m0 i).2 production
  = map (fun '(idx, prod) =>
           (first_of_month (month_after y0 m0 idx).1 (month_after y0 m0 idx).2, prod))
        (enumerate_from i production).
Proof.
  revert i. induction production as [|prod production IH]; intros i; [reflexivity|].
  cbn [PlanProduction.monthly_dates_from enumerate_from map]. f_equal.
  pose proof (month_after_next y0 m0 i) as Hnext.
  destruct (month_after y0 m0 i) as [y m]. cbn [fst snd].
  rewrite <- IH. destruct (12 <? m + 1); rewrite Hnext; reflexivity.
Qed.

Lemma month_after_0 (y0 m0 : Z) : 1 <= m0 <= 12 -> month_after y0 m0 0 = (y0, m0).
Proof.
  intros Hm. unfold month_after. replace (m0 + 0 - 1) with (12 * 0 + (m0 - 1)) by lia.
  destruct (div_mod_small 12 0 (m0 - 1) ltac:(lia)) as [-> ->]. f_equal; lia.
Qed.

Lemma lookup_enumerate_from {A : Type} (l : list A) (i : Z) (idx : nat) :
  enumerate_from i l !! idx = (fun x => (i + Z.of_nat idx, x)) <$> l !! idx.
Proof.
  revert i idx. induction l as [|x l IH]; intros i [|idx]; cbn [enumerate_from]; try reflexivity.
  - cbn. f_equal. f_equal. lia.
  - cbn [lookup list_lookup]. rewrite IH. destruct (l !! idx); cbn; [f_equal; f_equal; lia|reflexivity].
Qed.

(** X20.  [_get_monthly_production_dates] and [_monthly_to_yearly] agree:
    the item [idx] of a production profile is dated the first day, at
    midnight, of the month [idx] months after the month of the launch date,
    and the year of that date is the year [_monthly_to_yearly] gives the
    item. *)
Theorem monthly_dates_years (launch_date : datetime) (production : list float) :
  map (fun '(d, prod) => (year d, prod))
      (PlanProduction._get_monthly_production_dates launch_date production)
  = PlanProduction._monthly_to_yearly launch_date production
  /\ forall (idx : nat) d prod,
       PlanProduction._get_monthly_production_dates launch_date production !! idx = Some (d, prod) ->
       production !! idx = Some prod
       /\ d = first_of_month (year d) (month d)
       /\ 12 * year d + month d = 12 * year launch_date + month launch_date + Z.of_nat idx.
Proof.
  destruct (date_fields launch_date) as (Hm & _ & _).
  unfold PlanProduction._get_monthly_production_dates, PlanProduction._monthly_to_yearly.
  pose proof (monthly_dates_from_spec (year launch_date) (month launch_date) production 0) as E.
  rewrite (month_after_0 _ _ Hm) in E. cbn [fst snd] in E. rewrite E. clear E.
  fold (enumerate production).
  assert (Hfields : forall idx,
            let '(y, m) := month_after (year launch_date) (month launch_date) idx in
            year (first_of_month y m) = y /\ month (first_of_month y m) = m
            /\ 12 * y + m = 12 * year launch_date + month launch_date + idx).
  { intros idx. unfold month_after.
    pose proof (Z.div_mod (month launch_date + idx - 1) 12 ltac:(lia)) as Hdm.
    pose proof (Z.mod_pos_bound (month launch_date + idx - 1) 12 ltac:(lia)) as Hr.
    destruct (first_of_month_fields
                (year launch_date + (month launch_date + idx - 1) / 12)
                ((month launch_date + idx - 1) mod 12 + 1) ltac:(lia)) as [-> ->].
    split; [reflexivity|]. split; [reflexivity | lia]. }
  split.
  - rewrite map_map. apply map_ext. intros [idx prod].
    specialize (Hfields idx). unfold month_after in *. cbn [fst snd].
    f_equal. apply Hfields.
  - intros idx d prod Hlookup. unfold enumerate in Hlookup.
    rewrite list_lookup_fmap, lookup_enumerate_from in Hlookup.
    destruct (production !! idx) as [prod'|]; [|discriminate].
    cbn [fmap option_fmap option_map] in Hlookup. rewrite Z.add_0_l in Hlookup.
    injection Hlookup as <- <-. split; [reflexivity|].
    specialize (Hfields (Z.of_nat idx)). unfold month_after in *. cbn [fst snd].
    destruct Hfields as (-> & -> & Hidx). split; [reflexivity | exact Hidx].
Qed.

(** ** The production counted up to a date *)

Lemma slice_to_all {A : Type} (l : list A) (n : Z) :
  Z.of_nat (length l) <= n -> FileProductionProfile.slice_to l n = l.
Proof.
  intros Hn. unfold FileProductionProfile.slice_to.
  destruct (Z.leb_spec 0 n); [|lia]. apply firstn_all2. lia.
Qed.

(** X22.  The production counted up to a date, after the linear profile of
    a context whose well is free by [context.end]: up to [context.end], or
    any later date, it is the sum of the whole profile; before the well is
    free it is 0. *)
Theorem linear_profile_total (context context' : WellPlanContext.t) (date : datetime) :
  LinearProductionProfile.compute context = Ok context' ->
  WellPlanContext.get_next_available_date context <= WellPlanContext.end_ context ->
  (WellPlanContext.end_ context <= date ->
   WellProduction.get_oil_production_for_date context' date
   = (0 + py_sum (WellPlanContext.oil_prod_profile context'))%float
   /\ WellProduction.get_liquid_production_for_date context' date
      = (0 + py_sum (WellPlanContext.liq_prod_profile context'))%float)
  /\ (date < WellPlanContext.get_next_available_date context ->
      WellProduction.get_oil_production_for_date context' date = 0%float
      /\ WellProduction.get_liquid_production_for_date context' date = 0%float).
Proof.
  intros E Hse. destruct (linear_profile_loop context) as (ds & E' & _ & _ & Hlen).
  cbn zeta in E', Hlen. rewrite E in E'. injection E' as ->.
  pose proof (month_index_mono _ _ Hse) as Hmonths.
  unfold WellProduction.get_oil_production_for_date, WellProduction.get_liquid_production_for_date,
    WellProduction._get_production_for_date.
  set (start := WellPlanContext.get_next_available_date context) in *.
  replace (WellPlanContext.get_next_available_date (WellPlanContext.set_profiles context _ _))
    with start by reflexivity.
  cbn [WellPlanContext.set_profiles WellPlanContext.oil_prod_profile
       WellPlanContext.liq_prod_profile].
  unfold rates_of. rewrite !length_map.
  split.
  - intros Hdate. destruct (Z.ltb_spec date start); [lia|].
    pose proof (month_index_mono _ _ Hdate) as Hmono. unfold month_index in *.
    set (n_month := (year date - year start) * 12 + month date - month start + 1).
    assert (Hn : Z.of_nat (length ds) <= n_month) by (unfold n_month; lia).
    destruct (Z.ltb_spec (Z.of_nat (length ds)) n_month);
      rewrite !slice_to_all by (rewrite length_map; lia); split; reflexivity.
  - intros Hdate. destruct (Z.ltb_spec date start); [|lia]. split; reflexivity.
Qed.

Lemma example_linear_a :
  LinearProductionProfile.compute Example.assigned_a = Ok Scenario.linear_a.
Proof. vm_compute. reflexivity. Qed.

(** Witness of X22: well A, free at the end of January 2024, with the linear
    profile up to the first of January 2026. *)
Lemma linear_profile_total_witness :
  (WellPlanContext.end_ Example.assigned_a <= jan1 2026 ->
   WellProduction.get_oil_production_for_date Scenario.linear_a (jan1 2026)
   = (0 + py_sum (WellPlanContext.oil_prod_profile Scenario.linear_a))%float
   /\ WellProduction.get_liquid_production_for_date Scenario.linear_a (jan1 2026)
      = (0 + py_sum (WellPlanContext.liq_prod_profile Scenario.linear_a))%float)
  /\ (jan1 2026 < WellPlanContext.get_next_available_date Example.assigned_a ->
      WellProduction.get_oil_production_for_date Scenario.linear_a (jan1 2026) = 0%float
      /\ WellProduction.get_liquid_production_for_date Scenario.linear_a (jan1 2026) = 0%float).
Proof.
  apply (linear_profile_total Example.assigned_a Scenario.linear_a (jan1 2026)).
  - exact example_linear_a.
  - apply Z.leb_le. vm_compute. reflexivity.
Defined.


(** ** The oil constraint *)

(** X21.  [OilConstraint.is_violated(plan, context)] raises ValueError for
    a context without entries and nothing else.  It returns True exactly
    when, for a year in which the context produces and a bound applies,
    the oil of the plan in that year plus the oil of the context in that
    year is above the value of the bound. *)
Theorem oil_constraint_budget (bs : list ConstraintBound.t) (plan : Plan.t)
    (context : WellPlanContext.t) :
  match OilConstraint.is_violated bs plan context with
  | Ok violated =>
      exists launch_date,
        WellPlanContext.launch_date context = Ok launch_date
        /\ (violated = true <->
            exists y bound,
              In y (map fst (PlanProduction._monthly_to_yearly launch_date
                               (WellPlanContext.oil_prod_profile context)))
              /\ get_applicable_bound bs y = Some bound
              /\ PrimFloat.ltb (ConstraintBound.value bound)
                   (planned_oil plan y + context_oil launch_date context y) = true)
  | Raise e => e = ValueError /\ WellPlanContext.entries context = []
  | OutOfFuel => False
  end.
Proof.
  unfold OilConstraint.is_violated, WellPlanContext.launch_date.
  destruct (WellPlanContext.entries context) as [|e es]; cbn [mbind result_bind]; [auto|].
  set (launch_date := WellPlanContext.max_end e es).
  set (oil_tuples := PlanProduction._monthly_to_yearly launch_date _).
  exists launch_date. split; [reflexivity|].
  assert (Hitem : forall y oil,
            PlanProduction.add_items (∅ : gmap Z float) oil_tuples !! y = Some oil
            <-> In y (map fst oil_tuples) /\ oil = context_oil launch_date context y).
  { intros y oil. rewrite add_items_lookup, lookup_empty. unfold context_oil. fold oil_tuples.
    pose proof (values_of_nil y oil_tuples) as Hnil.
    destruct (values_of y oil_tuples) as [|v vs] eqn:Evalues.
    - split; [discriminate | intros [Hin _]; exfalso; tauto].
    - split.
      + intros Eoil. injection Eoil as <-. split; [|reflexivity].
        destruct (in_dec Z.eq_dec y (map fst oil_tuples)) as [Hin|Hnot]; [exact Hin|].
        apply Hnil in Hnot. discriminate.
      + intros [_ ->]. reflexivity. }
  assert (Hplanned : forall y,
            default 0%float (PlanProduction.get_oil_production_per_year plan !! y) = planned_oil plan y).
  { intros y. rewrite oil_production_per_year_lookup. unfold planned_oil.
    destruct (values_of y (plan_oil_items plan)); reflexivity. }
  rewrite existsb_exists. split.
  - intros ([y oil] & Hin & Hbound). apply list_elem_of_In, elem_of_map_to_list in Hin.
    apply Hitem in Hin as [Hin ->].
    destruct (get_applicable_bound bs y) as [bound|] eqn:Ebound; [|discriminate].
    exists y, bound. rewrite <- Hplanned. auto.
  - intros (y & bound & Hin & Ebound & Hlt).
    exists (y, context_oil launch_date context y). split.
    + apply list_elem_of_In, elem_of_map_to_list, Hitem. auto.
    + rewrite Ebound, Hplanned. exact Hlt.
Qed.

(** ** The collaborators of the repository meet the contracts of the builder *)

Lemma linear_profile_compute (context : WellPlanContext.t) :
  profile_compute LinearProductionProfile.profile context
  = LinearProductionProfile.compute context.
Proof. reflexivity. Qed.

Lemma linear_profile_outcome (context context' : WellPlanContext.t) :
  LinearProductionProfile.compute context = Ok context' ->
  WellPlanContext.well context' = WellPlanContext.well context
  /\ WellPlanContext.entries context' = WellPlanContext.entries context.
Proof.
  intros E. destruct (linear_profile_loop context) as (ds & E' & _).
  cbn zeta in E'. rewrite E in E'. injection E' as ->. split; reflexivity.
Qed.

Lemma linear_profile_returns (context : WellPlanContext.t) :
  returns (LinearProductionProfile.compute context).
Proof.
  destruct (linear_profile_loop context) as (ds & E & _). cbn zeta in E. rewrite E. discriminate.
Qed.

Lemma OilConstraint_returns (bs : list ConstraintBound.t) (plan : Plan.t)
    (context : WellPlanContext.t) :
  returns (OilConstraint.is_violated bs plan context).
Proof.
  unfold OilConstraint.is_violated, WellPlanContext.launch_date.
  destruct (WellPlanContext.entries context); discriminate.
Qed.

Section RepositoryContracts.
Context `{PyLib} {G : Type} `{RandomSource G}.

(** X24.  The collaborators of the repository meet the contracts the
    properties of [compile] rest on.  For a builder with the linear
    production profile, the NPV cost function over [BaseCapex], constraints
    that are capex or oil constraints and, if any, the cluster risk
    strategy, run with a [TeamManager]: every collaborator returns, and none
    changes the well or the entries of the context it is given. *)
Theorem repository_contracts (self : PlanBuilder.t) (npv : NPV.t) (capex : BaseCapex.t)
    (risk : option ClusterRandomRiskStrategy.t) :
  PlanBuilder.profiler self = LinearProductionProfile.profile ->
  PlanBuilder.cost_function self = NPV.cost_function npv ->
  NPV.capex_cost npv = BaseCapex.capital_cost capex ->
  Forall (fun constraint =>
            exists bs, constraint = CapexConstraint.new bs \/ constraint = OilConstraint.new bs)
    (ConstraintManager.constraints (PlanBuilder._constraints self)) ->
  let risk_strategy := ClusterRandomRiskStrategy.risk_strategy (G := G) <$> risk in
  collaborators_return TeamManager_class self risk_strategy
  /\ well_preserving TeamManager_class self risk_strategy
  /\ entries_preserving self risk_strategy.
Proof.
  intros Eprof Ecost Ecapex Hcons risk_strategy. split; [|split].
  - split; [|split; [|split; [|split; [|split]]]].
    + intros m c. apply get_assignments_returns.
    + intros m c. discriminate.
    + intros c. rewrite Eprof, linear_profile_compute. apply linear_profile_returns.
    + intros c. rewrite Ecost. apply NPV_returns. rewrite Ecapex. apply BaseCapex_returns.
    + intros constraint plan c Hin.
      destruct (proj1 (Forall_forall _ _) Hcons constraint ltac:(by apply list_elem_of_In))
        as (bs & [-> | ->]); [apply CapexConstraint_returns | apply OilConstraint_returns].
    + intros rs Ers. unfold risk_strategy in Ers. destruct risk as [r|]; [|discriminate].
      injection Ers as <-. split; [intros st c | intros st c g]; discriminate.
  - apply (repository_well_preserving self npv risk Ecost). rewrite Eprof.
    intros c c' E. rewrite linear_profile_compute in E.
    exact (proj1 (linear_profile_outcome c c' E)).
  - apply (repository_entries_preserving self npv risk Ecost). rewrite Eprof.
    intros c c' E. rewrite linear_profile_compute in E.
    exact (proj2 (linear_profile_outcome c c' E)).
Qed.

End RepositoryContracts.

(** Witness of X24: the builder of the example with the linear profile and
    an oil constraint beside its capex constraint. *)
Lemma repository_contracts_witness :
  let risk_strategy := Example.cluster_risk in
  collaborators_return TeamManager_class Scenario.linear_builder risk_strategy
  /\ well_preserving TeamManager_class Scenario.linear_builder risk_strategy
  /\ entries_preserving Scenario.linear_builder risk_strategy.
Proof.
  apply (repository_contracts Scenario.linear_builder Example.npv
           (BaseCapex.mk {["ГС" := 10%float]} 50) (Some Example.risk)).
  - reflexivity.
  - reflexivity.
  - reflexivity.
  - constructor; [exists [ConstraintBound.mk 1000 (Some 2024)]; left; reflexivity|].
    constructor; [exists [ConstraintBound.mk 100000 None]; right; reflexivity|].
    constructor.
Defined.
